(** * NeutronClusteringMCTruth: clustering, scoring, capture ratio, depth
      histogram and eps scan of [src/clustering/neutron_clustering.py]

    The Python class is embedded shallowly.  An object is a record of its
    attributes, a method is a computation in a state-and-exception monad over
    the object and the logging output, and the objects live in a heap so that
    the module-level name [neutron_clustering] and a receiver can be told
    apart.  The libraries the class calls (scikit-learn, NumPy scalars, the
    rounding of binary floating point) are interfaces: type classes whose
    operations the code uses and whose laws are stated where a proof needs
    them.  Round-to-nearest binary64 is defined and shown to satisfy the laws
    of the float interface. *)

From Stdlib Require Import ZArith QArith Qround Qminmax Qabs Qpower Floats.
From Stdlib Require Import Lia Lqa List Sorted String Bool.
From stdpp Require Import base gmap strings pretty.
Import ListNotations.
Local Open Scope string_scope.
Local Open Scope list_scope.
Local Open Scope Z_scope.

(** ** Python values, exceptions and results *)

Inductive exn : Type :=
| ValueError (msg : string)
| IndexError (msg : string)
| KeyError (key : string)
| AttributeError (msg : string)
| NameError (name : string)
| ZeroDivisionError (msg : string)
| LibraryError (msg : string).

Inductive result (A : Type) : Type :=
| Ok (a : A)
| Raise (e : exn).
Arguments Ok {A} a.
Arguments Raise {A} e.

Definition is_ok {A} (r : result A) : bool :=
  match r with Ok _ => true | Raise _ => false end.

Definition result_bind {A B} (r : result A) (k : A -> result B) : result B :=
  match r with Ok a => k a | Raise e => Raise e end.

(** Values that occur in a parameter dictionary. *)
Inductive pyvalue : Type :=
| PNone
| PInt (n : Z)
| PFloat (q : Q)
| PStr (s : string).

(** A [dict] with string keys, in insertion order. *)
Definition pydict (V : Type) : Type := list (string * V).

Definition dict_keys {V} (d : pydict V) : list string := map fst d.

Definition dict_mem {V} (k : string) (d : pydict V) : bool :=
  existsb (String.eqb k) (dict_keys d).

Fixpoint dict_get {V} (k : string) (d : pydict V) : result V :=
  match d with
  | [] => Raise (KeyError k)
  | (k', v) :: d' => if String.eqb k k' then Ok v else dict_get k d'
  end.

Definition list_get {A} (l : list A) (i : nat) : result A :=
  match l !! i with
  | Some a => Ok a
  | None => Raise (IndexError "list index out of range")
  end.

Fixpoint enumerate_from {A} (i : nat) (l : list A) : list (nat * A) :=
  match l with
  | [] => []
  | a :: l' => (i, a) :: enumerate_from (S i) l'
  end.

Definition enumerate {A} (l : list A) : list (nat * A) := enumerate_from 0 l.

Definition sum_int (l : list Z) : Z := fold_left Z.add l 0.

(** ** Floating point

    A finite float is represented by its exact rational value; an operation
    computes in the rationals and rounds with [rnd], the rounding to the
    nearest representable value.  Infinities, NaN and overflow are outside
    the model. *)

Class PyFloat : Type := {
  rnd : Q -> Q;
  float_repr : Q -> string;
}.

(** What the proofs use of round-to-nearest. *)
Class PyFloatLaws `{PyFloat} : Prop := {
  rnd_proper : forall a b : Q, (a == b)%Q -> (rnd a == rnd b)%Q;
  rnd_mono : forall a b : Q, (a <= b)%Q -> (rnd a <= rnd b)%Q;
  rnd_idem : forall a : Q, (rnd (rnd a) == rnd a)%Q;
  rnd_small_int : forall n : Z, -1000 <= n <= 1000 -> (rnd (inject_Z n) == inject_Z n)%Q;
}.

(** [round(x)] of a float: the nearest integer, ties to the even one. *)
Definition pyround (a : Q) : Z :=
  let f := Qfloor a in
  match ((a - inject_Z f) ?= (1 # 2))%Q with
  | Lt => f
  | Gt => f + 1
  | Eq => if Z.even f then f else f + 1
  end.

(** [int(x)] of a float: truncation toward zero. *)
Definition int_of_float (a : Q) : Z := Z.quot (Qnum a) (Zpos (Qden a)).

Section Floats.
Context {fl : PyFloat}.

Definition float_of_int (n : Z) : Q := rnd (inject_Z n).
Definition fadd (a b : Q) : Q := rnd (a + b).
Definition fsub (a b : Q) : Q := rnd (a - b).
Definition fmul (a b : Q) : Q := rnd (a * b).

Definition fdiv (a b : Q) : result Q :=
  if Qeq_bool b 0 then Raise (ZeroDivisionError "float division by zero")
  else Ok (rnd (a / b)).

(** [a / b] on two ints is the correctly rounded quotient. *)
Definition int_truediv (a b : Z) : result Q :=
  if b =? 0 then Raise (ZeroDivisionError "division by zero")
  else Ok (rnd (inject_Z a / inject_Z b)).

(** [sum(l)] over floats starts at the int 0. *)
Definition sum_float (l : list Q) : Q := fold_left fadd l (float_of_int 0).
End Floats.

(** NumPy scalars of the energy arrays.  Their dtype comes from the input
    file, so the operations the code applies to them are an interface. *)
Class NumpyFloat (E : Type) : Type := {
  np_add : E -> E -> E;
  np_of_int : Z -> E;
  np_round : E -> Z -> E;
  np_eq_float : E -> Q -> bool;
}.

(** ** State-and-exception monad *)

Definition M (S A : Type) : Type := S -> result A * S.

Definition mret {S A} (a : A) : M S A := fun s => (Ok a, s).

Definition mbind {S A B} (m : M S A) (k : A -> M S B) : M S B :=
  fun s => match m s with
           | (Ok a, s') => k a s'
           | (Raise e, s') => (Raise e, s')
           end.

Definition raise {S A} (e : exn) : M S A := fun s => (Raise e, s).
Definition modify {S} (f : S -> S) : M S unit := fun s => (Ok tt, f s).
Definition lift_result {S A} (r : result A) : M S A := fun s => (r, s).

Notation "'let*' x ':=' m 'in' k" := (mbind m (fun x => k))
  (at level 10, x pattern, m at level 100, k at level 200).

(** [for a in l: body(a)] *)
Fixpoint for_each {S A} (l : list A) (body : A -> M S unit) : M S unit :=
  match l with
  | [] => mret tt
  | a :: l' => let* _ := body a in for_each l' body
  end.

(** A loop that threads local variables [acc]. *)
Fixpoint for_fold {S A B} (l : list A) (acc : B) (body : B -> A -> M S B) : M S B :=
  match l with
  | [] => mret acc
  | a :: l' => let* acc' := body acc a in for_fold l' acc' body
  end.

(** ** The libraries the class calls *)

Definition point : Type := (Q * Q * Q)%type.

(** A fitted estimator, as the code uses it: [fit(pos)] and then the
    attribute [labels_]. *)
Definition estimator : Type := list point -> result (list Z).

(** The module [sklearn.cluster]: attribute lookup by name ([None] when the
    module has no such attribute) and construction from keyword arguments. *)
Class SklearnCluster : Type := {
  cluster_attr : string -> option (pydict pyvalue -> result estimator);
}.

(** The functions of [sklearn.metrics] that the scoring calls. *)
Class SklearnMetrics : Type := {
  homogeneity_score : list Z -> list Z -> result Q;
  completeness_score : list Z -> list Z -> result Q;
  v_measure_score : list Z -> list Z -> result Q;
  adjusted_rand_score : list Z -> list Z -> result Q;
  adjusted_mutual_info_score : list Z -> list Z -> result Q;
  silhouette_score : list point -> list Z -> result Q;
}.

(** ** The object *)

(** The dictionaries [cluster_scores] and [avg_cluster_scores]: six fixed
    keys, created in this order and never added to or removed. *)
Record scores (V : Type) : Type := mk_scores {
  homogeneity : V;
  completeness : V;
  v_measure : V;
  adjusted_rand_index : V;
  adjusted_mutual_info : V;
  silhouette : V;
}.
Arguments mk_scores {V}.
Arguments homogeneity {V}.
Arguments completeness {V}.
Arguments v_measure {V}.
Arguments adjusted_rand_index {V}.
Arguments adjusted_mutual_info {V}.
Arguments silhouette {V}.

Definition metric_names : list string :=
  ["homogeneity"; "completeness"; "v-measure"; "adjusted_rand_index";
   "adjusted_mutual_info"; "silhouette"].

(** [d.values()], in key order. *)
Definition scores_values {V} (s : scores V) : list V :=
  [homogeneity s; completeness s; v_measure s; adjusted_rand_index s;
   adjusted_mutual_info s; silhouette s].

Definition scores_items {V} (s : scores V) : pydict V :=
  combine metric_names (scores_values s).

Definition scores_const {V} (v : V) : scores V := mk_scores v v v v v v.

Record instance (E : Type) : Type := mk_instance {
  event_ids : list Z;
  edep_energy : list (list E);
  edep_neutron_ids : list (list Z);
  edep_gamma_ids : list (list Z);
  edep_x : list (list Q);
  edep_y : list (list Q);
  edep_z : list (list Q);
  num_events : nat;
  cluster_predictions : list (list Z);
  cluster_scores : scores (list Q);
  avg_cluster_scores : scores Q;
  edep_positions : list (list point);
  num_complete_captures : list Z;
  num_captures : list Z;
  capture_ratio : option Z;
}.
Arguments mk_instance {E}.
Arguments event_ids {E}.
Arguments edep_energy {E}.
Arguments edep_neutron_ids {E}.
Arguments edep_gamma_ids {E}.
Arguments edep_x {E}.
Arguments edep_y {E}.
Arguments edep_z {E}.
Arguments num_events {E}.
Arguments cluster_predictions {E}.
Arguments cluster_scores {E}.
Arguments avg_cluster_scores {E}.
Arguments edep_positions {E}.
Arguments num_complete_captures {E}.
Arguments num_captures {E}.
Arguments capture_ratio {E}.

Definition set_cluster_predictions {E} (v : list (list Z)) (i : instance E) : instance E :=
  mk_instance (event_ids i) (edep_energy i) (edep_neutron_ids i) (edep_gamma_ids i)
    (edep_x i) (edep_y i) (edep_z i) (num_events i) v (cluster_scores i)
    (avg_cluster_scores i) (edep_positions i) (num_complete_captures i)
    (num_captures i) (capture_ratio i).

Definition set_cluster_scores {E} (v : scores (list Q)) (i : instance E) : instance E :=
  mk_instance (event_ids i) (edep_energy i) (edep_neutron_ids i) (edep_gamma_ids i)
    (edep_x i) (edep_y i) (edep_z i) (num_events i) (cluster_predictions i) v
    (avg_cluster_scores i) (edep_positions i) (num_complete_captures i)
    (num_captures i) (capture_ratio i).

Definition set_avg_cluster_scores {E} (v : scores Q) (i : instance E) : instance E :=
  mk_instance (event_ids i) (edep_energy i) (edep_neutron_ids i) (edep_gamma_ids i)
    (edep_x i) (edep_y i) (edep_z i) (num_events i) (cluster_predictions i)
    (cluster_scores i) v (edep_positions i) (num_complete_captures i)
    (num_captures i) (capture_ratio i).

Definition set_num_complete_captures {E} (v : list Z) (i : instance E) : instance E :=
  mk_instance (event_ids i) (edep_energy i) (edep_neutron_ids i) (edep_gamma_ids i)
    (edep_x i) (edep_y i) (edep_z i) (num_events i) (cluster_predictions i)
    (cluster_scores i) (avg_cluster_scores i) (edep_positions i) v
    (num_captures i) (capture_ratio i).

Definition set_num_captures {E} (v : list Z) (i : instance E) : instance E :=
  mk_instance (event_ids i) (edep_energy i) (edep_neutron_ids i) (edep_gamma_ids i)
    (edep_x i) (edep_y i) (edep_z i) (num_events i) (cluster_predictions i)
    (cluster_scores i) (avg_cluster_scores i) (edep_positions i)
    (num_complete_captures i) v (capture_ratio i).

Definition set_capture_ratio {E} (v : option Z) (i : instance E) : instance E :=
  mk_instance (event_ids i) (edep_energy i) (edep_neutron_ids i) (edep_gamma_ids i)
    (edep_x i) (edep_y i) (edep_z i) (num_events i) (cluster_predictions i)
    (cluster_scores i) (avg_cluster_scores i) (edep_positions i)
    (num_complete_captures i) (num_captures i) v.

(** ** Logging and the state of a method call *)

Inductive loglevel : Type := INFO | WARNING | ERROR.

Record mstate (E : Type) : Type := mk_mstate {
  this : instance E;
  log : list (loglevel * string);
}.
Arguments mk_mstate {E}.
Arguments this {E}.
Arguments log {E}.

Definition logging {E} (l : loglevel) (msg : string) : M (mstate E) unit :=
  modify (fun s => mk_mstate (this s) (log s ++ [(l, msg)])).

Definition self {E} : M (mstate E) (instance E) :=
  fun s => (Ok (this s), s).

Definition update_self {E} (f : instance E -> instance E) : M (mstate E) unit :=
  modify (fun s => mk_mstate (f (this s)) (log s)).

(** ** Module-level tables and string formatting *)

Definition str_in (s : string) (l : list string) : bool := existsb (String.eqb s) l.

Definition join (sep : string) (l : list string) : string := String.concat sep l.

Section Formatting.
Context {fl : PyFloat}.

Definition repr_value (v : pyvalue) : string :=
  match v with
  | PNone => "None"
  | PInt n => pretty n
  | PFloat q => float_repr q
  | PStr s => "'" +:+ s +:+ "'"
  end.

Definition repr_dict {V} (repr : V -> string) (d : pydict V) : string :=
  "{" +:+ join ", " (map (fun kv => "'" +:+ fst kv +:+ "': " +:+ repr (snd kv)) d) +:+ "}".

(** The table [cluster_params]: the declared parameters of each algorithm
    with their default values. *)
Definition cluster_params : pydict (pydict pyvalue) :=
  [ ("affinity",   [("damping", PFloat (rnd (1 # 2))); ("max_iter", PInt 200)]);
    ("mean_shift", [("bandwidth", PNone)]);
    ("dbscan",     [("eps", PFloat (rnd 100)); ("min_samples", PInt 6)]);
    ("optics",     [("min_samples", PInt 6)]);
    ("gaussian",   [("n_components", PInt 1); ("covariance_type", PStr "full");
                    ("tol", PFloat (rnd (1 # 1000)));
                    ("reg_covar", PFloat (rnd (1 # 1000000)));
                    ("max_iter", PInt 100)]) ].
End Formatting.

Definition levels : list string := ["neutron"; "gamma"].

(** The class that each branch of [cluster] looks up in [sklearn.cluster]. *)
Definition estimator_name (alg : string) : string :=
  if String.eqb alg "affinity" then "AffinityPropagation"
  else if String.eqb alg "mean_shift" then "MeanShift"
  else if String.eqb alg "optics" then "OPTICS"
  else if String.eqb alg "gaussian" then "GaussianMixture"
  else "DBSCAN".

(** ** The methods *)

Section Methods.
Context {fl : PyFloat} {E : Type} {np : NumpyFloat E} {skc : SklearnCluster}
        {skm : SklearnMetrics}.

Abbreviation state := (mstate E).

(** The guard on [level] that opens [cluster] and [calc_scores]. *)
Definition check_level (level : string) : M state string :=
  if negb (str_in level levels) then
    let* _ := logging WARNING
      ("Requested cluster level by '" +:+ level +:+ "' not allowed, using 'neutron'.") in
    mret "neutron"
  else mret level.

(** The guard on [alg]: an unknown name is replaced by dbscan and the
    parameters by the dbscan defaults. *)
Definition check_alg (alg : string) (params : pydict pyvalue)
  : M state (string * pydict pyvalue) :=
  if negb (dict_mem alg cluster_params) then
    let* _ := logging WARNING
      ("Requested algorithm '" +:+ alg +:+ "' not allowed, using 'dbscan'.") in
    let* defaults := lift_result (dict_get "dbscan" cluster_params) in
    mret ("dbscan", defaults)
  else mret (alg, params).

Definition unrecognized_parameter (item alg : string) (allowed : pydict pyvalue) : string :=
  "Unrecognized parameter " +:+ item +:+ " for algorithm " +:+ alg
    +:+ "! Available parameters are " +:+ repr_dict repr_value allowed +:+ ".".

(** [for item in params: if item not in cluster_params[alg]: raise] *)
Definition check_params (alg : string) (params : pydict pyvalue) : M state unit :=
  for_each (dict_keys params) (fun item =>
    let* allowed := lift_result (dict_get alg cluster_params) in
    if negb (dict_mem item allowed) then
      let* _ := logging ERROR (unrecognized_parameter item alg allowed) in
      raise (ValueError (unrecognized_parameter item alg allowed))
    else mret tt).

(** The constructor call: the class is looked up in the module and applied
    to the parameters as keyword arguments. *)
Definition make_clusterer (alg : string) (params : pydict pyvalue) : M state estimator :=
  match cluster_attr (estimator_name alg) with
  | None => raise (AttributeError
      ("module 'sklearn.cluster' has no attribute '" +:+ estimator_name alg +:+ "'"))
  | Some ctor => lift_result (ctor params)
  end.

(** The clustering proper, after the arguments have been checked. *)
Definition fit_all (alg : string) (params : pydict pyvalue) : M state unit :=
  let* _ := logging INFO
    ("Attempting to run clustering algorithm " +:+ alg +:+ " with parameters "
       +:+ repr_dict repr_value params +:+ ".") in
  let* clusterer := make_clusterer alg params in
  let* _ := update_self (set_cluster_predictions []) in
  let* me := self in
  for_each (edep_positions me) (fun pos =>
    let* labels := lift_result (clusterer pos) in
    update_self (fun i => set_cluster_predictions (cluster_predictions i ++ [labels]) i)).

Definition cluster (level alg : string) (params : pydict pyvalue) : M state unit :=
  let* level := check_level level in
  let* ap := check_alg alg params in
  let* _ := check_params (fst ap) (snd ap) in
  fit_all (fst ap) (snd ap).

(** [self.cluster_scores[key].append(v)] *)
Definition append_score (upd : list Q -> scores (list Q) -> scores (list Q))
    (get : scores (list Q) -> list Q) (v : Q) : M state unit :=
  update_self (fun i =>
    set_cluster_scores (upd (get (cluster_scores i) ++ [v]) (cluster_scores i)) i).

Definition upd_homogeneity {V} (v : V) (s : scores V) : scores V :=
  mk_scores v (completeness s) (v_measure s) (adjusted_rand_index s)
    (adjusted_mutual_info s) (silhouette s).
Definition upd_completeness {V} (v : V) (s : scores V) : scores V :=
  mk_scores (homogeneity s) v (v_measure s) (adjusted_rand_index s)
    (adjusted_mutual_info s) (silhouette s).
Definition upd_v_measure {V} (v : V) (s : scores V) : scores V :=
  mk_scores (homogeneity s) (completeness s) v (adjusted_rand_index s)
    (adjusted_mutual_info s) (silhouette s).
Definition upd_adjusted_rand_index {V} (v : V) (s : scores V) : scores V :=
  mk_scores (homogeneity s) (completeness s) (v_measure s) v
    (adjusted_mutual_info s) (silhouette s).
Definition upd_adjusted_mutual_info {V} (v : V) (s : scores V) : scores V :=
  mk_scores (homogeneity s) (completeness s) (v_measure s) (adjusted_rand_index s)
    v (silhouette s).
Definition upd_silhouette {V} (v : V) (s : scores V) : scores V :=
  mk_scores (homogeneity s) (completeness s) (v_measure s) (adjusted_rand_index s)
    (adjusted_mutual_info s) v.

(** The body of the loop over the predictions in [calc_scores]. *)
Definition score_event (labels : list (list Z)) (ip : nat * list Z) : M state unit :=
  let ii := fst ip in
  let pred := snd ip in
  let* l := lift_result (list_get labels ii) in
  let* v := lift_result (homogeneity_score l pred) in
  let* _ := append_score upd_homogeneity homogeneity v in
  let* l := lift_result (list_get labels ii) in
  let* v := lift_result (completeness_score l pred) in
  let* _ := append_score upd_completeness completeness v in
  let* l := lift_result (list_get labels ii) in
  let* v := lift_result (v_measure_score l pred) in
  let* _ := append_score upd_v_measure v_measure v in
  let* l := lift_result (list_get labels ii) in
  let* v := lift_result (adjusted_rand_score l pred) in
  let* _ := append_score upd_adjusted_rand_index adjusted_rand_index v in
  let* l := lift_result (list_get labels ii) in
  let* v := lift_result (adjusted_mutual_info_score l pred) in
  let* _ := append_score upd_adjusted_mutual_info adjusted_mutual_info v in
  let* me := self in
  let* pos := lift_result (list_get (edep_positions me) ii) in
  let* v := lift_result (silhouette_score pos pred) in
  append_score upd_silhouette silhouette v.

(** [sum(self.cluster_scores[item]) / len(labels)].  The loop before it has
    read [labels[ii]] for every prediction, so [len(labels)] is not 0 here. *)
Definition average (l : list Q) (n : nat) : result Q :=
  fdiv (sum_float l) (float_of_int (Z.of_nat n)).

Definition calc_scores (level : string) : M state (scores Q) :=
  let* level := check_level level in
  let* me := self in
  match cluster_predictions me with
  | [] =>
      let* _ := logging ERROR
        "No predictions have been made, need to run clustering algorithm first!" in
      raise (ValueError
        "No predictions have been made, need to run clustering algorithm first!")
  | _ =>
    if negb (Nat.eqb (length (cluster_predictions me)) (num_events me)) then
      let msg := "Only " +:+ pretty (length (cluster_predictions me))
                   +:+ " predictions but " +:+ pretty (num_events me) +:+ " events!" in
      let* _ := logging ERROR msg in
      raise (ValueError msg)
    else
      let* _ := update_self (set_cluster_scores (scores_const [])) in
      let labels := if String.eqb level "neutron"
                    then edep_neutron_ids me else edep_gamma_ids me in
      let* _ := logging INFO
        ("Attempting to calculate scores on cluster predictions for level: "
           +:+ level +:+ ".") in
      let* _ := for_each (enumerate (cluster_predictions me)) (score_event labels) in
      let* me := self in
      let* a := lift_result (average (homogeneity (cluster_scores me)) (length labels)) in
      let* _ := update_self (fun i =>
                  set_avg_cluster_scores (upd_homogeneity a (avg_cluster_scores i)) i) in
      let* a := lift_result (average (completeness (cluster_scores me)) (length labels)) in
      let* _ := update_self (fun i =>
                  set_avg_cluster_scores (upd_completeness a (avg_cluster_scores i)) i) in
      let* a := lift_result (average (v_measure (cluster_scores me)) (length labels)) in
      let* _ := update_self (fun i =>
                  set_avg_cluster_scores (upd_v_measure a (avg_cluster_scores i)) i) in
      let* a := lift_result (average (adjusted_rand_index (cluster_scores me)) (length labels)) in
      let* _ := update_self (fun i =>
                  set_avg_cluster_scores (upd_adjusted_rand_index a (avg_cluster_scores i)) i) in
      let* a := lift_result (average (adjusted_mutual_info (cluster_scores me)) (length labels)) in
      let* _ := update_self (fun i =>
                  set_avg_cluster_scores (upd_adjusted_mutual_info a (avg_cluster_scores i)) i) in
      let* a := lift_result (average (silhouette (cluster_scores me)) (length labels)) in
      let* _ := update_self (fun i =>
                  set_avg_cluster_scores (upd_silhouette a (avg_cluster_scores i)) i) in
      let* me := self in
      let* _ := logging INFO
        ("Calculated average scores "
           +:+ repr_dict float_repr (scores_items (avg_cluster_scores me))
           +:+ " for level: " +:+ level +:+ ".") in
      mret (avg_cluster_scores me)
  end.
End Methods.

(** ** NumPy array operations used by the capture ratio and the histogram *)

Fixpoint insert_unique (v : Z) (l : list Z) : list Z :=
  match l with
  | [] => [v]
  | h :: t => if v <? h then v :: l
              else if v =? h then l
              else h :: insert_unique v t
  end.

(** [np.unique(a)]: the sorted distinct values. *)
Definition np_unique (a : list Z) : list Z := fold_right insert_unique [] a.

(** [np.where(a == c)]: the positions that hold [c]. *)
Definition np_where_eq (a : list Z) (c : Z) : list nat :=
  map fst (List.filter (fun p => snd p =? c) (enumerate a)).

(** [a[indices]]: fails when an index is out of bounds. *)
Fixpoint np_take {A} (a : list A) (indices : list nat) : result (list A) :=
  match indices with
  | [] => Ok []
  | i :: r =>
      result_bind (list_get a i) (fun v =>
      result_bind (np_take a r) (fun vs => Ok (v :: vs)))
  end.

(** [range(n)] *)
Definition py_range (n : Z) : list Z := map Z.of_nat (seq 0 (Z.to_nat n)).

Section Histogram.
Context {fl : PyFloat}.

(** The bin of [v]: the last of the first [n] edges that is not above [v]
    (the first bin when there is none). *)
Fixpoint bin_index_from (i : nat) (edges : list Q) (v : Q) (best : nat) : nat :=
  match edges with
  | [] => best
  | e :: r => bin_index_from (S i) r v (if Qle_bool e v then i else best)
  end.

Definition bin_index (edges : list Q) (n : nat) (v : Q) : nat :=
  bin_index_from 0 (firstn n edges) v 0.

Definition np_min (v : Q) (r : list Q) : Q := fold_left Qmin r v.
Definition np_max (v : Q) (r : list Q) : Q := fold_left Qmax r v.

(** [np.histogram(a, bins)] for an integer [bins]: equal-width bins over
    the range of the data, the last bin closed on the right, every value
    counted in exactly one bin.  Returns the counts and the [bins + 1]
    edges. *)
Definition np_histogram (a : list Q) (bins : Z) : result (list Z * list Q) :=
  if bins <=? 0 then Raise (ValueError "`bins` must be positive, when an integer")
  else
    let range := match a with
                 | [] => (float_of_int 0, float_of_int 1)
                 | v :: r => (np_min v r, np_max v r)
                 end in
    let range := if Qeq_bool (fst range) (snd range)
                 then (fsub (fst range) (rnd (1 # 2)), fadd (snd range) (rnd (1 # 2)))
                 else range in
    let step := rnd (fsub (snd range) (fst range) / float_of_int bins) in
    let edges := map (fun i => fadd (fmul (float_of_int i) step) (fst range))
                     (py_range bins) ++ [snd range] in
    let n := Z.to_nat bins in
    let counts := map (fun i =>
                    Z.of_nat (length (List.filter (fun v => Nat.eqb (bin_index edges n v) i) a)))
                    (seq 0 n) in
    Ok (counts, edges).

(** The loop that builds [cum_hist] after its first entry. *)
Fixpoint cumulative (last : Q) (y_hist : list Q) : list Q :=
  match y_hist with
  | [] => []
  | h :: t => fadd h last :: cumulative (fadd h last) t
  end.
End Histogram.

(** What [fit_depth_exponential] computes before the fit and the plot. *)
Record depth_histogram : Type := mk_depth_histogram {
  y_hist : list Q;
  cum_hist : list Q;
  mid_points : list Q;
}.

Section MoreMethods.
Context {fl : PyFloat} {E : Type} {np : NumpyFloat E} {skc : SklearnCluster}
        {skm : SklearnMetrics}.

Abbreviation state := (mstate E).

(** [sum(a)] over NumPy scalars starts at the int 0. *)
Definition np_sum (a : list E) : E := fold_left np_add a (np_of_int 0).

(** The body of the loop over the truth groups of event [ii]; [ct] holds
    the local counters ([complete], [total]). *)
Definition count_capture (ii : nat) (truth : list Z) (ct : Z * Z) (c : Z)
  : M state (Z * Z) :=
  let indices := np_where_eq truth c in
  let* me := self in
  let* energies := lift_result (list_get (edep_energy me) ii) in
  let* selected := lift_result (np_take energies indices) in
  let true_energies := np_sum selected in
  let total := snd ct + 1 in
  if np_eq_float (np_round true_energies 2) (rnd (61 # 10))
  then mret (fst ct + 1, total)
  else mret (fst ct, total).

Definition capture_event (it : nat * list Z) : M state unit :=
  let* ct := for_fold (np_unique (snd it)) (0, 0) (count_capture (fst it) (snd it)) in
  let* _ := update_self (fun i => set_num_captures (num_captures i ++ [snd ct]) i) in
  update_self (fun i =>
    set_num_complete_captures (num_complete_captures i ++ [fst ct]) i).

Definition calculate_capture_ratio : M state unit :=
  let* _ := logging INFO "Attempting to calculate capture ratio." in
  let* _ := update_self (set_num_complete_captures []) in
  let* _ := update_self (set_num_captures []) in
  let* me := self in
  let* _ := for_each (enumerate (edep_neutron_ids me)) capture_event in
  let* me := self in
  let* q := lift_result (int_truediv (sum_int (num_complete_captures me))
                                      (sum_int (num_captures me))) in
  update_self (set_capture_ratio (Some (pyround (fmul q (float_of_int 100))))).

(** [fit_depth_exponential] up to the data handed to the fit: the
    normalized histogram of the depths, its cumulative curve and the bin
    mid points. *)
Definition fit_depth_exponential (num_bins : Z) : M state depth_histogram :=
  let* me := self in
  match edep_y me with
  | [] => raise (ValueError "need at least one array to concatenate")
  | _ =>
    match concat (edep_y me) with
    | [] => raise (ValueError
              "zero-size array to reduction operation maximum which has no identity")
    | v :: r =>
      let y_pos := v :: r in
      let y_max := np_max v r in
      let depth := map (fun yp => Qabs (fsub y_max yp)) y_pos in
      let* he := lift_result (np_histogram depth num_bins) in
      let hist_sum := sum_int (fst he) in
      let y_hist := map (fun c => rnd (inject_Z c / inject_Z hist_sum)) (fst he) in
      match y_hist with
      | [] => raise (IndexError "index 0 is out of bounds for axis 0 with size 0")
      | h :: t =>
        let cum_hist := h :: cumulative h t in
        let y_edges := snd he in
        let mid_points :=
          map (fun ii => fadd (nth ii y_edges 0%Q)
                           (rnd (fsub (nth (S ii) y_edges 0%Q) (nth ii y_edges 0%Q)
                                 / rnd (2 # 1))))
              (seq 0 (length y_hist)) in
        mret (mk_depth_histogram y_hist cum_hist mid_points)
      end
    end
  end.
End MoreMethods.

(** ** The heap, the module-level name and the eps scan *)

Definition loc : Type := nat.

Inductive cell : Type :=
| CStr (s : string)
| CFloat (q : Q).

Record world (E : Type) : Type := mk_world {
  heap : gmap loc (instance E);
  neutron_clustering : option loc;
  root_log : list (loglevel * string);
  files : gmap string (list (list cell));
}.
Arguments mk_world {E}.
Arguments heap {E}.
Arguments neutron_clustering {E}.
Arguments root_log {E}.
Arguments files {E}.

Section Scan.
Context {fl : PyFloat} {E : Type} {np : NumpyFloat E} {skc : SklearnCluster}
        {skm : SklearnMetrics}.

(** A method call on the object at [l].  A name or a receiver always
    denotes a live object, so the first branch is not reached from a heap
    that holds [l]. *)
Definition call {A} (l : loc) (m : M (mstate E) A) : M (world E) A :=
  fun w =>
    match heap w !! l with
    | None => (Raise (NameError "object"), w)
    | Some i =>
        let rs := m (mk_mstate i (root_log w)) in
        (fst rs, mk_world (<[l := this (snd rs)]> (heap w)) (neutron_clustering w)
                          (log (snd rs)) (files w))
    end.

(** Reading the module-level name [neutron_clustering]. *)
Definition global_neutron_clustering : M (world E) loc :=
  fun w =>
    match neutron_clustering w with
    | Some l => (Ok l, w)
    | None => (Raise (NameError "neutron_clustering"), w)
    end.

Definition wlogging (l : loglevel) (msg : string) : M (world E) unit :=
  modify (fun w => mk_world (heap w) (neutron_clustering w)
                            (root_log w ++ [(l, msg)]) (files w)).

Definition write_file (name : string) (rows : list (list cell)) : M (world E) unit :=
  modify (fun w => mk_world (heap w) (neutron_clustering w) (root_log w)
                            (<[name := rows]> (files w))).

Definition scan_header : list cell :=
  CStr "eps" :: map CStr metric_names.

(** The body of the loop over the eps values; [scores] is the table built
    so far. *)
Definition scan_step (scores : list (list cell)) (eps : Q) : M (world E) (list (list cell)) :=
  let* _ := wlogging INFO ("Running clustering for eps = " +:+ float_repr eps +:+ ".") in
  let* g := global_neutron_clustering in
  let* _ := call g (cluster "neutron" "dbscan"
                      [("eps", PFloat eps); ("min_samples", PInt 6)]) in
  let* _ := wlogging INFO ("Computing scores for eps = " +:+ float_repr eps +:+ ".") in
  let* g := global_neutron_clustering in
  let* avg_scores := call g (calc_scores "neutron") in
  let score_list := CFloat eps :: map CFloat (scores_values avg_scores) in
  mret (scores ++ [score_list]).

Definition scan_eps_values (receiver : loc) (eps_range : list Q) (eps_step : Q)
    (save_scores : string) : M (world E) unit :=
  let* e1 := lift_result (list_get eps_range 1) in
  let* e0 := lift_result (list_get eps_range 0) in
  let* q := lift_result (fdiv (fsub e1 e0) eps_step) in
  let num_steps := int_of_float q in
  let eps_values := map (fun ii => fadd e0 (fmul (float_of_int ii) eps_step))
                        (py_range num_steps) in
  let scores := [scan_header] in
  let* first := lift_result (list_get eps_values 0) in
  let* last := lift_result (list_get eps_values (length eps_values - 1)) in
  let* _ := wlogging INFO
    ("Attempting to run scanning search with " +:+ pretty num_steps
       +:+ " eps values from " +:+ float_repr first +:+ " to "
       +:+ float_repr last +:+ ".") in
  let* scores := for_fold eps_values scores scan_step in
  write_file (save_scores +:+ ".csv") scores.
End Scan.

(** ** Instances of the interfaces, to run the model on concrete inputs *)

(** Exact arithmetic: nothing is rounded. *)
Definition exact_float : PyFloat :=
  {| rnd := fun q => q;
     float_repr := fun q => pretty (Qnum q) +:+ "/" +:+ pretty (Zpos (Qden q)) |}.

(** IEEE 754 binary64, round to nearest, ties to even (without overflow):
    the value is scaled so that its mantissa lies below [2 ^ 53], or to the
    subnormal exponent -1074, and the mantissa is rounded to an integer. *)
Definition Qpow2 (e : Z) : Q := (2 ^ e)%Q.

(** [floor (log2 |q|)] for a nonzero [q]. *)
Definition ilog2 (q : Q) : Z :=
  let k := Z.log2 (Z.abs (Qnum q)) - Z.log2 (Zpos (Qden q)) in
  if Qle_bool (Qpow2 k) (Qabs q) then k else k - 1.

Definition binary64_exponent (q : Q) : Z := Z.max (ilog2 q - 52) (-1074).

Definition round_binary64 (q : Q) : Q :=
  if Qeq_bool q 0 then 0%Q
  else Qred (inject_Z (pyround (q / Qpow2 (binary64_exponent q)))
             * Qpow2 (binary64_exponent q)).

(** The rational value of a finite hardware float. *)
Definition float_value (f : PrimFloat.float) : option Q :=
  match Prim2SF f with
  | S754_zero _ => Some 0%Q
  | S754_finite s m e =>
      Some (Qred (inject_Z (if s then Z.neg m else Z.pos m) * Qpow2 e))
  | _ => None
  end.

Definition binary64 : PyFloat :=
  {| rnd := round_binary64;
     float_repr := fun q => pretty (Qnum q) +:+ "/" +:+ pretty (Zpos (Qden q)) |}.

(** NumPy's [float64] scalars over a float format: [round(e, d)] multiplies
    by [10 ^ d], rounds to the nearest integer and divides again. *)
Definition np_float64 `{PyFloat} : NumpyFloat Q :=
  {| np_add := fadd;
     np_of_int := float_of_int;
     np_round := fun e d =>
       rnd (inject_Z (pyround (fmul e (float_of_int (10 ^ d)))) / float_of_int (10 ^ d));
     np_eq_float := Qeq_bool |}.

Definition binary_float64 : NumpyFloat Q := @np_float64 binary64.

Module Toy.
(** A stand-in for a scikit-learn estimator: one cluster holding every
    point; like scikit-learn it refuses an empty array. *)
Definition one_cluster : estimator :=
  fun pos =>
    match pos with
    | [] => Raise (ValueError "Found array with 0 sample(s)")
    | _ => Ok (map (fun _ => 0) pos)
    end.

(** A stand-in that separates the points by the sign of their first
    coordinate. *)
Definition two_sides : estimator :=
  fun pos =>
    match pos with
    | [] => Raise (ValueError "Found array with 0 sample(s)")
    | _ => Ok (map (fun p => if Qle_bool 0 (fst (fst p)) then 1 else 0) pos)
    end.

(** [sklearn.cluster] has the four classes below and no [GaussianMixture]. *)
Definition sklearn_cluster (e : estimator) : SklearnCluster :=
  {| cluster_attr := fun name =>
       if str_in name ["AffinityPropagation"; "MeanShift"; "OPTICS"; "DBSCAN"]
       then Some (fun _ => Ok e) else None |}.

(** scikit-learn's check before the silhouette: the number of distinct
    labels must lie between 2 and the number of samples minus 1. *)
Definition check_number_of_labels (labels : list Z) : bool :=
  let n_labels := Z.of_nat (length (np_unique labels)) in
  (1 <? n_labels) && (n_labels <? Z.of_nat (length labels)).

(** Stand-ins for the metrics: constant values, and the silhouette's
    check on the number of labels. *)
Definition sklearn_metrics : SklearnMetrics :=
  {| homogeneity_score := fun _ _ => Ok 1%Q;
     completeness_score := fun _ _ => Ok 1%Q;
     v_measure_score := fun _ _ => Ok 1%Q;
     adjusted_rand_score := fun _ _ => Ok 1%Q;
     adjusted_mutual_info_score := fun _ _ => Ok 1%Q;
     silhouette_score := fun _ labels =>
       if check_number_of_labels labels then Ok (1 # 2)%Q
       else Raise (ValueError
         "Number of labels is invalid. Valid values are 2 to n_samples - 1 (inclusive)") |}.

(** An object as [__init__] leaves it, given the loaded arrays of two
    deposits per event. *)
Definition make_instance {E} (energy : list (list E)) (ids : list (list Z))
    (pos : list (list point)) : instance E :=
  mk_instance (map Z.of_nat (seq 0 (length pos))) energy ids ids
    (map (map (fun p => fst (fst p))) pos)
    (map (map (fun p => snd (fst p))) pos)
    (map (map snd) pos)
    (length pos) [] (scores_const []) (scores_const 0%Q) pos [] [] None.

(** One event with a single deposit of 6.1 MeV. *)
Definition one_capture : mstate Q :=
  mk_mstate (make_instance [[(61 # 10)%Q]] [[7]] [[(0, 0, 0)%Q]]) [].

(** Two events without deposits. *)
Definition no_captures : mstate Q :=
  mk_mstate (make_instance [[]; []] [[]; []] [[]; []]) [].

(** One event with three deposits, two of them of the same neutron. *)
Definition three_points : mstate Q :=
  mk_mstate (make_instance [[1; 2; 3]%Q] [[5; 5; 8]]
               [[(- (1), 0, 0); (1, 0, 0); (2, 0, 0)]%Q]) [].

(** Two objects; the module-level name is bound to the first. *)
Definition two_objects : world Q :=
  mk_world (<[0%nat := this three_points]> (<[1%nat := this one_capture]> ∅))
           (Some 0%nat) [] ∅.

(** Ten deposits at the heights 0 to 9, in two events. *)
Definition ten_depths : mstate Q :=
  mk_mstate
    (mk_instance [0; 1] [] [] [] []
       [map inject_Z [0; 1; 2; 3; 4]; map inject_Z [5; 6; 7; 8; 9]] []
       2 [] (scores_const []) (scores_const 0%Q) [] [] [] None) [].
End Toy.

(** ** The capture ratio, as the specification words it

    Per event: the distinct truth groups, the deposits of a group, and the
    test on the summed energy of a group. *)

Section CaptureSpec.
Context {fl : PyFloat} {E : Type} {np : NumpyFloat E}.

(** The energies of the deposits whose truth id is [c]. *)
Definition group_energies (truth : list Z) (energies : list E) (c : Z) : list E :=
  map snd (List.filter (fun p => fst p =? c) (combine truth energies)).

(** The summed energy rounds, at two decimals, to exactly 6.1. *)
Definition rounds_to_6_1 (e : E) : bool :=
  np_eq_float (np_round e 2) (rnd (61 # 10)).

Definition count_groups (truth : list Z) : Z :=
  Z.of_nat (length (np_unique truth)).

Definition count_complete (truth : list Z) (energies : list E) : Z :=
  Z.of_nat (length (List.filter
    (fun c => rounds_to_6_1 (fold_left np_add (group_energies truth energies c) (np_of_int 0)))
    (np_unique truth))).

(** The per-event arrays of truth ids and of energies are parallel. *)
Definition parallel_arrays (i : instance E) : Prop :=
  Forall2 (fun truth energies => length truth = length energies)
          (edep_neutron_ids i) (edep_energy i).
End CaptureSpec.

(** ** The eps scan, as the specification words it

    Per eps value, [cluster] and then [calc_scores] called on one object,
    with the two log lines of the scan; [table] holds the rows so far. *)

Section ScanCalls.
Context {fl : PyFloat} {E : Type} {skc : SklearnCluster} {skm : SklearnMetrics}.

Definition calls_on_object (table : list (list cell)) (eps : Q)
  : M (mstate E) (list (list cell)) :=
  let* _ := logging INFO ("Running clustering for eps = " +:+ float_repr eps +:+ ".") in
  let* _ := cluster "neutron" "dbscan" [("eps", PFloat eps); ("min_samples", PInt 6)] in
  let* _ := logging INFO ("Computing scores for eps = " +:+ float_repr eps +:+ ".") in
  let* avg_scores := calc_scores "neutron" in
  mret (table ++ [CFloat eps :: map CFloat (scores_values avg_scores)]).
End ScanCalls.

(** What the proofs use of NumPy's rounding: the float 6.1 is a fixed point
    of rounding at two decimals. *)
Class NumpyFloatLaws `{PyFloat} (E : Type) `{NumpyFloat E} : Prop := {
  np_round_6_1 : forall e : E,
    np_eq_float e (rnd (61 # 10)) = true ->
    np_eq_float (np_round e 2) (rnd (61 # 10)) = true;
}.

(** A message names a word when the word occurs in it. *)
Definition names (msg word : string) : Prop :=
  exists pre post : string, msg = pre +:+ word +:+ post.

(** A computation whose result and object do not depend on the log. *)
Definition log_blind {E A} (m : M (mstate E) A) : Prop :=
  forall s s' : mstate E,
    this s = this s' ->
    fst (m s) = fst (m s') /\ this (snd (m s)) = this (snd (m s')).

(** The first key of [params] that [allowed] does not declare. *)
Definition first_undeclared (allowed params : pydict pyvalue) : option string :=
  List.find (fun k => negb (dict_mem k allowed)) (dict_keys params).

(** What the guard on [level] writes to the log. *)
Definition level_warning (level : string) : list (loglevel * string) :=
  if str_in level levels then []
  else [(WARNING,
         "Requested cluster level by '" +:+ level +:+ "' not allowed, using 'neutron'.")].

(** A computation that touches nothing of the object but [cluster_scores],
    and leaves the log alone. *)
Definition scores_only {E A} (m : M (mstate E) A) : Prop :=
  forall s : mstate E,
    exists cs : scores (list Q),
      snd (m s) = mk_mstate (set_cluster_scores cs (this s)) (log s).

(** What the scoring loop keeps of the object [i0] it started from. *)
Definition scoring_frame {E} (i0 : instance E) (s : mstate E) : Prop :=
  edep_positions (this s) = edep_positions i0 /\
  avg_cluster_scores (this s) = avg_cluster_scores i0 /\
  cluster_predictions (this s) = cluster_predictions i0.

(** What a scan started in [w0] keeps: the binding of the module-level name
    and every object other than the one it names. *)
Definition scan_frame {E} (w0 w : world E) : Prop :=
  neutron_clustering w = neutron_clustering w0 /\
  forall l : loc, neutron_clustering w0 <> Some l -> heap w !! l = heap w0 !! l.

Definition keeps_others {E A} (w0 : world E) (m : M (world E) A) : Prop :=
  forall w : world E, scan_frame w0 w -> scan_frame w0 (snd (m w)).

(** The sum of a list in exact arithmetic. *)
Definition Qsum (l : list Q) : Q := fold_right Qplus 0%Q l.

(** ** The module-level functions [euclidean_distance] and
       [find_largest_distance]

    They log to the root logger and touch no object: their state is the
    log.  The coordinates of a point are finite floats.  The arithmetic on
    them can leave the range of the format, and the functions differ in
    what happens then: a difference or a sum beyond the largest float is an
    infinity, and no exception, while the power [x ** 2] of a Python float
    raises [OverflowError].  So this part of the model has the infinities.
    [math.sqrt] and the power are functions of the C library, an
    interface. *)

(** A float: a finite value, an infinity or a NaN. *)
Inductive pyfloat : Type :=
| Finite (q : Q)
| Infinity (negative : bool)
| NaN.

Class PyMath : Type := {
  (** the largest finite float *)
  float_max : Q;
  (** [math.sqrt(x)] for a finite [x] that is not negative *)
  sqrt_float : Q -> Q;
  (** [x ** n] for a finite float [x]: Python raises [OverflowError] when
      the result is out of range (a NumPy scalar gives an infinity) *)
  pow_float : Q -> Z -> result pyfloat;
}.

(** Two floats of the same value. *)
Definition float_eq (x y : pyfloat) : Prop :=
  match x, y with
  | Finite a, Finite b => (a == b)%Q
  | Infinity s, Infinity s' => s = s'
  | NaN, NaN => True
  | _, _ => False
  end.

Definition float_result_eq (r r' : result pyfloat) : Prop :=
  match r, r' with
  | Ok x, Ok y => float_eq x y
  | Raise e, Raise e' => e = e'
  | _, _ => False
  end.

(** A float that is zero, positive or the positive infinity. *)
Definition not_negative (x : pyfloat) : Prop :=
  match x with
  | Finite q => (0 <= q)%Q
  | Infinity negative => negative = false
  | NaN => False
  end.

(** The order of the floats; a NaN is not comparable. *)
Definition float_le (x y : pyfloat) : Prop :=
  match x, y with
  | Finite a, Finite b => (a <= b)%Q
  | Finite _, Infinity s => s = false
  | Infinity s, Finite _ => s = true
  | Infinity s, Infinity s' => s = true \/ s' = false
  | _, _ => False
  end.

(** What the proofs use of the two functions. *)
Class PyMathLaws `{PyFloat} `{PyMath} : Prop := {
  float_max_nonneg : (0 <= float_max)%Q;
  sqrt_proper : forall a b : Q, (a == b)%Q -> (sqrt_float a == sqrt_float b)%Q;
  sqrt_mono : forall a b : Q, (0 <= a)%Q -> (a <= b)%Q -> (sqrt_float a <= sqrt_float b)%Q;
  sqrt_zero : (sqrt_float 0 == 0)%Q;
  pow_proper : forall (a b : Q) (n : Z),
    (a == b)%Q -> float_result_eq (pow_float a n) (pow_float b n);
  square_even : forall a : Q, float_result_eq (pow_float (- a) 2) (pow_float a 2);
  square_nonneg : forall (a : Q) (x : pyfloat), pow_float a 2 = Ok x -> not_negative x;
  square_zero : float_result_eq (pow_float 0 2) (Ok (Finite 0));
  square_raises : forall (a : Q) (e : exn),
    pow_float a 2 = Raise e -> e = LibraryError "OverflowError";
}.

Definition root_logging (l : loglevel) (msg : string) : M (list (loglevel * string)) unit :=
  modify (fun lg => lg ++ [(l, msg)]).

(** [x > y] *)
Definition float_gt (x y : pyfloat) : bool :=
  match x, y with
  | Finite a, Finite b => negb (Qle_bool a b)
  | Finite _, Infinity s => s
  | Infinity s, Finite _ => negb s
  | Infinity s, Infinity s' => negb s && s'
  | _, _ => false
  end.

(** [max(l)]: the first of the largest entries; an empty list has none. *)
Definition py_max (l : list pyfloat) : result pyfloat :=
  match l with
  | [] => Raise (ValueError "max() arg is an empty sequence")
  | v :: r => Ok (fold_left (fun m x => if float_gt x m then x else m) r v)
  end.

Section Distances.
Context {fl : PyFloat} {pm : PyMath}.

(** The float that an addition or a subtraction of exact value [e] gives:
    [e] rounded, or an infinity when the rounded value lies beyond the
    largest finite float. *)
Definition to_float (e : Q) : pyfloat :=
  if Qle_bool (Qabs (rnd e)) float_max then Finite (rnd e)
  else Infinity (negb (Qle_bool 0 e)).

(** [x + y] *)
Definition float_add (x y : pyfloat) : pyfloat :=
  match x, y with
  | Finite a, Finite b => to_float (a + b)
  | Finite _, Infinity s => Infinity s
  | Infinity s, Finite _ => Infinity s
  | Infinity s, Infinity s' => if Bool.eqb s s' then Infinity s else NaN
  | _, _ => NaN
  end.

(** [x ** 2] *)
Definition float_square (x : pyfloat) : result pyfloat :=
  match x with
  | Finite q => pow_float q 2
  | Infinity _ => Ok (Infinity false)
  | NaN => Ok NaN
  end.

(** [sum(l)] over floats starts at the int 0. *)
Definition float_sum (l : list pyfloat) : pyfloat :=
  fold_left float_add l (Finite (float_of_int 0)).

(** [math.sqrt(x)] refuses a negative argument. *)
Definition math_sqrt (x : pyfloat) : result pyfloat :=
  match x with
  | Finite q => if Qle_bool 0 q then Ok (Finite (sqrt_float q))
                else Raise (ValueError "math domain error")
  | Infinity false => Ok (Infinity false)
  | Infinity true => Raise (ValueError "math domain error")
  | NaN => Ok NaN
  end.

Definition different_dimension (n m : nat) : string :=
  "Tried to compute Euclidean distance between two points with different dimension ("
    +:+ pretty n +:+ "," +:+ pretty m +:+ ")!".

(** [[(a - b)**2 for a, b in zip(p1, p2)]]: the first power that raises
    ends the comprehension. *)
Fixpoint squared_differences (p1 p2 : list Q) : result (list pyfloat) :=
  match p1, p2 with
  | a :: p1', b :: p2' =>
      result_bind (float_square (to_float (a - b))) (fun d =>
      result_bind (squared_differences p1' p2') (fun ds => Ok (d :: ds)))
  | _, _ => Ok []
  end.

Definition euclidean_distance (p1 p2 : list Q) : M (list (loglevel * string)) pyfloat :=
  if negb (Nat.eqb (length p1) (length p2)) then
    let* _ := root_logging ERROR (different_dimension (length p1) (length p2)) in
    raise (ValueError (different_dimension (length p1) (length p2)))
  else
    let* dist := lift_result (squared_differences p1 p2) in
    lift_result (math_sqrt (float_sum dist)).

Definition find_largest_distance (pos : list (list Q))
  : M (list (loglevel * string)) pyfloat :=
  let* dists :=
    for_fold pos [] (fun dists p =>
      for_fold pos dists (fun dists q =>
        let* d := euclidean_distance p q in
        mret (dists ++ [d]))) in
  lift_result (py_max dists).

(** What [euclidean_distance] computes for two points of one dimension. *)
Definition distance (p q : list Q) : result pyfloat :=
  result_bind (squared_differences p q) (fun dist => math_sqrt (float_sum dist)).

(** No power [(a - b)**2] of the coordinates of the two points raises. *)
Definition squares_in_range (p q : list Q) : Prop :=
  Forall (fun ab => is_ok (float_square (to_float (fst ab - snd ab))) = true) (combine p q).
End Distances.

(** ** The whole object: the attributes of the spectra and of the drawings

    [instance] holds the attributes that clustering, scoring, the capture
    ratio and the depth histogram use.  The spectra use two more, and
    [__init__] builds the wire frames of the two detector volumes.  The
    arrays of the input file that no method reads after [__init__] are
    looked up there and not kept in the record. *)

(** A summed energy: a NumPy scalar of the dtype of the energy arrays (the
    'true' energies), or a float64 (the energies from the electron
    counts). *)
Inductive summed_energy (E : Type) : Type :=
| TrueEnergy (e : E)
| IonScint (q : Q).
Arguments TrueEnergy {E} e.
Arguments IonScint {E} q.

(** [cluster_spectrum] is a Python list; [plot_true_spectrum] appends
    energies to it and [plot_prediction_spectrum] binds it to a list of
    lists of energies. *)
Inductive spectrum_entry (E : Type) : Type :=
| Energy (v : summed_energy E)
| Energies (l : list (summed_energy E)).
Arguments Energy {E} v.
Arguments Energies {E} l.

Record object (E : Type) : Type := mk_object {
  core : instance E;
  edep_num_electrons : list (list Z);
  cluster_spectrum : list (spectrum_entry E);
  active_tpc_lines : list (point * point);
  cryostat_lines : list (point * point);
}.
Arguments mk_object {E}.
Arguments core {E}.
Arguments edep_num_electrons {E}.
Arguments cluster_spectrum {E}.
Arguments active_tpc_lines {E}.
Arguments cryostat_lines {E}.

Definition set_cluster_spectrum {E} (v : list (spectrum_entry E)) (o : object E) : object E :=
  mk_object (core o) (edep_num_electrons o) v (active_tpc_lines o) (cryostat_lines o).

Record ostate (E : Type) : Type := mk_ostate {
  obj : object E;
  olog : list (loglevel * string);
}.
Arguments mk_ostate {E}.
Arguments obj {E}.
Arguments olog {E}.

Definition ologging {E} (l : loglevel) (msg : string) : M (ostate E) unit :=
  modify (fun s => mk_ostate (obj s) (olog s ++ [(l, msg)])).

Definition oself {E} : M (ostate E) (object E) :=
  fun s => (Ok (obj s), s).

Definition update_object {E} (f : object E -> object E) : M (ostate E) unit :=
  modify (fun s => mk_ostate (f (obj s)) (olog s)).

(** A method of the first part, called on the whole object. *)
Definition on_core {E A} (m : M (mstate E) A) : M (ostate E) A :=
  fun s =>
    let rs := m (mk_mstate (core (obj s)) (olog s)) in
    (fst rs,
     mk_ostate (mk_object (this (snd rs)) (edep_num_electrons (obj s))
                  (cluster_spectrum (obj s)) (active_tpc_lines (obj s))
                  (cryostat_lines (obj s)))
               (log (snd rs))).

(** The comparison [e < cut] of a NumPy energy scalar with a Python
    float. *)
Class NumpyOrder (E : Type) : Type := {
  np_lt_float : E -> Q -> bool;
}.

Definition edep_types : list string := ["true"; "ion_scint"; "compare"].

(** ** The spectra: [plot_prediction_spectrum] and [plot_true_spectrum], up
       to the drawing *)

Section Spectra.
Context {fl : PyFloat} {E : Type} {np : NumpyFloat E} {npo : NumpyOrder E}.

(** The guard on [edep_type]. *)
Definition check_edep_type (edep_type : string) : M (ostate E) string :=
  if negb (str_in edep_type edep_types) then
    let* _ := ologging WARNING
      ("Requested edep type '" +:+ edep_type +:+ "' not allowed, using 'true'.") in
    mret "true"
  else mret edep_type.

(** [self.cluster_spectrum[k].append(v)].  The method has bound
    [cluster_spectrum] to a list of lists before its loop, so the two
    failing branches are not reached from there. *)
Definition spectrum_append (k : nat) (v : summed_energy E) : M (ostate E) unit :=
  let* me := oself in
  match cluster_spectrum me !! k with
  | Some (Energies l) =>
      update_object (set_cluster_spectrum (<[k := Energies (l ++ [v])]> (cluster_spectrum me)))
  | Some (Energy _) => raise (AttributeError "object has no attribute 'append'")
  | None => raise (IndexError "list index out of range")
  end.

(** [sum(self.edep_num_electrons[ii][indices] * 1.5763e-5)]: the counts
    become floats, each is multiplied by the float constant, and the sum
    starts at the int 0. *)
Definition ion_scint_sum (electrons : list Z) : Q :=
  sum_float (map (fun n => fmul (float_of_int n) (rnd (15763 # 1000000000))) electrons).

(** [sum(self.edep_energy[ii][indices])] *)
Definition true_energy_sum (ii : nat) (indices : list nat) : M (ostate E) E :=
  let* me := oself in
  let* energies := lift_result (list_get (edep_energy (core me)) ii) in
  let* selected := lift_result (np_take energies indices) in
  mret (np_sum selected).

Definition ion_scint_energy_sum (ii : nat) (indices : list nat) : M (ostate E) Q :=
  let* me := oself in
  let* electrons := lift_result (list_get (edep_num_electrons me) ii) in
  let* selected := lift_result (np_take electrons indices) in
  mret (ion_scint_sum selected).

(** The body of the loop over the clusters of the prediction [pred] of
    event [ii]. *)
Definition spectrum_cluster (edep_type : string) (energy_cut : Q) (ii : nat)
    (pred : list Z) (c : Z) : M (ostate E) unit :=
  let indices := np_where_eq pred c in
  if String.eqb edep_type "true" then
    let* true_energies := true_energy_sum ii indices in
    if np_lt_float true_energies energy_cut
    then spectrum_append 0 (TrueEnergy true_energies)
    else mret tt
  else if String.eqb edep_type "ion_scint" then
    let* ion_scint_energies := ion_scint_energy_sum ii indices in
    if negb (Qle_bool energy_cut ion_scint_energies)
    then spectrum_append 0 (IonScint ion_scint_energies)
    else mret tt
  else
    let* true_energies := true_energy_sum ii indices in
    let* ion_scint_energies := ion_scint_energy_sum ii indices in
    if np_lt_float true_energies energy_cut && negb (Qle_bool energy_cut ion_scint_energies)
    then
      let* _ := spectrum_append 0 (TrueEnergy true_energies) in
      spectrum_append 1 (IonScint ion_scint_energies)
    else mret tt.

(** [plot_prediction_spectrum] up to the drawing: the guards and the loop
    that fills [cluster_spectrum]. *)
Definition plot_prediction_spectrum (edep_type : string) (energy_cut : Q) : M (ostate E) unit :=
  let* edep_type := check_edep_type edep_type in
  let* me := oself in
  match cluster_predictions (core me) with
  | [] =>
      let* _ := ologging ERROR
        "No predictions have been made, need to run clustering algorithm first!" in
      raise (ValueError
        "No predictions have been made, need to run clustering algorithm first!")
  | _ =>
    if negb (Nat.eqb (length (cluster_predictions (core me))) (num_events (core me))) then
      let msg := "Only " +:+ pretty (length (cluster_predictions (core me)))
                   +:+ " predictions but " +:+ pretty (num_events (core me)) +:+ " events!" in
      let* _ := ologging ERROR msg in
      raise (ValueError msg)
    else
      let* _ := update_object (set_cluster_spectrum
                  (if String.eqb edep_type "compare"
                   then [Energies []; Energies []] else [Energies []])) in
      for_each (enumerate (cluster_predictions (core me))) (fun ip =>
        for_each (np_unique (snd ip))
                 (spectrum_cluster edep_type energy_cut (fst ip) (snd ip)))
  end.

(** The body of the loop over the truth groups in [plot_true_spectrum]:
    the energy is appended to the attribute [cluster_spectrum]; the local
    list of the same name that the method creates is never used. *)
Definition true_spectrum_group (energy_cut : Q) (ii : nat) (truth : list Z) (c : Z)
  : M (ostate E) unit :=
  let indices := np_where_eq truth c in
  let* true_energies := true_energy_sum ii indices in
  if np_lt_float true_energies energy_cut
  then update_object (fun o =>
         set_cluster_spectrum (cluster_spectrum o ++ [Energy (TrueEnergy true_energies)]) o)
  else mret tt.

(** [plot_true_spectrum] up to the drawing. *)
Definition plot_true_spectrum (energy_cut : Q) : M (ostate E) unit :=
  let* me := oself in
  for_each (enumerate (edep_neutron_ids (core me))) (fun it =>
    for_each (np_unique (snd it)) (true_spectrum_group energy_cut (fst it) (snd it))).

(** The energies that one call of [plot_true_spectrum] adds: per event and
    per truth group, the summed energy when it is below the cut. *)
Definition true_spectrum (energy_cut : Q) (ids : list (list Z)) (ens : list (list E))
  : list (spectrum_entry E) :=
  concat (zip_with (fun truth energies =>
    map (fun e => Energy (TrueEnergy e))
        (List.filter (fun e => np_lt_float e energy_cut)
           (map (fun c => np_sum (group_energies truth energies c)) (np_unique truth))))
    ids ens).

(** An entry that the cut lets through. *)
Definition below_cut (energy_cut : Q) (v : summed_energy E) : Prop :=
  match v with
  | TrueEnergy e => np_lt_float e energy_cut = true
  | IonScint q => (q < energy_cut)%Q
  end.

Definition is_true_energy (v : summed_energy E) : Prop :=
  match v with TrueEnergy _ => True | IonScint _ => False end.

Definition is_ion_scint (v : summed_energy E) : Prop :=
  match v with TrueEnergy _ => False | IonScint _ => True end.

(** What [plot_prediction_spectrum] leaves in [cluster_spectrum]. *)
Definition prediction_spectrum (edep_type : string) (energy_cut : Q)
    (cs : list (spectrum_entry E)) : Prop :=
  if String.eqb edep_type "compare" then
    exists l0 l1 : list (summed_energy E),
      cs = [Energies l0; Energies l1] /\ length l0 = length l1 /\
      Forall (fun v => is_true_energy v /\ below_cut energy_cut v) l0 /\
      Forall (fun v => is_ion_scint v /\ below_cut energy_cut v) l1
  else if String.eqb edep_type "ion_scint" then
    exists l : list (summed_energy E),
      cs = [Energies l] /\ Forall (fun v => is_ion_scint v /\ below_cut energy_cut v) l
  else
    exists l : list (summed_energy E),
      cs = [Energies l] /\ Forall (fun v => is_true_energy v /\ below_cut energy_cut v) l.
End Spectra.

(** Comparison of float64 scalars. *)
Definition float64_order : NumpyOrder Q :=
  {| np_lt_float := fun e q => negb (Qle_bool q e) |}.

(** ** Loading: [load_array] and [__init__]

    The input file is read through uproot.  What the class sees of it is an
    opened file that gives, for a tree name, a dict from branch names to
    arrays, or raises. *)

(** The arrays of a tree, by shape: one int per entry, or one array of
    ints, of floats or of energies per entry. *)
Inductive branch (E : Type) : Type :=
| IntBranch (a : list Z)
| IntArrays (a : list (list Z))
| FloatArrays (a : list (list Q))
| EnergyArrays (a : list (list E)).
Arguments IntBranch {E} a.
Arguments IntArrays {E} a.
Arguments FloatArrays {E} a.
Arguments EnergyArrays {E} a.

Record root_file (E : Type) : Type := mk_root_file {
  file_repr : string;
  file_arrays : string -> result (pydict (branch E));
}.
Arguments mk_root_file {E}.
Arguments file_repr {E}.
Arguments file_arrays {E}.

(** [uproot.open] *)
Class Uproot (E : Type) : Type := {
  uproot_open : string -> result (root_file E);
}.

(** The class [Exception] itself, which [load_array] and [__init__] raise
    bare. *)
Definition bare_exception : exn := LibraryError "Exception".

Definition required_arrays : list string :=
  ["event_id"; "neutron_ids"; "neutron_capture_x"; "neutron_capture_y";
   "neutron_capture_z"; "gamma_ids"; "gamma_neutron_ids"; "gamma_energy";
   "edep_energy"; "edep_parent"; "edep_neutron_ids"; "edep_gamma_ids";
   "edep_x"; "edep_y"; "edep_z"; "electron_ids"; "electron_neutron_ids";
   "electron_gamma_ids"; "electron_energy"; "edep_num_electrons"].

(** The [repr] of a list of strings. *)
Definition repr_strings (l : list string) : string :=
  "[" +:+ join ", " (map (fun k => "'" +:+ k +:+ "'") l) +:+ "]".

(** [a[i]] on a NumPy array. *)
Definition np_get {A} (a : list A) (i : nat) : result A :=
  match a !! i with
  | Some v => Ok v
  | None => Raise (IndexError ("index " +:+ pretty i +:+ " is out of bounds for axis 0 with size "
                                 +:+ pretty (length a)))
  end.

(** A list comprehension whose element expression can raise. *)
Fixpoint comprehension {A B} (f : A -> result B) (l : list A) : result (list B) :=
  match l with
  | [] => Ok []
  | a :: l' =>
      result_bind (f a) (fun b =>
      result_bind (comprehension f l') (fun bs => Ok (b :: bs)))
  end.

(** The arrays of the tree 'ana/neutron' that the methods read. *)
Record neutron_arrays (E : Type) : Type := mk_neutron_arrays {
  loaded_event_id : branch E;
  loaded_edep_energy : branch E;
  loaded_edep_neutron_ids : branch E;
  loaded_edep_gamma_ids : branch E;
  loaded_edep_x : branch E;
  loaded_edep_y : branch E;
  loaded_edep_z : branch E;
  loaded_edep_num_electrons : branch E;
}.
Arguments mk_neutron_arrays {E}.
Arguments loaded_event_id {E}.
Arguments loaded_edep_energy {E}.
Arguments loaded_edep_neutron_ids {E}.
Arguments loaded_edep_gamma_ids {E}.
Arguments loaded_edep_x {E}.
Arguments loaded_edep_y {E}.
Arguments loaded_edep_z {E}.
Arguments loaded_edep_num_electrons {E}.

(** The attributes are typed in the record of the object.  A branch of
    another shape than the class documents is outside the model: the
    construction stops there. *)
Definition another_shape {A} : result A := Raise (LibraryError "branch of another shape").

Definition as_ints {E} (b : branch E) : result (list Z) :=
  match b with IntBranch a => Ok a | _ => another_shape end.
Definition as_int_arrays {E} (b : branch E) : result (list (list Z)) :=
  match b with IntArrays a => Ok a | _ => another_shape end.
Definition as_float_arrays {E} (b : branch E) : result (list (list Q)) :=
  match b with FloatArrays a => Ok a | _ => another_shape end.
Definition as_energy_arrays {E} (b : branch E) : result (list (list E)) :=
  match b with EnergyArrays a => Ok a | _ => another_shape end.

(** The twelve segments of the wire frame of a box, given its two bounds on
    each axis. *)
Definition box_lines (rx ry rz : Q * Q) : list (point * point) :=
  let x0 := fst rx in let x1 := snd rx in
  let y0 := fst ry in let y1 := snd ry in
  let z0 := fst rz in let z1 := snd rz in
  [ ((x0, y0, z0), (x1, y0, z0));
    ((x0, y0, z0), (x0, y1, z0));
    ((x0, y0, z0), (x0, y0, z1));
    ((x0, y1, z0), (x1, y1, z0));
    ((x0, y1, z0), (x0, y1, z1));
    ((x1, y0, z0), (x1, y0, z1));
    ((x1, y0, z0), (x1, y1, z0));
    ((x0, y1, z1), (x1, y1, z1));
    ((x0, y1, z1), (x0, y0, z1));
    ((x1, y0, z1), (x1, y1, z1));
    ((x1, y0, z1), (x0, y0, z1));
    ((x1, y1, z0), (x1, y1, z1)) ].

Section Loading.
Context {fl : PyFloat} {E : Type} {np : NumpyFloat E} {up : Uproot E}.

Definition load_array (input_file : root_file E) (array_name : string)
  : M (list (loglevel * string)) (pydict (branch E)) :=
  let* _ := root_logging INFO
    ("Attempting to load array: " +:+ array_name +:+ " from file: "
       +:+ file_repr input_file +:+ ".") in
  match file_arrays input_file array_name with
  | Ok array =>
      let* _ := root_logging INFO
        ("Successfully loaded array: " +:+ array_name +:+ " from file: "
           +:+ file_repr input_file +:+ ".") in
      mret array
  | Raise _ =>
      let* _ := root_logging ERROR
        ("Failed to load array: " +:+ array_name +:+ " from file: "
           +:+ file_repr input_file +:+ " with exception: <class 'Exception'>.") in
      raise bare_exception
  end.

(** The twenty lookups of the [try] block, in their order. *)
Definition read_arrays (events : pydict (branch E)) : result (neutron_arrays E) :=
  result_bind (dict_get "event_id" events) (fun event_ids =>
  result_bind (dict_get "neutron_ids" events) (fun _ =>
  result_bind (dict_get "neutron_capture_x" events) (fun _ =>
  result_bind (dict_get "neutron_capture_y" events) (fun _ =>
  result_bind (dict_get "neutron_capture_z" events) (fun _ =>
  result_bind (dict_get "gamma_ids" events) (fun _ =>
  result_bind (dict_get "gamma_neutron_ids" events) (fun _ =>
  result_bind (dict_get "gamma_energy" events) (fun _ =>
  result_bind (dict_get "edep_energy" events) (fun energy =>
  result_bind (dict_get "edep_parent" events) (fun _ =>
  result_bind (dict_get "edep_neutron_ids" events) (fun neutron_ids =>
  result_bind (dict_get "edep_gamma_ids" events) (fun gamma_ids =>
  result_bind (dict_get "edep_x" events) (fun x =>
  result_bind (dict_get "edep_y" events) (fun y =>
  result_bind (dict_get "edep_z" events) (fun z =>
  result_bind (dict_get "electron_ids" events) (fun _ =>
  result_bind (dict_get "electron_neutron_ids" events) (fun _ =>
  result_bind (dict_get "electron_gamma_ids" events) (fun _ =>
  result_bind (dict_get "electron_energy" events) (fun _ =>
  result_bind (dict_get "edep_num_electrons" events) (fun electrons =>
  Ok (mk_neutron_arrays event_ids energy neutron_ids gamma_ids x y z electrons)
  )))))))))))))))))))).

Definition missing_arrays (events : pydict (branch E)) : string :=
  "One or more of the required arrays " +:+ repr_strings required_arrays
    +:+ " is not present in dict_keys(" +:+ repr_strings (dict_keys events) +:+ ").".

(** [[self.x[jj][ii], self.y[jj][ii], self.z[jj][ii]]] *)
Definition position (x y z : list (list Q)) (jj ii : nat) : result point :=
  result_bind (np_get x jj) (fun xj =>
  result_bind (np_get xj ii) (fun xv =>
  result_bind (np_get y jj) (fun yj =>
  result_bind (np_get yj ii) (fun yv =>
  result_bind (np_get z jj) (fun zj =>
  result_bind (np_get zj ii) (fun zv =>
  Ok (xv, yv, zv))))))).

(** The nested comprehension that builds [edep_positions]. *)
Definition build_positions (x y z : list (list Q)) : result (list (list point)) :=
  comprehension (fun jj =>
    result_bind (np_get x jj) (fun xj =>
    comprehension (position x y z jj) (seq 0 (length xj))))
    (seq 0 (length x)).

(** The bounds of a box on the three axes: columns 0 and 1 for x, 4 and 5
    for y, 2 and 3 for z, of the first entry of the branch. *)
Definition box_ranges (geometry : pydict (branch E)) (name : string)
  : result ((Q * Q) * (Q * Q) * (Q * Q)) :=
  result_bind (dict_get name geometry) (fun b =>
  result_bind (as_float_arrays b) (fun ranges =>
  result_bind (np_get ranges 0) (fun r =>
  result_bind (np_get r 0) (fun x0 =>
  result_bind (np_get r 1) (fun x1 =>
  result_bind (np_get r 4) (fun y0 =>
  result_bind (np_get r 5) (fun y1 =>
  result_bind (np_get r 2) (fun z0 =>
  result_bind (np_get r 3) (fun z1 =>
  Ok ((x0, x1), (y0, y1), (z0, z1))))))))))).

(** A method of the object under construction, run on the root log. *)
Definition run_method {A} (i : instance E) (m : M (mstate E) A)
  : M (list (loglevel * string)) (instance E) :=
  fun lg =>
    let rs := m (mk_mstate i lg) in
    (match fst rs with
     | Ok _ => Ok (this (snd rs))
     | Raise e => Raise e
     end, log (snd rs)).

(** The construction proper, from the loaded trees 'ana/Geometry' and
    'ana/neutron'. *)
Definition construct (geometry events : pydict (branch E))
  : M (list (loglevel * string)) (object E) :=
  let* arrays :=
    match read_arrays events with
    | Ok arrays => mret arrays
    | Raise _ =>
        let* _ := root_logging ERROR (missing_arrays events) in
        raise (ValueError "")
    end in
  let* event_ids := lift_result (as_ints (loaded_event_id arrays)) in
  let* energy := lift_result (as_energy_arrays (loaded_edep_energy arrays)) in
  let* neutron_ids := lift_result (as_int_arrays (loaded_edep_neutron_ids arrays)) in
  let* gamma_ids := lift_result (as_int_arrays (loaded_edep_gamma_ids arrays)) in
  let* x := lift_result (as_float_arrays (loaded_edep_x arrays)) in
  let* y := lift_result (as_float_arrays (loaded_edep_y arrays)) in
  let* z := lift_result (as_float_arrays (loaded_edep_z arrays)) in
  let* electrons := lift_result (as_int_arrays (loaded_edep_num_electrons arrays)) in
  let num_events := length event_ids in
  let* _ := root_logging INFO
    ("Loaded arrays with " +:+ pretty num_events +:+ " entries.") in
  let* positions := lift_result (build_positions x y z) in
  let* i := run_method
    (mk_instance event_ids energy neutron_ids gamma_ids x y z num_events []
       (scores_const []) (scores_const 0%Q) positions [] [] None)
    calculate_capture_ratio in
  let* tpc := lift_result (box_ranges geometry "total_active_tpc_box_ranges") in
  let* cryo := lift_result (box_ranges geometry "cryostat_box_ranges") in
  mret (mk_object i electrons []
          (box_lines (fst (fst tpc)) (snd (fst tpc)) (snd tpc))
          (box_lines (fst (fst cryo)) (snd (fst cryo)) (snd cryo))).

(** [NeutronClusteringMCTruth(input_file)].  The configuration of the
    logger, which opens the method, only chooses where the log lines go. *)
Definition init (input_file : string) : M (list (loglevel * string)) (object E) :=
  let* _ := root_logging INFO ("Attempting to load file " +:+ input_file +:+ ".") in
  let* file :=
    match uproot_open input_file with
    | Ok f =>
        let* _ := root_logging INFO ("Successfully loaded file " +:+ input_file +:+ ".") in
        mret f
    | Raise _ =>
        let* _ := root_logging ERROR
          "Failed to load file with exception: <class 'Exception'>." in
        raise bare_exception
    end in
  let* meta := load_array file "ana/meta" in
  let* geometry := load_array file "ana/Geometry" in
  let* events := load_array file "ana/neutron" in
  construct geometry events.
End Loading.

(** The points of one event, and of all events, from parallel coordinate
    arrays. *)
Fixpoint points_of (xs ys zs : list Q) : list point :=
  match xs, ys, zs with
  | x :: xs', y :: ys', z :: zs' => (x, y, z) :: points_of xs' ys' zs'
  | _, _, _ => []
  end.

Fixpoint positions_of (x y z : list (list Q)) : list (list point) :=
  match x, y, z with
  | xs :: x', ys :: y', zs :: z' => points_of xs ys zs :: positions_of x' y' z'
  | _, _, _ => []
  end.

(** Coordinate arrays with the same number of events and, per event, the
    same number of deposits. *)
Inductive parallel_coordinates : list (list Q) -> list (list Q) -> list (list Q) -> Prop :=
| parallel_nil : parallel_coordinates [] [] []
| parallel_cons xs ys zs x y z :
    length ys = length xs -> length zs = length xs ->
    parallel_coordinates x y z ->
    parallel_coordinates (xs :: x) (ys :: y) (zs :: z).

(** The corners of a box, by the choice of a bound on each axis, and the
    segment between two corners. *)
Definition corner (rx ry rz : Q * Q) (c : bool * bool * bool) : point :=
  ((if fst (fst c) then snd rx else fst rx),
   (if snd (fst c) then snd ry else fst ry),
   (if snd c then snd rz else fst rz)).

(** The number of axes on which two corners differ. *)
Definition axes_apart (c d : bool * bool * bool) : nat :=
  ((if Bool.eqb (fst (fst c)) (fst (fst d)) then 0 else 1)
   + (if Bool.eqb (snd (fst c)) (snd (fst d)) then 0 else 1)
   + (if Bool.eqb (snd c) (snd d) then 0 else 1))%nat.

Definition same_edge (e f : (bool * bool * bool) * (bool * bool * bool)) : bool :=
  let eqc := fun c d : bool * bool * bool =>
    Bool.eqb (fst (fst c)) (fst (fst d)) && Bool.eqb (snd (fst c)) (snd (fst d))
    && Bool.eqb (snd c) (snd d) in
  (eqc (fst e) (fst f) && eqc (snd e) (snd f))
  || (eqc (fst e) (snd f) && eqc (snd e) (fst f)).

(** A file that opens and holds the three trees; the tree 'ana/neutron' has
    every required array, and the arrays that the methods read have the
    shapes the class documents. *)
Record loads {E : Type} {up : Uproot E} (path : string) (file : root_file E)
    (geometry events : pydict (branch E)) (ids : list Z) (energy : list (list E))
    (neutron_ids gamma_ids : list (list Z)) (x y z : list (list Q))
    (electrons : list (list Z)) : Prop := mk_loads {
  loads_open : uproot_open path = Ok file;
  loads_meta : exists meta, file_arrays file "ana/meta" = Ok meta;
  loads_geometry : file_arrays file "ana/Geometry" = Ok geometry;
  loads_events : file_arrays file "ana/neutron" = Ok events;
  loads_required : Forall (fun k => dict_mem k events = true) required_arrays;
  loads_event_id : dict_get "event_id" events = Ok (IntBranch ids);
  loads_edep_energy : dict_get "edep_energy" events = Ok (EnergyArrays energy);
  loads_edep_neutron_ids : dict_get "edep_neutron_ids" events = Ok (IntArrays neutron_ids);
  loads_edep_gamma_ids : dict_get "edep_gamma_ids" events = Ok (IntArrays gamma_ids);
  loads_edep_x : dict_get "edep_x" events = Ok (FloatArrays x);
  loads_edep_y : dict_get "edep_y" events = Ok (FloatArrays y);
  loads_edep_z : dict_get "edep_z" events = Ok (FloatArrays z);
  loads_edep_num_electrons :
    dict_get "edep_num_electrons" events = Ok (IntArrays electrons);
}.

(** The object before [calculate_capture_ratio] has run on it. *)
Definition new_instance {E} (ids : list Z) (energy : list (list E))
    (neutron_ids gamma_ids : list (list Z)) (x y z : list (list Q)) : instance E :=
  mk_instance ids energy neutron_ids gamma_ids x y z (length ids) []
    (scores_const []) (scores_const 0%Q) (positions_of x y z) [] [] None.

(** ** [plot_event], up to the drawing

    What the method computes and hands to [scatter3D]: one call per truth
    id of the event.  The frames of the two volumes, the axis labels and
    the legend are drawing only. *)

(** What drawing needs of the NumPy energy scalars: the product with an
    int, and the text of a scalar in an f-string. *)
Class NumpyDraw (E : Type) : Type := {
  np_scale : Z -> E -> E;
  np_text : E -> string;
}.

(** [a[i]] on a NumPy array for a Python int [i]: a negative index counts
    from the end. *)
Definition py_index {A} (a : list A) (i : Z) : result A :=
  let n := Z.of_nat (length a) in
  let k := if i <? 0 then i + n else i in
  if (k <? 0) || (n <=? k)
  then Raise (IndexError ("index " +:+ pretty i +:+ " is out of bounds for axis 0 with size "
                            +:+ pretty (length a)))
  else np_get a (Z.to_nat k).

(** The arguments of one call of [scatter3D]. *)
Record scatter_call (E : Type) : Type := mk_scatter_call {
  scatter_x : list Q;
  scatter_y : list Q;
  scatter_z : list Q;
  scatter_s : list E;
  scatter_label : option string;
}.
Arguments mk_scatter_call {E}.
Arguments scatter_x {E}.
Arguments scatter_y {E}.
Arguments scatter_z {E}.
Arguments scatter_s {E}.
Arguments scatter_label {E}.

Section PlotEvent.
Context {fl : PyFloat} {E : Type} {np : NumpyFloat E} {npd : NumpyDraw E}.

Definition no_such_element (index : Z) (size : nat) : string :=
  "Tried accessing element " +:+ pretty index +:+ " of array with size "
    +:+ pretty size +:+ "!".

(** The guard on [label]. *)
Definition check_label (label : string) : M (ostate E) string :=
  if negb (str_in label levels) then
    let* _ := ologging WARNING
      ("Requested labeling by '" +:+ label +:+ "' not allowed, using 'neutron'.") in
    mret "neutron"
  else mret label.

(** The body of the loop that fills the lists [x], [y], [z], [energy] and
    [ids]: they grow together, so one list of calls stands for the five.
    The list [y] receives the z coordinates and the list [z] the y
    coordinates. *)
Definition event_group (index : Z) (label : string) (indices : list (list nat))
    (calls : list (scatter_call E)) (iv : nat * Z) : M (ostate E) (list (scatter_call E)) :=
  let ii := fst iv in
  let value := snd iv in
  let* me := oself in
  let* xs := lift_result (py_index (edep_x (core me)) index) in
  let* where_ := lift_result (list_get indices ii) in
  let* x := lift_result (np_take xs where_) in
  let* zs := lift_result (py_index (edep_z (core me)) index) in
  let* where_ := lift_result (list_get indices ii) in
  let* y := lift_result (np_take zs where_) in
  let* ys := lift_result (py_index (edep_y (core me)) index) in
  let* where_ := lift_result (list_get indices ii) in
  let* z := lift_result (np_take ys where_) in
  let* es := lift_result (py_index (edep_energy (core me)) index) in
  let* where_ := lift_result (list_get indices ii) in
  let* energy := lift_result (np_take es where_) in
  let* es := lift_result (py_index (edep_energy (core me)) index) in
  let* where_ := lift_result (list_get indices ii) in
  let* summed := lift_result (np_take es where_) in
  let text := label +:+ " " +:+ pretty ii +:+ ": (id: " +:+ pretty value +:+ ", energy: "
                +:+ np_text (np_round (np_sum summed) 4) +:+ " MeV)" in
  mret (calls ++ [mk_scatter_call x y z (map (np_scale 1000) energy) (Some text)]).

Definition plot_event (index : Z) (label : string) (legend_cutoff : Z)
  : M (ostate E) (list (scatter_call E)) :=
  let* me := oself in
  if Z.of_nat (num_events (core me)) <=? index then
    let* _ := ologging ERROR (no_such_element index (num_events (core me))) in
    raise (IndexError (no_such_element index (num_events (core me))))
  else
    let* label := check_label label in
    let* ids := lift_result
      (py_index (if String.eqb label "neutron"
                 then edep_neutron_ids (core me) else edep_gamma_ids (core me)) index) in
    let labels := np_unique ids in
    let* indices := for_fold (enumerate labels) [] (fun indices iv =>
      let* ids := lift_result
        (py_index (if String.eqb label "neutron"
                   then edep_neutron_ids (core me) else edep_gamma_ids (core me)) index) in
      mret (indices ++ [np_where_eq ids (snd iv)])) in
    let* calls := for_fold (enumerate labels) [] (event_group index label indices) in
    mret (map (fun jc =>
                 if Z.of_nat (fst jc) <? legend_cutoff then snd jc
                 else mk_scatter_call (scatter_x (snd jc)) (scatter_y (snd jc))
                        (scatter_z (snd jc)) (scatter_s (snd jc)) None)
              (enumerate calls)).
End PlotEvent.

(** The entries of [values] at the positions where [truth] holds [c]. *)
Definition select_group {A} (truth : list Z) (values : list A) (c : Z) : list A :=
  map snd (List.filter (fun p => fst p =? c) (combine truth values)).

Section PlotEventCalls.
Context {fl : PyFloat} {E : Type} {np : NumpyFloat E} {npd : NumpyDraw E}.

(** The call for the truth id [value], the [ii]-th of the event. *)
Definition group_call (label : string) (ids : list Z) (xs ys zs : list Q) (es : list E)
    (iv : nat * Z) : scatter_call E :=
  mk_scatter_call (select_group ids xs (snd iv)) (select_group ids zs (snd iv))
    (select_group ids ys (snd iv))
    (map (np_scale 1000) (select_group ids es (snd iv)))
    (Some (label +:+ " " +:+ pretty (fst iv) +:+ ": (id: " +:+ pretty (snd iv)
             +:+ ", energy: " +:+ np_text (np_round (np_sum (select_group ids es (snd iv))) 4)
             +:+ " MeV)")).

End PlotEventCalls.

(** ** [fit_depth_exponential], up to the drawing

    After the histogram the method fits a decaying exponential to it with
    [sp.optimize.curve_fit]; everything after the fit is drawing. *)

(** [sp.optimize.curve_fit(f, xdata, ydata)] for the decaying exponential
    [a * exp(-b * t)]: the optimal parameters [(a, b)], or what the fit
    raises ([TypeError] with fewer data points than parameters,
    [RuntimeError] when the least squares do not converge). *)
Class ScipyOptimize : Type := {
  curve_fit : list Q -> list Q -> result (Q * Q);
}.

Definition depth_exponential_fit {fl : PyFloat} {so : ScipyOptimize} {E : Type}
    (num_bins : Z)
  : M (mstate E) (depth_histogram * (Q * Q)) :=
  let* h := fit_depth_exponential num_bins in
  let* exp_fit := lift_result (curve_fit (mid_points h) (y_hist h)) in
  mret (h, exp_fit).

(** ** More instances, to run the rest of the module on concrete inputs *)

(** The C library over binary64: a square root computed to sixty binary
    places and then rounded, and the correctly rounded power, which Python
    refuses with [OverflowError] beyond the largest double,
    [(2 ^ 53 - 1) * 2 ^ 971]. *)
Definition binary64_max : Q := (inject_Z (2 ^ 53 - 1) * Qpow2 971)%Q.

Definition binary64_math : PyMath :=
  {| float_max := binary64_max;
     sqrt_float := fun q =>
       round_binary64 (inject_Z (Z.sqrt (Qfloor (q * Qpow2 120))) / Qpow2 60);
     pow_float := fun a n =>
       if (n <? 0) && Qeq_bool a 0
       then Raise (ZeroDivisionError "0.0 cannot be raised to a negative power")
       else if Qle_bool (Qabs (round_binary64 (a ^ n))) binary64_max
            then Ok (Finite (round_binary64 (a ^ n)))
            else Raise (LibraryError "OverflowError") |}.

(** Drawing with float64 scalars. *)
Definition float64_draw `{PyFloat} : NumpyDraw Q :=
  {| np_scale := fun n e => fmul (float_of_int n) e;
     np_text := float_repr |}.

Module Sample.
(** Two events; the estimators refuse the second, which has no deposit. *)
Definition second_event_empty : mstate Q :=
  mk_mstate (Toy.make_instance [[1; 2]%Q; []] [[5; 8]; []]
               [[(- (1), 0, 0); (1, 0, 0)]%Q; []]) [].

(** The object of [Toy.three_points] after a clustering into two
    clusters. *)
Definition clustered : mstate Q :=
  mk_mstate (set_cluster_predictions [[0; 1; 1]] (this Toy.three_points)) [].

(** A heap with one object and the module-level name unbound. *)
Definition unbound : world Q :=
  mk_world (<[0%nat := this Toy.three_points]> ∅) None [] ∅.

(** The whole object around [clustered]. *)
Definition whole : ostate Q :=
  mk_ostate (mk_object (this clustered) [[100000; 200000; 700000]] [] [] []) [].

(** A branch that no method reads. *)
Definition unread : branch Q := IntArrays [[1]].

(** The tree 'ana/neutron' with one event of three deposits. *)
Definition neutron_tree : pydict (branch Q) :=
  [ ("event_id", IntBranch [0]);
    ("neutron_ids", unread);
    ("neutron_capture_x", unread);
    ("neutron_capture_y", unread);
    ("neutron_capture_z", unread);
    ("gamma_ids", unread);
    ("gamma_neutron_ids", unread);
    ("gamma_energy", unread);
    ("edep_energy", EnergyArrays [[1; 2; 3]%Q]);
    ("edep_parent", unread);
    ("edep_neutron_ids", IntArrays [[5; 5; 8]]);
    ("edep_gamma_ids", IntArrays [[1; 2; 3]]);
    ("edep_x", FloatArrays [[- (1); 1; 2]%Q]);
    ("edep_y", FloatArrays [[0; 0; 0]%Q]);
    ("edep_z", FloatArrays [[0; 0; 0]%Q]);
    ("electron_ids", unread);
    ("electron_neutron_ids", unread);
    ("electron_gamma_ids", unread);
    ("electron_energy", unread);
    ("edep_num_electrons", IntArrays [[100000; 200000; 700000]]) ].

(** The same tree without the array 'gamma_energy', which no method
    reads. *)
Definition without_gamma_energy : pydict (branch Q) :=
  List.filter (fun kv => negb (String.eqb (fst kv) "gamma_energy")) neutron_tree.

(** The tree of a file without events. *)
Definition no_events : pydict (branch Q) :=
  map (fun kv => (fst kv,
                  match snd kv with
                  | IntBranch _ => IntBranch []
                  | IntArrays _ => IntArrays []
                  | FloatArrays _ => FloatArrays []
                  | EnergyArrays _ => EnergyArrays []
                  end)) neutron_tree.

Definition geometry_tree : pydict (branch Q) :=
  [ ("total_active_tpc_box_ranges", FloatArrays [[0; 1; 0; 3; 0; 2]%Q]);
    ("cryostat_box_ranges", FloatArrays [[- (1); 2; - (1); 4; - (1); 3]%Q]) ].

Definition file_with (events : result (pydict (branch Q))) : root_file Q :=
  {| file_repr := "<ReadOnlyDirectory '/'>";
     file_arrays := fun name =>
       if String.eqb name "ana/meta" then Ok []
       else if String.eqb name "ana/Geometry" then Ok geometry_tree
       else if String.eqb name "ana/neutron" then events
       else Raise (KeyError name) |}.

(** A directory with four files. *)
Definition disk : Uproot Q :=
  {| uproot_open := fun path =>
       if String.eqb path "neutrons.root" then Ok (file_with (Ok neutron_tree))
       else if String.eqb path "no_gamma_energy.root"
            then Ok (file_with (Ok without_gamma_energy))
       else if String.eqb path "no_events.root" then Ok (file_with (Ok no_events))
       else if String.eqb path "no_tree.root"
            then Ok (file_with (Raise (KeyError "ana/neutron")))
       else Raise (LibraryError "FileNotFoundError") |}.

(** A stand-in for the fit: like SciPy it refuses fewer data points than
    the two parameters. *)
Definition scipy_optimize : ScipyOptimize :=
  {| curve_fit := fun xdata ydata =>
       if (length xdata <? 2)%nat then Raise (LibraryError "TypeError")
       else Ok (1%Q, 0%Q) |}.
End Sample.

(** ** What the further properties speak of *)

(** The labels of the events that [est] fits before its first failure, and
    that failure when there is one. *)
Fixpoint fit_prefix (est : estimator) (positions : list (list point))
  : list (list Z) * option exn :=
  match positions with
  | [] => ([], None)
  | pos :: rest =>
      match est pos with
      | Ok labels => (labels :: fst (fit_prefix est rest), snd (fit_prefix est rest))
      | Raise e => ([], Some e)
      end
  end.

(** The messages of the two guards on the predictions. *)
Definition no_predictions : string :=
  "No predictions have been made, need to run clustering algorithm first!".

Definition only_predictions (n m : nat) : string :=
  "Only " +:+ pretty n +:+ " predictions but " +:+ pretty m +:+ " events!".

Definition predictions_message {E} (i : instance E) : string :=
  match cluster_predictions i with
  | [] => no_predictions
  | _ => only_predictions (length (cluster_predictions i)) (num_events i)
  end.

(** The truth labels that [calc_scores] compares with, for an argument
    [level]. *)
Definition truth_labels {E} (level : string) (i : instance E) : list (list Z) :=
  if String.eqb (if str_in level levels then level else "neutron") "neutron"
  then edep_neutron_ids i else edep_gamma_ids i.

(** The six metric values of one event, in the order of the calls. *)
Definition event_scores `{SklearnMetrics} (truth : list Z) (pos : list point)
    (pred : list Z) : result (scores Q) :=
  result_bind (homogeneity_score truth pred) (fun h =>
  result_bind (completeness_score truth pred) (fun c =>
  result_bind (v_measure_score truth pred) (fun v =>
  result_bind (adjusted_rand_score truth pred) (fun a =>
  result_bind (adjusted_mutual_info_score truth pred) (fun m =>
  result_bind (silhouette_score pos pred) (fun s =>
  Ok (mk_scores h c v a m s))))))).

(** [per] holds, event by event, the metric values of the predictions
    [preds] against the truth [labels] and the [positions]. *)
Inductive scored `{SklearnMetrics}
  : list (list Z) -> list (list point) -> list (list Z) -> list (scores Q) -> Prop :=
| scored_nil : scored [] [] [] []
| scored_cons truth pos pred sc labels positions preds per :
    event_scores truth pos pred = Ok sc ->
    scored labels positions preds per ->
    scored (truth :: labels) (pos :: positions) (pred :: preds) (sc :: per).

Definition append_scores (cs : scores (list Q)) (sc : scores Q) : scores (list Q) :=
  mk_scores (homogeneity cs ++ [homogeneity sc]) (completeness cs ++ [completeness sc])
    (v_measure cs ++ [v_measure sc]) (adjusted_rand_index cs ++ [adjusted_rand_index sc])
    (adjusted_mutual_info cs ++ [adjusted_mutual_info sc]) (silhouette cs ++ [silhouette sc]).

(** The six lists of values, one entry per event. *)
Definition score_lists (per : list (scores Q)) : scores (list Q) :=
  mk_scores (map homogeneity per) (map completeness per) (map v_measure per)
    (map adjusted_rand_index per) (map adjusted_mutual_info per) (map silhouette per).

(** The six averages over [n] events. *)
Definition score_averages `{PyFloat} (cs : scores (list Q)) (n : nat) : scores Q :=
  let avg := fun l => rnd (sum_float l / float_of_int (Z.of_nat n)) in
  mk_scores (avg (homogeneity cs)) (avg (completeness cs)) (avg (v_measure cs))
    (avg (adjusted_rand_index cs)) (avg (adjusted_mutual_info cs)) (avg (silhouette cs)).

(** A computation on the world that leaves the files alone. *)
Definition keeps_files {E A} (m : M (world E) A) : Prop :=
  forall w : world E, files (snd (m w)) = files w.

(** A computation that writes the file [name] when it returns and no file
    when it raises. *)
Definition writes_on_return {E A} (name : string) (m : M (world E) A) : Prop :=
  forall w : world E,
    match fst (m w) with
    | Ok _ => exists table, files (snd (m w)) = <[name := table]> (files w)
    | Raise _ => files (snd (m w)) = files w
    end.

(** * Properties *)

(** ** The monad and the loops *)

Lemma sum_int_from (l : list Z) (a : Z) : fold_left Z.add l a = a + sum_int l.
Proof.
  unfold sum_int. revert a.
  induction l as [|x l IH]; intros a; cbn [fold_left]; [lia|].
  rewrite (IH (a + x)), (IH (0 + x)). lia.
Qed.

Lemma sum_int_app (l1 l2 : list Z) : sum_int (l1 ++ l2) = sum_int l1 + sum_int l2.
Proof. unfold sum_int at 1. rewrite fold_left_app. apply sum_int_from. Qed.

Lemma sum_int_cons (x : Z) (l : list Z) : sum_int (x :: l) = x + sum_int l.
Proof. apply (sum_int_app [x] l). Qed.

(** ** [np.unique]: the distinct values *)

Lemma insert_unique_In (v x : Z) (l : list Z) :
  In x (insert_unique v l) <-> x = v \/ In x l.
Proof.
  induction l as [|h t IH]; simpl.
  - intuition.
  - destruct (Z.ltb_spec v h); [simpl; intuition|].
    destruct (Z.eqb_spec v h); simpl; [subst; intuition|].
    rewrite IH. intuition.
Qed.

Lemma insert_unique_sorted (v : Z) (l : list Z) :
  StronglySorted Z.lt l -> StronglySorted Z.lt (insert_unique v l).
Proof.
  induction 1 as [|h t Hs IH Hall]; simpl.
  - repeat constructor.
  - destruct (Z.ltb_spec v h).
    + constructor; [now constructor|].
      constructor; [assumption|].
      rewrite List.Forall_forall in *. intros x Hx. specialize (Hall x Hx). lia.
    + destruct (Z.eqb_spec v h); [now constructor|].
      constructor; [assumption|].
      rewrite List.Forall_forall in *. intros x Hx.
      apply insert_unique_In in Hx as [->|Hx]; [lia|auto].
Qed.

Lemma np_unique_sorted (a : list Z) : StronglySorted Z.lt (np_unique a).
Proof.
  induction a; simpl; [constructor|now apply insert_unique_sorted].
Qed.

Lemma np_unique_In (a : list Z) (x : Z) : In x (np_unique a) <-> In x a.
Proof.
  induction a as [|v a IH]; simpl; [tauto|].
  rewrite insert_unique_In, IH. intuition.
Qed.

Lemma np_unique_NoDup (a : list Z) : List.NoDup (np_unique a).
Proof.
  pose proof (np_unique_sorted a) as Hs.
  induction Hs as [|h t Hs IH Hall]; constructor; [|assumption].
  intros Hin. rewrite List.Forall_forall in Hall. specialize (Hall _ Hin). lia.
Qed.

(** ** Rounding to an integer *)

Lemma pyround_bounds (a b : Z) (x : Q) :
  (inject_Z a <= x)%Q -> (x <= inject_Z b)%Q -> a <= pyround x <= b.
Proof.
  intros Ha Hb.
  assert (Hfa : a <= Qfloor x).
  { rewrite <- (Qfloor_Z a). now apply Qfloor_resp_le. }
  assert (Hfb : Qfloor x <= b).
  { rewrite <- (Qfloor_Z b). now apply Qfloor_resp_le. }
  assert (Hstep : (1 # 2 <= x - inject_Z (Qfloor x))%Q -> Qfloor x + 1 <= b).
  { intros Hhalf.
    destruct (Z.eq_dec (Qfloor x) b) as [Heq|Hne]; [|lia].
    rewrite Heq in Hhalf. lra. }
  unfold pyround.
  destruct (Qcompare_spec (x - inject_Z (Qfloor x)) (1 # 2)) as [Heq|Hlt|Hgt].
  - destruct (Z.even (Qfloor x)); [lia|].
    assert (Qfloor x + 1 <= b) by (apply Hstep; lra). lia.
  - lia.
  - assert (Qfloor x + 1 <= b) by (apply Hstep; lra). lia.
Qed.

Lemma pyround_int (n : Z) (x : Q) : (x == inject_Z n)%Q -> pyround x = n.
Proof.
  intros Hx.
  assert (a : n <= pyround x <= n) by (apply pyround_bounds; lra).
  lia.
Qed.

Lemma pyround_proper (a b : Q) : (a == b)%Q -> pyround a = pyround b.
Proof.
  intros Hab. unfold pyround.
  rewrite (Qfloor_comp a b Hab).
  assert (Hc : ((a - inject_Z (Qfloor b)) ?= (1 # 2))%Q
               = ((b - inject_Z (Qfloor b)) ?= (1 # 2))%Q).
  { apply Qcompare_comp; [|reflexivity]. rewrite Hab. reflexivity. }
  now rewrite Hc.
Qed.

(** ** Rounding to binary64 *)

Lemma Qpow2_pos (e : Z) : (0 < Qpow2 e)%Q.
Proof. apply Qpower_0_lt. reflexivity. Qed.

Lemma Qpow2_add (a b : Z) : (Qpow2 (a + b) == Qpow2 a * Qpow2 b)%Q.
Proof. apply Qpower_plus. discriminate. Qed.

Lemma Qpow2_le (a b : Z) : a <= b -> (Qpow2 a <= Qpow2 b)%Q.
Proof. intros Hab. apply Qpower_le_compat_l; [exact Hab|discriminate]. Qed.

Lemma Qpow2_int (k : Z) : 0 <= k -> (Qpow2 k == inject_Z (2 ^ k))%Q.
Proof. intros Hk. unfold Qpow2. now rewrite (Zpower_Qpower 2 k Hk). Qed.

Lemma Qabs_frac (q : Q) : (Qabs q == inject_Z (Z.abs (Qnum q)) / inject_Z (Zpos (Qden q)))%Q.
Proof.
  destruct q as [n d]. unfold Qabs. cbn [Qnum Qden].
  rewrite (Qmake_Qdiv (Z.abs n) d). reflexivity.
Qed.

Lemma ilog2_spec (q : Q) :
  ~ (q == 0)%Q ->
  (Qpow2 (ilog2 q) <= Qabs q)%Q /\ (Qabs q < Qpow2 (ilog2 q + 1))%Q.
Proof.
  intros Hq.
  set (n := Z.abs (Qnum q)). set (d := Zpos (Qden q)).
  assert (Hn : 0 < n).
  { unfold n. destruct q as [qn qd]. unfold Qeq in Hq. cbn in *. lia. }
  assert (Hd : 0 < d) by (unfold d; lia).
  destruct (Z.log2_spec n Hn) as [Hn1 Hn2].
  destruct (Z.log2_spec d Hd) as [Hd1 Hd2].
  set (a := Z.log2 n) in *. set (b := Z.log2 d) in *.
  assert (Ha : 0 <= a) by apply Z.log2_nonneg.
  assert (Hb : 0 <= b) by apply Z.log2_nonneg.
  assert (Habs : (Qabs q == inject_Z n / inject_Z d)%Q) by apply Qabs_frac.
  assert (Hdq : (0 < inject_Z d)%Q) by (change 0%Q with (inject_Z 0); rewrite <- Zlt_Qlt; lia).
  assert (Hn1q : (Qpow2 a <= inject_Z n)%Q).
  { rewrite (Qpow2_int a Ha). rewrite <- Zle_Qle. exact Hn1. }
  assert (Hn2q : (inject_Z n < Qpow2 (a + 1))%Q).
  { rewrite (Qpow2_int (a + 1)) by lia. rewrite <- Zlt_Qlt. replace (a + 1) with (Z.succ a) by lia. exact Hn2. }
  assert (Hd1q : (Qpow2 b <= inject_Z d)%Q).
  { rewrite (Qpow2_int b Hb). rewrite <- Zle_Qle. exact Hd1. }
  assert (Hd2q : (inject_Z d < Qpow2 (b + 1))%Q).
  { rewrite (Qpow2_int (b + 1)) by lia. rewrite <- Zlt_Qlt. replace (b + 1) with (Z.succ b) by lia. exact Hd2. }
  assert (Hup : (Qabs q < Qpow2 (a - b + 1))%Q).
  { rewrite Habs. apply Qlt_shift_div_r; [exact Hdq|].
    pose proof (Qpow2_pos (a - b + 1)) as Hp.
    assert (Heq : (Qpow2 (a + 1) == Qpow2 (a - b + 1) * Qpow2 b)%Q).
    { rewrite <- Qpow2_add. replace (a - b + 1 + b) with (a + 1) by lia. reflexivity. }
    pose proof (Qpow2_pos b). nra. }
  assert (Hlow : (Qpow2 (a - b - 1) <= Qabs q)%Q).
  { rewrite Habs. apply Qle_shift_div_l; [exact Hdq|].
    pose proof (Qpow2_pos (a - b - 1)) as Hp.
    assert (Heq : (Qpow2 a == Qpow2 (a - b - 1) * Qpow2 (b + 1))%Q).
    { rewrite <- Qpow2_add. replace (a - b - 1 + (b + 1)) with a by lia. reflexivity. }
    nra. }
  unfold ilog2. fold n d a b.
  destruct (Qle_bool (Qpow2 (a - b)) (Qabs q)) eqn:Htest.
  - apply Qle_bool_iff in Htest. split; assumption.
  - assert (Hlt : (Qabs q < Qpow2 (a - b))%Q).
    { apply Qnot_le_lt. intros Hle. apply Qle_bool_iff in Hle. congruence. }
    replace (a - b - 1 + 1) with (a - b) by lia. split; assumption.
Qed.

Lemma ilog2_unique (q : Q) (e : Z) :
  (Qpow2 e <= Qabs q)%Q -> (Qabs q < Qpow2 (e + 1))%Q -> ilog2 q = e.
Proof.
  intros Hlow Hup.
  assert (Hq : ~ (q == 0)%Q).
  { intros Hq. rewrite Hq in Hlow. pose proof (Qpow2_pos e).
    change (Qabs 0) with 0%Q in Hlow. lra. }
  destruct (ilog2_spec q Hq) as [Hl Hu].
  destruct (Z.lt_trichotomy (ilog2 q) e) as [Hlt|[Heq|Hgt]]; [|exact Heq|].
  - pose proof (Qpow2_le (ilog2 q + 1) e ltac:(lia)). lra.
  - pose proof (Qpow2_le (e + 1) (ilog2 q) ltac:(lia)). lra.
Qed.

Lemma Qfloor_unique (x : Q) (z : Z) :
  (inject_Z z <= x)%Q -> (x < inject_Z (z + 1))%Q -> Qfloor x = z.
Proof.
  intros Hlow Hup.
  pose proof (Qfloor_le x) as Hf1. pose proof (Qlt_floor x) as Hf2.
  assert (H1 : (inject_Z z < inject_Z (Qfloor x + 1))%Q) by lra.
  assert (H2 : (inject_Z (Qfloor x) < inject_Z (z + 1))%Q) by lra.
  rewrite <- Zlt_Qlt in H1, H2. lia.
Qed.

(** The fractional part lies in [0, 1). *)
Lemma Qfloor_frac (x : Q) :
  (0 <= x - inject_Z (Qfloor x))%Q /\ (x - inject_Z (Qfloor x) < 1)%Q.
Proof.
  pose proof (Qfloor_le x). pose proof (Qlt_floor x) as Hlt.
  rewrite inject_Z_plus in Hlt. change (inject_Z 1) with 1%Q in Hlt. split; lra.
Qed.

Lemma pyround_mono (x y : Q) : (x <= y)%Q -> pyround x <= pyround y.
Proof.
  intros Hxy. pose proof (Qfloor_resp_le x y Hxy) as Hf.
  destruct (Qfloor_frac x) as [Hx0 Hx1]. destruct (Qfloor_frac y) as [Hy0 Hy1].
  destruct (Z.eq_dec (Qfloor x) (Qfloor y)) as [Heq|Hne].
  - unfold pyround. rewrite <- Heq in *.
    destruct (Qcompare_spec (x - inject_Z (Qfloor x)) (1 # 2)),
             (Qcompare_spec (y - inject_Z (Qfloor x)) (1 # 2));
      destruct (Z.even (Qfloor x)); try lia; lra.
  - assert (pyround x <= Qfloor x + 1).
    { unfold pyround. destruct (Qcompare _ _); [destruct (Z.even _)| |]; lia. }
    assert (Qfloor y <= pyround y).
    { unfold pyround. destruct (Qcompare _ _); [destruct (Z.even _)| |]; lia. }
    lia.
Qed.

Lemma pyround_opp (x : Q) : pyround (- x) = - pyround x.
Proof.
  destruct (Qfloor_frac x) as [H0 H1].
  destruct (Qeq_dec (x - inject_Z (Qfloor x)) 0) as [Hint|Hfrac].
  - assert (Hx : (x == inject_Z (Qfloor x))%Q) by lra.
    rewrite (pyround_int (Qfloor x) x Hx).
    apply pyround_int. rewrite inject_Z_opp. lra.
  - assert (Hinj : (inject_Z (- Qfloor x - 1) == - inject_Z (Qfloor x) - 1)%Q).
    { unfold Z.sub. rewrite inject_Z_plus, inject_Z_opp. reflexivity. }
    assert (Hfl : Qfloor (- x) = - Qfloor x - 1).
    { apply Qfloor_unique.
      - rewrite Hinj. lra.
      - replace (- Qfloor x - 1 + 1) with (- Qfloor x) by lia. rewrite inject_Z_opp. lra. }
    unfold pyround. rewrite Hfl.
    assert (Hev : Z.even (- Qfloor x - 1) = negb (Z.even (Qfloor x))).
    { rewrite Z.even_sub, Z.even_opp. destruct (Z.even (Qfloor x)); reflexivity. }
    rewrite Hev.
    destruct (Qcompare_spec (x - inject_Z (Qfloor x)) (1 # 2)),
             (Qcompare_spec (- x - inject_Z (- Qfloor x - 1)) (1 # 2));
      try (exfalso; lra); destruct (Z.even (Qfloor x)); cbn [negb]; lia.
Qed.

Lemma ilog2_proper (a b : Q) : (Qabs a == Qabs b)%Q -> ~ (a == 0)%Q -> ilog2 b = ilog2 a.
Proof.
  intros Hab Ha. destruct (ilog2_spec a Ha) as [Hl Hu].
  apply ilog2_unique; rewrite <- Hab; assumption.
Qed.

Lemma Qabs_zero (q : Q) : (Qabs q == 0)%Q -> (q == 0)%Q.
Proof.
  intros Hq. pose proof (proj1 (Qabs_Qle_condition q 0)) as Hc.
  destruct Hc as [H1 H2]; [rewrite Hq; lra|]. lra.
Qed.

Lemma ilog2_mono (a b : Q) :
  ~ (a == 0)%Q -> (Qabs a <= Qabs b)%Q -> ilog2 a <= ilog2 b.
Proof.
  intros Ha Hab.
  assert (Hb : ~ (b == 0)%Q).
  { intros Hb. rewrite Hb in Hab.
    apply Ha, Qabs_zero. pose proof (Qabs_nonneg a). change (Qabs 0) with 0%Q in Hab. lra. }
  destruct (ilog2_spec a Ha) as [Hl _]. destruct (ilog2_spec b Hb) as [_ Hu].
  assert (Hlt : (Qpow2 (ilog2 a) < Qpow2 (ilog2 b + 1))%Q) by lra.
  apply Qpower_lt_compat_l_inv in Hlt; [lia|reflexivity].
Qed.

Lemma exponent_proper (a b : Q) :
  (Qabs a == Qabs b)%Q -> ~ (a == 0)%Q -> binary64_exponent b = binary64_exponent a.
Proof. intros Hab Ha. unfold binary64_exponent. now rewrite (ilog2_proper a b Hab Ha). Qed.

Lemma round_binary64_zero (q : Q) : (q == 0)%Q -> round_binary64 q = 0%Q.
Proof.
  intros Hq. unfold round_binary64.
  now rewrite (proj2 (Qeq_bool_iff q 0) Hq).
Qed.

Lemma round_binary64_value (q : Q) :
  ~ (q == 0)%Q ->
  round_binary64 q
  = Qred (inject_Z (pyround (q / Qpow2 (binary64_exponent q)))
          * Qpow2 (binary64_exponent q)).
Proof.
  intros Hq. unfold round_binary64.
  destruct (Qeq_bool q 0) eqn:Hz; [|reflexivity].
  apply Qeq_bool_iff in Hz. contradiction.
Qed.

Lemma round_binary64_proper (a b : Q) : (a == b)%Q -> round_binary64 a = round_binary64 b.
Proof.
  intros Hab. destruct (Qeq_dec a 0) as [Ha|Ha].
  - rewrite (round_binary64_zero a Ha), (round_binary64_zero b); [reflexivity|].
    now rewrite <- Hab.
  - assert (Hb : ~ (b == 0)%Q) by now rewrite <- Hab.
    rewrite (round_binary64_value a Ha), (round_binary64_value b Hb).
    assert (Habs : (Qabs a == Qabs b)%Q) by (rewrite Hab; reflexivity).
    rewrite (exponent_proper a b Habs Ha).
    apply Qred_complete.
    generalize (binary64_exponent a). intros e.
    assert (Hdiv : (b / Qpow2 e == a / Qpow2 e)%Q) by (rewrite Hab; reflexivity).
    rewrite (pyround_proper _ _ Hdiv). reflexivity.
Qed.

Lemma round_binary64_opp (q : Q) : (round_binary64 (- q) == - round_binary64 q)%Q.
Proof.
  destruct (Qeq_dec q 0) as [Hq|Hq].
  - rewrite (round_binary64_zero q Hq), (round_binary64_zero (- q)); [reflexivity|].
    rewrite Hq. reflexivity.
  - assert (Hq' : ~ (- q == 0)%Q) by (intros H; apply Hq; lra).
    rewrite (round_binary64_value q Hq), (round_binary64_value (- q) Hq').
    assert (Habs : (Qabs q == Qabs (- q))%Q) by (rewrite Qabs_opp; reflexivity).
    rewrite (exponent_proper q (- q) Habs Hq).
    rewrite !Qred_correct.
    pose proof (Qpow2_pos (binary64_exponent q)) as Hp.
    rewrite (pyround_proper (- q / Qpow2 (binary64_exponent q))
                            (- (q / Qpow2 (binary64_exponent q)))).
    + rewrite pyround_opp, inject_Z_opp. ring.
    + field. lra.
Qed.

(** The scaled value has a mantissa below [2 ^ 53]. *)
Lemma scaled_below (q : Q) :
  ~ (q == 0)%Q ->
  (Qabs q < Qpow2 (binary64_exponent q + 53))%Q.
Proof.
  intros Hq. destruct (ilog2_spec q Hq) as [_ Hu].
  pose proof (Qpow2_le (ilog2 q + 1) (binary64_exponent q + 53)) as Hle.
  unfold binary64_exponent in *. specialize (Hle ltac:(lia)). lra.
Qed.

Lemma Qdiv_pow2_le (x y : Q) (e : Z) :
  (x <= y)%Q -> (x / Qpow2 e <= y / Qpow2 e)%Q.
Proof.
  intros Hxy. pose proof (Qpow2_pos e) as Hp.
  apply Qle_shift_div_l; [exact Hp|].
  assert (Heq : (x / Qpow2 e * Qpow2 e == x)%Q) by (field; lra).
  rewrite Heq. exact Hxy.
Qed.

Lemma Qdiv_pow2 (a e : Z) : (Qpow2 a / Qpow2 e == Qpow2 (a - e))%Q.
Proof.
  pose proof (Qpow2_pos e) as Hp.
  assert (Heq : (Qpow2 a == Qpow2 (a - e) * Qpow2 e)%Q).
  { rewrite <- Qpow2_add. replace (a - e + e) with a by lia. reflexivity. }
  rewrite Heq. field. lra.
Qed.

Lemma pyround_lower (a : Z) (x : Q) : (inject_Z a <= x)%Q -> a <= pyround x.
Proof.
  intros Ha. apply (pyround_bounds a (Qfloor x + 1)); [exact Ha|].
  apply Qlt_le_weak, Qlt_floor.
Qed.

Lemma pyround_upper (b : Z) (x : Q) : (x <= inject_Z b)%Q -> pyround x <= b.
Proof.
  intros Hb. apply (pyround_bounds (Qfloor x) b); [apply Qfloor_le|exact Hb].
Qed.

Lemma round_binary64_nonneg (q : Q) : (0 <= q)%Q -> (0 <= round_binary64 q)%Q.
Proof.
  intros Hq. destruct (Qeq_dec q 0) as [Hz|Hz].
  - rewrite (round_binary64_zero q Hz). lra.
  - rewrite (round_binary64_value q Hz), Qred_correct.
    pose proof (Qpow2_pos (binary64_exponent q)) as Hp.
    assert (Hm : 0 <= pyround (q / Qpow2 (binary64_exponent q))).
    { apply pyround_lower. change (inject_Z 0) with 0%Q.
      apply Qle_shift_div_l; [exact Hp|]. lra. }
    assert (Hmq : (0 <= inject_Z (pyround (q / Qpow2 (binary64_exponent q))))%Q).
    { change 0%Q with (inject_Z 0). rewrite <- Zle_Qle. exact Hm. }
    nra.
Qed.

Lemma Qabs_pos_eq (q : Q) : (0 < q)%Q -> (Qabs q == q)%Q.
Proof. intros Hq. apply Qabs_pos. lra. Qed.

Lemma exponent_mono (x y : Q) :
  (0 < x)%Q -> (x <= y)%Q -> binary64_exponent x <= binary64_exponent y.
Proof.
  intros Hx Hxy. unfold binary64_exponent.
  assert (ilog2 x <= ilog2 y).
  { apply ilog2_mono; [lra|]. rewrite !Qabs_pos_eq; lra. }
  lia.
Qed.

Lemma round_binary64_mono_pos (x y : Q) :
  (0 < x)%Q -> (x <= y)%Q -> (round_binary64 x <= round_binary64 y)%Q.
Proof.
  intros Hx Hxy.
  assert (Hx0 : ~ (x == 0)%Q) by lra. assert (Hy0 : ~ (y == 0)%Q) by lra.
  rewrite (round_binary64_value x Hx0), (round_binary64_value y Hy0), !Qred_correct.
  pose proof (exponent_mono x y Hx Hxy) as He.
  set (ex := binary64_exponent x) in *. set (ey := binary64_exponent y) in *.
  pose proof (Qpow2_pos ex) as Hpx. pose proof (Qpow2_pos ey) as Hpy.
  destruct (Z.eq_dec ex ey) as [Heq|Hne].
  - rewrite <- Heq.
    pose proof (pyround_mono _ _ (Qdiv_pow2_le x y ex Hxy)) as Hm.
    rewrite Zle_Qle in Hm. nra.
  - assert (Hey : ey = ilog2 y - 52).
    { unfold ey, ex, binary64_exponent in *. lia. }
    set (B := Qpow2 (ey + 52)).
    assert (HyB : (B <= y)%Q).
    { destruct (ilog2_spec y Hy0) as [Hl _]. rewrite Qabs_pos_eq in Hl by lra.
      unfold B. replace (ey + 52) with (ilog2 y) by lia. exact Hl. }
    assert (HxB : (x <= B)%Q).
    { pose proof (scaled_below x Hx0) as Hs. rewrite Qabs_pos_eq in Hs by lra.
      fold ex in Hs. pose proof (Qpow2_le (ex + 53) (ey + 52) ltac:(lia)). unfold B. lra. }
    assert (Hry : (B <= inject_Z (pyround (y / Qpow2 ey)) * Qpow2 ey)%Q).
    { assert (Hm : 2 ^ 52 <= pyround (y / Qpow2 ey)).
      { apply pyround_lower.
        assert (Hdiv : (Qpow2 (ey + 52) / Qpow2 ey == inject_Z (2 ^ 52))%Q).
        { rewrite Qdiv_pow2. replace (ey + 52 - ey) with 52 by lia. apply Qpow2_int. lia. }
        rewrite <- Hdiv. apply Qdiv_pow2_le. exact HyB. }
      rewrite Zle_Qle in Hm. rewrite <- (Qpow2_int 52) in Hm by lia.
      assert (HB : (B == Qpow2 52 * Qpow2 ey)%Q).
      { unfold B. rewrite <- Qpow2_add. replace (52 + ey) with (ey + 52) by lia. reflexivity. }
      rewrite HB. nra. }
    assert (Hrx : (inject_Z (pyround (x / Qpow2 ex)) * Qpow2 ex <= B)%Q).
    { assert (Hk : 0 <= ey + 52 - ex) by lia.
      assert (Hm : pyround (x / Qpow2 ex) <= 2 ^ (ey + 52 - ex)).
      { apply pyround_upper. rewrite <- (Qpow2_int _ Hk).
        rewrite <- (Qdiv_pow2 (ey + 52) ex). apply Qdiv_pow2_le. exact HxB. }
      rewrite Zle_Qle in Hm. rewrite <- (Qpow2_int _ Hk) in Hm.
      assert (HB : (B == Qpow2 (ey + 52 - ex) * Qpow2 ex)%Q).
      { unfold B. rewrite <- Qpow2_add. replace (ey + 52 - ex + ex) with (ey + 52) by lia.
        reflexivity. }
      rewrite HB. nra. }
    lra.
Qed.

Lemma round_binary64_mono (x y : Q) : (x <= y)%Q -> (round_binary64 x <= round_binary64 y)%Q.
Proof.
  intros Hxy.
  destruct (Qlt_le_dec 0 x) as [Hx|Hx].
  - now apply round_binary64_mono_pos.
  - destruct (Qlt_le_dec y 0) as [Hy|Hy].
    + assert (H := round_binary64_mono_pos (- y) (- x) ltac:(lra) ltac:(lra)).
      rewrite !round_binary64_opp in H. lra.
    + assert (H1 := round_binary64_nonneg y Hy).
      assert (H2 := round_binary64_nonneg (- x) ltac:(lra)).
      rewrite round_binary64_opp in H2. lra.
Qed.

Lemma Qabs_scaled (m e : Z) : (Qabs (inject_Z m * Qpow2 e) == inject_Z (Z.abs m) * Qpow2 e)%Q.
Proof.
  pose proof (Qpow2_pos e) as Hp.
  rewrite Qabs_Qmult, (Qabs_pos (Qpow2 e)) by lra.
  assert (Hm : (Qabs (inject_Z m) == inject_Z (Z.abs m))%Q).
  { unfold Qabs, inject_Z. reflexivity. }
  rewrite Hm. reflexivity.
Qed.

Lemma round_binary64_fix (m e : Z) :
  Z.abs m < 2 ^ 53 -> -1074 <= e ->
  (round_binary64 (inject_Z m * Qpow2 e) == inject_Z m * Qpow2 e)%Q.
Proof.
  intros Hm He. pose proof (Qpow2_pos e) as Hp.
  destruct (Z.eq_dec m 0) as [->|Hm0].
  - rewrite round_binary64_zero; [ring|]. ring.
  - set (q := (inject_Z m * Qpow2 e)%Q).
    assert (Habs : (Qabs q == inject_Z (Z.abs m) * Qpow2 e)%Q) by apply Qabs_scaled.
    assert (Hmq : (1 <= inject_Z (Z.abs m))%Q).
    { change 1%Q with (inject_Z 1). rewrite <- Zle_Qle. lia. }
    assert (Hmq' : (inject_Z (Z.abs m) < Qpow2 53)%Q).
    { rewrite (Qpow2_int 53) by lia. rewrite <- Zlt_Qlt. exact Hm. }
    assert (Hq : ~ (q == 0)%Q).
    { intros Hz. rewrite Hz in Habs. change (Qabs 0) with 0%Q in Habs. nra. }
    assert (Hlog : ilog2 q < 53 + e).
    { destruct (ilog2_spec q Hq) as [Hl _].
      assert (Hlt : (Qpow2 (ilog2 q) < Qpow2 (53 + e))%Q).
      { rewrite (Qpow2_add 53 e). rewrite Habs in Hl. nra. }
      apply Qpower_lt_compat_l_inv in Hlt; [exact Hlt|reflexivity]. }
    rewrite (round_binary64_value q Hq), Qred_correct.
    set (eq := binary64_exponent q).
    assert (Heq : eq <= e) by (unfold eq, binary64_exponent; lia).
    pose proof (Qpow2_pos eq) as Hpq.
    assert (Hsplit : (Qpow2 e == Qpow2 (e - eq) * Qpow2 eq)%Q).
    { rewrite <- Qpow2_add. replace (e - eq + eq) with e by lia. reflexivity. }
    assert (Hscaled : (q / Qpow2 eq == inject_Z (m * 2 ^ (e - eq)))%Q).
    { rewrite inject_Z_mult, <- (Qpow2_int (e - eq)) by lia.
      unfold q. rewrite Hsplit. field. lra. }
    rewrite (pyround_int _ _ Hscaled).
    rewrite inject_Z_mult, <- (Qpow2_int (e - eq)) by lia.
    unfold q. rewrite Hsplit. ring.
Qed.

Lemma round_binary64_fix_le (m e : Z) :
  Z.abs m <= 2 ^ 53 -> -1074 <= e ->
  (round_binary64 (inject_Z m * Qpow2 e) == inject_Z m * Qpow2 e)%Q.
Proof.
  intros Hm He.
  destruct (Z.eq_dec (Z.abs m) (2 ^ 53)) as [Htop|Hlt].
  - assert (Hhalf : (inject_Z m * Qpow2 e == inject_Z (m / 2) * Qpow2 (e + 1))%Q).
    { assert (Hm2 : m = 2 * (m / 2)).
      { assert (Hcase : m = 2 ^ 53 \/ m = - 2 ^ 53) by lia.
        destruct Hcase as [-> | ->]; reflexivity. }
      rewrite Hm2 at 1. rewrite inject_Z_mult, (Qpow2_add e 1).
      change (Qpow2 1) with 2%Q. change (inject_Z 2) with 2%Q. ring. }
    rewrite (round_binary64_proper _ _ Hhalf), Hhalf.
    apply round_binary64_fix; [|lia].
    assert (Hcase : m = 2 ^ 53 \/ m = - 2 ^ 53) by lia.
    destruct Hcase as [-> | ->]; reflexivity.
  - apply round_binary64_fix; lia.
Qed.

Lemma round_binary64_repr (q : Q) :
  exists m e : Z,
    Z.abs m <= 2 ^ 53 /\ -1074 <= e /\ (round_binary64 q == inject_Z m * Qpow2 e)%Q.
Proof.
  destruct (Qeq_dec q 0) as [Hq|Hq].
  - exists 0, 0. rewrite (round_binary64_zero q Hq).
    split; [simpl; lia|]. split; [lia|]. ring.
  - exists (pyround (q / Qpow2 (binary64_exponent q))), (binary64_exponent q).
    split; [|split].
    + pose proof (scaled_below q Hq) as Hs.
      pose proof (Qpow2_pos (binary64_exponent q)) as Hp.
      rewrite (Qpow2_add (binary64_exponent q) 53) in Hs.
      apply Qabs_Qlt_condition in Hs.
      assert (Hb : - 2 ^ 53 <= pyround (q / Qpow2 (binary64_exponent q)) <= 2 ^ 53).
      { apply pyround_bounds.
        - rewrite inject_Z_opp, <- (Qpow2_int 53) by lia.
          apply Qle_shift_div_l; [exact Hp|]. lra.
        - rewrite <- (Qpow2_int 53) by lia.
          apply Qle_shift_div_r; [exact Hp|]. lra. }
      lia.
    + unfold binary64_exponent. lia.
    + rewrite (round_binary64_value q Hq), Qred_correct. reflexivity.
Qed.

Lemma round_binary64_idem (q : Q) : (round_binary64 (round_binary64 q) == round_binary64 q)%Q.
Proof.
  destruct (round_binary64_repr q) as (m & e & Hm & He & Hv).
  rewrite (round_binary64_proper _ _ Hv), Hv.
  now apply round_binary64_fix_le.
Qed.

Lemma round_binary64_int (n : Z) :
  Z.abs n <= 2 ^ 53 -> (round_binary64 (inject_Z n) == inject_Z n)%Q.
Proof.
  intros Hn.
  assert (Heq : (inject_Z n == inject_Z n * Qpow2 0)%Q) by (change (Qpow2 0) with 1%Q; ring).
  rewrite (round_binary64_proper _ _ Heq).
  transitivity (inject_Z n * Qpow2 0)%Q; [|symmetry; exact Heq].
  apply round_binary64_fix_le; [exact Hn|lia].
Qed.

Lemma binary64_laws : @PyFloatLaws binary64.
Proof.
  constructor; cbn [rnd binary64].
  - intros a b Hab. now rewrite (round_binary64_proper a b Hab).
  - apply round_binary64_mono.
  - apply round_binary64_idem.
  - intros n Hn. apply round_binary64_int. change (2 ^ 53) with 9007199254740992. lia.
Qed.

Section Percentage.
Context {fl : PyFloat} {fl_laws : PyFloatLaws}.

Lemma rnd_1 : (rnd 1 == 1)%Q.
Proof. apply (rnd_small_int 1). lia. Qed.

Lemma rnd_100 : (rnd 100 == 100)%Q.
Proof. apply (rnd_small_int 100). lia. Qed.

Lemma rnd_between (a b : Z) (x : Q) :
  -1000 <= a <= 1000 -> -1000 <= b <= 1000 ->
  (inject_Z a <= x)%Q -> (x <= inject_Z b)%Q ->
  (inject_Z a <= rnd x)%Q /\ (rnd x <= inject_Z b)%Q.
Proof.
  intros Ha Hb Hax Hxb. split.
  - rewrite <- (rnd_small_int a Ha). now apply rnd_mono.
  - rewrite <- (rnd_small_int b Hb). now apply rnd_mono.
Qed.

Lemma quotient_unit (c t : Z) :
  0 <= c <= t -> 0 < t -> (0 <= inject_Z c / inject_Z t)%Q /\ (inject_Z c / inject_Z t <= 1)%Q.
Proof.
  intros Hc Ht.
  assert (Ht' : (0 < inject_Z t)%Q) by (change 0%Q with (inject_Z 0); rewrite <- Zlt_Qlt; exact Ht).
  assert (Hc0 : (0 <= inject_Z c)%Q) by (change 0%Q with (inject_Z 0); rewrite <- Zle_Qle; lia).
  assert (Hct : (inject_Z c <= inject_Z t)%Q) by (rewrite <- Zle_Qle; lia).
  split.
  - apply Qle_shift_div_l; [assumption|]. lra.
  - apply Qle_shift_div_r; [assumption|]. lra.
Qed.

(** [round((c / t) * 100)] lies between 0 and 100 when [0 <= c <= t]. *)
Lemma percentage_bounds (c t : Z) :
  0 <= c <= t -> 0 < t ->
  0 <= pyround (fmul (rnd (inject_Z c / inject_Z t)) (float_of_int 100)) <= 100.
Proof.
  intros Hc Ht.
  destruct (quotient_unit c t Hc Ht) as [Hq0 Hq1].
  destruct (rnd_between 0 1 _ ltac:(lia) ltac:(lia) Hq0 Hq1) as [Hr0 Hr1].
  unfold fmul, float_of_int.
  pose proof rnd_100 as H100.
  apply pyround_bounds.
  - apply (rnd_between 0 100); [lia|lia| |].
    + change (inject_Z 0) with 0%Q in *. change (inject_Z 100) with 100%Q in *.
      change (inject_Z 1) with 1%Q in *. nra.
    + change (inject_Z 0) with 0%Q in *. change (inject_Z 100) with 100%Q in *.
      change (inject_Z 1) with 1%Q in *. nra.
  - apply (rnd_between 0 100); [lia|lia| |].
    + change (inject_Z 0) with 0%Q in *. change (inject_Z 100) with 100%Q in *.
      change (inject_Z 1) with 1%Q in *. nra.
    + change (inject_Z 0) with 0%Q in *. change (inject_Z 100) with 100%Q in *.
      change (inject_Z 1) with 1%Q in *. nra.
Qed.

(** ... and is 100 when [c = t]. *)
Lemma percentage_full (t : Z) :
  0 < t -> pyround (fmul (rnd (inject_Z t / inject_Z t)) (float_of_int 100)) = 100.
Proof.
  intros Ht.
  assert (Ht' : (0 < inject_Z t)%Q) by (change 0%Q with (inject_Z 0); rewrite <- Zlt_Qlt; exact Ht).
  assert (Hq : (inject_Z t / inject_Z t == 1)%Q) by (field; lra).
  assert (Hr : (rnd (inject_Z t / inject_Z t) == 1)%Q).
  { rewrite (rnd_proper _ _ Hq). apply rnd_1. }
  apply pyround_int. unfold fmul, float_of_int.
  rewrite <- rnd_100 at 2. apply rnd_proper.
  change (inject_Z 100) with 100%Q. rewrite Hr, rnd_100. lra.
Qed.
End Percentage.

(** ** The capture ratio *)

Lemma set_counters_twice {E} (a b a' b' : list Z) (i : instance E) :
  set_num_complete_captures a' (set_num_captures b'
    (set_num_complete_captures a (set_num_captures b i)))
  = set_num_complete_captures a' (set_num_captures b' i).
Proof. destruct i; reflexivity. Qed.

Lemma np_take_where {A} (c : Z) (truth : list Z) :
  forall (pre energies : list A),
    (length truth <= length energies)%nat ->
    np_take (pre ++ energies)
      (map fst (List.filter (fun p => snd p =? c) (enumerate_from (length pre) truth)))
    = Ok (map snd (List.filter (fun p => fst p =? c) (combine truth energies))).
Proof.
  induction truth as [|t truth IH]; intros pre energies Hlen; [reflexivity|].
  destruct energies as [|e energies]; [simpl in Hlen; lia|].
  simpl in Hlen.
  assert (Hnext : np_take (pre ++ e :: energies)
      (map fst (List.filter (fun p => snd p =? c) (enumerate_from (S (length pre)) truth)))
    = Ok (map snd (List.filter (fun p => fst p =? c) (combine truth energies)))).
  { specialize (IH (pre ++ [e]) energies ltac:(lia)).
    rewrite <- app_assoc in IH. simpl in IH.
    rewrite length_app in IH. simpl in IH.
    replace (length pre + 1)%nat with (S (length pre)) in IH by lia.
    exact IH. }
  cbn [enumerate_from combine List.filter fst snd].
  destruct (t =? c); [|exact Hnext].
  cbn [map fst snd np_take].
  unfold list_get. rewrite (list_lookup_middle pre energies e (length pre) eq_refl).
  cbn [result_bind]. rewrite Hnext. reflexivity.
Qed.

Section CaptureRatio.
Context {fl : PyFloat} {E : Type} {np : NumpyFloat E}.

Lemma count_capture_run (ii : nat) (truth : list Z) (energies : list E)
    (ct : Z * Z) (c : Z) (s : mstate E) :
  edep_energy (this s) !! ii = Some energies ->
  length truth = length energies ->
  count_capture ii truth ct c s
  = (Ok (if rounds_to_6_1 (np_sum (group_energies truth energies c))
         then fst ct + 1 else fst ct, snd ct + 1), s).
Proof.
  intros Hen Hlen. unfold count_capture, self, lift_result, mbind, list_get.
  rewrite Hen. unfold np_where_eq, enumerate.
  pose proof (np_take_where c truth [] energies ltac:(lia)) as Htake.
  cbn [length app] in Htake. cbn [fst snd]. rewrite Htake.
  unfold rounds_to_6_1, group_energies.
  destruct (np_eq_float _ _); reflexivity.
Qed.

Lemma count_loop_run (ii : nat) (truth : list Z) (energies : list E) (s : mstate E) :
  edep_energy (this s) !! ii = Some energies ->
  length truth = length energies ->
  forall (cs : list Z) (ct : Z * Z),
    for_fold cs ct (count_capture ii truth) s
    = (Ok (fst ct + Z.of_nat (length (List.filter
             (fun c => rounds_to_6_1 (np_sum (group_energies truth energies c))) cs)),
           snd ct + Z.of_nat (length cs)), s).
Proof.
  intros Hen Hlen. induction cs as [|c cs IH]; intros ct.
  - cbn. unfold mret. rewrite !Z.add_0_r. destruct ct; reflexivity.
  - cbn [for_fold]. unfold mbind at 1.
    rewrite (count_capture_run ii truth energies ct c s Hen Hlen).
    rewrite IH. cbn [List.filter length fst snd].
    destruct (rounds_to_6_1 _); cbn [fst snd length];
      rewrite ?Nat2Z.inj_succ; do 3 f_equal; lia.
Qed.

Lemma capture_event_run (ii : nat) (truth : list Z) (energies : list E) (s : mstate E) :
  edep_energy (this s) !! ii = Some energies ->
  length truth = length energies ->
  capture_event (ii, truth) s
  = (Ok tt,
     mk_mstate
       (set_num_complete_captures
          (num_complete_captures (this s) ++ [count_complete truth energies])
          (set_num_captures (num_captures (this s) ++ [count_groups truth]) (this s)))
       (log s)).
Proof.
  intros Hen Hlen. unfold capture_event. cbn [fst snd].
  unfold mbind at 1.
  rewrite (count_loop_run ii truth energies s Hen Hlen).
  unfold mbind, update_self, modify. cbn [fst snd this log].
  unfold count_complete, count_groups, np_sum.
  destruct s as [i lg]; destruct i; reflexivity.
Qed.

(** An event without deposits adds 0 to both counters and raises nothing,
    whatever the energy arrays hold. *)
Lemma capture_event_empty (ii : nat) (s : mstate E) :
  capture_event (ii, []) s
  = (Ok tt,
     mk_mstate
       (set_num_complete_captures (num_complete_captures (this s) ++ [0])
          (set_num_captures (num_captures (this s) ++ [0]) (this s)))
       (log s)).
Proof. destruct s as [i lg]; destruct i; reflexivity. Qed.

Lemma capture_loop_run (ids : list (list Z)) (ens : list (list E)) :
  Forall2 (fun truth energies => length truth = length energies) ids ens ->
  forall (k : nat) (s : mstate E),
    (forall j en, ens !! j = Some en -> edep_energy (this s) !! (k + j)%nat = Some en) ->
    for_each (enumerate_from k ids) capture_event s
    = (Ok tt,
       mk_mstate
         (set_num_complete_captures
            (num_complete_captures (this s) ++ zip_with count_complete ids ens)
            (set_num_captures (num_captures (this s) ++ map count_groups ids) (this s)))
         (log s)).
Proof.
  induction 1 as [|truth energies ids ens Hlen Hall IH]; intros k s Hlook.
  - simpl. unfold mret. rewrite !app_nil_r.
    destruct s as [i lg]; destruct i; reflexivity.
  - cbn [enumerate_from for_each]. unfold mbind at 1.
    rewrite (capture_event_run k truth energies s).
    + rewrite IH.
      * cbn [this log zip_with map]. rewrite set_counters_twice.
        destruct s as [i lg]; destruct i; cbn.
        rewrite <- !app_assoc. reflexivity.
      * intros j en Hj. cbn [this].
        replace (S k + j)%nat with (k + S j)%nat by lia.
        rewrite <- (Hlook (S j) en Hj).
        destruct s as [i lg]; destruct i; reflexivity.
    + rewrite <- (Hlook 0%nat energies eq_refl). f_equal. lia.
    + exact Hlen.
Qed.

Lemma count_complete_le (truth : list Z) (energies : list E) :
  0 <= count_complete truth energies <= count_groups truth.
Proof.
  unfold count_complete, count_groups.
  pose proof (List.filter_length_le
    (fun c => rounds_to_6_1 (fold_left np_add (group_energies truth energies c) (np_of_int 0)))
    (np_unique truth)).
  lia.
Qed.

Lemma sum_groups_nonneg (ids : list (list Z)) : 0 <= sum_int (map count_groups ids).
Proof.
  induction ids as [|truth ids IH]; [unfold sum_int; simpl; lia|].
  cbn [map]. rewrite sum_int_cons. unfold count_groups at 1. lia.
Qed.

Lemma sum_complete_le (ids : list (list Z)) (ens : list (list E)) :
  0 <= sum_int (zip_with count_complete ids ens) <= sum_int (map count_groups ids).
Proof.
  revert ens. induction ids as [|truth ids IH]; intros ens.
  - unfold sum_int. simpl. lia.
  - destruct ens as [|energies ens].
    + pose proof (sum_groups_nonneg (truth :: ids)).
      cbn [zip_with]. unfold sum_int at 1 2. cbn [fold_left]. lia.
    + cbn [zip_with map]. rewrite !sum_int_cons.
      specialize (IH ens). pose proof (count_complete_le truth energies). lia.
Qed.

(** The run of [calculate_capture_ratio] on parallel arrays. *)
Lemma calculate_capture_ratio_run (s : mstate E) :
  parallel_arrays (this s) ->
  let totals := map count_groups (edep_neutron_ids (this s)) in
  let completes := zip_with count_complete (edep_neutron_ids (this s)) (edep_energy (this s)) in
  let counted := set_num_complete_captures completes (set_num_captures totals (this s)) in
  let lg := log s ++ [(INFO, "Attempting to calculate capture ratio.")] in
  calculate_capture_ratio s
  = if sum_int totals =? 0
    then (Raise (ZeroDivisionError "division by zero"), mk_mstate counted lg)
    else (Ok tt,
          mk_mstate
            (set_capture_ratio
               (Some (pyround (fmul (rnd (inject_Z (sum_int completes)
                                          / inject_Z (sum_int totals)))
                                    (float_of_int 100))))
               counted) lg).
Proof.
  intros Hpar totals completes counted lg.
  unfold calculate_capture_ratio.
  unfold mbind at 1. unfold logging, modify. cbn [fst snd].
  unfold mbind at 1. unfold update_self, modify. cbn [this log].
  unfold mbind at 1. cbn [this log].
  unfold mbind at 1. unfold self at 1. cbn [this log].
  unfold mbind at 1. unfold enumerate.
  rewrite (capture_loop_run _ _ Hpar).
  - unfold mbind at 1. unfold self at 1. cbn [this log].
    unfold mbind, lift_result, int_truediv.
    subst totals completes counted lg.
    destruct s as [i l]; destruct i.
    cbn [this log edep_neutron_ids edep_energy num_captures num_complete_captures
         set_num_captures set_num_complete_captures app].
    match goal with |- context [?a =? 0] => destruct (a =? 0) end; reflexivity.
  - intros j en Hj. destruct s as [i l]; destruct i; exact Hj.
Qed.
End CaptureRatio.

Lemma filter_all {A} (f : A -> bool) (l : list A) :
  (forall a, In a l -> f a = true) -> List.filter f l = l.
Proof.
  induction l as [|a l IH]; intros Hall; [reflexivity|].
  simpl. rewrite (Hall a (or_introl eq_refl)). f_equal.
  apply IH. intros b Hb. apply Hall. now right.
Qed.

Section CaptureRatioClaims.
Context {fl : PyFloat} {fl_laws : PyFloatLaws} {E : Type} {np : NumpyFloat E}
        {np_laws : NumpyFloatLaws E}.

Lemma all_groups_complete (ids : list (list Z)) (ens : list (list E)) :
  Forall2 (fun truth energies => forall c, In c truth ->
             np_eq_float (np_sum (group_energies truth energies c)) (rnd (61 # 10)) = true)
          ids ens ->
  zip_with count_complete ids ens = map count_groups ids.
Proof.
  induction 1 as [|truth energies ids ens Hall _ IH]; [reflexivity|].
  cbn [zip_with map]. rewrite IH. f_equal.
  unfold count_complete, count_groups. rewrite filter_all; [reflexivity|].
  intros c Hc. apply (proj1 (np_unique_In truth c)) in Hc.
  unfold rounds_to_6_1. apply np_round_6_1. exact (Hall c Hc).
Qed.

(** C2.  On parallel per-event arrays, [calculate_capture_ratio] stores per
    event the number of distinct truth groups and the number of groups
    whose summed energy rounds at two decimals to exactly 6.1.  When there
    is at least one group it returns and sets the ratio to
    [round((sum(complete) / sum(total)) * 100)], an integer between 0 and
    100, which is 100 when every group sums to exactly 6.1. *)
Theorem capture_ratio_is_rounded_percentage (s : mstate E) :
  parallel_arrays (this s) ->
  let ids := edep_neutron_ids (this s) in
  let totals := map count_groups ids in
  let completes := zip_with count_complete ids (edep_energy (this s)) in
  let r := calculate_capture_ratio s in
  num_captures (this (snd r)) = totals /\
  num_complete_captures (this (snd r)) = completes /\
  (forall truth c, List.NoDup (np_unique truth) /\ (In c (np_unique truth) <-> In c truth)) /\
  (0 < sum_int totals ->
     fst r = Ok tt /\
     exists ratio : Z,
       capture_ratio (this (snd r)) = Some ratio /\
       ratio = pyround (fmul (rnd (inject_Z (sum_int completes) / inject_Z (sum_int totals)))
                             (float_of_int 100)) /\
       0 <= ratio <= 100 /\
       (Forall2 (fun truth energies => forall c, In c truth ->
                   np_eq_float (np_sum (group_energies truth energies c)) (rnd (61 # 10)) = true)
                ids (edep_energy (this s)) ->
        ratio = 100)).
Proof.
  intros Hpar ids totals completes r.
  pose proof (calculate_capture_ratio_run s Hpar) as Hrun. cbv zeta in Hrun.
  fold ids totals completes in Hrun. fold r in Hrun.
  assert (Hcounters : num_captures (this (snd r)) = totals
                      /\ num_complete_captures (this (snd r)) = completes).
  { rewrite Hrun. destruct (sum_int totals =? 0); destruct s as [i lg]; destruct i;
      split; reflexivity. }
  destruct Hcounters as [Ht Hc].
  split; [exact Ht|]. split; [exact Hc|]. split.
  { intros truth c. split; [apply np_unique_NoDup|apply np_unique_In]. }
  intros Hpos.
  assert (Hnz : (sum_int totals =? 0) = false) by (apply Z.eqb_neq; lia).
  rewrite Hnz in Hrun. rewrite Hrun. split; [reflexivity|].
  eexists. split; [destruct s as [i lg]; destruct i; reflexivity|].
  split; [reflexivity|]. split.
  - apply percentage_bounds; [|exact Hpos].
    pose proof (sum_complete_le ids (edep_energy (this s))) as Hle. exact Hle.
  - intros Hall. unfold completes. rewrite (all_groups_complete _ _ Hall).
    fold totals. now apply percentage_full.
Qed.
End CaptureRatioClaims.

Section ZeroGroups.
Context {fl : PyFloat} {E : Type} {np : NumpyFloat E}.

Lemma capture_loop_empty (ids : list (list Z)) :
  Forall (fun truth => truth = []) ids ->
  forall (k : nat) (s : mstate E),
    for_each (enumerate_from k ids) capture_event s
    = (Ok tt,
       mk_mstate
         (set_num_complete_captures
            (num_complete_captures (this s) ++ map (fun _ => 0) ids)
            (set_num_captures (num_captures (this s) ++ map (fun _ => 0) ids) (this s)))
         (log s)).
Proof.
  induction 1 as [|truth ids Hnil _ IH]; intros k s.
  - simpl. unfold mret. rewrite !app_nil_r.
    destruct s as [i lg]; destruct i; reflexivity.
  - subst truth. cbn [enumerate_from for_each]. unfold mbind at 1.
    rewrite capture_event_empty, IH.
    cbn [this log map]. rewrite set_counters_twice.
    destruct s as [i lg]; destruct i; cbn.
    rewrite <- !app_assoc. reflexivity.
Qed.

Lemma sum_int_zeros {A} (l : list A) : sum_int (map (fun _ => 0) l) = 0.
Proof.
  induction l as [|a l IH]; [reflexivity|].
  cbn [map]. rewrite sum_int_cons, IH. reflexivity.
Qed.

Lemma calculate_capture_ratio_empty_run (s : mstate E) :
  Forall (fun truth => truth = []) (edep_neutron_ids (this s)) ->
  let zeros := map (fun _ => 0) (edep_neutron_ids (this s)) in
  calculate_capture_ratio s
  = (Raise (ZeroDivisionError "division by zero"),
     mk_mstate (set_num_complete_captures zeros (set_num_captures zeros (this s)))
               (log s ++ [(INFO, "Attempting to calculate capture ratio.")])).
Proof.
  intros Hempty zeros.
  assert (Hids : forall a b, edep_neutron_ids
            (set_num_captures a (set_num_complete_captures b (this s)))
          = edep_neutron_ids (this s)).
  { intros a b. destruct s as [i lg]; destruct i; reflexivity. }
  unfold calculate_capture_ratio.
  unfold mbind at 1. unfold logging, modify. cbn [fst snd].
  unfold mbind at 1. unfold update_self, modify. cbn [this log].
  unfold mbind at 1. cbn [this log].
  unfold mbind at 1. unfold self at 1. cbn [this log].
  unfold mbind at 1. unfold enumerate.
  rewrite Hids. rewrite (capture_loop_empty _ Hempty).
  unfold mbind at 1. unfold self at 1. cbn [this log].
  unfold mbind, lift_result, int_truediv. subst zeros.
  destruct s as [i lg]; destruct i.
  cbn [this log edep_neutron_ids num_captures num_complete_captures
       set_num_captures set_num_complete_captures app fst snd].
  rewrite sum_int_zeros. reflexivity.
Qed.

(** C5.  An event without deposits adds (0, 0) to the two counters and
    does not raise; when every event is without truth groups, the division
    of the two sums raises [ZeroDivisionError] (the sums are Python ints)
    and no ratio is stored. *)
Theorem capture_ratio_without_groups :
  (forall (ii : nat) (s : mstate E),
     let r := capture_event (ii, []) s in
     fst r = Ok tt /\
     num_captures (this (snd r)) = num_captures (this s) ++ [0] /\
     num_complete_captures (this (snd r)) = num_complete_captures (this s) ++ [0]) /\
  (forall s : mstate E,
     Forall (fun truth => truth = []) (edep_neutron_ids (this s)) ->
     let r := calculate_capture_ratio s in
     fst r = Raise (ZeroDivisionError "division by zero") /\
     capture_ratio (this (snd r)) = capture_ratio (this s) /\
     num_captures (this (snd r)) = map (fun _ => 0) (edep_neutron_ids (this s)) /\
     num_complete_captures (this (snd r)) = map (fun _ => 0) (edep_neutron_ids (this s))).
Proof.
  split.
  - intros ii s r. subst r. rewrite capture_event_empty.
    destruct s as [i lg]; destruct i; repeat split; reflexivity.
  - intros s Hempty r. subst r.
    rewrite (calculate_capture_ratio_empty_run s Hempty).
    destruct s as [i lg]; destruct i; repeat split; reflexivity.
Qed.
End ZeroGroups.

(** ** Strings *)

Lemma string_app_assoc (a b c : string) : (a +:+ b) +:+ c = a +:+ (b +:+ c).
Proof.
  induction a as [|ch a IH]; [reflexivity|].
  change (String ch ((a +:+ b) +:+ c) = String ch (a +:+ (b +:+ c))).
  f_equal. exact IH.
Qed.

Lemma string_app_empty (w : string) : w +:+ "" = w.
Proof.
  induction w as [|ch w IH]; [reflexivity|].
  change (String ch (w +:+ "") = String ch w). f_equal. exact IH.
Qed.

Lemma names_self (w : string) : names w w.
Proof.
  exists "", "". rewrite string_app_empty. reflexivity.
Qed.

Lemma names_app_l (a b w : string) : names a w -> names (a +:+ b) w.
Proof.
  intros (pre & post & ->). exists pre, (post +:+ b).
  now rewrite !string_app_assoc.
Qed.

Lemma names_app_r (a b w : string) : names b w -> names (a +:+ b) w.
Proof.
  intros (pre & post & ->). exists (a +:+ pre), post.
  now rewrite !string_app_assoc.
Qed.

Lemma names_join (sep w : string) (l : list string) :
  (exists x, In x l /\ names x w) -> names (join sep l) w.
Proof.
  unfold join. induction l as [|x l IH]; intros (y & Hin & Hy); [destruct Hin|].
  destruct l as [|x' l].
  - destruct Hin as [->|[]]. exact Hy.
  - change (String.concat sep (x :: x' :: l))
      with (x +:+ sep +:+ String.concat sep (x' :: l)).
    destruct Hin as [->|Hin].
    + now apply names_app_l.
    + apply names_app_r, names_app_r, IH. now exists y.
Qed.

Lemma repr_dict_names_key `{PyFloat} {V} (repr : V -> string) (d : pydict V) (k : string) :
  In k (dict_keys d) -> names (repr_dict repr d) k.
Proof.
  intros Hin. unfold repr_dict.
  apply names_app_r, names_app_l, names_join.
  unfold dict_keys in Hin. apply in_map_iff in Hin as ((k', v) & Hk & Hin).
  simpl in Hk. subst k'.
  exists ("'" +:+ k +:+ "': " +:+ repr v). split.
  - apply in_map_iff. now exists (k, v).
  - apply names_app_r, names_app_l, names_self.
Qed.

Lemma unrecognized_parameter_names `{PyFloat} (item alg : string) (allowed : pydict pyvalue) :
  names (unrecognized_parameter item alg allowed) item /\
  (forall k, In k (dict_keys allowed) -> names (unrecognized_parameter item alg allowed) k).
Proof.
  unfold unrecognized_parameter. split.
  - apply names_app_r, names_app_l, names_self.
  - intros k Hk. do 5 apply names_app_r. apply names_app_l.
    now apply repr_dict_names_key.
Qed.

(** ** The guards of [cluster] *)

Section Guards.
Context {fl : PyFloat} {E : Type}.

Lemma check_level_run (level : string) (s : mstate E) :
  check_level level s
  = (Ok (if str_in level levels then level else "neutron"),
     mk_mstate (this s) (log s ++ level_warning level)).
Proof.
  unfold check_level, level_warning. destruct (str_in level levels); cbn [negb].
  - unfold mret. rewrite app_nil_r. now destruct s.
  - reflexivity.
Qed.

Lemma check_alg_known (alg : string) (params : pydict pyvalue) (s : mstate E) :
  dict_mem alg cluster_params = true ->
  check_alg alg params s = (Ok (alg, params), s).
Proof. intros Hmem. unfold check_alg. rewrite Hmem. reflexivity. Qed.

Lemma check_alg_unknown (alg : string) (params : pydict pyvalue) (s : mstate E) :
  dict_mem alg cluster_params = false ->
  check_alg alg params s
  = (Ok ("dbscan", [("eps", PFloat (rnd 100)); ("min_samples", PInt 6)]),
     mk_mstate (this s)
       (log s ++ [(WARNING,
          "Requested algorithm '" +:+ alg +:+ "' not allowed, using 'dbscan'.")])).
Proof. intros Hmem. unfold check_alg. rewrite Hmem. reflexivity. Qed.

Lemma check_params_run (alg : string) (allowed params : pydict pyvalue) (s : mstate E) :
  dict_get alg cluster_params = Ok allowed ->
  check_params alg params s
  = match first_undeclared allowed params with
    | None => (Ok tt, s)
    | Some item =>
        (Raise (ValueError (unrecognized_parameter item alg allowed)),
         mk_mstate (this s)
           (log s ++ [(ERROR, unrecognized_parameter item alg allowed)]))
    end.
Proof.
  intros Hget. unfold check_params, first_undeclared. rewrite Hget.
  induction (dict_keys params) as [|k ks IH]; [reflexivity|].
  cbn [for_each List.find]. unfold mbind at 1. unfold mbind at 1.
  unfold lift_result at 1.
  destruct (dict_mem k allowed); cbn [negb].
  - unfold mret at 1. exact IH.
  - reflexivity.
Qed.

Lemma first_undeclared_some (allowed params : pydict pyvalue) (k : string) :
  In k (dict_keys params) -> dict_mem k allowed = false ->
  exists item, first_undeclared allowed params = Some item
               /\ In item (dict_keys params) /\ dict_mem item allowed = false.
Proof.
  intros Hin Hout. unfold first_undeclared.
  destruct (List.find _ (dict_keys params)) as [item|] eqn:Hfind.
  - exists item. apply List.find_some in Hfind as [Hi Hb].
    repeat split; [assumption|]. now apply negb_true_iff.
  - pose proof (List.find_none _ _ Hfind k Hin) as Hk. simpl in Hk.
    rewrite Hout in Hk. discriminate.
Qed.

(** ** Independence of the log *)

Lemma log_blind_ret {A} (a : A) : log_blind (mret a : M (mstate E) A).
Proof. intros s s' Heq. now split. Qed.

Lemma log_blind_raise {A} (e : exn) : log_blind (raise e : M (mstate E) A).
Proof. intros s s' Heq. now split. Qed.

Lemma log_blind_lift {A} (r : result A) : log_blind (lift_result r : M (mstate E) A).
Proof. intros s s' Heq. now split. Qed.

Lemma log_blind_logging (l : loglevel) (msg : string) :
  log_blind (logging l msg : M (mstate E) unit).
Proof. intros s s' Heq. now split. Qed.

Lemma log_blind_update (f : instance E -> instance E) : log_blind (update_self f).
Proof. intros s s' Heq. split; [reflexivity|]. simpl. now rewrite Heq. Qed.

Lemma log_blind_bind {A B} (m : M (mstate E) A) (k : A -> M (mstate E) B) :
  log_blind m -> (forall a, log_blind (k a)) -> log_blind (mbind m k).
Proof.
  intros Hm Hk s s' Heq. unfold mbind.
  destruct (Hm s s' Heq) as [Hr Hs].
  destruct (m s) as [r1 s1], (m s') as [r2 s2]. simpl in Hr, Hs. subst r2.
  destruct r1 as [a|e]; [now apply Hk|now split].
Qed.

Lemma log_blind_self_bind {B} (k : instance E -> M (mstate E) B) :
  (forall i, log_blind (k i)) -> log_blind (mbind self k).
Proof.
  intros Hk s s' Heq. unfold mbind, self. rewrite Heq. now apply Hk.
Qed.

Lemma log_blind_for_each {A} (l : list A) (body : A -> M (mstate E) unit) :
  (forall a, log_blind (body a)) -> log_blind (for_each l body).
Proof.
  intros Hbody. induction l as [|a l IH]; [apply log_blind_ret|].
  cbn [for_each]. apply log_blind_bind; [apply Hbody|intros _; exact IH].
Qed.
End Guards.

(** ** [cluster] *)

Lemma dict_get_mem {V} (k : string) (d : pydict V) (v : V) :
  dict_get k d = Ok v -> dict_mem k d = true.
Proof.
  unfold dict_mem, dict_keys. induction d as [|[k' v'] d IH]; simpl; [discriminate|].
  destruct (String.eqb k k'); [reflexivity|exact IH].
Qed.

Section ClusterClaims.
Context {fl : PyFloat} {E : Type} {skc : SklearnCluster}.

Lemma log_blind_fit_all (alg : string) (params : pydict pyvalue) :
  log_blind (fit_all (E := E) alg params).
Proof.
  unfold fit_all.
  apply log_blind_bind; [apply log_blind_logging|intros _].
  apply log_blind_bind.
  { unfold make_clusterer. destruct (cluster_attr _);
      [apply log_blind_lift|apply log_blind_raise]. }
  intros clusterer.
  apply log_blind_bind; [apply log_blind_update|intros _].
  apply log_blind_self_bind. intros me.
  apply log_blind_for_each. intros pos.
  apply log_blind_bind; [apply log_blind_lift|intros labels; apply log_blind_update].
Qed.

Lemma log_blind_check_params (alg : string) (params : pydict pyvalue) :
  log_blind (check_params (E := E) alg params).
Proof.
  unfold check_params. apply log_blind_for_each. intros item.
  apply log_blind_bind; [apply log_blind_lift|intros allowed].
  destruct (negb (dict_mem item allowed)); [|apply log_blind_ret].
  apply log_blind_bind; [apply log_blind_logging|intros _; apply log_blind_raise].
Qed.

Lemma log_blind_after_level (alg : string) (params : pydict pyvalue) :
  log_blind (let* ap := check_alg (E := E) alg params in
             let* _ := check_params (fst ap) (snd ap) in
             fit_all (fst ap) (snd ap)).
Proof.
  apply log_blind_bind.
  - unfold check_alg. destruct (negb (dict_mem alg cluster_params)); [|apply log_blind_ret].
    apply log_blind_bind; [apply log_blind_logging|intros _].
    apply log_blind_bind; [apply log_blind_lift|intros d; apply log_blind_ret].
  - intros ap. apply log_blind_bind; [apply log_blind_check_params|intros _].
    apply log_blind_fit_all.
Qed.

Lemma cluster_after_level (level alg : string) (params : pydict pyvalue) (s : mstate E) :
  cluster level alg params s
  = (let* ap := check_alg alg params in
     let* _ := check_params (fst ap) (snd ap) in
     fit_all (fst ap) (snd ap)) (mk_mstate (this s) (log s ++ level_warning level)).
Proof.
  unfold cluster. unfold mbind at 1. rewrite check_level_run. reflexivity.
Qed.

Lemma cluster_known (level alg : string) (params allowed : pydict pyvalue) (s : mstate E) :
  dict_get alg cluster_params = Ok allowed ->
  cluster level alg params s
  = match first_undeclared allowed params with
    | None => fit_all alg params (mk_mstate (this s) (log s ++ level_warning level))
    | Some item =>
        (Raise (ValueError (unrecognized_parameter item alg allowed)),
         mk_mstate (this s)
           ((log s ++ level_warning level)
              ++ [(ERROR, unrecognized_parameter item alg allowed)]))
    end.
Proof.
  intros Hget. rewrite cluster_after_level.
  unfold mbind at 1. rewrite (check_alg_known alg params _ (dict_get_mem _ _ _ Hget)).
  cbn [fst snd]. unfold mbind at 1.
  rewrite (check_params_run alg allowed params _ Hget).
  destruct (first_undeclared allowed params); reflexivity.
Qed.

Lemma cluster_unknown (level alg : string) (params : pydict pyvalue) (s : mstate E) :
  dict_mem alg cluster_params = false ->
  cluster level alg params s
  = fit_all "dbscan" [("eps", PFloat (rnd 100)); ("min_samples", PInt 6)]
      (mk_mstate (this s)
         ((log s ++ level_warning level)
            ++ [(WARNING,
                 "Requested algorithm '" +:+ alg +:+ "' not allowed, using 'dbscan'.")])).
Proof.
  intros Hmem. rewrite cluster_after_level.
  unfold mbind at 1. rewrite (check_alg_unknown alg params _ Hmem).
  cbn [fst snd]. unfold mbind at 1.
  rewrite (check_params_run "dbscan" _ _ _ eq_refl). cbn [this log].
  reflexivity.
Qed.

(** C4.  For a recognized algorithm, a parameter mapping with a key that
    the algorithm's entry of [cluster_params] does not declare makes
    [cluster] raise [ValueError]; the message names the first such key and
    every declared key, and the object is left as it was: no estimator is
    built and no event is clustered. *)
Theorem cluster_rejects_undeclared_parameter
    (level alg : string) (params allowed : pydict pyvalue) (k : string) (s : mstate E) :
  dict_get alg cluster_params = Ok allowed ->
  In k (dict_keys params) ->
  dict_mem k allowed = false ->
  exists item : string,
    first_undeclared allowed params = Some item /\
    In item (dict_keys params) /\
    dict_mem item allowed = false /\
    fst (cluster level alg params s)
      = Raise (ValueError (unrecognized_parameter item alg allowed)) /\
    this (snd (cluster level alg params s)) = this s /\
    names (unrecognized_parameter item alg allowed) item /\
    (forall key, In key (dict_keys allowed) ->
                 names (unrecognized_parameter item alg allowed) key).
Proof.
  intros Hget Hin Hout.
  destruct (first_undeclared_some allowed params k Hin Hout) as (item & Hfirst & Hi & Ho).
  pose proof (cluster_known level alg params allowed s Hget) as Hrun.
  rewrite Hfirst in Hrun.
  exists item. rewrite Hrun. cbn [fst snd this].
  destruct (unrecognized_parameter_names item alg allowed) as [Hn1 Hn2].
  repeat split; assumption.
Qed.

(** C10.  The [level] argument does not reach the clustering: two calls
    that differ only in [level] end with the same outcome and leave the
    same object, so the same [cluster_predictions]. *)
Theorem cluster_ignores_level
    (level1 level2 alg : string) (params : pydict pyvalue) (s : mstate E) :
  fst (cluster level1 alg params s) = fst (cluster level2 alg params s) /\
  this (snd (cluster level1 alg params s)) = this (snd (cluster level2 alg params s)) /\
  cluster_predictions (this (snd (cluster level1 alg params s)))
    = cluster_predictions (this (snd (cluster level2 alg params s))).
Proof.
  rewrite !cluster_after_level.
  destruct (log_blind_after_level alg params
              (mk_mstate (this s) (log s ++ level_warning level1))
              (mk_mstate (this s) (log s ++ level_warning level2)) eq_refl) as [Hr Hs].
  repeat split; [exact Hr|exact Hs|now rewrite Hs].
Qed.

(** The loop over the events, for an estimator that labels every point. *)
Lemma fit_loop_run (est : estimator) (positions : list (list point)) :
  Forall (fun pos => exists labels, est pos = Ok labels /\ length labels = length pos)
         positions ->
  forall s : mstate E,
    exists preds : list (list Z),
      Forall2 (fun labels pos => length labels = length pos) preds positions /\
      for_each positions (fun pos =>
        let* labels := lift_result (est pos) in
        update_self (fun i =>
          set_cluster_predictions (cluster_predictions i ++ [labels]) i)) s
      = (Ok tt,
         mk_mstate (set_cluster_predictions (cluster_predictions (this s) ++ preds) (this s))
                   (log s)).
Proof.
  induction 1 as [|pos positions (labels & Hfit & Hlen) _ IH]; intros s.
  - exists []. split; [constructor|].
    simpl. unfold mret. rewrite app_nil_r. destruct s as [i lg]; destruct i; reflexivity.
  - cbn [for_each]. unfold mbind at 1. unfold mbind at 1. unfold lift_result at 1.
    rewrite Hfit. unfold update_self at 1, modify.
    destruct (IH (mk_mstate
                (set_cluster_predictions (cluster_predictions (this s) ++ [labels]) (this s))
                (log s))) as (preds & Hall & Hrun).
    exists (labels :: preds). split; [now constructor|].
    rewrite Hrun. cbn [this log].
    destruct s as [i lg]; destruct i; cbn. rewrite <- app_assoc. reflexivity.
Qed.

Lemma fit_all_run (alg : string) (params : pydict pyvalue)
    (ctor : pydict pyvalue -> result estimator) (est : estimator) (s : mstate E) :
  cluster_attr (estimator_name alg) = Some ctor ->
  ctor params = Ok est ->
  Forall (fun pos => exists labels, est pos = Ok labels /\ length labels = length pos)
         (edep_positions (this s)) ->
  exists (preds : list (list Z)) (lg : list (loglevel * string)),
    Forall2 (fun labels pos => length labels = length pos) preds (edep_positions (this s)) /\
    fit_all alg params s = (Ok tt, mk_mstate (set_cluster_predictions preds (this s)) lg).
Proof.
  intros Hattr Hctor Hfit.
  unfold fit_all. unfold mbind at 1. unfold logging at 1, modify. cbn [fst snd].
  unfold mbind at 1. unfold make_clusterer. rewrite Hattr.
  unfold lift_result at 1. rewrite Hctor.
  unfold mbind at 1. unfold update_self at 1, modify. cbn [fst snd this log].
  unfold mbind at 1. unfold self at 1. cbn [fst snd this log].
  assert (Hpos : edep_positions (set_cluster_predictions [] (this s))
                 = edep_positions (this s)).
  { destruct s as [i lg]; destruct i; reflexivity. }
  rewrite Hpos.
  destruct (fit_loop_run est _ Hfit
              (mk_mstate (set_cluster_predictions [] (this s))
                 (log s ++ [(INFO, "Attempting to run clustering algorithm " +:+ alg
                                 +:+ " with parameters "
                                 +:+ repr_dict repr_value params +:+ ".")])))
    as (preds & Hall & Hrun).
  exists preds. eexists. split; [exact Hall|].
  rewrite Hrun. cbn [this log].
  destruct s as [i lg]; destruct i; reflexivity.
Qed.

(** With an estimator class that [sklearn.cluster] provides and that labels
    every point of every event, [cluster] returns and stores one label per
    point.  This covers affinity, mean_shift, optics and dbscan. *)
Lemma cluster_one_label_per_point
    (level alg : string) (params allowed : pydict pyvalue)
    (ctor : pydict pyvalue -> result estimator) (est : estimator) (s : mstate E) :
  dict_get alg cluster_params = Ok allowed ->
  first_undeclared allowed params = None ->
  cluster_attr (estimator_name alg) = Some ctor ->
  ctor params = Ok est ->
  Forall (fun pos => exists labels, est pos = Ok labels /\ length labels = length pos)
         (edep_positions (this s)) ->
  fst (cluster level alg params s) = Ok tt /\
  Forall2 (fun labels pos => length labels = length pos)
          (cluster_predictions (this (snd (cluster level alg params s))))
          (edep_positions (this s)).
Proof.
  intros Hget Hnone Hattr Hctor Hfit.
  rewrite (cluster_known level alg params allowed s Hget), Hnone.
  destruct (fit_all_run alg params ctor est
              (mk_mstate (this s) (log s ++ level_warning level)) Hattr Hctor Hfit)
    as (preds & lg & Hall & Hrun).
  rewrite Hrun. cbn [fst snd this] in *.
  split; [reflexivity|].
  destruct s as [i l]; destruct i; exact Hall.
Qed.

(** C3, at the algorithm gaussian.  [cluster] looks the class
    GaussianMixture up in [sklearn.cluster]; when the module does not have
    it, the call raises [AttributeError] before any event is clustered and
    the stored predictions stay as they were. *)
Theorem cluster_gaussian_raises
    (level : string) (params allowed : pydict pyvalue) (s : mstate E) :
  cluster_attr "GaussianMixture" = None ->
  dict_get "gaussian" cluster_params = Ok allowed ->
  first_undeclared allowed params = None ->
  fst (cluster level "gaussian" params s)
    = Raise (AttributeError "module 'sklearn.cluster' has no attribute 'GaussianMixture'") /\
  this (snd (cluster level "gaussian" params s)) = this s.
Proof.
  intros Hattr Hget Hnone.
  rewrite (cluster_known level "gaussian" params allowed s Hget), Hnone.
  unfold fit_all. unfold mbind at 1. unfold logging at 1, modify. cbn [fst snd].
  unfold mbind at 1. unfold make_clusterer.
  change (estimator_name "gaussian") with "GaussianMixture".
  rewrite Hattr. split; reflexivity.
Qed.
End ClusterClaims.

(** ** [calc_scores] *)

Lemma enumerate_from_In {A} (l : list A) (n k : nat) (a : A) :
  l !! k = Some a -> In ((n + k)%nat, a) (enumerate_from n l).
Proof.
  revert n k. induction l as [|x l IH]; intros n k Hk; [discriminate|].
  destruct k as [|k]; simpl in Hk.
  - injection Hk as ->. left. f_equal. lia.
  - right. replace (n + S k)%nat with (S n + k)%nat by lia. now apply IH.
Qed.

Lemma for_each_raises {S A} (Inv : S -> Prop) (body : A -> M S unit) (a0 : A) :
  (forall a s, Inv s -> Inv (snd (body a s))) ->
  (forall s, Inv s -> is_ok (fst (body a0 s)) = false) ->
  forall (l : list A) (s : S),
    In a0 l -> Inv s ->
    is_ok (fst (for_each l body s)) = false /\ Inv (snd (for_each l body s)).
Proof.
  intros Hinv Hraise. induction l as [|a l IH]; intros s Hin Hs; [destruct Hin|].
  cbn [for_each]. unfold mbind.
  pose proof (Hinv a s Hs) as Hs1.
  destruct (body a s) as [[[]|e] s1] eqn:Hbody; cbn [fst snd] in *.
  - destruct Hin as [->|Hin].
    + pose proof (Hraise s Hs) as Hno. rewrite Hbody in Hno. discriminate.
    + now apply IH.
  - now split.
Qed.

Section ScoresOnly.
Context {E : Type}.

Lemma set_cluster_scores_twice (a b : scores (list Q)) (i : instance E) :
  set_cluster_scores a (set_cluster_scores b i) = set_cluster_scores a i.
Proof. destruct i; reflexivity. Qed.

Lemma set_cluster_scores_same (i : instance E) :
  set_cluster_scores (cluster_scores i) i = i.
Proof. destruct i; reflexivity. Qed.

Lemma scores_only_lift {A} (r : result A) : scores_only (lift_result r : M (mstate E) A).
Proof.
  intros s. exists (cluster_scores (this s)).
  rewrite set_cluster_scores_same. now destruct s.
Qed.

Lemma scores_only_append upd get (v : Q) : scores_only (append_score (E := E) upd get v).
Proof. intros s. eexists. reflexivity. Qed.

Lemma scores_only_bind {A B} (m : M (mstate E) A) (k : A -> M (mstate E) B) :
  scores_only m -> (forall a, scores_only (k a)) -> scores_only (mbind m k).
Proof.
  intros Hm Hk s. unfold mbind.
  destruct (Hm s) as [cs Hs]. destruct (m s) as [[a|e] s1]; cbn [snd] in Hs; subst s1.
  - destruct (Hk a (mk_mstate (set_cluster_scores cs (this s)) (log s))) as [cs' Hs'].
    exists cs'. rewrite Hs'. cbn [this log]. now rewrite set_cluster_scores_twice.
  - now exists cs.
Qed.

Lemma scores_only_self_bind {B} (k : instance E -> M (mstate E) B) :
  (forall i, scores_only (k i)) -> scores_only (mbind self k).
Proof. intros Hk s. unfold mbind, self. apply Hk. Qed.
End ScoresOnly.

Section CalcScores.
Context {fl : PyFloat} {E : Type} {skm : SklearnMetrics}.

Lemma scores_only_score_event (labels : list (list Z)) (ip : nat * list Z) :
  scores_only (score_event (E := E) labels ip).
Proof.
  unfold score_event.
  repeat first
    [ apply scores_only_append
    | apply scores_only_lift
    | apply scores_only_self_bind; intros ?
    | apply scores_only_bind; [|intros ?] ].
Qed.

Lemma scoring_frame_kept {A} (m : M (mstate E) A) (i0 : instance E) (s : mstate E) :
  scores_only m -> scoring_frame i0 s -> scoring_frame i0 (snd (m s)).
Proof.
  intros Hm (Hp & Ha & Hc). destruct (Hm s) as [cs Hs]. rewrite Hs.
  unfold scoring_frame. cbn [this]. destruct s as [i lg]; destruct i; cbn in *.
  now repeat split.
Qed.

Lemma bind_not_ok {A B} (m : M (mstate E) A) (k : A -> M (mstate E) B)
    (i0 : instance E) (s : mstate E) :
  scores_only m -> scoring_frame i0 s ->
  (forall a s', scoring_frame i0 s' -> is_ok (fst (k a s')) = false) ->
  is_ok (fst (mbind m k s)) = false.
Proof.
  intros Hm Hs Hk. unfold mbind.
  pose proof (scoring_frame_kept m i0 s Hm Hs) as Hs1.
  destruct (m s) as [[a|e] s1]; cbn [snd] in Hs1; [now apply Hk|reflexivity].
Qed.

Lemma score_event_raises (labels : list (list Z)) (k : nat) (pred : list Z)
    (pos : list point) (e : exn) (i0 : instance E) (s : mstate E) :
  edep_positions i0 !! k = Some pos ->
  silhouette_score pos pred = Raise e ->
  scoring_frame i0 s ->
  is_ok (fst (score_event labels (k, pred) s)) = false.
Proof.
  intros Hpos Hsil Hs. unfold score_event. cbn [fst snd].
  repeat (eapply bind_not_ok;
          [ first [apply scores_only_lift | apply scores_only_append]
          | eassumption
          | clear s Hs; intros ? s Hs ]).
  unfold mbind at 1. unfold self at 1.
  destruct Hs as (Hp & _ & _).
  unfold mbind at 1. unfold lift_result at 1, list_get. rewrite Hp, Hpos.
  unfold mbind at 1. unfold lift_result at 1. rewrite Hsil. reflexivity.
Qed.

(** When [silhouette_score] raises for one event, the call does not return
    and leaves the averages and the predictions as they were. *)
Lemma calc_scores_silhouette_stops
    (level : string) (s : mstate E) (k : nat) (pred : list Z) (pos : list point) (e : exn) :
  cluster_predictions (this s) !! k = Some pred ->
  edep_positions (this s) !! k = Some pos ->
  silhouette_score pos pred = Raise e ->
  is_ok (fst (calc_scores level s)) = false /\
  avg_cluster_scores (this (snd (calc_scores level s))) = avg_cluster_scores (this s) /\
  cluster_predictions (this (snd (calc_scores level s))) = cluster_predictions (this s).
Proof.
  intros Hpred Hpos Hsil.
  enough (Hmain : is_ok (fst (calc_scores level s)) = false
                  /\ scoring_frame (this s) (snd (calc_scores level s))).
  { destruct Hmain as (Hno & _ & Ha & Hc). now repeat split. }
  destruct (calc_scores level s) as [r s'] eqn:Hrun. cbn [fst snd].
  unfold calc_scores in Hrun. unfold mbind at 1 in Hrun.
  rewrite check_level_run in Hrun.
  unfold mbind at 1 in Hrun. unfold self at 1 in Hrun. cbn [this log] in Hrun.
  destruct (cluster_predictions (this s)) as [|p0 ps] eqn:Hcp; [discriminate|].
  rewrite <- Hcp in Hrun.
  destruct (negb (length (cluster_predictions (this s)) =? num_events (this s))%nat).
  - unfold mbind, logging, modify, raise in Hrun. injection Hrun as <- <-.
    split; [reflexivity|]. now repeat split.
  - unfold mbind at 1 in Hrun. unfold update_self at 1, modify in Hrun.
    cbn [fst snd this log] in Hrun.
    unfold mbind at 1 in Hrun. unfold logging at 1, modify in Hrun.
    cbn [fst snd this log] in Hrun.
    unfold mbind at 1 in Hrun.
    match type of Hrun with
    | context [for_each ?l ?body ?st] =>
        assert (Hloop : is_ok (fst (for_each l body st)) = false
                        /\ scoring_frame (this s) (snd (for_each l body st)))
    end.
    { apply (for_each_raises (scoring_frame (this s)) _ (k, pred)).
      - intros a st Hst. apply scoring_frame_kept; [apply scores_only_score_event|exact Hst].
      - intros st Hst. now apply (score_event_raises _ k pred pos e (this s) st).
      - unfold enumerate. apply (enumerate_from_In _ 0%nat k pred).
        rewrite Hcp. exact Hpred.
      - destruct s as [i lg]; destruct i; now repeat split. }
    destruct Hloop as [Hno Hframe].
    match type of Hrun with
    | context [for_each ?l ?body ?st] => destruct (for_each l body st) as [[[]|e'] s2]
    end; cbn [fst snd] in Hno, Hframe; [discriminate|].
    injection Hrun as <- <-. now split.
Qed.
End CalcScores.

(** ** The eps scan *)

Section ScanFrame.
Context {fl : PyFloat} {E : Type} {skc : SklearnCluster} {skm : SklearnMetrics}.

Lemma keeps_ret {A} (w0 : world E) (a : A) : keeps_others w0 (mret a).
Proof. intros w Hw. exact Hw. Qed.

Lemma keeps_lift {A} (w0 : world E) (r : result A) : keeps_others w0 (lift_result r).
Proof. intros w Hw. exact Hw. Qed.

Lemma keeps_wlogging (w0 : world E) (l : loglevel) (msg : string) :
  keeps_others w0 (wlogging l msg).
Proof. intros w Hw. exact Hw. Qed.

Lemma keeps_write_file (w0 : world E) (name : string) (rows : list (list cell)) :
  keeps_others w0 (write_file name rows).
Proof. intros w Hw. exact Hw. Qed.

Lemma keeps_bind {A B} (w0 : world E) (m : M (world E) A) (k : A -> M (world E) B) :
  keeps_others w0 m -> (forall a, keeps_others w0 (k a)) -> keeps_others w0 (mbind m k).
Proof.
  intros Hm Hk w Hw. unfold mbind. specialize (Hm w Hw).
  destruct (m w) as [[a|e] w1]; cbn [snd] in Hm; [now apply Hk|exact Hm].
Qed.

Lemma keeps_call {A} (w0 : world E) (g : loc) (m : M (mstate E) A) :
  neutron_clustering w0 = Some g -> keeps_others w0 (call g m).
Proof.
  intros Hg w [Hname Hheap]. unfold call.
  destruct (heap w !! g) as [i|]; cbn [snd]; [|now split].
  split; [exact Hname|]. cbn [heap].
  intros l Hl. rewrite lookup_insert_ne; [now apply Hheap|].
  intros ->. now apply Hl.
Qed.

Lemma keeps_global_bind {B} (w0 : world E) (k : loc -> M (world E) B) :
  (forall g, neutron_clustering w0 = Some g -> keeps_others w0 (k g)) ->
  keeps_others w0 (mbind global_neutron_clustering k).
Proof.
  intros Hk w Hw. unfold mbind, global_neutron_clustering.
  destruct (neutron_clustering w) as [g|] eqn:Hg; [|exact Hw].
  apply Hk; [|exact Hw]. destruct Hw as [Hname _]. now rewrite <- Hname.
Qed.

Lemma keeps_for_fold {A B} (w0 : world E) (l : list A) (body : B -> A -> M (world E) B) :
  (forall b a, keeps_others w0 (body b a)) ->
  forall acc, keeps_others w0 (for_fold l acc body).
Proof.
  intros Hbody. induction l as [|a l IH]; intros acc; [apply keeps_ret|].
  cbn [for_fold]. apply keeps_bind; [apply Hbody|exact IH].
Qed.

Lemma keeps_scan_step (w0 : world E) (scores : list (list cell)) (eps : Q) :
  keeps_others w0 (scan_step scores eps).
Proof.
  unfold scan_step.
  apply keeps_bind; [apply keeps_wlogging|intros _].
  apply keeps_global_bind. intros g Hg.
  apply keeps_bind; [now apply keeps_call|intros _].
  apply keeps_bind; [apply keeps_wlogging|intros _].
  apply keeps_global_bind. intros g' Hg'.
  apply keeps_bind; [now apply keeps_call|intros avg].
  apply keeps_ret.
Qed.

Lemma keeps_scan (w0 : world E) (receiver : loc) (eps_range : list Q) (eps_step : Q)
    (save_scores : string) :
  keeps_others w0 (scan_eps_values receiver eps_range eps_step save_scores).
Proof.
  unfold scan_eps_values.
  repeat (apply keeps_bind; [apply keeps_lift|intros ?]).
  apply keeps_bind; [apply keeps_wlogging|intros _].
  apply keeps_bind; [|intros ?; apply keeps_write_file].
  apply keeps_for_fold. intros rows eps. apply keeps_scan_step.
Qed.

End ScanFrame.

Section ScanTable.
Context {fl : PyFloat} {E : Type} {skc : SklearnCluster} {skm : SklearnMetrics}.

Lemma py_range_nonpositive (n : Z) : n <= 0 -> py_range n = [].
Proof.
  intros Hn. unfold py_range. replace (Z.to_nat n) with 0%nat by lia. reflexivity.
Qed.

Lemma py_range_length (n : Z) : length (py_range n) = Z.to_nat n.
Proof. unfold py_range. now rewrite length_map, length_seq. Qed.

(** Without an eps value the scan stops at its first log message, which
    reads [eps_values[0]]: nothing is clustered and no file is written. *)
Lemma scan_without_values (receiver : loc) (e0 e1 eps_step : Q) (save_scores : string)
    (w : world E) :
  Qeq_bool eps_step 0 = false ->
  int_of_float (rnd (fsub e1 e0 / eps_step)) <= 0 ->
  scan_eps_values receiver [e0; e1] eps_step save_scores w
  = (Raise (IndexError "list index out of range"), w).
Proof.
  intros Hstep Hn. unfold scan_eps_values.
  unfold mbind at 1. unfold lift_result at 1. cbn [list_get lookup list_lookup].
  unfold mbind at 1. unfold lift_result at 1. cbn [list_get lookup list_lookup].
  unfold mbind at 1. unfold lift_result at 1, fdiv. rewrite Hstep.
  rewrite (py_range_nonpositive _ Hn). reflexivity.
Qed.

(** With an eps value to scan and the module-level name unbound, the scan
    raises [NameError] at its first step, whatever the receiver is. *)
Lemma scan_without_global (receiver : loc) (e0 e1 eps_step : Q) (save_scores : string)
    (w : world E) :
  neutron_clustering w = None ->
  Qeq_bool eps_step 0 = false ->
  0 < int_of_float (rnd (fsub e1 e0 / eps_step)) ->
  fst (scan_eps_values receiver [e0; e1] eps_step save_scores w)
  = Raise (NameError "neutron_clustering").
Proof.
  intros Hnone Hstep Hn. unfold scan_eps_values.
  unfold mbind at 1. unfold lift_result at 1. cbn [list_get lookup list_lookup].
  unfold mbind at 1. unfold lift_result at 1. cbn [list_get lookup list_lookup].
  unfold mbind at 1. unfold lift_result at 1, fdiv. rewrite Hstep.
  set (n := int_of_float (rnd (fsub e1 e0 / eps_step))) in *.
  assert (Hrange : exists ii rest, py_range n = ii :: rest).
  { unfold py_range. destruct (Z.to_nat n) as [|k] eqn:Hk; [lia|].
    cbn [seq map]. eauto. }
  destruct Hrange as (ii & rest & ->). cbn [map].
  set (eps := fadd e0 (fmul (float_of_int ii) eps_step)).
  set (others := map (fun ii => fadd e0 (fmul (float_of_int ii) eps_step)) rest).
  unfold mbind at 1. unfold lift_result at 1. cbn [list_get lookup list_lookup].
  unfold mbind at 1. unfold lift_result at 1, list_get.
  destruct (lookup_lt_is_Some_2 (eps :: others) (length (eps :: others) - 1)) as [last ->].
  { cbn [length]. lia. }
  unfold mbind at 1. unfold wlogging at 1, modify. cbn [fst snd].
  unfold mbind at 1. cbn [for_fold]. unfold mbind at 1.
  unfold scan_step. unfold mbind at 1. unfold wlogging at 1, modify. cbn [fst snd].
  unfold mbind at 1. unfold global_neutron_clustering. cbn [neutron_clustering].
  rewrite Hnone. reflexivity.
Qed.

Lemma scan_step_row (table : list (list cell)) (eps : Q) (w w' : world E)
    (rows : list (list cell)) :
  scan_step table eps w = (Ok rows, w') ->
  exists avg : scores Q, rows = table ++ [CFloat eps :: map CFloat (scores_values avg)].
Proof.
  unfold scan_step, mbind. intros Hrun.
  repeat match type of Hrun with
         | context [match ?x with _ => _ end] => destruct x as [[?|?] ?]; try discriminate
         end.
  unfold mret in Hrun. injection Hrun as <- _. eexists. reflexivity.
Qed.

Lemma scan_loop_rows (eps_values : list Q) :
  forall (table rows : list (list cell)) (w w' : world E),
    for_fold eps_values table scan_step w = (Ok rows, w') ->
    exists data : list (list cell),
      rows = table ++ data /\
      Forall2 (fun eps row => exists metrics : list cell,
                 row = CFloat eps :: metrics /\ length metrics = 6%nat)
              eps_values data.
Proof.
  induction eps_values as [|eps eps_values IH]; intros table rows w w' Hrun.
  - injection Hrun as <- _. exists []. split; [now rewrite app_nil_r|constructor].
  - cbn [for_fold] in Hrun. unfold mbind at 1 in Hrun.
    destruct (scan_step table eps w) as [[table1|e] w1] eqn:Hstep; [|discriminate].
    destruct (scan_step_row _ _ _ _ _ Hstep) as [avg ->].
    destruct (IH _ _ _ _ Hrun) as (data & -> & Hall).
    eexists. split; [rewrite <- app_assoc; reflexivity|].
    constructor; [|exact Hall]. eexists. split; reflexivity.
Qed.

(** When the scan returns, the file holds the header row followed by one
    row per eps value [e0 + ii * eps_step], [ii] below
    [int((e1 - e0) / eps_step)], each with the six averages. *)
Lemma scan_table_shape (receiver : loc) (e0 e1 eps_step : Q) (save_scores : string)
    (w w' : world E) :
  scan_eps_values receiver [e0; e1] eps_step save_scores w = (Ok tt, w') ->
  let num_steps := int_of_float (rnd (fsub e1 e0 / eps_step)) in
  exists data : list (list cell),
    files w' !! (save_scores +:+ ".csv") = Some (scan_header :: data) /\
    length data = Z.to_nat num_steps /\
    Forall2 (fun ii row => exists metrics : list cell,
               row = CFloat (fadd e0 (fmul (float_of_int ii) eps_step)) :: metrics
               /\ length metrics = 6%nat)
            (py_range num_steps) data.
Proof.
  intros Hrun num_steps. unfold scan_eps_values in Hrun.
  unfold mbind at 1 in Hrun. unfold lift_result at 1 in Hrun.
  cbn [list_get lookup list_lookup] in Hrun.
  unfold mbind at 1 in Hrun. unfold lift_result at 1 in Hrun.
  cbn [list_get lookup list_lookup] in Hrun.
  unfold mbind at 1 in Hrun. unfold lift_result at 1, fdiv in Hrun.
  destruct (Qeq_bool eps_step 0); [discriminate|]. fold num_steps in Hrun.
  unfold mbind at 1 in Hrun. unfold lift_result at 1 in Hrun.
  match type of Hrun with
  | context [list_get ?l 0] => destruct (list_get l 0) as [first|?]; [|discriminate]
  end.
  unfold mbind at 1 in Hrun. unfold lift_result at 1 in Hrun.
  match type of Hrun with
  | context [list_get ?l ?n] => destruct (list_get l n) as [last|?]; [|discriminate]
  end.
  unfold mbind at 1 in Hrun. unfold wlogging at 1, modify in Hrun.
  unfold mbind at 1 in Hrun.
  match type of Hrun with
  | context [for_fold ?l ?t scan_step ?st] =>
      destruct (for_fold l t scan_step st) as [[rows|?] w1] eqn:Hloop; [|discriminate]
  end.
  destruct (scan_loop_rows _ _ _ _ _ Hloop) as (data & -> & Hall).
  unfold write_file, modify in Hrun. injection Hrun as <-. cbn [files].
  exists data. rewrite lookup_insert_eq. split; [reflexivity|]. split.
  - rewrite <- (Forall2_length _ _ _ Hall), length_map. apply py_range_length.
  - clear Hloop. revert Hall. generalize (py_range num_steps). intros l.
    revert data. induction l as [|ii l IH]; intros data Hall; inversion Hall; subst.
    + constructor.
    + constructor; [assumption|]. now apply IH.
Qed.
End ScanTable.

Section ScanCallsProps.
Context {fl : PyFloat} {E : Type} {skc : SklearnCluster} {skm : SklearnMetrics}.

(** Two method calls through the module-level name, with a log line before
    each, are the two calls on the object that the name is bound to. *)
Lemma two_calls_on_global {A B} (m1 : M (mstate E) unit) (m2 : M (mstate E) A)
    (f : A -> B) (l1 l2 : string) (w : world E) (g : loc) (i : instance E) :
  neutron_clustering w = Some g ->
  heap w !! g = Some i ->
  let rs := (let* _ := logging INFO l1 in
             let* _ := m1 in
             let* _ := logging INFO l2 in
             let* a := m2 in
             mret (f a)) (mk_mstate i (root_log w)) in
  (let* _ := wlogging INFO l1 in
   let* g := global_neutron_clustering in
   let* _ := call g m1 in
   let* _ := wlogging INFO l2 in
   let* g := global_neutron_clustering in
   let* a := call g m2 in
   mret (f a)) w
  = (fst rs,
     mk_world (<[g := this (snd rs)]> (heap w)) (Some g) (log (snd rs)) (files w)).
Proof.
  intros Hg Hi rs. subst rs.
  unfold mbind, wlogging, logging, modify, global_neutron_clustering, call, mret.
  cbn [fst snd heap neutron_clustering root_log files this log].
  rewrite Hg. cbn [fst snd heap neutron_clustering root_log files this log].
  rewrite Hi.
  destruct (m1 _) as [[[]|e] [i1 lg1]]; cbn [fst snd heap neutron_clustering root_log files
                                              this log]; [|reflexivity].
  rewrite lookup_insert_eq.
  destruct (m2 _) as [[a|e] [i2 lg2]]; cbn [fst snd this log heap neutron_clustering
                                            root_log files];
    now rewrite insert_insert_eq.
Qed.

Lemma scan_step_calls (table : list (list cell)) (eps : Q) (w : world E) (g : loc)
    (i : instance E) :
  neutron_clustering w = Some g ->
  heap w !! g = Some i ->
  let rs := calls_on_object table eps (mk_mstate i (root_log w)) in
  scan_step table eps w
  = (fst rs,
     mk_world (<[g := this (snd rs)]> (heap w)) (Some g) (log (snd rs)) (files w)).
Proof.
  intros Hg Hi.
  exact (two_calls_on_global
           (cluster "neutron" "dbscan" [("eps", PFloat eps); ("min_samples", PInt 6)])
           (calc_scores "neutron")
           (fun avg_scores => table ++ [CFloat eps :: map CFloat (scores_values avg_scores)])
           ("Running clustering for eps = " +:+ float_repr eps +:+ ".")
           ("Computing scores for eps = " +:+ float_repr eps +:+ ".")
           w g i Hg Hi).
Qed.

Lemma scan_loop_calls (eps_values : list Q) :
  forall (table : list (list cell)) (w : world E) (g : loc) (i : instance E),
    neutron_clustering w = Some g ->
    heap w !! g = Some i ->
    let rs := for_fold eps_values table calls_on_object (mk_mstate i (root_log w)) in
    for_fold eps_values table scan_step w
    = (fst rs,
       mk_world (<[g := this (snd rs)]> (heap w)) (Some g) (log (snd rs)) (files w)).
Proof.
  induction eps_values as [|eps eps_values IH]; intros table w g i Hg Hi; cbv zeta.
  - cbn. unfold mret. rewrite (insert_id _ _ _ Hi), <- Hg. now destruct w.
  - set (rs := for_fold (eps :: eps_values) table calls_on_object _).
    assert (Hrs : rs = match calls_on_object table eps (mk_mstate i (root_log w)) with
                       | (Ok t1, s1) => for_fold eps_values t1 calls_on_object s1
                       | (Raise e, s1) => (Raise e, s1)
                       end) by reflexivity.
    clearbody rs. cbn [for_fold]. unfold mbind at 1.
    rewrite (scan_step_calls table eps w g i Hg Hi).
    destruct (calls_on_object table eps (mk_mstate i (root_log w))) as [[t1|e] [i1 lg1]];
      subst rs; cbn [fst snd this log]; [|reflexivity].
    rewrite (IH t1 (mk_world (<[g := i1]> (heap w)) (Some g) lg1 (files w)) g i1
               eq_refl (lookup_insert_eq _ _ _)).
    cbn [heap root_log files]. now rewrite insert_insert_eq.
Qed.

Lemma scan_calls (receiver : loc) (e0 e1 eps_step : Q) (more : list Q)
    (save_scores : string) (w : world E) (g : loc) (i : instance E) :
  neutron_clustering w = Some g ->
  heap w !! g = Some i ->
  Qeq_bool eps_step 0 = false ->
  0 < int_of_float (rnd (fsub e1 e0 / eps_step)) ->
  let eps_values := map (fun ii => fadd e0 (fmul (float_of_int ii) eps_step))
                        (py_range (int_of_float (rnd (fsub e1 e0 / eps_step)))) in
  exists first_line : string,
    let rs := for_fold eps_values [scan_header] calls_on_object
                (mk_mstate i (root_log w ++ [(INFO, first_line)])) in
    scan_eps_values receiver (e0 :: e1 :: more) eps_step save_scores w
    = (match fst rs with Ok _ => Ok tt | Raise e => Raise e end,
       mk_world (<[g := this (snd rs)]> (heap w)) (Some g) (log (snd rs))
         match fst rs with
         | Ok table => <[save_scores +:+ ".csv" := table]> (files w)
         | Raise _ => files w
         end).
Proof.
  intros Hg Hi Hstep Hn eps_values.
  assert (Hvalues : exists eps others, eps_values = eps :: others).
  { subst eps_values. unfold py_range.
    destruct (Z.to_nat (int_of_float (rnd (fsub e1 e0 / eps_step)))) as [|k] eqn:Hk; [lia|].
    cbn [seq map]. eauto. }
  unfold scan_eps_values.
  unfold mbind at 1. unfold lift_result at 1. cbn [list_get lookup list_lookup].
  unfold mbind at 1. unfold lift_result at 1. cbn [list_get lookup list_lookup].
  unfold mbind at 1. unfold lift_result at 1, fdiv. rewrite Hstep.
  fold eps_values. clearbody eps_values.
  destruct Hvalues as (eps & others & ->).
  unfold mbind at 1. unfold lift_result at 1. cbn [list_get lookup list_lookup].
  unfold mbind at 1. unfold lift_result at 1, list_get.
  destruct (lookup_lt_is_Some_2 (eps :: others) (length (eps :: others) - 1)) as [last ->].
  { cbn [length]. lia. }
  match goal with |- context [wlogging INFO ?msg] => exists msg end.
  cbv zeta.
  unfold mbind at 1. unfold wlogging at 1, modify. cbn [fst snd].
  unfold mbind at 1.
  match goal with
  | |- context [for_fold (eps :: others) [scan_header] scan_step ?w1] =>
      rewrite (scan_loop_calls (eps :: others) [scan_header] w1 g i Hg Hi)
  end.
  cbn [root_log heap files fst snd].
  match goal with
  | |- context [for_fold (eps :: others) ?t calls_on_object ?st] =>
      destruct (for_fold (eps :: others) t calls_on_object st) as [[table|e] [i1 lg1]]
  end; reflexivity.
Qed.
End ScanCallsProps.

Section ScanClaim.
Context {fl : PyFloat} {E : Type} {skc : SklearnCluster} {skm : SklearnMetrics}.

(** C8.  [scan_eps_values] never uses its receiver: it makes its calls of
    [cluster] and [calc_scores] on the object bound to the module-level name
    [neutron_clustering].  A receiver that is not that object is left as it
    was, with its [cluster_predictions] and [cluster_scores], and the scan
    does the same for every receiver.  With the name bound to an object and
    at least one eps value, that object ends as the calls of [cluster] and
    [calc_scores] leave it, made on it for each eps value in turn up to the
    first call that raises; the scan raises what that call raised, and when
    every call returns the file holds the rows of the averages that
    [calc_scores] returned. *)
Theorem scan_leaves_receiver_unchanged
    (receiver : loc) (eps_range : list Q) (eps_step : Q) (save_scores : string)
    (w : world E) :
  neutron_clustering w <> Some receiver ->
  let r := scan_eps_values receiver eps_range eps_step save_scores w in
  let w' := snd r in
  heap w' !! receiver = heap w !! receiver /\
  (forall i i' : instance E,
     heap w !! receiver = Some i -> heap w' !! receiver = Some i' ->
     cluster_predictions i' = cluster_predictions i /\
     cluster_scores i' = cluster_scores i) /\
  (forall other : loc,
     scan_eps_values other eps_range eps_step save_scores w
     = scan_eps_values receiver eps_range eps_step save_scores w) /\
  (forall (g : loc) (i : instance E) (e0 e1 : Q) (more : list Q),
     neutron_clustering w = Some g ->
     heap w !! g = Some i ->
     eps_range = e0 :: e1 :: more ->
     Qeq_bool eps_step 0 = false ->
     0 < int_of_float (rnd (fsub e1 e0 / eps_step)) ->
     exists first_line : string,
       let calls :=
         for_fold (map (fun ii => fadd e0 (fmul (float_of_int ii) eps_step))
                       (py_range (int_of_float (rnd (fsub e1 e0 / eps_step)))))
                  [scan_header] calls_on_object
                  (mk_mstate i (root_log w ++ [(INFO, first_line)])) in
       heap w' !! g = Some (this (snd calls)) /\
       heap w' = <[g := this (snd calls)]> (heap w) /\
       root_log w' = log (snd calls) /\
       fst r = match fst calls with Ok _ => Ok tt | Raise e => Raise e end /\
       files w' = match fst calls with
                  | Ok table => <[save_scores +:+ ".csv" := table]> (files w)
                  | Raise _ => files w
                  end).
Proof.
  intros Hne r w'.
  assert (Hsame : heap w' !! receiver = heap w !! receiver).
  { destruct (keeps_scan w receiver eps_range eps_step save_scores w) as [_ Hheap].
    - split; [reflexivity|]. intros; reflexivity.
    - now apply Hheap. }
  split; [exact Hsame|]. split; [|split; [reflexivity|]].
  { intros i i' Hi Hi'. rewrite Hsame, Hi in Hi'. injection Hi' as <-. now split. }
  intros g i e0 e1 more Hg Hi -> Hstep Hn.
  destruct (scan_calls receiver e0 e1 eps_step more save_scores w g i Hg Hi Hstep Hn)
    as [first_line Hrun].
  exists first_line. cbv zeta in *. subst w'.
  assert (Hr : r = scan_eps_values receiver (e0 :: e1 :: more) eps_step save_scores w)
    by reflexivity.
  clearbody r. rewrite Hrun in Hr. subst r. cbn [fst snd heap root_log files].
  split; [apply lookup_insert_eq|]. repeat split.
Qed.
End ScanClaim.

(** ** The depth histogram *)

Lemma filter_split_length {A} (f : A -> nat) (l : list A) (n : nat) :
  length (List.filter (fun v => Nat.ltb (f v) (S n)) l)
  = (length (List.filter (fun v => Nat.ltb (f v) n) l)
     + length (List.filter (fun v => Nat.eqb (f v) n) l))%nat.
Proof.
  induction l as [|v l IH]; [reflexivity|]. cbn [List.filter].
  destruct (Nat.ltb_spec (f v) (S n)), (Nat.ltb_spec (f v) n), (Nat.eqb_spec (f v) n);
    cbn [length]; lia.
Qed.

Lemma count_below {A} (f : A -> nat) (l : list A) (n : nat) :
  sum_int (map (fun i => Z.of_nat (length (List.filter (fun v => Nat.eqb (f v) i) l)))
               (seq 0 n))
  = Z.of_nat (length (List.filter (fun v => Nat.ltb (f v) n) l)).
Proof.
  induction n as [|n IH].
  - cbn [seq map]. rewrite (proj2 (List.length_zero_iff_nil _)); [reflexivity|].
    induction l as [|v l IHl]; [reflexivity|exact IHl].
  - rewrite seq_S, map_app, sum_int_app, IH. cbn [map Nat.add].
    rewrite sum_int_cons. unfold sum_int at 1. cbn [fold_left].
    rewrite filter_split_length. lia.
Qed.

Lemma counts_nonneg {A} (f : A -> nat) (l : list A) (idx : list nat) :
  Forall (fun c => 0 <= c)
    (map (fun i => Z.of_nat (length (List.filter (fun v => Nat.eqb (f v) i) l))) idx).
Proof. apply List.Forall_forall. intros c Hc. apply in_map_iff in Hc as (i & <- & _). lia. Qed.

Lemma sum_int_bounds (l : list Z) :
  Forall (fun c => 0 <= c) l -> Forall (fun c => 0 <= c <= sum_int l) l.
Proof.
  induction 1 as [|c l Hc Hl IH]; [constructor|].
  assert (0 <= sum_int l).
  { clear IH. induction Hl as [|d l Hd Hl IHl]; [unfold sum_int; simpl; lia|].
    rewrite sum_int_cons. lia. }
  rewrite sum_int_cons. constructor; [lia|].
  eapply List.Forall_impl; [|exact IH]. simpl. intros; lia.
Qed.

Section HistogramProps.
Context {fl : PyFloat}.

Lemma bin_index_from_range (edges : list Q) (v : Q) :
  forall (i best : nat),
    bin_index_from i edges v best = best
    \/ (i <= bin_index_from i edges v best < i + length edges)%nat.
Proof.
  induction edges as [|e edges IH]; intros i best; [now left|].
  cbn [bin_index_from length].
  destruct (IH (S i) (if Qle_bool e v then i else best)) as [Heq|Hrange].
  - rewrite Heq. destruct (Qle_bool e v); [right; lia|now left].
  - right. lia.
Qed.

Lemma bin_index_lt (edges : list Q) (n : nat) (v : Q) :
  (0 < n)%nat -> (bin_index edges n v < n)%nat.
Proof.
  intros Hn. unfold bin_index.
  pose proof (length_firstn n edges) as Hlen.
  destruct (bin_index_from_range (firstn n edges) v 0 0) as [->|Hr]; lia.
Qed.

(** [np.histogram] counts every value once. *)
Lemma np_histogram_run (a : list Q) (bins : Z) :
  0 < bins ->
  exists (counts : list Z) (edges : list Q),
    np_histogram a bins = Ok (counts, edges) /\
    length counts = Z.to_nat bins /\
    Forall (fun c => 0 <= c) counts /\
    sum_int counts = Z.of_nat (length a).
Proof.
  intros Hbins. unfold np_histogram.
  destruct (Z.leb_spec bins 0) as [Hle|_]; [lia|].
  eexists. eexists. split; [reflexivity|]. split; [|split].
  - now rewrite length_map, length_seq.
  - apply counts_nonneg.
  - rewrite count_below. rewrite filter_all; [reflexivity|].
    intros v _. apply Nat.ltb_lt. apply bin_index_lt. lia.
Qed.
End HistogramProps.

Lemma last_cons {A} (l : list A) : forall a d : A, List.last (a :: l) d = List.last l a.
Proof.
  induction l as [|b l IH]; intros a d; [reflexivity|].
  change (List.last (a :: b :: l) d) with (List.last (b :: l) d).
  now rewrite (IH b d), (IH b a).
Qed.

Lemma Qsum_nonneg (l : list Q) : Forall (fun h => 0 <= h)%Q l -> (0 <= Qsum l)%Q.
Proof.
  induction 1 as [|h l Hh _ IH]; simpl; [lra|]. lra.
Qed.

Section DepthHistogram.
Context {fl : PyFloat} {fl_laws : PyFloatLaws}.

Lemma density_unit (c t : Z) :
  0 <= c <= t -> 0 < t ->
  (0 <= rnd (inject_Z c / inject_Z t))%Q /\ (rnd (inject_Z c / inject_Z t) <= 1)%Q.
Proof.
  intros Hc Ht. destruct (quotient_unit c t Hc Ht) as [Hlow Hhigh].
  exact (rnd_between 0 1 _ ltac:(lia) ltac:(lia) Hlow Hhigh).
Qed.

Lemma densities_unit (counts : list Z) :
  Forall (fun c => 0 <= c) counts -> 0 < sum_int counts ->
  Forall (fun d => 0 <= d /\ d <= 1)%Q
         (map (fun c => rnd (inject_Z c / inject_Z (sum_int counts))) counts).
Proof.
  intros Hnonneg Hpos. apply List.Forall_forall. intros d Hd.
  apply in_map_iff in Hd as (c & <- & Hc).
  pose proof (sum_int_bounds counts Hnonneg) as Hb.
  rewrite List.Forall_forall in Hb. now apply density_unit; [apply Hb|].
Qed.

(** The cumulative loop never decreases and stays non-negative. *)
Lemma cumulative_sorted (l : list Q) :
  Forall (fun h => 0 <= h)%Q l ->
  forall last : Q, (rnd last == last)%Q -> (0 <= last)%Q ->
    Sorted Qle (last :: cumulative last l)
    /\ Forall (fun c => 0 <= c)%Q (cumulative last l).
Proof.
  induction 1 as [|h l Hh _ IH]; intros last Hrep Hlast.
  - split; repeat constructor.
  - cbn [cumulative]. set (c := fadd h last).
    assert (Hle : (last <= c)%Q).
    { unfold c, fadd. rewrite <- Hrep at 1. apply rnd_mono. lra. }
    assert (Hc : (rnd c == c)%Q) by (unfold c, fadd; apply rnd_idem).
    destruct (IH c Hc ltac:(lra)) as [Hsorted Hall].
    split.
    + constructor; [exact Hsorted|]. constructor. exact Hle.
    + constructor; [lra|exact Hall].
Qed.

(** In exact arithmetic the cumulative loop computes the partial sums. *)
Lemma cumulative_exact (l : list Q) :
  (forall q : Q, (rnd q == q)%Q) ->
  Forall (fun h => 0 <= h)%Q l ->
  forall last : Q,
    Forall (fun c => c <= last + Qsum l)%Q (cumulative last l)
    /\ (List.last (cumulative last l) last == last + Qsum l)%Q.
Proof.
  intros Hexact. induction 1 as [|h l Hh Hl IH]; intros last.
  - split; [constructor|]. simpl. lra.
  - cbn [cumulative]. set (c := fadd h last).
    assert (Hc : (c == h + last)%Q) by (unfold c, fadd; apply Hexact).
    destruct (IH c) as [Hall Hlast].
    pose proof (Qsum_nonneg l Hl) as Hsum.
    cbn [Qsum fold_right]. fold (Qsum l). split.
    + constructor; [lra|].
      eapply List.Forall_impl; [|exact Hall]. simpl. intros a Ha. lra.
    + rewrite last_cons, Hlast. lra.
Qed.

Lemma Qsum_density (t : Q) (l : list Z) :
  (forall q : Q, (rnd q == q)%Q) ->
  (Qsum (map (fun c => rnd (inject_Z c / t)) l) == inject_Z (sum_int l) / t)%Q.
Proof.
  intros Hexact. induction l as [|c l IH].
  - simpl. unfold sum_int. simpl. unfold Qdiv. ring.
  - cbn [map Qsum fold_right]. fold (Qsum (map (fun c => rnd (inject_Z c / t)) l)).
    rewrite IH, Hexact, sum_int_cons, inject_Z_plus. unfold Qdiv. ring.
Qed.
End DepthHistogram.

Lemma length_cumulative `{PyFloat} (l : list Q) :
  forall last : Q, length (cumulative last l) = length l.
Proof. induction l as [|h l IH]; intros last; [reflexivity|]. cbn. now rewrite IH. Qed.

Section DepthHistogramClaim.
Context {fl : PyFloat} {fl_laws : PyFloatLaws} {E : Type}.

End DepthHistogramClaim.

(** ** The interfaces are inhabited *)

Lemma exact_float_laws : @PyFloatLaws exact_float.
Proof.
  constructor; cbn [rnd exact_float].
  - intros a b Hab. exact Hab.
  - intros a b Hab. exact Hab.
  - intros a. reflexivity.
  - intros n _. reflexivity.
Qed.

Lemma np_float64_binary64_laws : @NumpyFloatLaws binary64 Q binary_float64.
Proof.
  constructor. cbn [np_eq_float np_round np_float64 binary_float64 rnd binary64].
  intros e He. apply Qeq_bool_iff in He. apply Qeq_bool_iff.
  unfold fmul, float_of_int. cbn [rnd binary64].
  assert (Hmul : round_binary64 (e * round_binary64 (inject_Z (10 ^ 2)))
                 = round_binary64 (round_binary64 (61 # 10)
                                   * round_binary64 (inject_Z (10 ^ 2)))).
  { apply round_binary64_proper. rewrite He. reflexivity. }
  rewrite Hmul. vm_compute. reflexivity.
Qed.

(** The rounding agrees with the hardware doubles on the quotients 1/10 and
    61/10 and on the ten-fold sum of 1/10. *)
Lemma round_binary64_agrees_with_hardware :
  float_value (1 / 10)%float = Some (round_binary64 (1 # 10)) /\
  float_value (61 / 10)%float = Some (round_binary64 (61 # 10)) /\
  float_value (fold_left PrimFloat.add (repeat (1 / 10)%float 10) 0%float)
    = Some (9007199254740991 # 9007199254740992)%Q.
Proof. vm_compute. repeat split; reflexivity. Qed.

(** ** The statements at concrete inputs *)

Lemma capture_ratio_is_rounded_percentage_witness :
  parallel_arrays (this Toy.one_capture) /\
  capture_ratio (this (snd (calculate_capture_ratio (fl := binary64)
                              (np := binary_float64) Toy.one_capture))) = Some 100.
Proof.
  assert (Hpar : parallel_arrays (this Toy.one_capture)) by (repeat constructor).
  split; [exact Hpar|].
  destruct (@capture_ratio_is_rounded_percentage binary64 binary64_laws
              Q binary_float64 np_float64_binary64_laws Toy.one_capture Hpar)
    as (_ & _ & _ & Hratio).
  destruct (Hratio eq_refl) as (_ & ratio & Hsome & _ & _ & Hfull).
  rewrite Hsome. f_equal. apply Hfull.
  constructor; [|constructor]. intros c [<-|[]]. vm_compute. reflexivity.
Defined.

Lemma capture_ratio_without_groups_witness :
  Forall (fun truth : list Z => truth = []) (edep_neutron_ids (this Toy.no_captures)) /\
  fst (calculate_capture_ratio (fl := binary64) (np := binary_float64) Toy.no_captures)
    = Raise (ZeroDivisionError "division by zero") /\
  num_captures (this (snd (calculate_capture_ratio (fl := binary64) (np := binary_float64)
                             Toy.no_captures))) = [0; 0].
Proof.
  assert (Hempty : Forall (fun truth : list Z => truth = [])
                          (edep_neutron_ids (this Toy.no_captures)))
    by (repeat constructor).
  split; [exact Hempty|].
  destruct (capture_ratio_without_groups (fl := binary64) (np := binary_float64))
    as [_ Hall].
  destruct (Hall Toy.no_captures Hempty) as (Hraise & _ & Hcounts & _).
  split; [exact Hraise|exact Hcounts].
Defined.

Lemma cluster_rejects_undeclared_parameter_witness :
  exists item : string,
    first_undeclared [("eps", PFloat 100); ("min_samples", PInt 6)]
                     [("eps", PFloat 30); ("foo", PNone)] = Some item /\
    fst (cluster (fl := exact_float) (skc := Toy.sklearn_cluster Toy.one_cluster)
           "neutron" "dbscan" [("eps", PFloat 30); ("foo", PNone)] Toy.three_points)
    = Raise (ValueError (unrecognized_parameter (fl := exact_float) item "dbscan"
                           [("eps", PFloat 100); ("min_samples", PInt 6)])).
Proof.
  destruct (cluster_rejects_undeclared_parameter (fl := exact_float)
              (skc := Toy.sklearn_cluster Toy.one_cluster)
              "neutron" "dbscan" [("eps", PFloat 30); ("foo", PNone)]
              [("eps", PFloat 100); ("min_samples", PInt 6)] "foo" Toy.three_points
              eq_refl (or_intror (or_introl eq_refl)) eq_refl)
    as (item & Hfirst & _ & _ & Hraise & _).
  exists item. split; [exact Hfirst|exact Hraise].
Defined.

Lemma cluster_gaussian_raises_witness :
  cluster_attr (SklearnCluster := Toy.sklearn_cluster Toy.one_cluster) "GaussianMixture" = None /\
  fst (cluster (fl := exact_float) (skc := Toy.sklearn_cluster Toy.one_cluster)
         "neutron" "gaussian" [("n_components", PInt 2)] Toy.three_points)
  = Raise (AttributeError "module 'sklearn.cluster' has no attribute 'GaussianMixture'").
Proof.
  split; [reflexivity|].
  destruct (cluster_gaussian_raises (fl := exact_float)
              (skc := Toy.sklearn_cluster Toy.one_cluster)
              "neutron" [("n_components", PInt 2)] _ Toy.three_points
              eq_refl eq_refl eq_refl) as [Hraise _].
  exact Hraise.
Defined.

(** One estimator cluster for the whole event: the five truth metrics are
    computed and appended, the silhouette raises, and with it the whole
    call; no average is stored. *)
Lemma calc_scores_single_cluster_event_fails :
  let s := snd (cluster (fl := exact_float) (skc := Toy.sklearn_cluster Toy.one_cluster)
                  "neutron" "dbscan" [("eps", PFloat 30)] Toy.three_points) in
  let r := calc_scores (fl := exact_float) (skm := Toy.sklearn_metrics) "neutron" s in
  cluster_predictions (this s) = [[0; 0; 0]] /\
  length (np_unique [0; 0; 0]) = 1%nat /\
  is_ok (fst r) = false /\
  homogeneity (cluster_scores (this (snd r))) = [1%Q] /\
  adjusted_mutual_info (cluster_scores (this (snd r))) = [1%Q] /\
  silhouette (cluster_scores (this (snd r))) = [] /\
  avg_cluster_scores (this (snd r)) = scores_const 0%Q.
Proof. vm_compute. repeat split; reflexivity. Qed.



(** The scan of [1, 5) with step 1, called on the second object: it returns,
    the file holds the header and four rows for eps = 1, 2, 3, 4, and the
    predictions it made are those of the first object, the one bound to the
    module-level name. *)
Lemma scan_one_to_five :
  let r := scan_eps_values (fl := binary64) (skc := Toy.sklearn_cluster Toy.two_sides)
             (skm := Toy.sklearn_metrics) 1%nat [1; 5]%Q 1%Q "scan_scores" Toy.two_objects in
  fst r = Ok tt /\
  (exists rows, files (snd r) !! "scan_scores.csv" = Some rows /\
     length rows = 5%nat /\
     map (fun row => hd (CStr "") row) rows
     = [CStr "eps"; CFloat 1; CFloat 2; CFloat 3; CFloat 4] /\
     rows !! 0%nat = Some (map CStr ["eps"; "homogeneity"; "completeness"; "v-measure";
                                      "adjusted_rand_index"; "adjusted_mutual_info";
                                      "silhouette"])) /\
  (cluster_predictions <$> heap (snd r) !! 0%nat) = Some [[0; 1; 1]] /\
  (cluster_predictions <$> heap (snd r) !! 1%nat) = Some [].
Proof.
  vm_compute. split; [reflexivity|]. split; [|split; reflexivity].
  eexists. split; [reflexivity|]. repeat split; reflexivity.
Qed.

(** C6, at a range without a value.  For the range [1, 1.5) and step 1,
    [int((1.5 - 1) / 1)] is 0 and there is no eps value; the scan raises
    [IndexError] from the log message that reads [eps_values[0]], before any
    clustering, and writes no file: not even the header row. *)
Theorem scan_without_value_raises :
  let r := scan_eps_values (fl := binary64) (skc := Toy.sklearn_cluster Toy.two_sides)
             (skm := Toy.sklearn_metrics) 0%nat [1; 3 # 2]%Q 1%Q "scan_scores"
             Toy.two_objects in
  int_of_float (@rnd binary64 (fsub (fl := binary64) (3 # 2) 1 / 1)) = 0 /\
  fst r = Raise (IndexError "list index out of range") /\
  files (snd r) !! "scan_scores.csv" = None /\
  snd r = Toy.two_objects.
Proof.
  intros r.
  assert (Hsteps : int_of_float (@rnd binary64 (fsub (fl := binary64) (3 # 2) 1 / 1)) = 0)
    by (vm_compute; reflexivity).
  assert (Hrun : r = (Raise (IndexError "list index out of range"), Toy.two_objects)).
  { apply (scan_without_values (fl := binary64)); [reflexivity|]. rewrite Hsteps. lia. }
  rewrite Hrun. split; [exact Hsteps|]. repeat split; reflexivity.
Qed.

(** The five algorithm names on one event of three points, with a module
    that has the four classes of [sklearn.cluster]: four runs store three
    labels, the gaussian run raises. *)
Lemma cluster_five_algorithms :
  map (fun alg =>
         let r := cluster (fl := binary64) (skc := Toy.sklearn_cluster Toy.two_sides)
                    "neutron" alg [] Toy.three_points in
         (is_ok (fst r), map (@length Z) (cluster_predictions (this (snd r)))))
      ["affinity"; "mean_shift"; "dbscan"; "optics"; "gaussian"]
  = [(true, [3%nat]); (true, [3%nat]); (true, [3%nat]); (true, [3%nat]); (false, [])].
Proof. vm_compute. reflexivity. Qed.

(** * Further properties of the class *)

(** ** [calc_scores]: the guards, the fallback and the values *)

Section ScoreGuards.
Context {fl : PyFloat} {E : Type} {skm : SklearnMetrics}.

Lemma calc_scores_guard_run (level : string) (s : mstate E) :
  cluster_predictions (this s) = [] \/
    length (cluster_predictions (this s)) <> num_events (this s) ->
  calc_scores level s
  = (Raise (ValueError (predictions_message (this s))),
     mk_mstate (this s)
       ((log s ++ level_warning level) ++ [(ERROR, predictions_message (this s))])).
Proof.
  intros Hguard. unfold calc_scores. unfold mbind at 1. rewrite check_level_run.
  unfold mbind at 1. unfold self at 1. cbn [this log fst snd].
  unfold predictions_message.
  destruct (cluster_predictions (this s)) as [|p ps] eqn:Hcp; [reflexivity|].
  destruct (Nat.eqb_spec (length (p :: ps)) (num_events (this s))) as [Heq|Hne].
  - destruct Hguard as [Hnil|Hlen]; [discriminate|contradiction].
  - reflexivity.
Qed.

(** X1.  [calc_scores] refuses to score unless there is exactly one
    prediction per event: with no prediction, or with a number of
    predictions other than [num_events], it logs an error and raises
    [ValueError] with the same text, and the object is left as it was; the
    scores of an earlier call are not cleared. *)
Theorem calc_scores_needs_one_prediction_per_event (level : string) (s : mstate E) :
  cluster_predictions (this s) = [] \/
    length (cluster_predictions (this s)) <> num_events (this s) ->
  let r := calc_scores level s in
  let msg := match cluster_predictions (this s) with
             | [] => "No predictions have been made, need to run clustering algorithm first!"
             | _ => "Only " +:+ pretty (length (cluster_predictions (this s)))
                      +:+ " predictions but " +:+ pretty (num_events (this s)) +:+ " events!"
             end in
  fst r = Raise (ValueError msg) /\
  this (snd r) = this s /\
  log (snd r) = (log s ++ level_warning level) ++ [(ERROR, msg)].
Proof.
  intros Hguard r msg. subst r. rewrite (calc_scores_guard_run level s Hguard).
  repeat split.
Qed.

Lemma calc_scores_fallback_run (level : string) (s : mstate E) :
  str_in level levels = false ->
  calc_scores level s
  = calc_scores "neutron" (mk_mstate (this s) (log s ++ level_warning level)).
Proof.
  intros Hlevel. unfold calc_scores.
  unfold mbind at 1. rewrite check_level_run, Hlevel.
  symmetry. unfold mbind at 1. rewrite check_level_run.
  cbn [this log]. change (level_warning "neutron") with (@nil (loglevel * string)).
  rewrite app_nil_r. reflexivity.
Qed.

(** X3.  A [level] other than 'neutron' and 'gamma' is not an error for
    [calc_scores]: after a logged warning the call is the call at level
    'neutron', with the same outcome, scores and averages. *)
Theorem calc_scores_unknown_level_is_neutron (level : string) (s : mstate E) :
  str_in level ["neutron"; "gamma"] = false ->
  calc_scores level s
  = calc_scores "neutron"
      (mk_mstate (this s)
         (log s ++ [(WARNING, "Requested cluster level by '" +:+ level
                                +:+ "' not allowed, using 'neutron'.")])).
Proof.
  intros Hlevel. rewrite (calc_scores_fallback_run level s Hlevel).
  unfold level_warning. change levels with ["neutron"; "gamma"]. rewrite Hlevel.
  reflexivity.
Qed.
End ScoreGuards.

Section ScoreValues.
Context {fl : PyFloat} {E : Type} {skm : SklearnMetrics}.

Lemma score_event_run (labels : list (list Z)) (ii : nat) (pred truth : list Z)
    (pos : list point) (sc : scores Q) (s : mstate E) :
  labels !! ii = Some truth ->
  edep_positions (this s) !! ii = Some pos ->
  event_scores truth pos pred = Ok sc ->
  score_event labels (ii, pred) s
  = (Ok tt,
     mk_mstate (set_cluster_scores (append_scores (cluster_scores (this s)) sc) (this s))
               (log s)).
Proof.
  intros Hl Hp Hsc. unfold event_scores in Hsc.
  destruct (homogeneity_score truth pred) as [h|] eqn:Hh; [|discriminate].
  destruct (completeness_score truth pred) as [c|] eqn:Hc; [|discriminate].
  destruct (v_measure_score truth pred) as [v|] eqn:Hv; [|discriminate].
  destruct (adjusted_rand_score truth pred) as [a|] eqn:Ha; [|discriminate].
  destruct (adjusted_mutual_info_score truth pred) as [m|] eqn:Hm; [|discriminate].
  destruct (silhouette_score pos pred) as [sl|] eqn:Hs; [|discriminate].
  cbn [result_bind] in Hsc. injection Hsc as <-.
  destruct s as [i lg]; destruct i. cbn [this edep_positions] in Hp.
  unfold score_event, mbind, lift_result, list_get, append_score, update_self, modify, self.
  cbn [fst snd this log]. rewrite Hl, Hh, Hc, Hv, Ha, Hm.
  cbn [set_cluster_scores edep_positions]. rewrite Hp, Hs. reflexivity.
Qed.

Lemma score_loop_run (labels0 : list (list Z)) :
  forall (labels : list (list Z)) (positions : list (list point))
         (preds : list (list Z)) (per : list (scores Q)),
    scored labels positions preds per ->
    forall (k : nat) (s : mstate E),
      (forall j truth, labels !! j = Some truth -> labels0 !! (k + j)%nat = Some truth) ->
      (forall j pos, positions !! j = Some pos ->
                     edep_positions (this s) !! (k + j)%nat = Some pos) ->
      for_each (enumerate_from k preds) (score_event labels0) s
      = (Ok tt,
         mk_mstate (set_cluster_scores (fold_left append_scores per (cluster_scores (this s)))
                                       (this s))
                   (log s)).
Proof.
  induction 1 as [|truth pos pred sc labels positions preds per Hsc _ IH]; intros k s Hl Hp.
  - cbn. unfold mret. rewrite set_cluster_scores_same. now destruct s.
  - cbn [enumerate_from for_each fold_left]. unfold mbind at 1.
    rewrite (score_event_run labels0 k pred truth pos sc s).
    + rewrite IH.
      * cbn [this log]. rewrite set_cluster_scores_twice.
        destruct s as [i lg]; destruct i; reflexivity.
      * intros j t Hj. replace (S k + j)%nat with (k + S j)%nat by lia. now apply Hl.
      * intros j p Hj. cbn [this].
        replace (S k + j)%nat with (k + S j)%nat by lia.
        rewrite <- (Hp (S j) p Hj). destruct s as [i lg]; destruct i; reflexivity.
    + rewrite <- (Hl 0%nat truth eq_refl). f_equal. lia.
    + rewrite <- (Hp 0%nat pos eq_refl). f_equal. lia.
    + exact Hsc.
Qed.

Lemma fold_append_scores (per : list (scores Q)) :
  forall cs : scores (list Q),
    fold_left append_scores per cs
    = mk_scores (homogeneity cs ++ map homogeneity per)
        (completeness cs ++ map completeness per)
        (v_measure cs ++ map v_measure per)
        (adjusted_rand_index cs ++ map adjusted_rand_index per)
        (adjusted_mutual_info cs ++ map adjusted_mutual_info per)
        (silhouette cs ++ map silhouette per).
Proof.
  induction per as [|sc per IH]; intros cs.
  - cbn. rewrite !app_nil_r. now destruct cs.
  - cbn [fold_left map]. rewrite IH. unfold append_scores. cbn.
    rewrite <- !app_assoc. reflexivity.
Qed.

Lemma scored_length (labels : list (list Z)) (positions : list (list point))
    (preds : list (list Z)) (per : list (scores Q)) :
  scored labels positions preds per ->
  length labels = length preds /\ length positions = length preds
  /\ length per = length preds.
Proof. induction 1 as [|? ? ? ? ? ? ? ? _ _ (H1 & H2 & H3)]; cbn; auto. Qed.
End ScoreValues.

Section ScoreAverages.
Context {fl : PyFloat} {fl_laws : PyFloatLaws} {E : Type} {skm : SklearnMetrics}.

Lemma float_of_nat_nonzero (n : nat) :
  (0 < n)%nat -> Qeq_bool (float_of_int (Z.of_nat n)) 0 = false.
Proof.
  intros Hn. apply not_true_iff_false. intros Heq. apply Qeq_bool_iff in Heq.
  assert (H1 : (rnd 1 <= rnd (inject_Z (Z.of_nat n)))%Q).
  { apply rnd_mono. change 1%Q with (inject_Z 1). rewrite <- Zle_Qle. lia. }
  rewrite rnd_1 in H1. unfold float_of_int in Heq. rewrite Heq in H1.
  revert H1. apply Qlt_not_le. reflexivity.
Qed.

Lemma average_run (l : list Q) (n : nat) :
  (0 < n)%nat -> average l n = Ok (rnd (sum_float l / float_of_int (Z.of_nat n))).
Proof. intros Hn. unfold average, fdiv. now rewrite (float_of_nat_nonzero n Hn). Qed.

Lemma calc_scores_run (level : string) (s : mstate E) (per : list (scores Q)) :
  cluster_predictions (this s) <> [] ->
  length (cluster_predictions (this s)) = num_events (this s) ->
  scored (truth_labels level (this s)) (edep_positions (this s))
         (cluster_predictions (this s)) per ->
  let avg := score_averages (score_lists per) (length (truth_labels level (this s))) in
  exists lg : list (loglevel * string),
    calc_scores level s
    = (Ok avg,
       mk_mstate (set_avg_cluster_scores avg (set_cluster_scores (score_lists per) (this s)))
                 lg).
Proof.
  intros Hne Hlen Hsc avg.
  assert (Hpos : (0 < length (truth_labels level (this s)))%nat).
  { destruct (scored_length _ _ _ _ Hsc) as (Hl & _ & _). rewrite Hl.
    destruct (cluster_predictions (this s)); [now destruct Hne|cbn; lia]. }
  unfold calc_scores. unfold mbind at 1. rewrite check_level_run.
  unfold mbind at 1. unfold self at 1. cbn [this log fst snd].
  destruct (cluster_predictions (this s)) as [|p ps] eqn:Hcp; [now destruct Hne|].
  rewrite <- Hcp in *. rewrite Hlen, Nat.eqb_refl. cbn [negb].
  unfold mbind at 1. unfold update_self at 1, modify. cbn [fst snd this log].
  unfold mbind at 1. unfold logging at 1, modify. cbn [fst snd this log].
  unfold mbind at 1. unfold enumerate.
  fold (truth_labels level (this s)).
  rewrite (score_loop_run (truth_labels level (this s)) _ _ _ _ Hsc 0%nat).
  - cbn [this log]. rewrite set_cluster_scores_twice.
    rewrite fold_append_scores.
    unfold mbind at 1. unfold self at 1. cbn [fst snd this log].
    assert (Hcs : forall cs, cluster_scores (set_cluster_scores cs (this s)) = cs).
    { intros cs. destruct s as [i lg]; destruct i; reflexivity. }
    rewrite Hcs. cbn [scores_const homogeneity completeness v_measure adjusted_rand_index
                      adjusted_mutual_info silhouette app].
    rewrite !(average_run _ _ Hpos).
    subst avg. clear Hcs Hsc Hne Hlen Hcp Hpos. destruct s as [i lg]; destruct i.
    eexists. unfold mbind, lift_result, update_self, modify, self, logging, modify, mret.
    cbn [fst snd this log]. unfold score_averages, score_lists. reflexivity.
  - intros j truth Hj. exact Hj.
  - intros j pos Hj. cbn [this]. rewrite <- Hj.
    destruct s as [i lg]; destruct i; reflexivity.
Qed.

(** X2.  With one prediction per event, and when the six metric functions
    return for every event, [calc_scores] returns: each list of
    [cluster_scores] is replaced by the values of its metric, one per event
    in the order of the events, and every average is the float quotient of
    the float sum of its list by the number of events; the mapping returned
    is the one stored, and no other attribute changes. *)
Theorem calc_scores_stores_one_score_per_event
    (level : string) (s : mstate E) (per : list (scores Q)) :
  cluster_predictions (this s) <> [] ->
  length (cluster_predictions (this s)) = num_events (this s) ->
  scored (truth_labels level (this s)) (edep_positions (this s))
         (cluster_predictions (this s)) per ->
  let r := calc_scores level s in
  let n := length (truth_labels level (this s)) in
  exists avg : scores Q,
    fst r = Ok avg /\
    avg_cluster_scores (this (snd r)) = avg /\
    cluster_scores (this (snd r)) = score_lists per /\
    length per = length (cluster_predictions (this s)) /\
    n = length (cluster_predictions (this s)) /\
    map (fun l => rnd (sum_float l / float_of_int (Z.of_nat n)))
        (scores_values (score_lists per)) = scores_values avg /\
    this (snd r)
    = set_avg_cluster_scores avg (set_cluster_scores (score_lists per) (this s)).
Proof.
  intros Hne Hlen Hsc r n.
  destruct (calc_scores_run level s per Hne Hlen Hsc) as [lg Hrun].
  destruct (scored_length _ _ _ _ Hsc) as (Hl & _ & Hp).
  subst r. rewrite Hrun. cbn [fst snd this].
  eexists. split; [reflexivity|].
  repeat split; try assumption; destruct s as [i l0]; destruct i; reflexivity.
Qed.
End ScoreAverages.

(** ** [calc_scores]: when the silhouette raises *)

Lemma for_each_app {S A} (body : A -> M S unit) (l1 l2 : list A) (s : S) :
  for_each (l1 ++ l2) body s
  = match for_each l1 body s with
    | (Ok _, s1) => for_each l2 body s1
    | (Raise e, s1) => (Raise e, s1)
    end.
Proof.
  revert s. induction l1 as [|a l1 IH]; intros s; [reflexivity|].
  cbn [app for_each]. unfold mbind.
  destruct (body a s) as [[[]|e] s1]; [apply IH|reflexivity].
Qed.

Lemma enumerate_from_app {A} (l1 l2 : list A) (k : nat) :
  enumerate_from k (l1 ++ l2)
  = enumerate_from k l1 ++ enumerate_from (k + length l1) l2.
Proof.
  revert k. induction l1 as [|a l1 IH]; intros k; cbn [app enumerate_from length].
  - now rewrite Nat.add_0_r.
  - rewrite IH. do 3 f_equal. lia.
Qed.

Section ScoreFailure.
Context {fl : PyFloat} {E : Type} {skm : SklearnMetrics}.

Lemma score_event_silhouette_run (labels : list (list Z)) (ii : nat) (pred truth : list Z)
    (pos : list point) (h c v a m : Q) (e : exn) (s : mstate E) :
  labels !! ii = Some truth ->
  edep_positions (this s) !! ii = Some pos ->
  homogeneity_score truth pred = Ok h ->
  completeness_score truth pred = Ok c ->
  v_measure_score truth pred = Ok v ->
  adjusted_rand_score truth pred = Ok a ->
  adjusted_mutual_info_score truth pred = Ok m ->
  silhouette_score pos pred = Raise e ->
  score_event labels (ii, pred) s
  = (Raise e,
     mk_mstate
       (set_cluster_scores
          (mk_scores (homogeneity (cluster_scores (this s)) ++ [h])
             (completeness (cluster_scores (this s)) ++ [c])
             (v_measure (cluster_scores (this s)) ++ [v])
             (adjusted_rand_index (cluster_scores (this s)) ++ [a])
             (adjusted_mutual_info (cluster_scores (this s)) ++ [m])
             (silhouette (cluster_scores (this s))))
          (this s))
       (log s)).
Proof.
  intros Hl Hp Hh Hc Hv Ha Hm Hs.
  destruct s as [[f1 f2 f3 f4 f5 f6 f7 f8 f9 f10 f11 f12 f13 f14 f15] lg]. cbn [this edep_positions] in Hp.
  unfold score_event, mbind, lift_result, list_get, append_score, update_self, modify, self.
  cbn [fst snd this log]. rewrite Hl, Hh, Hc, Hv, Ha, Hm.
  cbn [set_cluster_scores edep_positions]. rewrite Hp, Hs. reflexivity.
Qed.

Lemma calc_scores_silhouette_run (level : string) (s : mstate E) (k : nat)
    (pred truth : list Z) (pos : list point) (per : list (scores Q)) (h c v a m : Q)
    (e : exn) :
  cluster_predictions (this s) !! k = Some pred ->
  edep_positions (this s) !! k = Some pos ->
  silhouette_score pos pred = Raise e ->
  length (cluster_predictions (this s)) = num_events (this s) ->
  truth_labels level (this s) !! k = Some truth ->
  scored (firstn k (truth_labels level (this s))) (firstn k (edep_positions (this s)))
         (firstn k (cluster_predictions (this s))) per ->
  homogeneity_score truth pred = Ok h ->
  completeness_score truth pred = Ok c ->
  v_measure_score truth pred = Ok v ->
  adjusted_rand_score truth pred = Ok a ->
  adjusted_mutual_info_score truth pred = Ok m ->
  exists lg : list (loglevel * string),
    calc_scores level s
    = (Raise e,
       mk_mstate
         (set_cluster_scores
            (mk_scores (map homogeneity per ++ [h]) (map completeness per ++ [c])
               (map v_measure per ++ [v]) (map adjusted_rand_index per ++ [a])
               (map adjusted_mutual_info per ++ [m]) (map silhouette per))
            (this s))
         lg).
Proof.
  intros Hpred Hpos Hsil Hlen Htruth Hsc Hh Hc Hv Ha Hm.
  unfold calc_scores. unfold mbind at 1. rewrite check_level_run.
  unfold mbind at 1. unfold self at 1. cbn [this log fst snd].
  destruct (cluster_predictions (this s)) as [|p ps] eqn:Hcp; [discriminate|].
  rewrite <- Hcp in *. rewrite Hlen, Nat.eqb_refl. cbn [negb].
  unfold mbind at 1. unfold update_self at 1, modify. cbn [fst snd this log].
  unfold mbind at 1. unfold logging at 1, modify. cbn [fst snd this log].
  unfold mbind at 1. unfold enumerate.
  fold (truth_labels level (this s)).
  replace (enumerate_from 0 (cluster_predictions (this s)))
    with (enumerate_from 0 (firstn k (cluster_predictions (this s))
                            ++ pred :: skipn (S k) (cluster_predictions (this s))))
    by (now rewrite (take_drop_middle _ _ _ Hpred)).
  rewrite enumerate_from_app, for_each_app. cbn [Nat.add].
  assert (Hpos' : forall cs, edep_positions (set_cluster_scores cs (this s))
                             = edep_positions (this s)).
  { intros cs. destruct s as [[f1 f2 f3 f4 f5 f6 f7 f8 f9 f10 f11 f12 f13 f14 f15] lg]; reflexivity. }
  assert (Hcs : forall cs, cluster_scores (set_cluster_scores cs (this s)) = cs).
  { intros cs. destruct s as [[f1 f2 f3 f4 f5 f6 f7 f8 f9 f10 f11 f12 f13 f14 f15] lg]; reflexivity. }
  rewrite (score_loop_run (truth_labels level (this s)) _ _ _ _ Hsc 0%nat).
  - cbn [this log]. rewrite set_cluster_scores_twice, fold_append_scores.
    cbn [enumerate_from for_each]. unfold mbind at 1.
    rewrite (score_event_silhouette_run _ _ pred truth pos h c v a m e).
    + cbn [this log]. rewrite set_cluster_scores_twice, Hcs.
      cbn [scores_const homogeneity completeness v_measure adjusted_rand_index
           adjusted_mutual_info silhouette app].
      eexists. reflexivity.
    + rewrite length_take_le; [exact Htruth|].
      apply Nat.lt_le_incl, (lookup_lt_Some _ _ _ Hpred).
    + cbn [this]. rewrite Hpos', length_take_le; [exact Hpos|].
      apply Nat.lt_le_incl, (lookup_lt_Some _ _ _ Hpred).
    + exact Hh.
    + exact Hc.
    + exact Hv.
    + exact Ha.
    + exact Hm.
    + exact Hsil.
  - intros j t Hj. cbn [Nat.add]. now apply lookup_take_Some in Hj as [Hj _].
  - intros j q Hj. cbn [this Nat.add]. rewrite Hpos'.
    now apply lookup_take_Some in Hj as [Hj _].
Qed.
End ScoreFailure.

Section ScoreFailureClaim.
Context {fl : PyFloat} {E : Type} {skm : SklearnMetrics}.

(** C1, as the code has it.  [calc_scores] has no handler around the metric
    calls.  When [silhouette_score] raises for some event (scikit-learn does
    so when the labels of the event are fewer than two distinct values), the
    call does not return, no average is computed, and [avg_cluster_scores]
    and [cluster_predictions] keep their values.  With one prediction per
    event, when the metric functions return for every event before that one
    and the five other metrics return for that event, the call fails with
    exactly the exception of the silhouette; [cluster_scores] then holds,
    in each list, one value per event before it, then the value of that
    event in the five lists other than 'silhouette': no event is skipped
    and no silhouette entry is recorded for the failing event. *)
Theorem calc_scores_fails_when_silhouette_raises
    (level : string) (s : mstate E) (k : nat) (pred : list Z) (pos : list point) (e : exn) :
  cluster_predictions (this s) !! k = Some pred ->
  edep_positions (this s) !! k = Some pos ->
  silhouette_score pos pred = Raise e ->
  let r := calc_scores level s in
  is_ok (fst r) = false /\
  avg_cluster_scores (this (snd r)) = avg_cluster_scores (this s) /\
  cluster_predictions (this (snd r)) = cluster_predictions (this s) /\
  (forall (truth : list Z) (per : list (scores Q)) (h c v a m : Q),
     length (cluster_predictions (this s)) = num_events (this s) ->
     truth_labels level (this s) !! k = Some truth ->
     scored (firstn k (truth_labels level (this s))) (firstn k (edep_positions (this s)))
            (firstn k (cluster_predictions (this s))) per ->
     homogeneity_score truth pred = Ok h ->
     completeness_score truth pred = Ok c ->
     v_measure_score truth pred = Ok v ->
     adjusted_rand_score truth pred = Ok a ->
     adjusted_mutual_info_score truth pred = Ok m ->
     fst r = Raise e /\
     this (snd r)
     = set_cluster_scores
         (mk_scores (map homogeneity per ++ [h]) (map completeness per ++ [c])
            (map v_measure per ++ [v]) (map adjusted_rand_index per ++ [a])
            (map adjusted_mutual_info per ++ [m]) (map silhouette per))
         (this s) /\
     length (silhouette (cluster_scores (this (snd r)))) = k /\
     Forall (fun l => length l = S k)
       [homogeneity (cluster_scores (this (snd r)));
        completeness (cluster_scores (this (snd r)));
        v_measure (cluster_scores (this (snd r)));
        adjusted_rand_index (cluster_scores (this (snd r)));
        adjusted_mutual_info (cluster_scores (this (snd r)))]).
Proof.
  intros Hpred Hpos Hsil r.
  destruct (calc_scores_silhouette_stops level s k pred pos e Hpred Hpos Hsil)
    as (Hno & Havg & Hsame).
  split; [exact Hno|]. split; [exact Havg|]. split; [exact Hsame|].
  intros truth per h c v a m Hlen Htruth Hsc Hh Hc Hv Ha Hm.
  destruct (calc_scores_silhouette_run level s k pred truth pos per h c v a m e
              Hpred Hpos Hsil Hlen Htruth Hsc Hh Hc Hv Ha Hm) as [lg Hrun].
  assert (Hper : length per = k).
  { destruct (scored_length _ _ _ _ Hsc) as (_ & _ & ->).
    apply length_take_le, Nat.lt_le_incl, (lookup_lt_Some _ _ _ Hpred). }
  subst r. rewrite Hrun. cbn [fst snd this].
  split; [reflexivity|]. split; [reflexivity|].
  destruct s as [[f1 f2 f3 f4 f5 f6 f7 f8 f9 f10 f11 f12 f13 f14 f15] lg0].
  cbn [this set_cluster_scores cluster_scores homogeneity completeness v_measure
       adjusted_rand_index adjusted_mutual_info silhouette].
  split; [now rewrite length_map|].
  repeat constructor; rewrite length_app, length_map, Hper; cbn [length]; lia.
Qed.
End ScoreFailureClaim.

(** ** [cluster]: what it replaces and where it stops *)

Lemma dict_mem_get {V} (k : string) (d : pydict V) :
  dict_mem k d = true -> exists v, dict_get k d = Ok v.
Proof.
  unfold dict_mem, dict_keys. induction d as [|[k' v'] d IH]; simpl; [discriminate|].
  destruct (String.eqb k k'); [eauto|exact IH].
Qed.

Section ClusterEffect.
Context {fl : PyFloat} {E : Type} {skc : SklearnCluster}.

Lemma set_predictions_twice (a b : list (list Z)) (i : instance E) :
  set_cluster_predictions a (set_cluster_predictions b i) = set_cluster_predictions a i.
Proof. destruct i; reflexivity. Qed.

Lemma set_predictions_same (i : instance E) :
  set_cluster_predictions (cluster_predictions i) i = i.
Proof. destruct i; reflexivity. Qed.

Lemma fit_loop_general (est : estimator) (positions : list (list point)) :
  forall s : mstate E,
    for_each positions (fun pos =>
      let* labels := lift_result (est pos) in
      update_self (fun i =>
        set_cluster_predictions (cluster_predictions i ++ [labels]) i)) s
    = (match snd (fit_prefix est positions) with
       | None => Ok tt
       | Some e => Raise e
       end,
       mk_mstate
         (set_cluster_predictions
            (cluster_predictions (this s) ++ fst (fit_prefix est positions)) (this s))
         (log s)).
Proof.
  induction positions as [|pos positions IH]; intros s.
  - cbn. unfold mret. rewrite app_nil_r, set_predictions_same. now destruct s.
  - cbn [for_each fit_prefix]. unfold mbind at 1. unfold mbind at 1.
    unfold lift_result at 1. destruct (est pos) as [labels|e].
    + unfold update_self at 1, modify. rewrite IH. cbn [fst snd this log].
      rewrite set_predictions_twice.
      destruct s as [i lg]; destruct i; cbn. rewrite <- app_assoc. reflexivity.
    + cbn [fst snd]. rewrite app_nil_r, set_predictions_same. now destruct s.
Qed.

(** The run of the clustering proper, for a class that the module has and
    that accepts the parameters. *)
Lemma fit_all_general (alg : string) (params : pydict pyvalue)
    (ctor : pydict pyvalue -> result estimator) (est : estimator) (s : mstate E) :
  cluster_attr (estimator_name alg) = Some ctor ->
  ctor params = Ok est ->
  exists lg : list (loglevel * string),
    fit_all alg params s
    = (match snd (fit_prefix est (edep_positions (this s))) with
       | None => Ok tt
       | Some e => Raise e
       end,
       mk_mstate
         (set_cluster_predictions (fst (fit_prefix est (edep_positions (this s)))) (this s))
         lg).
Proof.
  intros Hattr Hctor.
  unfold fit_all. unfold mbind at 1. unfold logging at 1, modify. cbn [fst snd].
  unfold mbind at 1. unfold make_clusterer. rewrite Hattr.
  unfold lift_result at 1. rewrite Hctor.
  unfold mbind at 1. unfold update_self at 1, modify. cbn [fst snd this log].
  unfold mbind at 1. unfold self at 1. cbn [fst snd this log].
  assert (Hpos : edep_positions (set_cluster_predictions [] (this s))
                 = edep_positions (this s)).
  { destruct s as [i lg]; destruct i; reflexivity. }
  rewrite Hpos, fit_loop_general. cbn [this log].
  rewrite set_predictions_twice. eexists.
  destruct s as [i lg]; destruct i; reflexivity.
Qed.

Lemma fit_prefix_length (est : estimator) (positions : list (list point)) :
  match snd (fit_prefix est positions) with
  | None => length (fst (fit_prefix est positions)) = length positions
  | Some _ => (length (fst (fit_prefix est positions)) < length positions)%nat
  end.
Proof.
  induction positions as [|pos positions IH]; cbn [fit_prefix]; [reflexivity|].
  destruct (est pos) as [labels|e]; cbn [fst snd length]; [|lia].
  destruct (snd (fit_prefix est positions)); lia.
Qed.

(** The two ways a call of [cluster] ends: before the clustering proper,
    with an exception and the object as it was, or in the loop over the
    events, with the predictions replaced by the labels of the events
    fitted. *)
Lemma cluster_cases (level alg : string) (params : pydict pyvalue) (s : mstate E) :
  (is_ok (fst (cluster level alg params s)) = false /\
   this (snd (cluster level alg params s)) = this s) \/
  (exists est : estimator,
     fst (cluster level alg params s)
     = match snd (fit_prefix est (edep_positions (this s))) with
       | None => Ok tt
       | Some e => Raise e
       end /\
     this (snd (cluster level alg params s))
     = set_cluster_predictions (fst (fit_prefix est (edep_positions (this s)))) (this s)).
Proof.
  assert (Hfit : forall a p (st : mstate E),
            this st = this s ->
            (is_ok (fst (fit_all a p st)) = false /\ this (snd (fit_all a p st)) = this s) \/
            (exists est : estimator,
               fst (fit_all a p st)
               = match snd (fit_prefix est (edep_positions (this s))) with
                 | None => Ok tt
                 | Some e => Raise e
                 end /\
               this (snd (fit_all a p st))
               = set_cluster_predictions (fst (fit_prefix est (edep_positions (this s))))
                   (this s))).
  { intros a p st Hst.
    destruct (cluster_attr (estimator_name a)) as [ctor|] eqn:Hattr.
    - destruct (ctor p) as [est|e] eqn:Hctor.
      + right. exists est.
        destruct (fit_all_general a p ctor est st Hattr Hctor) as [lg Hrun].
        rewrite Hrun, Hst. split; reflexivity.
      + left. unfold fit_all. unfold mbind at 1. unfold logging at 1, modify. cbn [fst snd].
        unfold mbind at 1. unfold make_clusterer. rewrite Hattr.
        unfold lift_result at 1. rewrite Hctor. split; [reflexivity|exact Hst].
    - left. unfold fit_all. unfold mbind at 1. unfold logging at 1, modify. cbn [fst snd].
      unfold mbind at 1. unfold make_clusterer. rewrite Hattr. split; [reflexivity|exact Hst]. }
  destruct (dict_mem alg cluster_params) eqn:Hmem.
  - destruct (dict_mem_get _ _ Hmem) as [allowed Hget].
    rewrite (cluster_known level alg params allowed s Hget).
    destruct (first_undeclared allowed params) as [item|].
    + left. split; reflexivity.
    + apply Hfit. reflexivity.
  - rewrite (cluster_unknown level alg params s Hmem). apply Hfit. reflexivity.
Qed.

(** X4.  [cluster] writes no attribute but [cluster_predictions], and the
    predictions do not pile up over calls.  A call that raises before the
    clustering proper (a parameter that is not declared, a class that the
    module lacks, a constructor that refuses) leaves the object, old
    predictions included, as it was.  Any other call discards the old
    predictions: when it returns, [cluster_predictions] holds exactly one
    array per position array, whatever it held before; when the estimator
    raises, it holds fewer. *)
Theorem cluster_replaces_the_predictions
    (level alg : string) (params : pydict pyvalue) (s : mstate E) :
  let r := cluster level alg params s in
  set_cluster_predictions [] (this (snd r)) = set_cluster_predictions [] (this s) /\
  (fst r = Ok tt ->
   length (cluster_predictions (this (snd r))) = length (edep_positions (this s))) /\
  (is_ok (fst r) = false ->
   this (snd r) = this s \/
   (length (cluster_predictions (this (snd r))) < length (edep_positions (this s)))%nat).
Proof.
  intros r. subst r.
  assert (Hpreds : forall p, cluster_predictions (set_cluster_predictions p (this s)) = p).
  { intros p. destruct (this s); reflexivity. }
  destruct (cluster_cases level alg params s) as [[Hno Hsame]|(est & Hr & Hs)].
  - rewrite Hsame. split; [reflexivity|]. split.
    + intros Hok. rewrite Hok in Hno. discriminate.
    + intros _. now left.
  - rewrite Hs, Hr, Hpreds. pose proof (fit_prefix_length est (edep_positions (this s))) as Hlen.
    split; [apply set_predictions_twice|]. split.
    + intros Hok. destruct (snd (fit_prefix est (edep_positions (this s)))); [discriminate|].
      exact Hlen.
    + intros Hno. right.
      destruct (snd (fit_prefix est (edep_positions (this s)))); [exact Hlen|discriminate].
Qed.
End ClusterEffect.

Lemma fit_prefix_failure (est : estimator) (fitted : list (list point))
    (labels : list (list Z)) (pos : list point) (rest : list (list point)) (e : exn) :
  Forall2 (fun p l => est p = Ok l) fitted labels ->
  est pos = Raise e ->
  fit_prefix est (fitted ++ pos :: rest) = (labels, Some e).
Proof.
  intros Hall Hpos. induction Hall as [|p l fitted labels Hp _ IH]; cbn.
  - now rewrite Hpos.
  - now rewrite Hp, IH.
Qed.

Lemma fit_prefix_success (est : estimator) (positions : list (list point))
    (labels : list (list Z)) :
  Forall2 (fun p l => est p = Ok l) positions labels ->
  fit_prefix est positions = (labels, None).
Proof.
  intros Hall. induction Hall as [|p l positions labels Hp _ IH]; cbn; [reflexivity|].
  now rewrite Hp, IH.
Qed.

Section UnknownAlgorithm.
Context {fl : PyFloat} {E : Type} {skc : SklearnCluster}.

(** C9.  With an algorithm name that [cluster_params] does not list, the
    parameters are replaced by the dbscan defaults before the keys are
    checked: the check passes whatever the caller's mapping holds, and the
    caller's mapping has no influence on the outcome.  The call then runs
    DBSCAN on the defaults: the class DBSCAN is looked up in
    [sklearn.cluster] and constructed with eps = 100 and min_samples = 6,
    the estimator is fitted to the positions of every event in turn, and
    [cluster_predictions] holds its labels, one array per event up to the
    first event on which it raises.  What the call raises, if anything, is
    what the lookup, the constructor or the estimator raised. *)
Theorem cluster_unknown_algorithm_runs_dbscan_defaults
    (level alg : string) (params : pydict pyvalue) (s : mstate E) :
  dict_mem alg cluster_params = false ->
  let defaults := [("eps", PFloat (rnd 100)); ("min_samples", PInt 6)] in
  let r := cluster level alg params s in
  dict_get "dbscan" cluster_params = Ok defaults /\
  (exists lg : list (loglevel * string),
     check_params "dbscan" defaults (mk_mstate (this s) lg)
       = (Ok tt, mk_mstate (this s) lg) /\
     cluster level alg params s = fit_all "dbscan" defaults (mk_mstate (this s) lg)) /\
  (forall params' : pydict pyvalue,
     cluster level alg params' s = cluster level alg params s) /\
  (cluster_attr "DBSCAN" = None ->
   fst r = Raise (AttributeError "module 'sklearn.cluster' has no attribute 'DBSCAN'") /\
   this (snd r) = this s) /\
  (forall ctor : pydict pyvalue -> result estimator,
     cluster_attr "DBSCAN" = Some ctor ->
     (forall e : exn,
        ctor defaults = Raise e -> fst r = Raise e /\ this (snd r) = this s) /\
     (forall est : estimator,
        ctor defaults = Ok est ->
        fst r = match snd (fit_prefix est (edep_positions (this s))) with
                | None => Ok tt
                | Some e => Raise e
                end /\
        this (snd r)
        = set_cluster_predictions (fst (fit_prefix est (edep_positions (this s)))) (this s) /\
        (forall labels : list (list Z),
           Forall2 (fun pos l => est pos = Ok l) (edep_positions (this s)) labels ->
           fst r = Ok tt /\ cluster_predictions (this (snd r)) = labels) /\
        (forall (fitted : list (list point)) (labels : list (list Z)) (pos : list point)
                (rest : list (list point)) (e : exn),
           edep_positions (this s) = fitted ++ pos :: rest ->
           Forall2 (fun p l => est p = Ok l) fitted labels ->
           est pos = Raise e ->
           fst r = Raise e /\ cluster_predictions (this (snd r)) = labels))).
Proof.
  intros Hmem defaults r.
  assert (Hrun : r = fit_all "dbscan" defaults
                       (mk_mstate (this s)
                          ((log s ++ level_warning level)
                             ++ [(WARNING, "Requested algorithm '" +:+ alg
                                             +:+ "' not allowed, using 'dbscan'.")])))
    by exact (cluster_unknown level alg params s Hmem).
  clearbody r.
  split; [reflexivity|]. split; [|split; [|split]].
  - eexists. split; [|exact (cluster_unknown level alg params s Hmem)].
    rewrite (check_params_run "dbscan" defaults defaults _ eq_refl). reflexivity.
  - intros params'. now rewrite !cluster_unknown.
  - intros Hattr. rewrite Hrun.
    unfold fit_all. unfold mbind at 1. unfold logging at 1, modify. cbn [fst snd].
    unfold mbind at 1. unfold make_clusterer.
    change (estimator_name "dbscan") with "DBSCAN". rewrite Hattr. split; reflexivity.
  - intros ctor Hattr. split.
    + intros e Hctor. rewrite Hrun.
      unfold fit_all. unfold mbind at 1. unfold logging at 1, modify. cbn [fst snd].
      unfold mbind at 1. unfold make_clusterer.
      change (estimator_name "dbscan") with "DBSCAN". rewrite Hattr.
      unfold lift_result at 1. rewrite Hctor. split; reflexivity.
    + intros est Hctor.
      destruct (fit_all_general "dbscan" defaults ctor est
                  (mk_mstate (this s)
                     ((log s ++ level_warning level)
                        ++ [(WARNING, "Requested algorithm '" +:+ alg
                                        +:+ "' not allowed, using 'dbscan'.")]))
                  Hattr Hctor) as [lg Hfit].
      rewrite Hfit in Hrun. cbn [this] in Hrun. rewrite Hrun. cbn [fst snd this].
      assert (Hpreds : forall p, cluster_predictions (set_cluster_predictions p (this s)) = p).
      { intros p. destruct (this s); reflexivity. }
      split; [reflexivity|]. split; [reflexivity|]. split.
      * intros labels Hall. rewrite (fit_prefix_success est _ labels Hall).
        split; [reflexivity|apply Hpreds].
      * intros fitted labels pos rest e Hpos Hall Hfail.
        rewrite Hpos, (fit_prefix_failure est fitted labels pos rest e Hall Hfail).
        split; [reflexivity|apply Hpreds].
Qed.
End UnknownAlgorithm.

Section ClusterThenScore.
Context {fl : PyFloat} {E : Type} {skc : SklearnCluster} {skm : SklearnMetrics}.

Lemma cluster_run (level alg : string) (params allowed : pydict pyvalue)
    (ctor : pydict pyvalue -> result estimator) (est : estimator) (s : mstate E) :
  dict_get alg cluster_params = Ok allowed ->
  first_undeclared allowed params = None ->
  cluster_attr (estimator_name alg) = Some ctor ->
  ctor params = Ok est ->
  exists lg : list (loglevel * string),
    cluster level alg params s
    = (match snd (fit_prefix est (edep_positions (this s))) with
       | None => Ok tt
       | Some e => Raise e
       end,
       mk_mstate
         (set_cluster_predictions (fst (fit_prefix est (edep_positions (this s)))) (this s))
         lg).
Proof.
  intros Hget Hnone Hattr Hctor.
  rewrite (cluster_known level alg params allowed s Hget), Hnone.
  exact (fit_all_general alg params ctor est _ Hattr Hctor).
Qed.

(** X5.  When the estimator raises on an event, [cluster] stops there with
    that exception: the predictions of an earlier run are gone and
    [cluster_predictions] holds the labels of the events before the failing
    one, and nothing else.  On an object with one position array per event,
    a following [calc_scores] then refuses with [ValueError], whatever its
    level. *)
Theorem cluster_stops_at_first_failure
    (level alg : string) (params allowed : pydict pyvalue)
    (ctor : pydict pyvalue -> result estimator) (est : estimator) (s : mstate E)
    (fitted : list (list point)) (labels : list (list Z)) (pos : list point)
    (rest : list (list point)) (e : exn) :
  dict_get alg cluster_params = Ok allowed ->
  first_undeclared allowed params = None ->
  cluster_attr (estimator_name alg) = Some ctor ->
  ctor params = Ok est ->
  edep_positions (this s) = fitted ++ pos :: rest ->
  Forall2 (fun p l => est p = Ok l) fitted labels ->
  est pos = Raise e ->
  num_events (this s) = length (edep_positions (this s)) ->
  let s1 := snd (cluster level alg params s) in
  fst (cluster level alg params s) = Raise e /\
  this s1 = set_cluster_predictions labels (this s) /\
  cluster_predictions (this s1) = labels /\
  length labels = length fitted /\
  (forall level' : string,
     fst (calc_scores level' s1)
     = Raise (ValueError
         match labels with
         | [] => "No predictions have been made, need to run clustering algorithm first!"
         | _ => "Only " +:+ pretty (length labels) +:+ " predictions but "
                  +:+ pretty (num_events (this s)) +:+ " events!"
         end) /\
     this (snd (calc_scores level' s1)) = this s1).
Proof.
  intros Hget Hnone Hattr Hctor Hpos Hall Hfail Hn s1.
  destruct (cluster_run level alg params allowed ctor est s Hget Hnone Hattr Hctor)
    as [lg Hrun].
  rewrite Hpos, (fit_prefix_failure est fitted labels pos rest e Hall Hfail) in Hrun.
  cbn [fst snd] in Hrun.
  assert (Hlen : length labels = length fitted).
  { symmetry. exact (Forall2_length _ _ _ Hall). }
  assert (Hthis : this s1 = set_cluster_predictions labels (this s)).
  { subst s1. now rewrite Hrun. }
  assert (Hpreds : cluster_predictions (this s1) = labels).
  { rewrite Hthis. destruct (this s); reflexivity. }
  assert (Hnum : num_events (this s1) = num_events (this s)).
  { rewrite Hthis. destruct (this s); reflexivity. }
  split; [now rewrite Hrun|]. split; [exact Hthis|]. split; [exact Hpreds|].
  split; [exact Hlen|]. intros level'.
  rewrite (calc_scores_guard_run level' s1).
  - cbn [fst snd this]. split; [|reflexivity].
    unfold predictions_message. rewrite Hpreds, Hnum. reflexivity.
  - right. rewrite Hpreds, Hnum, Hn, Hpos, Hlen, length_app. cbn [length]. lia.
Qed.
End ClusterThenScore.

Section ClusterThenScoreValues.
Context {fl : PyFloat} {fl_laws : PyFloatLaws} {E : Type} {skc : SklearnCluster}
        {skm : SklearnMetrics}.

(** X6.  One step of a scan, as two calls: when the estimator labels every
    event and the metric functions return on those labels, [cluster]
    followed by [calc_scores] returns, the predictions stored are the
    estimator's labels, one array per event, and the averages returned are
    those of the metric values of these labels. *)
Theorem cluster_then_calc_scores
    (level alg level' : string) (params allowed : pydict pyvalue)
    (ctor : pydict pyvalue -> result estimator) (est : estimator) (s : mstate E)
    (preds : list (list Z)) (per : list (scores Q)) :
  dict_get alg cluster_params = Ok allowed ->
  first_undeclared allowed params = None ->
  cluster_attr (estimator_name alg) = Some ctor ->
  ctor params = Ok est ->
  Forall2 (fun p l => est p = Ok l) (edep_positions (this s)) preds ->
  edep_positions (this s) <> [] ->
  num_events (this s) = length (edep_positions (this s)) ->
  scored (truth_labels level' (this s)) (edep_positions (this s)) preds per ->
  let s1 := snd (cluster level alg params s) in
  let avg := score_averages (score_lists per) (length preds) in
  fst (cluster level alg params s) = Ok tt /\
  cluster_predictions (this s1) = preds /\
  fst (calc_scores level' s1) = Ok avg /\
  this (snd (calc_scores level' s1))
  = set_avg_cluster_scores avg
      (set_cluster_scores (score_lists per) (set_cluster_predictions preds (this s))).
Proof.
  intros Hget Hnone Hattr Hctor Hall Hne Hn Hsc s1 avg.
  destruct (cluster_run level alg params allowed ctor est s Hget Hnone Hattr Hctor)
    as [lg Hrun].
  rewrite (fit_prefix_success est _ preds Hall) in Hrun. cbn [fst snd] in Hrun.
  assert (Hthis : this s1 = set_cluster_predictions preds (this s)).
  { subst s1. now rewrite Hrun. }
  assert (Hpreds : cluster_predictions (this s1) = preds).
  { rewrite Hthis. destruct (this s); reflexivity. }
  assert (Hlen : length preds = length (edep_positions (this s))).
  { symmetry. exact (Forall2_length _ _ _ Hall). }
  assert (Hsame : truth_labels level' (this s1) = truth_labels level' (this s)
                  /\ edep_positions (this s1) = edep_positions (this s)
                  /\ num_events (this s1) = num_events (this s)).
  { rewrite Hthis. unfold truth_labels. destruct (this s); repeat split. }
  destruct Hsame as (Hlab & Hpos & Hnum).
  split; [now rewrite Hrun|]. split; [exact Hpreds|].
  destruct (calc_scores_run level' s1 per) as [lg' Hcalc].
  - rewrite Hpreds. intros ->. apply Hne.
    destruct (edep_positions (this s)); [reflexivity|discriminate].
  - now rewrite Hpreds, Hnum, Hn.
  - now rewrite Hlab, Hpos, Hpreds.
  - rewrite Hcalc. cbn [fst snd this]. rewrite Hlab, Hthis.
    destruct (scored_length _ _ _ _ Hsc) as (Hl & _ & _). rewrite Hl.
    split; reflexivity.
Qed.
End ClusterThenScoreValues.

(** ** [scan_eps_values]: the file and the arguments *)

Section ScanFiles.
Context {fl : PyFloat} {E : Type} {skc : SklearnCluster} {skm : SklearnMetrics}.

Lemma keeps_files_bind {A B} (m : M (world E) A) (k : A -> M (world E) B) :
  keeps_files m -> (forall a, keeps_files (k a)) -> keeps_files (mbind m k).
Proof.
  intros Hm Hk w. unfold mbind. specialize (Hm w).
  destruct (m w) as [[a|e] w1]; cbn [snd] in *; [|exact Hm].
  now rewrite Hk.
Qed.

Lemma keeps_files_call {A} (g : loc) (m : M (mstate E) A) : keeps_files (call g m).
Proof. intros w. unfold call. now destruct (heap w !! g). Qed.

Lemma keeps_files_global : keeps_files (global_neutron_clustering (E := E)).
Proof. intros w. unfold global_neutron_clustering. now destruct (neutron_clustering w). Qed.

Lemma keeps_files_for_fold {A B} (l : list A) (body : B -> A -> M (world E) B) :
  (forall b a, keeps_files (body b a)) -> forall acc, keeps_files (for_fold l acc body).
Proof.
  intros Hbody. induction l as [|a l IH]; intros acc; [now intros w|].
  cbn [for_fold]. apply keeps_files_bind; [apply Hbody|exact IH].
Qed.

Lemma keeps_files_scan_step (table : list (list cell)) (eps : Q) :
  keeps_files (scan_step (E := E) table eps).
Proof.
  unfold scan_step.
  apply keeps_files_bind; [now intros w|intros _].
  apply keeps_files_bind; [apply keeps_files_global|intros g].
  apply keeps_files_bind; [apply keeps_files_call|intros _].
  apply keeps_files_bind; [now intros w|intros _].
  apply keeps_files_bind; [apply keeps_files_global|intros g'].
  apply keeps_files_bind; [apply keeps_files_call|intros avg].
  now intros w.
Qed.

Lemma writes_on_return_bind {A B} (name : string) (m : M (world E) A)
    (k : A -> M (world E) B) :
  keeps_files m -> (forall a, writes_on_return name (k a)) ->
  writes_on_return name (mbind m k).
Proof.
  intros Hm Hk w. unfold mbind. specialize (Hm w).
  destruct (m w) as [[a|e] w1]; cbn [fst snd] in *; [|exact Hm].
  specialize (Hk a w1). rewrite Hm in Hk. exact Hk.
Qed.

Lemma writes_on_return_scan (receiver : loc) (eps_range : list Q) (eps_step : Q)
    (save_scores : string) :
  writes_on_return (save_scores +:+ ".csv")
    (scan_eps_values (E := E) receiver eps_range eps_step save_scores).
Proof.
  unfold scan_eps_values.
  repeat (apply writes_on_return_bind; [now intros w|intros ?]).
  apply writes_on_return_bind.
  - apply keeps_files_for_fold. intros rows eps. apply keeps_files_scan_step.
  - intros rows w. cbn. now exists rows.
Qed.

(** X7.  [scan_eps_values] opens its file after the last eps value has been
    scored.  When it returns, the file [save_scores + ".csv"] holds the
    header row followed by one row per eps value, at least one, and no other
    file has changed; when it raises, at any eps value, no file has been
    written or changed: the rows of the values scored so far are lost. *)
Theorem scan_writes_the_file_last
    (receiver : loc) (e0 e1 eps_step : Q) (save_scores : string) (w : world E) :
  let r := scan_eps_values receiver [e0; e1] eps_step save_scores w in
  let num_steps := int_of_float (rnd (fsub e1 e0 / eps_step)) in
  match fst r with
  | Ok _ =>
      exists data : list (list cell),
        files (snd r) = <[save_scores +:+ ".csv" := scan_header :: data]> (files w) /\
        0 < num_steps /\
        length data = Z.to_nat num_steps /\
        Forall (fun row => length row = 7%nat) (scan_header :: data)
  | Raise _ => files (snd r) = files w
  end.
Proof.
  intros r num_steps.
  pose proof (writes_on_return_scan receiver [e0; e1] eps_step save_scores w) as Hfiles.
  fold r in Hfiles.
  destruct (fst r) as [[]|e] eqn:Hr; [|exact Hfiles].
  destruct Hfiles as [table Htable].
  assert (Hrun : scan_eps_values receiver [e0; e1] eps_step save_scores w = (Ok tt, snd r)).
  { fold r. rewrite <- Hr. now destruct r. }
  destruct (scan_table_shape receiver e0 e1 eps_step save_scores w (snd r) Hrun)
    as (data & Hlook & Hlen & Hrows).
  fold num_steps in Hlen, Hrows.
  rewrite Htable, lookup_insert_eq in Hlook. injection Hlook as ->.
  exists data. split; [exact Htable|]. split; [|split; [exact Hlen|]].
  - destruct (Z_lt_le_dec 0 num_steps) as [Hpos|Hle]; [exact Hpos|].
    destruct (Qeq_bool eps_step 0) eqn:Hstep.
    + unfold r, scan_eps_values, mbind, lift_result, fdiv in Hr.
      cbn [list_get lookup list_lookup] in Hr. rewrite Hstep in Hr. discriminate.
    + rewrite (scan_without_values receiver e0 e1 eps_step save_scores w Hstep Hle) in Hrun.
      discriminate.
  - constructor; [reflexivity|].
    clear -Hrows. induction Hrows as [|ii row iis data (metrics & -> & Hm) _ IH];
      [constructor|].
    constructor; [cbn [length]; now rewrite Hm|exact IH].
Qed.

(** X8.  The arguments of a scan that cannot be used stop it before
    anything is clustered, logged or written: a range with fewer than two
    entries raises [IndexError] (from reading [eps_range[1]]), and a step
    equal to 0 raises [ZeroDivisionError]. *)
Theorem scan_rejects_unusable_arguments
    (receiver : loc) (eps_step : Q) (save_scores : string) (w : world E) :
  (forall eps_range : list Q,
     (length eps_range < 2)%nat ->
     scan_eps_values receiver eps_range eps_step save_scores w
     = (Raise (IndexError "list index out of range"), w)) /\
  (forall (e0 e1 : Q) (more : list Q),
     (eps_step == 0)%Q ->
     scan_eps_values receiver (e0 :: e1 :: more) eps_step save_scores w
     = (Raise (ZeroDivisionError "float division by zero"), w)).
Proof.
  split.
  - intros eps_range Hlen.
    destruct eps_range as [|e0 [|e1 more]]; [reflexivity|reflexivity|cbn in Hlen; lia].
  - intros e0 e1 more Hzero. apply Qeq_bool_iff in Hzero.
    unfold scan_eps_values, mbind, lift_result, fdiv.
    cbn [list_get lookup list_lookup]. now rewrite Hzero.
Qed.

(** X9.  With at least one eps value to scan and the module-level name
    [neutron_clustering] unbound, the scan raises [NameError] at its first
    eps value, whatever object it is called on: no object is clustered and
    no file is written; only two lines have been logged. *)
Theorem scan_needs_the_module_level_name
    (receiver : loc) (e0 e1 eps_step : Q) (more : list Q) (save_scores : string)
    (w : world E) :
  neutron_clustering w = None ->
  Qeq_bool eps_step 0 = false ->
  0 < int_of_float (rnd (fsub e1 e0 / eps_step)) ->
  let r := scan_eps_values receiver (e0 :: e1 :: more) eps_step save_scores w in
  fst r = Raise (NameError "neutron_clustering") /\
  heap (snd r) = heap w /\
  files (snd r) = files w /\
  neutron_clustering (snd r) = None /\
  exists first second, root_log (snd r) = root_log w ++ [(INFO, first); (INFO, second)].
Proof.
  intros Hnone Hstep Hn r.
  assert (Hrun : exists first second,
            r = (Raise (NameError "neutron_clustering"),
                 mk_world (heap w) (neutron_clustering w)
                          ((root_log w ++ [(INFO, first)]) ++ [(INFO, second)]) (files w))).
  { subst r. unfold scan_eps_values.
    unfold mbind at 1. unfold lift_result at 1. cbn [list_get lookup list_lookup].
    unfold mbind at 1. unfold lift_result at 1. cbn [list_get lookup list_lookup].
    unfold mbind at 1. unfold lift_result at 1, fdiv. rewrite Hstep.
    set (n := int_of_float (rnd (fsub e1 e0 / eps_step))) in *.
    assert (Hrange : exists ii rest, py_range n = ii :: rest).
    { unfold py_range. destruct (Z.to_nat n) as [|k] eqn:Hk; [lia|].
      cbn [seq map]. eauto. }
    destruct Hrange as (ii & rest & ->). cbn [map].
    set (eps := fadd e0 (fmul (float_of_int ii) eps_step)).
    set (others := map (fun ii => fadd e0 (fmul (float_of_int ii) eps_step)) rest).
    unfold mbind at 1. unfold lift_result at 1. cbn [list_get lookup list_lookup].
    unfold mbind at 1. unfold lift_result at 1, list_get.
    destruct (lookup_lt_is_Some_2 (eps :: others) (length (eps :: others) - 1)) as [last ->].
    { cbn [length]. lia. }
    unfold mbind at 1. unfold wlogging at 1, modify. cbn [fst snd].
    unfold mbind at 1. cbn [for_fold]. unfold mbind at 1.
    unfold scan_step. unfold mbind at 1. unfold wlogging at 1, modify. cbn [fst snd].
    unfold mbind at 1. unfold global_neutron_clustering. cbn [neutron_clustering].
    rewrite Hnone. cbn [heap files neutron_clustering root_log].
    do 2 eexists. reflexivity. }
  destruct Hrun as (first & second & ->). cbn [fst snd heap files neutron_clustering root_log].
  repeat split; [exact Hnone|]. exists first, second. now rewrite <- app_assoc.
Qed.
End ScanFiles.

(** ** [fit_depth_exponential]: the histogram and the fit *)

Section DepthGuards.
Context {fl : PyFloat} {E : Type}.

(** The histogram of the depths is computed exactly when the number of bins
    is positive and some event has a deposit. *)
Lemma depth_histogram_outcomes (num_bins : Z) (s : mstate E) :
  let r := fit_depth_exponential num_bins s in
  snd r = s /\
  (is_ok (fst r) = true <-> 0 < num_bins /\ concat (edep_y (this s)) <> []) /\
  (edep_y (this s) = [] ->
   fst r = Raise (ValueError "need at least one array to concatenate")) /\
  (edep_y (this s) <> [] -> concat (edep_y (this s)) = [] ->
   fst r = Raise (ValueError
             "zero-size array to reduction operation maximum which has no identity")) /\
  (concat (edep_y (this s)) <> [] -> num_bins <= 0 ->
   fst r = Raise (ValueError "`bins` must be positive, when an integer")) /\
  (forall h : depth_histogram,
     fst r = Ok h ->
     length (y_hist h) = Z.to_nat num_bins /\
     length (cum_hist h) = Z.to_nat num_bins /\
     length (mid_points h) = Z.to_nat num_bins).
Proof.
  intros r. assert (Hr : r = fit_depth_exponential num_bins s) by reflexivity.
  clearbody r. unfold fit_depth_exponential in Hr.
  unfold mbind at 1 in Hr. unfold self at 1 in Hr.
  destruct (edep_y (this s)) as [|y0 ys] eqn:Hy.
  { subst r. cbn. repeat split; try discriminate; try tauto;
      try (intros [_ Hne]; now destruct Hne); try (intros Hne; now destruct Hne). }
  destruct (concat (y0 :: ys)) as [|v rest] eqn:Hc.
  { subst r. cbn. repeat split; try discriminate; try tauto;
      try (intros [_ Hne]; now destruct Hne); try (intros Hne; now destruct Hne). }
  set (depth := map (fun yp => Qabs (fsub (np_max v rest) yp)) (v :: rest)) in Hr.
  destruct (Z_lt_le_dec 0 num_bins) as [Hbins|Hbins].
  - destruct (np_histogram_run depth num_bins Hbins)
      as (counts & edges & Hh & Hlen & _ & _).
    unfold mbind at 1 in Hr. unfold lift_result at 1 in Hr. rewrite Hh in Hr.
    cbn [fst snd] in Hr.
    assert (Hylen : length (map (fun c => rnd (inject_Z c / inject_Z (sum_int counts))) counts)
                    = Z.to_nat num_bins) by now rewrite length_map.
    destruct (map (fun c => rnd (inject_Z c / inject_Z (sum_int counts))) counts)
      as [|h t] eqn:Hmap.
    { cbn [length] in Hylen. lia. }
    unfold mret in Hr. subst r. cbn [fst snd is_ok].
    split; [reflexivity|].
    split; [split; [intros _; split; [exact Hbins|discriminate]|reflexivity]|].
    split; [discriminate|]. split; [intros _ Habs; discriminate|].
    split; [intros _ Hle; lia|].
    intros h0 Hh0. injection Hh0 as <-. cbn [y_hist cum_hist mid_points].
    split; [exact Hylen|]. split.
    + cbn [length]. rewrite length_cumulative. exact Hylen.
    + cbn [length]. rewrite length_map, length_seq. exact Hylen.
  - unfold mbind at 1 in Hr. unfold lift_result at 1 in Hr. unfold np_histogram in Hr.
    destruct (Z.leb_spec num_bins 0) as [_|Hgt]; [|lia].
    subst r. cbn [fst snd is_ok].
    split; [reflexivity|]. split; [split; [discriminate|intros [Hpos _]; lia]|].
    split; [discriminate|]. split; [intros _ Habs; discriminate|].
    split; [reflexivity|]. discriminate.
Qed.
End DepthGuards.

Section DepthFit.
Context {fl : PyFloat} {so : ScipyOptimize} {E : Type}.

End DepthFit.

(** ** [calculate_capture_ratio]: the counters are replaced *)

Section CaptureRatioAgain.
Context {fl : PyFloat} {E : Type} {np : NumpyFloat E}.

(** X11.  [calculate_capture_ratio] starts from empty counters: on
    parallel arrays a second call ends as the first and leaves the object
    as the first left it, so the counters do not accumulate over calls; and
    the call changes no attribute other than the two counters and the
    ratio. *)
Theorem calculate_capture_ratio_twice (s : mstate E) :
  parallel_arrays (this s) ->
  let s1 := snd (calculate_capture_ratio s) in
  fst (calculate_capture_ratio s1) = fst (calculate_capture_ratio s) /\
  this (snd (calculate_capture_ratio s1)) = this s1 /\
  length (num_captures (this s1)) = length (edep_neutron_ids (this s)) /\
  set_capture_ratio None (set_num_complete_captures [] (set_num_captures [] (this s1)))
  = set_capture_ratio None (set_num_complete_captures [] (set_num_captures [] (this s))).
Proof.
  intros Hpar s1.
  pose proof (calculate_capture_ratio_run s Hpar) as Hrun. cbv zeta in Hrun.
  assert (Hpar1 : parallel_arrays (this s1)).
  { subst s1. rewrite Hrun. unfold parallel_arrays in *.
    destruct (_ =? 0); destruct s as [i lg]; destruct i; exact Hpar. }
  pose proof (calculate_capture_ratio_run s1 Hpar1) as Hrun1. cbv zeta in Hrun1.
  assert (Hids : edep_neutron_ids (this s1) = edep_neutron_ids (this s)
                 /\ edep_energy (this s1) = edep_energy (this s)).
  { subst s1. rewrite Hrun.
    destruct (_ =? 0); destruct s as [i lg]; destruct i; split; reflexivity. }
  destruct Hids as [Hid Hen]. rewrite Hid, Hen in Hrun1. rewrite Hrun1.
  subst s1. rewrite Hrun.
  destruct (sum_int (map count_groups (edep_neutron_ids (this s))) =? 0);
    destruct s as [i lg]; destruct i; cbn;
    rewrite length_map; repeat split; reflexivity.
Qed.
End CaptureRatioAgain.

(** * The module-level functions *)

Lemma Qle_bool_proper (a b c d : Q) :
  (a == b)%Q -> (c == d)%Q -> Qle_bool a c = Qle_bool b d.
Proof.
  intros Hab Hcd.
  destruct (Qle_bool a c) eqn:H1, (Qle_bool b d) eqn:H2; try reflexivity.
  - apply Qle_bool_iff in H1. rewrite Hab, Hcd in H1. apply Qle_bool_iff in H1. congruence.
  - apply Qle_bool_iff in H2. rewrite <- Hab, <- Hcd in H2. apply Qle_bool_iff in H2.
    congruence.
Qed.

Lemma Qeq_bool_proper (a b c d : Q) :
  (a == b)%Q -> (c == d)%Q -> Qeq_bool a c = Qeq_bool b d.
Proof.
  intros Hab Hcd.
  destruct (Qeq_bool a c) eqn:H1, (Qeq_bool b d) eqn:H2; try reflexivity.
  - apply Qeq_bool_iff in H1. rewrite Hab, Hcd in H1. apply Qeq_bool_iff in H1. congruence.
  - apply Qeq_bool_iff in H2. rewrite <- Hab, <- Hcd in H2. apply Qeq_bool_iff in H2.
    congruence.
Qed.

Lemma float_eq_refl (x : pyfloat) : float_eq x x.
Proof. destruct x; cbn; reflexivity. Qed.

Lemma float_eq_sym (x y : pyfloat) : float_eq x y -> float_eq y x.
Proof. destruct x, y; cbn; try tauto; intros H; now symmetry. Qed.

Lemma float_eq_trans (x y z : pyfloat) : float_eq x y -> float_eq y z -> float_eq x z.
Proof.
  destruct x, y, z; cbn; try tauto; intros H1 H2; try congruence.
  now rewrite H1.
Qed.

Lemma float_result_eq_trans (r1 r2 r3 : result pyfloat) :
  float_result_eq r1 r2 -> float_result_eq r2 r3 -> float_result_eq r1 r3.
Proof.
  destruct r1, r2, r3; cbn; try tauto; [apply float_eq_trans|congruence].
Qed.

Lemma not_negative_eq (x y : pyfloat) : float_eq x y -> not_negative x -> not_negative y.
Proof.
  destruct x, y; cbn; try tauto; intros H1 H2; [now rewrite <- H1|congruence].
Qed.

Lemma float_le_refl (x : pyfloat) : not_negative x -> float_le x x.
Proof. destruct x; cbn; intros H; [lra|now right|exact H]. Qed.

Lemma float_le_trans (x y z : pyfloat) : float_le x y -> float_le y z -> float_le x z.
Proof.
  destruct x, y, z; cbn; try tauto; try congruence; try lra.
  - intros -> [H|H]; [discriminate|exact H].
  - intros [H|H] ->; [exact H|discriminate].
  - intros [H|H] [H'|H']; try tauto. subst. discriminate.
Qed.

Lemma float_gt_false (x m : pyfloat) :
  not_negative x -> not_negative m -> float_gt x m = false -> float_le x m.
Proof.
  destruct x as [a|s|], m as [b|s'|]; cbn; try tauto.
  - intros _ _ H. apply negb_false_iff, Qle_bool_iff in H. exact H.
  - intros -> _ H. discriminate.
Qed.

Lemma float_gt_true (x m : pyfloat) :
  not_negative x -> not_negative m -> float_gt x m = true -> float_le m x.
Proof.
  destruct x as [a|s|], m as [b|s'|]; cbn; try tauto.
  - intros _ _ H. apply negb_true_iff in H. apply Qlt_le_weak, Qnot_le_lt.
    intros Hle. apply Qle_bool_iff in Hle. congruence.
Qed.

Lemma py_max_fold (r : list pyfloat) :
  forall v : pyfloat,
    Forall not_negative (v :: r) ->
    let m := fold_left (fun m x => if float_gt x m then x else m) r v in
    In m (v :: r) /\ not_negative m /\ Forall (fun x => float_le x m) (v :: r).
Proof.
  induction r as [|x r IH]; intros v Hall; cbn [fold_left].
  - inversion Hall as [|? ? Hv _]; subst.
    split; [now left|]. split; [exact Hv|]. constructor; [now apply float_le_refl|constructor].
  - inversion Hall as [|? ? Hv Hr]; subst. inversion Hr as [|? ? Hx Hr']; subst.
    destruct (float_gt x v) eqn:Hxv.
    + destruct (IH x ltac:(now constructor)) as (Hin & Hm & Hle).
      split; [right; exact Hin|]. split; [exact Hm|].
      inversion Hle as [|? ? Hxm Hrest]; subst.
      constructor; [|constructor; assumption].
      apply (float_le_trans v x); [now apply float_gt_true|exact Hxm].
    + destruct (IH v ltac:(now constructor)) as (Hin & Hm & Hle).
      split; [destruct Hin as [<-|Hin]; [now left|right; now right]|].
      split; [exact Hm|].
      inversion Hle as [|? ? Hvm Hrest]; subst.
      constructor; [exact Hvm|]. constructor; [|exact Hrest].
      apply (float_le_trans x v); [now apply float_gt_false|exact Hvm].
Qed.

Section DistanceProps.
Context {fl : PyFloat} {fl_laws : PyFloatLaws} {pm : PyMath} {pm_laws : PyMathLaws}.

Lemma rnd_0 : (rnd 0 == 0)%Q.
Proof. exact (rnd_small_int 0 ltac:(lia)). Qed.

Lemma to_float_proper (e e' : Q) : (e == e')%Q -> float_eq (to_float e) (to_float e').
Proof.
  intros He. unfold to_float.
  assert (Hr : (rnd e == rnd e')%Q) by now apply rnd_proper.
  rewrite (Qle_bool_proper (Qabs (rnd e)) (Qabs (rnd e')) float_max float_max);
    [|now rewrite Hr|reflexivity].
  rewrite (Qle_bool_proper 0 0 e e'); [|reflexivity|exact He].
  destruct (Qle_bool (Qabs (rnd e')) float_max); cbn; [exact Hr|reflexivity].
Qed.

Lemma to_float_nonneg (e : Q) : (0 <= e)%Q -> not_negative (to_float e).
Proof.
  intros He. unfold to_float. destruct (Qle_bool (Qabs (rnd e)) float_max); cbn.
  - rewrite <- rnd_0. now apply rnd_mono.
  - apply Qle_bool_iff in He. now rewrite He.
Qed.

Lemma to_float_zero (e : Q) :
  (e == 0)%Q -> exists z : Q, to_float e = Finite z /\ (z == 0)%Q.
Proof.
  intros He. unfold to_float.
  assert (Hr : (rnd e == 0)%Q).
  { transitivity (rnd 0); [now apply rnd_proper|apply rnd_0]. }
  assert (Hle : Qle_bool (Qabs (rnd e)) float_max = true).
  { apply Qle_bool_iff. rewrite Hr. cbn. apply float_max_nonneg. }
  rewrite Hle. eauto.
Qed.

Lemma float_add_nonneg (x y : pyfloat) :
  not_negative x -> not_negative y -> not_negative (float_add x y).
Proof.
  destruct x as [a|s|], y as [b|s'|]; cbn; try tauto.
  - intros Ha Hb. apply to_float_nonneg. lra.
  - intros -> ->. reflexivity.
Qed.

Lemma float_add_proper (x x' y y' : pyfloat) :
  float_eq x x' -> float_eq y y' -> float_eq (float_add x y) (float_add x' y').
Proof.
  destruct x, x', y, y'; cbn; try tauto; intros H1 H2; subst; try reflexivity.
  - apply to_float_proper. now rewrite H1, H2.
  - apply float_eq_refl.
Qed.

Lemma fold_float_add_nonneg (l : list pyfloat) :
  Forall not_negative l ->
  forall acc : pyfloat, not_negative acc -> not_negative (fold_left float_add l acc).
Proof.
  induction 1 as [|x l Hx _ IH]; intros acc Hacc; [exact Hacc|].
  cbn [fold_left]. apply IH. now apply float_add_nonneg.
Qed.

Lemma float_sum_nonneg (l : list pyfloat) : Forall not_negative l -> not_negative (float_sum l).
Proof.
  intros Hl. apply (fold_float_add_nonneg l Hl). cbn. unfold float_of_int.
  change (inject_Z 0) with 0%Q. rewrite rnd_0. lra.
Qed.

Lemma fold_float_add_proper (l l' : list pyfloat) :
  Forall2 float_eq l l' ->
  forall acc acc' : pyfloat,
    float_eq acc acc' -> float_eq (fold_left float_add l acc) (fold_left float_add l' acc').
Proof.
  induction 1 as [|x x' l l' Hx _ IH]; intros acc acc' Hacc; [exact Hacc|].
  cbn [fold_left]. apply IH. now apply float_add_proper.
Qed.

Lemma fold_float_add_zero (l : list pyfloat) :
  Forall (fun x => float_eq x (Finite 0)) l ->
  forall acc : pyfloat,
    float_eq acc (Finite 0) -> float_eq (fold_left float_add l acc) (Finite 0).
Proof.
  induction 1 as [|x l Hx _ IH]; intros acc Hacc; [exact Hacc|].
  cbn [fold_left]. apply IH.
  destruct x as [a| |], acc as [b| |]; cbn in Hx, Hacc; try tauto.
  cbn [float_add]. destruct (to_float_zero (b + a)) as (z & -> & Hz).
  - rewrite Hx, Hacc. reflexivity.
  - exact Hz.
Qed.

Lemma sqrt_float_nonneg (q : Q) : (0 <= q)%Q -> (0 <= sqrt_float q)%Q.
Proof. intros Hq. rewrite <- sqrt_zero. apply sqrt_mono; [lra|exact Hq]. Qed.

Lemma math_sqrt_nonneg (x : pyfloat) :
  not_negative x -> exists d : pyfloat, math_sqrt x = Ok d /\ not_negative d.
Proof.
  destruct x as [q|s|]; cbn; try tauto.
  - intros Hq. pose proof Hq as Hb. apply Qle_bool_iff in Hb. rewrite Hb.
    eexists. split; [reflexivity|]. cbn. now apply sqrt_float_nonneg.
  - intros ->. eexists. split; reflexivity.
Qed.

Lemma math_sqrt_proper (x x' : pyfloat) :
  float_eq x x' -> float_result_eq (math_sqrt x) (math_sqrt x').
Proof.
  destruct x as [q|s|], x' as [q'|s'|]; cbn; try tauto.
  - intros Hq. rewrite (Qle_bool_proper 0 0 q q'); [|reflexivity|exact Hq].
    destruct (Qle_bool 0 q'); cbn; [now apply sqrt_proper|reflexivity].
  - intros ->. destruct s'; cbn; reflexivity.
Qed.

Lemma float_square_nonneg (e : Q) (x : pyfloat) :
  float_square (to_float e) = Ok x -> not_negative x.
Proof.
  unfold to_float. destruct (Qle_bool (Qabs (rnd e)) float_max); cbn [float_square].
  - apply square_nonneg.
  - intros H. injection H as <-. reflexivity.
Qed.

Lemma float_square_raises (e : Q) (err : exn) :
  float_square (to_float e) = Raise err -> err = LibraryError "OverflowError".
Proof.
  unfold to_float. destruct (Qle_bool (Qabs (rnd e)) float_max); cbn [float_square].
  - apply square_raises.
  - discriminate.
Qed.

Lemma squared_differences_nonneg (p q : list Q) :
  forall dist : list pyfloat,
    squared_differences p q = Ok dist -> Forall not_negative dist.
Proof.
  revert q. induction p as [|a p IH]; intros [|b q] dist; cbn [squared_differences];
    try (intros H; injection H as <-; constructor).
  destruct (float_square (to_float (a - b))) as [d|] eqn:Hd; cbn [result_bind];
    [|discriminate].
  destruct (squared_differences p q) as [ds|] eqn:Hds; cbn [result_bind]; [|discriminate].
  intros H. injection H as <-. constructor; [now apply (float_square_nonneg (a - b))|].
  now apply (IH q).
Qed.

Lemma squared_differences_raises (p q : list Q) (err : exn) :
  squared_differences p q = Raise err -> err = LibraryError "OverflowError".
Proof.
  revert q. induction p as [|a p IH]; intros [|b q]; cbn [squared_differences];
    try discriminate.
  destruct (float_square (to_float (a - b))) as [d|] eqn:Hd; cbn [result_bind].
  - destruct (squared_differences p q) as [ds|] eqn:Hds; cbn [result_bind]; [discriminate|].
    intros H. injection H as <-. now apply (IH q).
  - intros H. injection H as <-. now apply (float_square_raises (a - b)).
Qed.

Lemma squares_in_range_iff (p q : list Q) :
  squares_in_range p q <-> is_ok (squared_differences p q) = true.
Proof.
  unfold squares_in_range. revert q.
  induction p as [|a p IH]; intros [|b q]; cbn [combine squared_differences is_ok];
    try (split; [reflexivity|constructor]).
  split.
  - intros Hall. inversion Hall as [|? ? Hd Hrest]; subst. cbn [fst snd] in Hd.
    destruct (float_square (to_float (a - b))) as [d|]; [|discriminate].
    apply IH in Hrest. cbn [result_bind].
    destruct (squared_differences p q); [reflexivity|discriminate].
  - intros Hok.
    destruct (float_square (to_float (a - b))) as [d|] eqn:Hd; cbn [result_bind] in Hok;
      [|discriminate].
    constructor; [cbn [fst snd]; now rewrite Hd|].
    apply IH. destruct (squared_differences p q); [reflexivity|discriminate].
Qed.

(** The two ways the computation of a distance ends. *)
Lemma distance_cases (p q : list Q) :
  (squares_in_range p q /\ exists d : pyfloat, distance p q = Ok d /\ not_negative d) \/
  (~ squares_in_range p q /\ distance p q = Raise (LibraryError "OverflowError")).
Proof.
  unfold distance.
  destruct (squared_differences p q) as [dist|err] eqn:Hsq; cbn [result_bind].
  - left. split; [apply squares_in_range_iff; now rewrite Hsq|].
    apply math_sqrt_nonneg, float_sum_nonneg. now apply (squared_differences_nonneg p q).
  - right. split.
    + intros Hin. apply squares_in_range_iff in Hin. rewrite Hsq in Hin. discriminate.
    + now rewrite (squared_differences_raises p q err Hsq).
Qed.

Lemma euclidean_distance_run (p1 p2 : list Q) (lg : list (loglevel * string)) :
  euclidean_distance p1 p2 lg
  = if Nat.eqb (length p1) (length p2)
    then (distance p1 p2, lg)
    else (Raise (ValueError (different_dimension (length p1) (length p2))),
          lg ++ [(ERROR, different_dimension (length p1) (length p2))]).
Proof.
  unfold euclidean_distance, distance.
  destruct (Nat.eqb (length p1) (length p2)); cbn [negb]; [|reflexivity].
  unfold mbind, lift_result. destruct (squared_differences p1 p2); reflexivity.
Qed.
End DistanceProps.

Section DistanceClaims.
Context {fl : PyFloat} {fl_laws : PyFloatLaws} {pm : PyMath} {pm_laws : PyMathLaws}.

(** X12.  [euclidean_distance] checks the dimensions and nothing else.  For
    two points of different dimensions it logs an error and raises
    [ValueError], both with the text that gives the two dimensions.  For
    two points of the same dimension nothing is logged; the call returns a
    float that is not negative, possibly the infinity and never a NaN,
    unless the square of a coordinate difference leaves the range of the
    floats: then the power raises [OverflowError], which leaves the
    function. *)
Theorem euclidean_distance_checks_the_dimension
    (p1 p2 : list Q) (lg : list (loglevel * string)) :
  let r := euclidean_distance p1 p2 lg in
  (length p1 = length p2 ->
   (squares_in_range p1 p2 ->
    exists (dist : list pyfloat) (d : pyfloat),
      r = (Ok d, lg) /\ not_negative d /\
      squared_differences p1 p2 = Ok dist /\ math_sqrt (float_sum dist) = Ok d) /\
   (~ squares_in_range p1 p2 -> r = (Raise (LibraryError "OverflowError"), lg))) /\
  (length p1 <> length p2 ->
   r = (Raise (ValueError
          ("Tried to compute Euclidean distance between two points with different dimension ("
             +:+ pretty (length p1) +:+ "," +:+ pretty (length p2) +:+ ")!")),
        lg ++ [(ERROR,
          "Tried to compute Euclidean distance between two points with different dimension ("
             +:+ pretty (length p1) +:+ "," +:+ pretty (length p2) +:+ ")!")])).
Proof.
  intros r. subst r. rewrite euclidean_distance_run.
  destruct (Nat.eqb_spec (length p1) (length p2)) as [Heq|Hne]; split; intros H;
    try contradiction; [|reflexivity].
  destruct (distance_cases p1 p2) as [(Hin & d & Hd & Hnn)|(Hout & Hraise)]; split;
    intros H'; try contradiction.
  - unfold distance in *.
    destruct (squared_differences p1 p2) as [dist|] eqn:Hsq; [|discriminate].
    cbn [result_bind] in *. exists dist, d. rewrite Hd. repeat split; assumption.
  - now rewrite Hraise.
Qed.

Lemma square_difference_sym (a b : Q) :
  (forall x : Q, rnd (- x) == - rnd x)%Q ->
  float_result_eq (float_square (to_float (a - b))) (float_square (to_float (b - a))).
Proof.
  intros Hodd.
  assert (Hr : (rnd (a - b) == - rnd (b - a))%Q).
  { rewrite <- Hodd. apply rnd_proper. ring. }
  unfold to_float.
  rewrite (Qle_bool_proper (Qabs (rnd (a - b))) (Qabs (rnd (b - a))) float_max float_max);
    [|rewrite Hr; apply Qabs_opp|reflexivity].
  destruct (Qle_bool (Qabs (rnd (b - a))) float_max); cbn [float_square].
  - apply (float_result_eq_trans _ (pow_float (- rnd (b - a)) 2));
      [now apply pow_proper|apply square_even].
  - reflexivity.
Qed.

Lemma squared_differences_sym (p q : list Q) :
  (forall x : Q, rnd (- x) == - rnd x)%Q ->
  match squared_differences p q, squared_differences q p with
  | Ok l, Ok l' => Forall2 float_eq l l'
  | Raise e, Raise e' => e = e'
  | _, _ => False
  end.
Proof.
  intros Hodd. revert q.
  induction p as [|a p IH]; intros [|b q]; cbn [squared_differences]; try constructor.
  pose proof (square_difference_sym a b Hodd) as Hhead. specialize (IH q).
  destruct (float_square (to_float (a - b))) as [d|e],
           (float_square (to_float (b - a))) as [d'|e']; cbn in Hhead; try contradiction;
    cbn [result_bind]; [|exact Hhead].
  destruct (squared_differences p q) as [l|e], (squared_differences q p) as [l'|e'];
    cbn [result_bind]; try contradiction; [now constructor|exact IH].
Qed.

Lemma squared_differences_self (p : list Q) :
  exists dist : list pyfloat,
    squared_differences p p = Ok dist /\ Forall (fun x => float_eq x (Finite 0)) dist.
Proof.
  induction p as [|a p (dist & Hsq & Hall)]; cbn [squared_differences].
  - exists []. split; [reflexivity|constructor].
  - destruct (to_float_zero (a - a)) as (z & Hz & Hz0); [ring|].
    rewrite Hz. cbn [float_square].
    pose proof (float_result_eq_trans _ _ _ (pow_proper z 0 2 Hz0) square_zero) as Hpow.
    destruct (pow_float z 2) as [x|e]; cbn in Hpow; [|contradiction].
    rewrite Hsq. cbn [result_bind]. exists (x :: dist). split; [reflexivity|].
    now constructor.
Qed.

(** X13.  When rounding commutes with negation, as round-to-nearest does,
    [euclidean_distance] is symmetric: for two points of one dimension the
    two calls return the same float, or both raise [OverflowError]; and the
    distance of a point to itself is 0, in floating point as in exact
    arithmetic. *)
Theorem euclidean_distance_symmetric (p q : list Q) (lg : list (loglevel * string)) :
  (forall x : Q, rnd (- x) == - rnd x)%Q ->
  length p = length q ->
  ((exists d d' : pyfloat,
      euclidean_distance p q lg = (Ok d, lg) /\
      euclidean_distance q p lg = (Ok d', lg) /\
      float_eq d d') \/
   (euclidean_distance p q lg = (Raise (LibraryError "OverflowError"), lg) /\
    euclidean_distance q p lg = (Raise (LibraryError "OverflowError"), lg))) /\
  exists z : Q, euclidean_distance p p lg = (Ok (Finite z), lg) /\ (z == 0)%Q.
Proof.
  intros Hodd Hlen.
  rewrite !euclidean_distance_run, Hlen, !Nat.eqb_refl. split.
  - pose proof (squared_differences_sym p q Hodd) as Hsym. unfold distance.
    destruct (squared_differences p q) as [l|e] eqn:Hpq,
             (squared_differences q p) as [l'|e'] eqn:Hqp; try contradiction;
      cbn [result_bind].
    + left.
      assert (Hsum : float_eq (float_sum l) (float_sum l')).
      { unfold float_sum. apply fold_float_add_proper; [exact Hsym|apply float_eq_refl]. }
      pose proof (math_sqrt_proper _ _ Hsum) as Hsqrt.
      destruct (math_sqrt_nonneg (float_sum l)) as (d & Hd & _).
      { apply float_sum_nonneg. now apply (squared_differences_nonneg p q). }
      rewrite Hd in *. destruct (math_sqrt (float_sum l')) as [d'|]; [|contradiction].
      exists d, d'. repeat split. exact Hsqrt.
    + right. subst e'. rewrite (squared_differences_raises p q e Hpq). now split.
  - destruct (squared_differences_self p) as (dist & Hsq & Hall). unfold distance.
    rewrite Hsq. cbn [result_bind].
    assert (Hsum : float_eq (float_sum dist) (Finite 0)).
    { unfold float_sum. apply fold_float_add_zero; [exact Hall|].
      cbn. unfold float_of_int. change (inject_Z 0) with 0%Q. apply rnd_0. }
    destruct (float_sum dist) as [s| |]; cbn in Hsum; try contradiction.
    cbn [math_sqrt].
    assert (Hb : Qle_bool 0 s = true) by (apply Qle_bool_iff; rewrite Hsum; lra).
    rewrite Hb. eexists. split; [reflexivity|].
    rewrite <- sqrt_zero. now apply sqrt_proper.
Qed.
End DistanceClaims.

Lemma Forall2_In_l {A B} (R : A -> B -> Prop) (l : list A) (l' : list B) (x : A) :
  Forall2 R l l' -> In x l -> exists y : B, In y l' /\ R x y.
Proof.
  induction 1 as [|a b l l' Hab _ IH]; intros Hin; [destruct Hin|].
  destruct Hin as [<-|Hin]; [exists b; split; [now left|exact Hab]|].
  destruct (IH Hin) as (y & Hy & Hxy). exists y. split; [now right|exact Hxy].
Qed.

Lemma Forall2_In_r {A B} (R : A -> B -> Prop) (l : list A) (l' : list B) (y : B) :
  Forall2 R l l' -> In y l' -> exists x : A, In x l /\ R x y.
Proof.
  induction 1 as [|a b l l' Hab _ IH]; intros Hin; [destruct Hin|].
  destruct Hin as [<-|Hin]; [exists a; split; [now left|exact Hab]|].
  destruct (IH Hin) as (x & Hx & Hxy). exists x. split; [now right|exact Hxy].
Qed.

Section LargestDistance.
Context {fl : PyFloat} {fl_laws : PyFloatLaws} {pm : PyMath} {pm_laws : PyMathLaws}.

(** The three ways the loop over the second point ends. *)
Lemma distances_from_cases (p : list Q) (qs : list (list Q)) :
  forall (dists : list pyfloat) (lg : list (loglevel * string)),
    let r := for_fold qs dists (fun dists q =>
               let* d := euclidean_distance p q in mret (dists ++ [d])) lg in
    (exists ds : list pyfloat,
       r = (Ok (dists ++ ds), lg) /\
       Forall2 (fun q d => length p = length q /\ distance p q = Ok d) qs ds) \/
    (exists q : list Q,
       In q qs /\ length p = length q /\ ~ squares_in_range p q /\
       r = (Raise (LibraryError "OverflowError"), lg)) \/
    (exists q : list Q,
       In q qs /\ length p <> length q /\
       r = (Raise (ValueError (different_dimension (length p) (length q))),
            lg ++ [(ERROR, different_dimension (length p) (length q))])).
Proof.
  induction qs as [|q qs IH]; intros dists lg r.
  - left. exists []. split; [cbn; unfold mret; now rewrite app_nil_r|constructor].
  - assert (Hr : r = match euclidean_distance p q lg with
                     | (Ok d, lg') =>
                         for_fold qs (dists ++ [d]) (fun dists q =>
                           let* d := euclidean_distance p q in mret (dists ++ [d])) lg'
                     | (Raise e, lg') => (Raise e, lg')
                     end).
    { subst r. cbn [for_fold]. unfold mbind at 1. unfold mbind at 1.
      destruct (euclidean_distance p q lg) as [[d|e] lg']; reflexivity. }
    clearbody r. rewrite euclidean_distance_run in Hr.
    destruct (Nat.eqb_spec (length p) (length q)) as [Heq|Hne].
    + destruct (distance_cases p q) as [(Hin & d & Hd & _)|(Hout & Hraise)].
      * rewrite Hd in Hr.
        destruct (IH (dists ++ [d]) lg) as [(ds & Hrun & Hall)|[(q0 & Hq0 & H)|(q0 & Hq0 & H)]];
          cbv zeta in *.
        -- left. exists (d :: ds). split; [|now constructor].
           rewrite Hr, Hrun, <- app_assoc. reflexivity.
        -- right. left. exists q0. split; [now right|]. now rewrite Hr.
        -- right. right. exists q0. split; [now right|]. now rewrite Hr.
      * rewrite Hraise in Hr. right. left. exists q. split; [now left|]. now repeat split.
    + right. right. exists q. split; [now left|]. now split.
Qed.

(** The three ways the two loops end. *)
Lemma all_distances_cases (pos ps : list (list Q)) :
  forall (dists : list pyfloat) (lg : list (loglevel * string)),
    let r := for_fold ps dists (fun dists p =>
               for_fold pos dists (fun dists q =>
                 let* d := euclidean_distance p q in mret (dists ++ [d]))) lg in
    (exists dss : list (list pyfloat),
       r = (Ok (dists ++ concat dss), lg) /\
       Forall2 (fun p ds =>
                  Forall2 (fun q d => length p = length q /\ distance p q = Ok d) pos ds)
               ps dss) \/
    (exists p q : list Q,
       In p ps /\ In q pos /\ length p = length q /\ ~ squares_in_range p q /\
       r = (Raise (LibraryError "OverflowError"), lg)) \/
    (exists p q : list Q,
       In p ps /\ In q pos /\ length p <> length q /\
       r = (Raise (ValueError (different_dimension (length p) (length q))),
            lg ++ [(ERROR, different_dimension (length p) (length q))])).
Proof.
  induction ps as [|p ps IH]; intros dists lg r.
  - left. exists []. split; [cbn; unfold mret; now rewrite app_nil_r|constructor].
  - assert (Hr : r = match for_fold pos dists (fun dists q =>
                               let* d := euclidean_distance p q in mret (dists ++ [d])) lg
                     with
                     | (Ok dists', lg') =>
                         for_fold ps dists' (fun dists p =>
                           for_fold pos dists (fun dists q =>
                             let* d := euclidean_distance p q in mret (dists ++ [d]))) lg'
                     | (Raise e, lg') => (Raise e, lg')
                     end) by reflexivity.
    clearbody r.
    destruct (distances_from_cases p pos dists lg)
      as [(ds & Hrun & Hall)|[(q & Hq & H)|(q & Hq & H)]]; cbv zeta in *.
    + rewrite Hrun in Hr.
      destruct (IH (dists ++ ds) lg)
        as [(dss & Hrun' & Hall')|[(p0 & q0 & Hp0 & H)|(p0 & q0 & Hp0 & H)]];
        cbv zeta in *.
      * left. exists (ds :: dss). split; [|now constructor].
        rewrite Hr, Hrun'. cbn [concat]. now rewrite <- app_assoc.
      * right. left. exists p0, q0. split; [now right|]. now rewrite Hr.
      * right. right. exists p0, q0. split; [now right|]. now rewrite Hr.
    + destruct H as (Hlen & Hout & Hrun). rewrite Hrun in Hr.
      right. left. exists p, q. split; [now left|]. now repeat split.
    + destruct H as (Hlen & Hrun). rewrite Hrun in Hr.
      right. right. exists p, q. split; [now left|]. now repeat split.
Qed.

Lemma distance_in_range (p q : list Q) (d : pyfloat) :
  distance p q = Ok d -> squares_in_range p q /\ not_negative d.
Proof.
  intros Hd. destruct (distance_cases p q) as [(Hin & d0 & Hd0 & Hnn)|(_ & Hraise)].
  - rewrite Hd in Hd0. injection Hd0 as <-. now split.
  - rewrite Hd in Hraise. discriminate.
Qed.

(** X14.  [find_largest_distance] has no answer for an empty collection of
    points: [max] of the empty list raises [ValueError] and nothing is
    logged.  When two of the points differ in dimension the call raises:
    the [ValueError] of [euclidean_distance], with its error logged, or the
    [OverflowError] of a pair that comes before every pair of different
    dimensions; when no square of a coordinate difference leaves the range
    of the floats, it is the [ValueError]. *)
Theorem find_largest_distance_errors (lg : list (loglevel * string)) :
  find_largest_distance [] lg = (Raise (ValueError "max() arg is an empty sequence"), lg) /\
  (forall (pos : list (list Q)) (p q : list Q),
     In p pos -> In q pos -> length p <> length q ->
     let r := find_largest_distance pos lg in
     ((exists n m : nat,
         n <> m /\
         r = (Raise (ValueError (different_dimension n m)),
              lg ++ [(ERROR, different_dimension n m)])) \/
      r = (Raise (LibraryError "OverflowError"), lg)) /\
     ((forall p' q' : list Q, In p' pos -> In q' pos -> squares_in_range p' q') ->
      exists n m : nat,
        n <> m /\
        r = (Raise (ValueError (different_dimension n m)),
             lg ++ [(ERROR, different_dimension n m)]))).
Proof.
  split; [reflexivity|].
  intros pos p q Hp Hq Hne r.
  assert (Hr : r = find_largest_distance pos lg) by reflexivity. clearbody r.
  unfold find_largest_distance in Hr. unfold mbind at 1 in Hr.
  destruct (all_distances_cases pos pos [] lg)
    as [(dss & Hrun & Hall)|[(p0 & q0 & Hp0 & Hq0 & Hlen & Hout & Hrun)
                            |(p0 & q0 & Hp0 & Hq0 & Hlen & Hrun)]]; cbv zeta in *.
  - exfalso. destruct (Forall2_In_l _ _ _ p Hall Hp) as (ds & _ & Hds).
    destruct (Forall2_In_l _ _ _ q Hds Hq) as (d & _ & Hlen & _). contradiction.
  - rewrite Hrun in Hr. subst r. split; [now right|].
    intros Hrange. exfalso. apply Hout. now apply Hrange.
  - rewrite Hrun in Hr. subst r. split; [left|]; intros; exists (length p0), (length q0);
      now split.
Qed.

(** X15.  For a collection of points of one dimension that is not empty,
    [find_largest_distance] logs nothing.  When no square of a coordinate
    difference leaves the range of the floats it returns a distance that
    [euclidean_distance] gives for two of the points and that no distance
    between two of the points exceeds; it is not negative, and not a NaN.
    Otherwise it raises [OverflowError]. *)
Theorem find_largest_distance_is_the_maximum
    (pos : list (list Q)) (n : nat) (lg : list (loglevel * string)) :
  pos <> [] ->
  Forall (fun p => length p = n) pos ->
  let r := find_largest_distance pos lg in
  ((forall p q : list Q, In p pos -> In q pos -> squares_in_range p q) ->
   exists d : pyfloat,
     r = (Ok d, lg) /\
     not_negative d /\
     (exists p q, In p pos /\ In q pos /\ euclidean_distance p q lg = (Ok d, lg)) /\
     (forall p q, In p pos -> In q pos ->
        exists d', euclidean_distance p q lg = (Ok d', lg) /\ float_le d' d)) /\
  ((exists p q : list Q, In p pos /\ In q pos /\ ~ squares_in_range p q) ->
   r = (Raise (LibraryError "OverflowError"), lg)).
Proof.
  intros Hne Hdim r.
  assert (Hsame : forall p q, In p pos -> In q pos -> length p = length q).
  { rewrite List.Forall_forall in Hdim. intros p q Hp Hq.
    now rewrite (Hdim p Hp), (Hdim q Hq). }
  assert (Heuclid : forall p q, In p pos -> In q pos ->
            euclidean_distance p q lg = (distance p q, lg)).
  { intros p q Hp Hq. rewrite euclidean_distance_run, (Hsame p q Hp Hq), Nat.eqb_refl.
    reflexivity. }
  assert (Hr : r = find_largest_distance pos lg) by reflexivity. clearbody r.
  unfold find_largest_distance in Hr. unfold mbind at 1 in Hr.
  destruct (all_distances_cases pos pos [] lg)
    as [(dss & Hrun & Hall)|[(p0 & q0 & Hp0 & Hq0 & Hlen & Hout & Hrun)
                            |(p0 & q0 & Hp0 & Hq0 & Hlen & Hrun)]]; cbv zeta in *.
  - rewrite Hrun in Hr. cbn [app] in Hr. unfold lift_result in Hr. split.
    + intros _.
      assert (Hdists : forall d, In d (concat dss) ->
                exists p q, In p pos /\ In q pos /\ distance p q = Ok d).
      { intros d Hd. apply in_concat in Hd as (ds & Hds & Hd).
        destruct (Forall2_In_r _ _ _ ds Hall Hds) as (p & Hp & Hpds).
        destruct (Forall2_In_r _ _ _ d Hpds Hd) as (q & Hq & _ & Hdist).
        exists p, q. now repeat split. }
      assert (Hnn : Forall not_negative (concat dss)).
      { apply List.Forall_forall. intros d Hd.
        destruct (Hdists d Hd) as (p & q & _ & _ & Hdist).
        now apply (distance_in_range p q). }
      destruct (concat dss) as [|v rest] eqn:Hflat.
      { exfalso. destruct pos as [|p pos]; [now destruct Hne|].
        inversion Hall as [|? ds ? dss' Hds _]; subst.
        inversion Hds as [|? d ? ds' _ _]; subst. discriminate. }
      cbn [py_max] in Hr. destruct (py_max_fold rest v Hnn) as (Hin & Hm & Hle).
      set (d := fold_left (fun m x => if float_gt x m then x else m) rest v) in *.
      exists d. split; [exact Hr|]. split; [exact Hm|]. split.
      * destruct (Hdists d Hin) as (p & q & Hp & Hq & Hdist). exists p, q.
        split; [exact Hp|]. split; [exact Hq|]. now rewrite Heuclid, Hdist.
      * intros p q Hp Hq.
        destruct (Forall2_In_l _ _ _ p Hall Hp) as (ds & Hds & Hpds).
        destruct (Forall2_In_l _ _ _ q Hpds Hq) as (d' & Hd' & _ & Hdist).
        exists d'. split; [now rewrite Heuclid, Hdist|].
        rewrite List.Forall_forall in Hle. apply Hle. rewrite <- Hflat.
        apply in_concat. exists ds. now split.
    + intros (p & q & Hp & Hq & Hout). exfalso. apply Hout.
      destruct (Forall2_In_l _ _ _ p Hall Hp) as (ds & _ & Hpds).
      destruct (Forall2_In_l _ _ _ q Hpds Hq) as (d' & _ & _ & Hdist).
      now apply (distance_in_range p q d').
  - rewrite Hrun in Hr. split; [|intros _; exact Hr].
    intros Hrange. exfalso. apply Hout. now apply Hrange.
  - exfalso. apply Hlen. now apply Hsame.
Qed.
End LargestDistance.

(** * The spectra *)

Lemma for_each_invariant {S A} (Inv : S -> Prop) (body : A -> M S unit) (l : list A) :
  (forall a s, Inv s -> Inv (snd (body a s))) ->
  forall s : S, Inv s -> Inv (snd (for_each l body s)).
Proof.
  intros Hbody. induction l as [|a l IH]; intros s Hs; [exact Hs|].
  cbn [for_each]. unfold mbind. specialize (Hbody a s Hs).
  destruct (body a s) as [[[]|e] s1]; cbn [snd] in *; [now apply IH|exact Hbody].
Qed.

Lemma str_in_cases (s : string) (l : list string) : str_in s l = true -> In s l.
Proof.
  unfold str_in. intros H. apply existsb_exists in H as (x & Hin & Heq).
  apply String.eqb_eq in Heq. now subst.
Qed.

Section SpectrumProps.
Context {fl : PyFloat} {E : Type} {np : NumpyFloat E} {npo : NumpyOrder E}.

Lemma check_edep_type_run (edep_type : string) (s : ostate E) :
  check_edep_type edep_type s
  = (Ok (if str_in edep_type edep_types then edep_type else "true"),
     mk_ostate (obj s)
       (olog s ++ if str_in edep_type edep_types then []
                  else [(WARNING, "Requested edep type '" +:+ edep_type
                                    +:+ "' not allowed, using 'true'.")])).
Proof.
  unfold check_edep_type. destruct (str_in edep_type edep_types); cbn [negb].
  - unfold mret. rewrite app_nil_r. now destruct s.
  - reflexivity.
Qed.

Lemma true_energy_sum_state (ii : nat) (indices : list nat) (s : ostate E) :
  snd (true_energy_sum ii indices s) = s.
Proof.
  unfold true_energy_sum, mbind, oself, lift_result, mret.
  destruct (list_get _ ii) as [energies|]; [|reflexivity].
  destruct (np_take energies indices); reflexivity.
Qed.

Lemma ion_scint_energy_sum_state (ii : nat) (indices : list nat) (s : ostate E) :
  snd (ion_scint_energy_sum ii indices s) = s.
Proof.
  unfold ion_scint_energy_sum, mbind, oself, lift_result, mret.
  destruct (list_get _ ii) as [electrons|]; [|reflexivity].
  destruct (np_take electrons indices); reflexivity.
Qed.

Lemma not_le_lt (a b : Q) : negb (Qle_bool b a) = true -> (a < b)%Q.
Proof.
  intros H. apply negb_true_iff in H. apply Qnot_le_lt. intros Hle.
  apply Qle_bool_iff in Hle. congruence.
Qed.

(** The loop body keeps the shape of the spectrum, on every path. *)
Lemma spectrum_cluster_keeps_shape (edep_type : string) (energy_cut : Q) (ii : nat)
    (pred : list Z) (c : Z) (s : ostate E) :
  In edep_type edep_types ->
  prediction_spectrum edep_type energy_cut (cluster_spectrum (obj s)) ->
  prediction_spectrum edep_type energy_cut
    (cluster_spectrum (obj (snd (spectrum_cluster edep_type energy_cut ii pred c s)))).
Proof.
  intros Htype Hshape. unfold spectrum_cluster.
  destruct Htype as [<-|[<-|[<-|[]]]]; cbn [String.eqb Ascii.eqb Bool.eqb] in *;
    unfold prediction_spectrum in *; cbn [String.eqb Ascii.eqb Bool.eqb] in *.
  - unfold mbind at 1.
    pose proof (true_energy_sum_state ii (np_where_eq pred c) s) as Hst.
    destruct (true_energy_sum ii (np_where_eq pred c) s) as [[e|err] s1];
      cbn [snd] in Hst; subst s1; [|exact Hshape].
    destruct (np_lt_float e energy_cut) eqn:Hlt; [|exact Hshape].
    destruct Hshape as (l & Hcs & Hall).
    unfold spectrum_append, mbind, oself, update_object, modify. rewrite Hcs.
    cbn. exists (l ++ [TrueEnergy e]). split; [reflexivity|].
    apply Forall_app. split; [exact Hall|]. constructor; [|constructor].
    split; [exact I|exact Hlt].
  - unfold mbind at 1.
    pose proof (ion_scint_energy_sum_state ii (np_where_eq pred c) s) as Hst.
    destruct (ion_scint_energy_sum ii (np_where_eq pred c) s) as [[q|err] s1];
      cbn [snd] in Hst; subst s1; [|exact Hshape].
    destruct (negb (Qle_bool energy_cut q)) eqn:Hlt; [|exact Hshape].
    destruct Hshape as (l & Hcs & Hall).
    unfold spectrum_append, mbind, oself, update_object, modify. rewrite Hcs.
    cbn. exists (l ++ [IonScint q]). split; [reflexivity|].
    apply Forall_app. split; [exact Hall|]. constructor; [|constructor].
    split; [exact I|now apply not_le_lt].
  - unfold mbind at 1.
    pose proof (true_energy_sum_state ii (np_where_eq pred c) s) as Hst.
    destruct (true_energy_sum ii (np_where_eq pred c) s) as [[e|err] s1];
      cbn [snd] in Hst; subst s1; [|exact Hshape].
    unfold mbind at 1.
    pose proof (ion_scint_energy_sum_state ii (np_where_eq pred c) s) as Hst.
    destruct (ion_scint_energy_sum ii (np_where_eq pred c) s) as [[q|err] s1];
      cbn [snd] in Hst; subst s1; [|exact Hshape].
    destruct (np_lt_float e energy_cut) eqn:Hlt; cbn [andb]; [|exact Hshape].
    destruct (negb (Qle_bool energy_cut q)) eqn:Hlq; [|exact Hshape].
    destruct Hshape as (l0 & l1 & Hcs & Hlen & Hall0 & Hall1).
    unfold spectrum_append, mbind, oself, update_object, modify. rewrite Hcs.
    cbn. exists (l0 ++ [TrueEnergy e]), (l1 ++ [IonScint q]).
    split; [reflexivity|]. split; [rewrite !length_app, Hlen; reflexivity|]. split.
    + apply Forall_app. split; [exact Hall0|]. constructor; [|constructor].
      split; [exact I|exact Hlt].
    + apply Forall_app. split; [exact Hall1|]. constructor; [|constructor].
      split; [exact I|now apply not_le_lt].
Qed.

Lemma spectrum_append_core (k : nat) (v : summed_energy E) (s : ostate E) :
  core (obj (snd (spectrum_append k v s))) = core (obj s).
Proof.
  unfold spectrum_append, mbind, oself, update_object, modify, raise. cbn [fst snd obj].
  destruct (cluster_spectrum (obj s) !! k) as [[?|?]|]; reflexivity.
Qed.

Lemma spectrum_cluster_core (edep_type : string) (energy_cut : Q) (ii : nat)
    (pred : list Z) (c : Z) (s : ostate E) :
  core (obj (snd (spectrum_cluster edep_type energy_cut ii pred c s))) = core (obj s).
Proof.
  unfold spectrum_cluster.
  destruct (String.eqb edep_type "true"); [|destruct (String.eqb edep_type "ion_scint")].
  - unfold mbind at 1.
    pose proof (true_energy_sum_state ii (np_where_eq pred c) s) as Hst.
    destruct (true_energy_sum ii (np_where_eq pred c) s) as [[e|err] s1];
      cbn [snd] in Hst; subst s1; [|reflexivity].
    destruct (np_lt_float e energy_cut); [apply spectrum_append_core|reflexivity].
  - unfold mbind at 1.
    pose proof (ion_scint_energy_sum_state ii (np_where_eq pred c) s) as Hst.
    destruct (ion_scint_energy_sum ii (np_where_eq pred c) s) as [[q|err] s1];
      cbn [snd] in Hst; subst s1; [|reflexivity].
    destruct (negb (Qle_bool energy_cut q)); [apply spectrum_append_core|reflexivity].
  - unfold mbind at 1.
    pose proof (true_energy_sum_state ii (np_where_eq pred c) s) as Hst.
    destruct (true_energy_sum ii (np_where_eq pred c) s) as [[e|err] s1];
      cbn [snd] in Hst; subst s1; [|reflexivity].
    unfold mbind at 1.
    pose proof (ion_scint_energy_sum_state ii (np_where_eq pred c) s) as Hst.
    destruct (ion_scint_energy_sum ii (np_where_eq pred c) s) as [[q|err] s1];
      cbn [snd] in Hst; subst s1; [|reflexivity].
    destruct (np_lt_float e energy_cut && negb (Qle_bool energy_cut q)); [|reflexivity].
    unfold mbind at 1.
    pose proof (spectrum_append_core 0 (TrueEnergy e) s) as H0.
    destruct (spectrum_append 0 (TrueEnergy e) s) as [[[]|err] s1]; cbn [snd] in *;
      [|exact H0].
    rewrite spectrum_append_core. exact H0.
Qed.

Lemma plot_prediction_spectrum_guard_run (edep_type : string) (energy_cut : Q)
    (s : ostate E) :
  cluster_predictions (core (obj s)) = [] \/
    length (cluster_predictions (core (obj s))) <> num_events (core (obj s)) ->
  exists lg : list (loglevel * string),
    plot_prediction_spectrum edep_type energy_cut s
    = (Raise (ValueError (predictions_message (core (obj s)))),
       mk_ostate (obj s) (lg ++ [(ERROR, predictions_message (core (obj s)))])).
Proof.
  intros Hguard. unfold plot_prediction_spectrum. unfold mbind at 1.
  rewrite check_edep_type_run. eexists.
  unfold mbind at 1. unfold oself at 1. cbn [obj olog fst snd].
  unfold predictions_message.
  destruct (cluster_predictions (core (obj s))) as [|p ps] eqn:Hcp; [reflexivity|].
  destruct (Nat.eqb_spec (length (p :: ps)) (num_events (core (obj s)))) as [Heq|Hne].
  - destruct Hguard as [Hnil|Hlen]; [discriminate|contradiction].
  - reflexivity.
Qed.

Lemma set_cluster_spectrum_twice (a b : list (spectrum_entry E)) (o : object E) :
  set_cluster_spectrum a (set_cluster_spectrum b o) = set_cluster_spectrum a o.
Proof. reflexivity. Qed.

Lemma spectrum_append_frame (k : nat) (v : summed_energy E) (s : ostate E) :
  set_cluster_spectrum [] (obj (snd (spectrum_append k v s)))
  = set_cluster_spectrum [] (obj s).
Proof.
  unfold spectrum_append, mbind, oself, update_object, modify, raise. cbn [fst snd obj].
  destruct (cluster_spectrum (obj s) !! k) as [[?|?]|]; reflexivity.
Qed.

Lemma spectrum_cluster_frame (edep_type : string) (energy_cut : Q) (ii : nat)
    (pred : list Z) (c : Z) (s : ostate E) :
  set_cluster_spectrum [] (obj (snd (spectrum_cluster edep_type energy_cut ii pred c s)))
  = set_cluster_spectrum [] (obj s).
Proof.
  unfold spectrum_cluster.
  destruct (String.eqb edep_type "true"); [|destruct (String.eqb edep_type "ion_scint")].
  - unfold mbind at 1.
    pose proof (true_energy_sum_state ii (np_where_eq pred c) s) as Hst.
    destruct (true_energy_sum ii (np_where_eq pred c) s) as [[e|err] s1];
      cbn [snd] in Hst; subst s1; [|reflexivity].
    destruct (np_lt_float e energy_cut); [apply spectrum_append_frame|reflexivity].
  - unfold mbind at 1.
    pose proof (ion_scint_energy_sum_state ii (np_where_eq pred c) s) as Hst.
    destruct (ion_scint_energy_sum ii (np_where_eq pred c) s) as [[q|err] s1];
      cbn [snd] in Hst; subst s1; [|reflexivity].
    destruct (negb (Qle_bool energy_cut q)); [apply spectrum_append_frame|reflexivity].
  - unfold mbind at 1.
    pose proof (true_energy_sum_state ii (np_where_eq pred c) s) as Hst.
    destruct (true_energy_sum ii (np_where_eq pred c) s) as [[e|err] s1];
      cbn [snd] in Hst; subst s1; [|reflexivity].
    unfold mbind at 1.
    pose proof (ion_scint_energy_sum_state ii (np_where_eq pred c) s) as Hst.
    destruct (ion_scint_energy_sum ii (np_where_eq pred c) s) as [[q|err] s1];
      cbn [snd] in Hst; subst s1; [|reflexivity].
    destruct (np_lt_float e energy_cut && negb (Qle_bool energy_cut q)); [|reflexivity].
    unfold mbind at 1.
    pose proof (spectrum_append_frame 0 (TrueEnergy e) s) as H0.
    destruct (spectrum_append 0 (TrueEnergy e) s) as [[[]|err] s1]; cbn [snd] in *;
      [|exact H0].
    rewrite spectrum_append_frame. exact H0.
Qed.

(** Past the guards the run does not depend on what [cluster_spectrum]
    held. *)
Lemma plot_prediction_spectrum_forgets (edep_type : string) (energy_cut : Q)
    (old : list (spectrum_entry E)) (s : ostate E) :
  cluster_predictions (core (obj s)) <> [] ->
  length (cluster_predictions (core (obj s))) = num_events (core (obj s)) ->
  plot_prediction_spectrum edep_type energy_cut
    (mk_ostate (set_cluster_spectrum old (obj s)) (olog s))
  = plot_prediction_spectrum edep_type energy_cut s.
Proof.
  intros Hne Hlen. unfold plot_prediction_spectrum.
  unfold mbind at 1. symmetry. unfold mbind at 1. rewrite !check_edep_type_run.
  cbn [obj olog].
  unfold mbind at 1. symmetry. unfold mbind at 1. unfold oself at 1 2.
  cbn [obj olog fst snd set_cluster_spectrum core].
  destruct (cluster_predictions (core (obj s))) as [|p ps] eqn:Hcp; [now destruct Hne|].
  rewrite <- Hcp in *. rewrite Hlen, Nat.eqb_refl. cbn [negb].
  unfold mbind at 1. symmetry. unfold mbind at 1. unfold update_object at 1 2, modify.
  cbn [fst snd obj olog set_cluster_spectrum core edep_num_electrons active_tpc_lines
       cryostat_lines].
  reflexivity.
Qed.

(** X16.  [plot_prediction_spectrum] has the guards of [calc_scores]:
    without exactly one prediction per event it raises [ValueError] and
    leaves the object, [cluster_spectrum] included, as it was.  Past the
    guards it binds [cluster_spectrum] to new lists: the call ends in the
    same way and leaves the same object whatever [cluster_spectrum] held
    before, so the entries of earlier calls are gone.  Whether the loop then
    returns or raises, every energy in the lists is below the cut: one list
    of true energies (also for an [edep_type] that is not one of the three
    names), one list of ion-scint energies, or, for 'compare', two lists of
    the same length; and no attribute other than [cluster_spectrum] has
    changed. *)
Theorem plot_prediction_spectrum_fills_fresh_lists
    (edep_type : string) (energy_cut : Q) (s : ostate E) :
  let r := plot_prediction_spectrum edep_type energy_cut s in
  let resolved := if str_in edep_type ["true"; "ion_scint"; "compare"]
                  then edep_type else "true" in
  (cluster_predictions (core (obj s)) = [] \/
     length (cluster_predictions (core (obj s))) <> num_events (core (obj s)) ->
   fst r = Raise (ValueError
             match cluster_predictions (core (obj s)) with
             | [] => "No predictions have been made, need to run clustering algorithm first!"
             | _ => "Only " +:+ pretty (length (cluster_predictions (core (obj s))))
                      +:+ " predictions but " +:+ pretty (num_events (core (obj s)))
                      +:+ " events!"
             end) /\
   obj (snd r) = obj s) /\
  (cluster_predictions (core (obj s)) <> [] ->
   length (cluster_predictions (core (obj s))) = num_events (core (obj s)) ->
   prediction_spectrum resolved energy_cut (cluster_spectrum (obj (snd r))) /\
   core (obj (snd r)) = core (obj s) /\
   obj (snd r) = set_cluster_spectrum (cluster_spectrum (obj (snd r))) (obj s) /\
   (forall old : list (spectrum_entry E),
      plot_prediction_spectrum edep_type energy_cut
        (mk_ostate (set_cluster_spectrum old (obj s)) (olog s)) = r)).
Proof.
  intros r resolved.
  assert (Hres : resolved = if str_in edep_type edep_types then edep_type else "true")
    by reflexivity.
  clearbody resolved. split.
  - intros Hguard.
    destruct (plot_prediction_spectrum_guard_run edep_type energy_cut s Hguard)
      as [lg Hrun].
    subst r. rewrite Hrun. split; reflexivity.
  - intros Hne Hlen.
    enough (Hmain : prediction_spectrum resolved energy_cut (cluster_spectrum (obj (snd r)))
                    /\ set_cluster_spectrum [] (obj (snd r))
                       = set_cluster_spectrum [] (obj s)).
    { destruct Hmain as [Hshape Hframe]. split; [exact Hshape|].
      split; [exact (f_equal core Hframe)|]. split.
      - destruct (obj (snd r)), (obj s). cbn in Hframe. injection Hframe as -> -> -> ->.
        reflexivity.
      - intros old. subst r. now apply plot_prediction_spectrum_forgets. }
    assert (Hin : In resolved edep_types).
    { rewrite Hres. destruct (str_in edep_type edep_types) eqn:Hs;
        [now apply str_in_cases|now left]. }
    assert (Hr : r = plot_prediction_spectrum edep_type energy_cut s) by reflexivity.
    clearbody r. unfold plot_prediction_spectrum in Hr. unfold mbind at 1 in Hr.
    rewrite check_edep_type_run in Hr. rewrite <- Hres in Hr.
    unfold mbind at 1 in Hr. unfold oself at 1 in Hr. cbn [obj olog fst snd] in Hr.
    destruct (cluster_predictions (core (obj s))) as [|p ps] eqn:Hcp; [now destruct Hne|].
    rewrite <- Hcp in *. rewrite Hlen, Nat.eqb_refl in Hr. cbn [negb] in Hr.
    unfold mbind at 1 in Hr. unfold update_object at 1, modify in Hr.
    cbn [fst snd obj olog] in Hr.
    match type of Hr with
    | r = for_each ?l ?body ?s0 =>
        pose proof (for_each_invariant
          (fun st => prediction_spectrum resolved energy_cut (cluster_spectrum (obj st))
                     /\ set_cluster_spectrum [] (obj st) = set_cluster_spectrum [] (obj s))
          body l) as Hinv;
        specialize (fun H => Hinv H s0)
    end.
    rewrite <- Hr in Hinv. apply Hinv.
    + intros [ii pred] st Hst. cbn [fst snd].
      apply (for_each_invariant
               (fun st => prediction_spectrum resolved energy_cut (cluster_spectrum (obj st))
                          /\ set_cluster_spectrum [] (obj st)
                             = set_cluster_spectrum [] (obj s))); [|exact Hst].
      intros c st' [Hshape Hframe]. split.
      * now apply spectrum_cluster_keeps_shape.
      * rewrite <- Hframe. apply spectrum_cluster_frame.
    + cbn [obj cluster_spectrum set_cluster_spectrum core]. split; [|reflexivity].
      unfold prediction_spectrum. clear Hr Hinv Hres.
      destruct Hin as [Heq|[Heq|[Heq|[]]]]; rewrite <- Heq;
        cbn [String.eqb Ascii.eqb Bool.eqb]; repeat eexists; constructor.
Qed.
End SpectrumProps.

Section TrueSpectrum.
Context {fl : PyFloat} {E : Type} {np : NumpyFloat E} {npo : NumpyOrder E}.

Lemma true_energy_sum_run (ii : nat) (truth : list Z) (energies : list E) (c : Z)
    (s : ostate E) :
  edep_energy (core (obj s)) !! ii = Some energies ->
  length truth = length energies ->
  true_energy_sum ii (np_where_eq truth c) s
  = (Ok (np_sum (group_energies truth energies c)), s).
Proof.
  intros Hen Hlen. unfold true_energy_sum, oself, lift_result, mbind, list_get.
  rewrite Hen. unfold np_where_eq, enumerate.
  pose proof (np_take_where c truth [] energies ltac:(lia)) as Htake.
  cbn [length app] in Htake. rewrite Htake. reflexivity.
Qed.

Lemma true_groups_run (energy_cut : Q) (ii : nat) (truth : list Z) (energies : list E)
    (cs : list Z) :
  length truth = length energies ->
  forall s : ostate E,
    edep_energy (core (obj s)) !! ii = Some energies ->
    for_each cs (true_spectrum_group energy_cut ii truth) s
    = (Ok tt,
       mk_ostate
         (set_cluster_spectrum
            (cluster_spectrum (obj s)
               ++ map (fun e => Energy (TrueEnergy e))
                    (List.filter (fun e => np_lt_float e energy_cut)
                       (map (fun c => np_sum (group_energies truth energies c)) cs)))
            (obj s))
         (olog s)).
Proof.
  intros Hlen. induction cs as [|c cs IH]; intros s Hen.
  - cbn. unfold mret. rewrite app_nil_r. destruct s as [o lg]; destruct o; reflexivity.
  - cbn [for_each map List.filter]. unfold mbind at 1.
    unfold true_spectrum_group at 1. unfold mbind at 1.
    rewrite (true_energy_sum_run ii truth energies c s Hen Hlen).
    destruct (np_lt_float (np_sum (group_energies truth energies c)) energy_cut).
    + unfold update_object, modify. rewrite IH; [|exact Hen].
      cbn [obj olog map]. destruct s as [o lg]; destruct o; cbn.
      rewrite <- app_assoc. reflexivity.
    + unfold mret. now rewrite IH.
Qed.

Lemma true_events_run (energy_cut : Q) (ids : list (list Z)) (ens : list (list E)) :
  Forall2 (fun truth energies => length truth = length energies) ids ens ->
  forall (k : nat) (s : ostate E),
    (forall j en, ens !! j = Some en -> edep_energy (core (obj s)) !! (k + j)%nat = Some en) ->
    for_each (enumerate_from k ids) (fun it =>
      for_each (np_unique (snd it)) (true_spectrum_group energy_cut (fst it) (snd it))) s
    = (Ok tt,
       mk_ostate
         (set_cluster_spectrum (cluster_spectrum (obj s) ++ true_spectrum energy_cut ids ens)
                               (obj s))
         (olog s)).
Proof.
  induction 1 as [|truth energies ids ens Hlen _ IH]; intros k s Hlook.
  - cbn. unfold mret. rewrite app_nil_r. destruct s as [o lg]; destruct o; reflexivity.
  - cbn [enumerate_from for_each fst snd]. unfold mbind at 1.
    rewrite (true_groups_run energy_cut k truth energies _ Hlen s).
    + rewrite IH.
      * cbn [obj olog]. unfold true_spectrum. cbn [zip_with concat].
        destruct s as [o lg]; destruct o; cbn. rewrite <- app_assoc. reflexivity.
      * intros j en Hj. cbn [obj]. replace (S k + j)%nat with (k + S j)%nat by lia.
        rewrite <- (Hlook (S j) en Hj). destruct s as [o lg]; destruct o; reflexivity.
    + rewrite <- (Hlook 0%nat energies eq_refl). f_equal. lia.
Qed.

Lemma plot_true_spectrum_run (energy_cut : Q) (s : ostate E) :
  parallel_arrays (core (obj s)) ->
  plot_true_spectrum energy_cut s
  = (Ok tt,
     mk_ostate
       (set_cluster_spectrum
          (cluster_spectrum (obj s)
             ++ true_spectrum energy_cut (edep_neutron_ids (core (obj s)))
                  (edep_energy (core (obj s))))
          (obj s))
       (olog s)).
Proof.
  intros Hpar. unfold plot_true_spectrum. unfold mbind at 1. unfold oself at 1.
  unfold enumerate. rewrite (true_events_run energy_cut _ _ Hpar 0%nat s); [reflexivity|].
  intros j en Hj. exact Hj.
Qed.

(** X17.  [plot_true_spectrum] appends to the attribute [cluster_spectrum]
    and never empties it: on parallel arrays a call returns, adding one
    entry for every truth group whose summed energy is below the cut, after
    whatever the list held; a second call adds the same entries again, so
    the histogram drawn from the attribute counts every group once per
    call. *)
Theorem plot_true_spectrum_accumulates (energy_cut : Q) (s : ostate E) :
  parallel_arrays (core (obj s)) ->
  let added := true_spectrum energy_cut (edep_neutron_ids (core (obj s)))
                 (edep_energy (core (obj s))) in
  let s1 := snd (plot_true_spectrum energy_cut s) in
  let s2 := snd (plot_true_spectrum energy_cut s1) in
  fst (plot_true_spectrum energy_cut s) = Ok tt /\
  cluster_spectrum (obj s1) = cluster_spectrum (obj s) ++ added /\
  fst (plot_true_spectrum energy_cut s1) = Ok tt /\
  cluster_spectrum (obj s2) = (cluster_spectrum (obj s) ++ added) ++ added /\
  core (obj s2) = core (obj s) /\
  Forall (fun entry => exists e : E,
            entry = Energy (TrueEnergy e) /\ np_lt_float e energy_cut = true) added.
Proof.
  intros Hpar added s1 s2.
  pose proof (plot_true_spectrum_run energy_cut s Hpar) as Hrun. fold added in Hrun.
  assert (Hcore : core (obj s1) = core (obj s)).
  { subst s1. rewrite Hrun. destruct s as [o lg]; destruct o; reflexivity. }
  assert (Hpar1 : parallel_arrays (core (obj s1))) by now rewrite Hcore.
  pose proof (plot_true_spectrum_run energy_cut s1 Hpar1) as Hrun1.
  rewrite Hcore in Hrun1. fold added in Hrun1.
  assert (Hcs1 : cluster_spectrum (obj s1) = cluster_spectrum (obj s) ++ added).
  { subst s1. rewrite Hrun. destruct s as [o lg]; destruct o; reflexivity. }
  split; [now rewrite Hrun|]. split; [exact Hcs1|]. split; [now rewrite Hrun1|].
  split; [|split].
  - subst s2. rewrite Hrun1. cbn [snd obj]. rewrite <- Hcs1.
    destruct (obj s1); reflexivity.
  - subst s2. rewrite Hrun1. cbn [snd obj]. rewrite <- Hcore.
    destruct (obj s1); reflexivity.
  - subst added. unfold true_spectrum. apply List.Forall_forall. intros entry Hin.
    apply in_concat in Hin as (l & Hl & Hin).
    clear -Hl Hin. revert Hl.
    generalize (edep_energy (core (obj s))). generalize (edep_neutron_ids (core (obj s))).
    intros ids. induction ids as [|truth ids IH]; intros [|energies ens] Hl;
      cbn [zip_with] in Hl; try (now destruct Hl).
    destruct Hl as [<-|Hl]; [|exact (IH _ Hl)].
    apply in_map_iff in Hin as (e & <- & He). apply List.filter_In in He as [_ He].
    now exists e.
Qed.
End TrueSpectrum.

(** * Loading and construction *)

Lemma np_get_middle {A} (pre post : list A) (a : A) (k : nat) :
  k = length pre -> np_get (pre ++ a :: post) k = Ok a.
Proof. intros ->. unfold np_get. now rewrite (list_lookup_middle pre post a _ eq_refl). Qed.

Lemma np_get_lookup {A} (l : list A) (k : nat) (a : A) : l !! k = Some a -> np_get l k = Ok a.
Proof. intros H. unfold np_get. now rewrite H. Qed.

Section Positions.
Context {E : Type}.

Lemma points_run (X Y Z : list (list Q)) (jj : nat) (xs : list Q) :
  forall (ys zs pxs pys pzs : list Q),
    X !! jj = Some (pxs ++ xs) -> Y !! jj = Some (pys ++ ys) -> Z !! jj = Some (pzs ++ zs) ->
    length pys = length pxs -> length pzs = length pxs ->
    length ys = length xs -> length zs = length xs ->
    comprehension (position X Y Z jj) (seq (length pxs) (length xs))
    = Ok (points_of xs ys zs).
Proof.
  induction xs as [|a xs IH]; intros ys zs pxs pys pzs HX HY HZ Hpy Hpz Hy Hz.
  - reflexivity.
  - destruct ys as [|b ys]; [discriminate|]. destruct zs as [|c zs]; [discriminate|].
    cbn [length seq comprehension points_of].
    assert (Hpos : position X Y Z jj (length pxs) = Ok (a, b, c)).
    { unfold position. rewrite (np_get_lookup X jj _ HX). cbn [result_bind].
      rewrite (np_get_middle pxs xs a _ eq_refl). cbn [result_bind].
      rewrite (np_get_lookup Y jj _ HY). cbn [result_bind].
      rewrite (np_get_middle pys ys b _ (eq_sym Hpy)). cbn [result_bind].
      rewrite (np_get_lookup Z jj _ HZ). cbn [result_bind].
      rewrite (np_get_middle pzs zs c _ (eq_sym Hpz)). reflexivity. }
    rewrite Hpos. cbn [result_bind].
    specialize (IH ys zs (pxs ++ [a]) (pys ++ [b]) (pzs ++ [c])).
    rewrite <- !app_assoc in IH. cbn [app] in IH.
    rewrite !length_app in IH. cbn [length] in IH.
    replace (length pxs + 1)%nat with (S (length pxs)) in IH by lia.
    rewrite IH; try assumption; try reflexivity; cbn [length] in *; lia.
Qed.

Lemma positions_run (x y z : list (list Q)) :
  parallel_coordinates x y z ->
  forall px py pz : list (list Q),
    length py = length px -> length pz = length px ->
    comprehension (fun jj =>
      result_bind (np_get (px ++ x) jj) (fun xj =>
      comprehension (position (px ++ x) (py ++ y) (pz ++ z) jj) (seq 0 (length xj))))
      (seq (length px) (length x))
    = Ok (positions_of x y z).
Proof.
  induction 1 as [|xs ys zs x y z Hy Hz _ IH]; intros px py pz Hpy Hpz.
  - reflexivity.
  - cbn [length seq comprehension positions_of].
    rewrite (np_get_middle px x xs _ eq_refl). cbn [result_bind].
    pose proof (points_run (px ++ xs :: x) (py ++ ys :: y) (pz ++ zs :: z) (length px)
                  xs ys zs [] [] []) as Hp.
    cbn [app length] in Hp. rewrite Hp; try assumption; try reflexivity.
    + cbn [result_bind].
      specialize (IH (px ++ [xs]) (py ++ [ys]) (pz ++ [zs])).
      rewrite <- !app_assoc in IH. cbn [app] in IH.
      rewrite !length_app in IH. cbn [length] in IH.
      replace (length px + 1)%nat with (S (length px)) in IH by lia.
      rewrite IH; [reflexivity|lia|lia].
    + now apply list_lookup_middle.
    + now apply list_lookup_middle.
    + now apply list_lookup_middle.
Qed.

Lemma build_positions_run (x y z : list (list Q)) :
  parallel_coordinates x y z -> build_positions x y z = Ok (positions_of x y z).
Proof.
  intros Hpar. unfold build_positions.
  exact (positions_run x y z Hpar [] [] [] eq_refl eq_refl).
Qed.

Lemma positions_of_length (x y z : list (list Q)) :
  parallel_coordinates x y z ->
  length (positions_of x y z) = length x /\
  Forall2 (fun pos xs => length pos = length xs) (positions_of x y z) x.
Proof.
  induction 1 as [|xs ys zs x y z Hy Hz _ [IH1 IH2]]; [split; constructor|].
  cbn [positions_of length]. split; [now rewrite IH1|].
  constructor; [|exact IH2].
  clear -Hy Hz. revert ys zs Hy Hz.
  induction xs as [|a xs IH]; intros [|b ys] [|c zs] Hy Hz; try discriminate; [reflexivity|].
  cbn [points_of length]. f_equal. apply IH; cbn in *; lia.
Qed.

Lemma read_arrays_missing (events : pydict (branch E)) (name : string) :
  In name required_arrays -> dict_mem name events = false ->
  exists e : exn, read_arrays events = Raise e.
Proof.
  intros Hin Hmiss. destruct (read_arrays events) as [a|e] eqn:Hread; [exfalso|eauto].
  unfold read_arrays in Hread.
  repeat match type of Hread with
         | context [dict_get ?k events] =>
             let H := fresh "Hk" in
             destruct (dict_get k events) eqn:H; cbn [result_bind] in Hread;
             [apply dict_get_mem in H|discriminate Hread]
         end.
  unfold required_arrays in Hin. cbn [In] in Hin.
  repeat (destruct Hin as [<-|Hin]; [congruence|]). exact Hin.
Qed.

Lemma read_arrays_present (events : pydict (branch E))
    (event_ids energy neutron_ids gamma_ids x y z electrons : branch E) :
  Forall (fun k => dict_mem k events = true) required_arrays ->
  dict_get "event_id" events = Ok event_ids ->
  dict_get "edep_energy" events = Ok energy ->
  dict_get "edep_neutron_ids" events = Ok neutron_ids ->
  dict_get "edep_gamma_ids" events = Ok gamma_ids ->
  dict_get "edep_x" events = Ok x ->
  dict_get "edep_y" events = Ok y ->
  dict_get "edep_z" events = Ok z ->
  dict_get "edep_num_electrons" events = Ok electrons ->
  read_arrays events
  = Ok (mk_neutron_arrays event_ids energy neutron_ids gamma_ids x y z electrons).
Proof.
  intros Hall H1 H2 H3 H4 H5 H6 H7 H8. unfold read_arrays.
  rewrite H1, H2, H3, H4, H5, H6, H7, H8. cbn [result_bind].
  rewrite List.Forall_forall in Hall.
  repeat match goal with
         | |- context [dict_get ?k events] =>
             let v := fresh "v" in
             let Hv := fresh "Hv" in
             destruct (dict_mem_get k events) as [v Hv];
             [apply Hall; unfold required_arrays; cbn [In]; tauto|];
             rewrite Hv; cbn [result_bind]
         end.
  reflexivity.
Qed.
End Positions.

Section Construction.
Context {fl : PyFloat} {E : Type} {np : NumpyFloat E} {up : Uproot E}.

Lemma load_array_run (file : root_file E) (array_name : string)
    (lg : list (loglevel * string)) :
  load_array file array_name lg
  = match file_arrays file array_name with
    | Ok array =>
        (Ok array,
         (lg ++ [(INFO, "Attempting to load array: " +:+ array_name +:+ " from file: "
                          +:+ file_repr file +:+ ".")])
            ++ [(INFO, "Successfully loaded array: " +:+ array_name +:+ " from file: "
                         +:+ file_repr file +:+ ".")])
    | Raise _ =>
        (Raise bare_exception,
         (lg ++ [(INFO, "Attempting to load array: " +:+ array_name +:+ " from file: "
                          +:+ file_repr file +:+ ".")])
            ++ [(ERROR, "Failed to load array: " +:+ array_name +:+ " from file: "
                          +:+ file_repr file +:+ " with exception: <class 'Exception'>.")])
    end.
Proof. unfold load_array. destruct (file_arrays file array_name); reflexivity. Qed.

(** X18.  A failure to open the file or to load one of the three trees is
    reported without its cause: whatever exception uproot raised,
    [__init__] raises the class [Exception] itself, and the error line in
    the log ends with the text of that class, not of the exception that
    occurred. *)
Theorem init_hides_the_cause_of_a_failed_load
    (path : string) (lg : list (loglevel * string)) :
  (forall e : exn,
     uproot_open path = Raise e ->
     init path lg
     = (Raise (LibraryError "Exception"),
        (lg ++ [(INFO, "Attempting to load file " +:+ path +:+ ".")])
           ++ [(ERROR, "Failed to load file with exception: <class 'Exception'>.")])) /\
  (forall (file : root_file E) (name : string) (e : exn),
     uproot_open path = Ok file ->
     In name ["ana/meta"; "ana/Geometry"; "ana/neutron"] ->
     file_arrays file name = Raise e ->
     fst (init path lg) = Raise (LibraryError "Exception") /\
     exists (lg0 : list (loglevel * string)) (failed : string),
       snd (init path lg)
       = lg0 ++ [(ERROR, "Failed to load array: " +:+ failed +:+ " from file: "
                           +:+ file_repr file +:+ " with exception: <class 'Exception'>.")]).
Proof.
  split.
  - intros e Hopen. unfold init. unfold mbind at 1. unfold root_logging at 1, modify.
    cbn [fst snd]. unfold mbind at 1. rewrite Hopen. reflexivity.
  - intros file name e Hopen Hname Hfail.
    assert (Hrun : exists lg0 failed,
              init path lg
              = (Raise bare_exception,
                 lg0 ++ [(ERROR, "Failed to load array: " +:+ failed +:+ " from file: "
                                   +:+ file_repr file
                                   +:+ " with exception: <class 'Exception'>.")])).
    { unfold init. unfold mbind at 1. unfold root_logging at 1, modify. cbn [fst snd].
      unfold mbind at 1. rewrite Hopen.
      unfold mbind at 1. unfold root_logging at 1, modify, mret. cbn [fst snd].
      unfold mbind at 1. rewrite load_array_run.
      destruct Hname as [<-|Hname]; [rewrite Hfail; do 2 eexists; reflexivity|].
      destruct (file_arrays file "ana/meta") as [meta|]; [|do 2 eexists; reflexivity].
      unfold mbind at 1. rewrite load_array_run.
      destruct Hname as [<-|Hname]; [rewrite Hfail; do 2 eexists; reflexivity|].
      destruct (file_arrays file "ana/Geometry") as [geometry|]; [|do 2 eexists; reflexivity].
      unfold mbind at 1. rewrite load_array_run.
      destruct Hname as [<-|[]]. rewrite Hfail. do 2 eexists; reflexivity. }
    destruct Hrun as (lg0 & failed & Hrun).
    rewrite Hrun. split; [reflexivity|]. now exists lg0, failed.
Qed.
End Construction.

Section ConstructionProper.
Context {fl : PyFloat} {E : Type} {np : NumpyFloat E} {up : Uproot E}.

Lemma init_loaded (path : string) (file : root_file E)
    (meta geometry events : pydict (branch E)) (lg : list (loglevel * string)) :
  uproot_open path = Ok file ->
  file_arrays file "ana/meta" = Ok meta ->
  file_arrays file "ana/Geometry" = Ok geometry ->
  file_arrays file "ana/neutron" = Ok events ->
  exists lg1 : list (loglevel * string),
    (exists lg0, lg1 = lg ++ lg0) /\ init path lg = construct geometry events lg1.
Proof.
  intros Hopen Hmeta Hgeo Hev.
  unfold init. unfold mbind at 1. unfold root_logging at 1, modify. cbn [fst snd].
  unfold mbind at 1. rewrite Hopen.
  unfold mbind at 1. unfold root_logging at 1, modify, mret. cbn [fst snd].
  unfold mbind at 1. rewrite load_array_run, Hmeta.
  unfold mbind at 1. rewrite load_array_run, Hgeo.
  unfold mbind at 1. rewrite load_array_run, Hev.
  eexists. split; [|reflexivity].
  rewrite <- !app_assoc. eexists. reflexivity.
Qed.

Lemma names_strings (l : list string) (k : string) : In k l -> names (repr_strings l) k.
Proof.
  intros Hin. unfold repr_strings. apply names_app_r, names_app_l, names_join.
  exists ("'" +:+ k +:+ "'"). split.
  - apply in_map_iff. now exists k.
  - apply names_app_r, names_app_l, names_self.
Qed.

(** X19.  When the tree 'ana/neutron' lacks one of the twenty required
    arrays, whichever it is and whether or not a method would read it,
    [__init__] logs an error that lists the required arrays and raises
    [ValueError] without a message; no object is built. *)
Theorem init_requires_every_array
    (path : string) (file : root_file E) (meta geometry events : pydict (branch E))
    (name : string) (lg : list (loglevel * string)) :
  uproot_open path = Ok file ->
  file_arrays file "ana/meta" = Ok meta ->
  file_arrays file "ana/Geometry" = Ok geometry ->
  file_arrays file "ana/neutron" = Ok events ->
  In name required_arrays ->
  dict_mem name events = false ->
  fst (init path lg) = Raise (ValueError "") /\
  exists (lg0 : list (loglevel * string)) (msg : string),
    snd (init path lg) = lg0 ++ [(ERROR, msg)] /\ names msg name /\
    names msg (repr_strings (dict_keys events)).
Proof.
  intros Hopen Hmeta Hgeo Hev Hin Hmiss.
  destruct (init_loaded path file meta geometry events lg Hopen Hmeta Hgeo Hev)
    as (lg1 & _ & Hinit).
  destruct (read_arrays_missing events name Hin Hmiss) as [e Hread].
  rewrite Hinit. unfold construct. unfold mbind at 1. rewrite Hread.
  unfold mbind at 1. unfold root_logging, modify, raise. cbn [fst snd].
  split; [reflexivity|]. exists lg1, (missing_arrays events).
  split; [reflexivity|]. unfold missing_arrays. split.
  - apply names_app_r, names_app_l. now apply names_strings.
  - apply names_app_r, names_app_r, names_app_r, names_app_l, names_self.
Qed.

Lemma construct_run (path : string) (file : root_file E)
    (geometry events : pydict (branch E)) (ids : list Z) (energy : list (list E))
    (neutron_ids gamma_ids : list (list Z)) (x y z : list (list Q))
    (electrons : list (list Z)) (lg : list (loglevel * string)) :
  loads path file geometry events ids energy neutron_ids gamma_ids x y z electrons ->
  parallel_coordinates x y z ->
  construct geometry events lg
  = let rs := calculate_capture_ratio
                (mk_mstate (new_instance ids energy neutron_ids gamma_ids x y z)
                   (lg ++ [(INFO, "Loaded arrays with " +:+ pretty (length ids)
                                    +:+ " entries.")])) in
    match fst rs with
    | Raise e => (Raise e, log (snd rs))
    | Ok _ =>
        match box_ranges geometry "total_active_tpc_box_ranges" with
        | Raise e => (Raise e, log (snd rs))
        | Ok tpc =>
            match box_ranges geometry "cryostat_box_ranges" with
            | Raise e => (Raise e, log (snd rs))
            | Ok cryo =>
                (Ok (mk_object (this (snd rs)) electrons []
                       (box_lines (fst (fst tpc)) (snd (fst tpc)) (snd tpc))
                       (box_lines (fst (fst cryo)) (snd (fst cryo)) (snd cryo))),
                 log (snd rs))
            end
        end
    end.
Proof.
  intros Hloads Hpar. destruct Hloads.
  unfold construct. unfold mbind at 1.
  rewrite (read_arrays_present events _ _ _ _ _ _ _ _ loads_required0 loads_event_id0
             loads_edep_energy0 loads_edep_neutron_ids0 loads_edep_gamma_ids0
             loads_edep_x0 loads_edep_y0 loads_edep_z0 loads_edep_num_electrons0).
  unfold mret at 1.
  cbn [loaded_event_id loaded_edep_energy loaded_edep_neutron_ids loaded_edep_gamma_ids
       loaded_edep_x loaded_edep_y loaded_edep_z loaded_edep_num_electrons
       as_ints as_energy_arrays as_int_arrays as_float_arrays].
  do 8 (unfold mbind at 1; unfold lift_result at 1).
  unfold mbind at 1. unfold root_logging at 1, modify. cbn [fst snd].
  unfold mbind at 1. unfold lift_result at 1. rewrite (build_positions_run x y z Hpar).
  unfold mbind at 1. unfold run_method. fold (new_instance ids energy neutron_ids gamma_ids x y z).
  cbv zeta.
  destruct (calculate_capture_ratio _) as [[[]|e] s1]; cbn [fst snd]; [|reflexivity].
  unfold mbind, lift_result, mret.
  destruct (box_ranges geometry "total_active_tpc_box_ranges"); [|reflexivity].
  destruct (box_ranges geometry "cryostat_box_ranges"); reflexivity.
Qed.

(** X20.  A file without any energy deposit cannot be loaded: when no
    event has a truth id, as in a file without events, the call of
    [calculate_capture_ratio] that [__init__] makes divides by zero, and
    the construction of the object fails with [ZeroDivisionError]. *)
Theorem init_fails_without_deposits
    (path : string) (file : root_file E) (geometry events : pydict (branch E))
    (ids : list Z) (energy : list (list E)) (neutron_ids gamma_ids : list (list Z))
    (x y z : list (list Q)) (electrons : list (list Z)) (lg : list (loglevel * string)) :
  loads path file geometry events ids energy neutron_ids gamma_ids x y z electrons ->
  parallel_coordinates x y z ->
  Forall (fun truth => truth = []) neutron_ids ->
  fst (init path lg) = Raise (ZeroDivisionError "division by zero").
Proof.
  intros Hloads Hpar Hempty.
  destruct (loads_meta _ _ _ _ _ _ _ _ _ _ _ _ Hloads) as [meta Hmeta].
  destruct (init_loaded path file meta geometry events lg
              (loads_open _ _ _ _ _ _ _ _ _ _ _ _ Hloads) Hmeta
              (loads_geometry _ _ _ _ _ _ _ _ _ _ _ _ Hloads)
              (loads_events _ _ _ _ _ _ _ _ _ _ _ _ Hloads)) as (lg1 & _ & Hinit).
  rewrite Hinit, (construct_run path file geometry events ids energy neutron_ids gamma_ids
                    x y z electrons lg1 Hloads Hpar).
  cbv zeta. rewrite calculate_capture_ratio_empty_run; [reflexivity|exact Hempty].
Qed.
End ConstructionProper.

Section NewObject.
Context {fl : PyFloat} {E : Type} {np : NumpyFloat E} {up : Uproot E}
        {skm : SklearnMetrics}.

(** X21.  From a file with the three trees, every required array, parallel
    per-event arrays, at least one truth group and the two boxes in the
    geometry, [__init__] returns an object with as many events as
    [event_id] has entries, one position array per event with one point per
    deposit, the capture counters and the ratio computed, no prediction, no
    score and an empty [cluster_spectrum]; [calc_scores] on this new object
    raises [ValueError], since nothing has been clustered. *)
Theorem init_builds_the_object
    (path : string) (file : root_file E) (geometry events : pydict (branch E))
    (ids : list Z) (energy : list (list E)) (neutron_ids gamma_ids : list (list Z))
    (x y z : list (list Q)) (electrons : list (list Z))
    (tpc cryo : (Q * Q) * (Q * Q) * (Q * Q)) (lg : list (loglevel * string)) :
  loads path file geometry events ids energy neutron_ids gamma_ids x y z electrons ->
  parallel_coordinates x y z ->
  Forall2 (fun truth energies => length truth = length energies) neutron_ids energy ->
  0 < sum_int (map count_groups neutron_ids) ->
  box_ranges geometry "total_active_tpc_box_ranges" = Ok tpc ->
  box_ranges geometry "cryostat_box_ranges" = Ok cryo ->
  exists (o : object E) (lg' : list (loglevel * string)),
    init path lg = (Ok o, lg') /\
    event_ids (core o) = ids /\
    num_events (core o) = length ids /\
    edep_neutron_ids (core o) = neutron_ids /\
    edep_energy (core o) = energy /\
    edep_positions (core o) = positions_of x y z /\
    Forall2 (fun pos xs => length pos = length xs) (edep_positions (core o)) x /\
    cluster_predictions (core o) = [] /\
    cluster_scores (core o) = scores_const [] /\
    avg_cluster_scores (core o) = scores_const 0%Q /\
    num_captures (core o) = map count_groups neutron_ids /\
    num_complete_captures (core o) = zip_with count_complete neutron_ids energy /\
    (exists ratio : Z, capture_ratio (core o) = Some ratio) /\
    edep_num_electrons o = electrons /\
    cluster_spectrum o = [] /\
    active_tpc_lines o = box_lines (fst (fst tpc)) (snd (fst tpc)) (snd tpc) /\
    cryostat_lines o = box_lines (fst (fst cryo)) (snd (fst cryo)) (snd cryo) /\
    (forall level : string,
       fst (on_core (calc_scores level) (mk_ostate o lg'))
       = Raise (ValueError
                  "No predictions have been made, need to run clustering algorithm first!")).
Proof.
  intros Hloads Hpar Hen Hgroups Htpc Hcryo.
  destruct (loads_meta _ _ _ _ _ _ _ _ _ _ _ _ Hloads) as [meta Hmeta].
  destruct (init_loaded path file meta geometry events lg
              (loads_open _ _ _ _ _ _ _ _ _ _ _ _ Hloads) Hmeta
              (loads_geometry _ _ _ _ _ _ _ _ _ _ _ _ Hloads)
              (loads_events _ _ _ _ _ _ _ _ _ _ _ _ Hloads)) as (lg1 & _ & Hinit).
  rewrite Hinit, (construct_run path file geometry events ids energy neutron_ids gamma_ids
                    x y z electrons lg1 Hloads Hpar).
  cbv zeta. rewrite calculate_capture_ratio_run; [|exact Hen].
  cbv zeta. cbn [this new_instance edep_neutron_ids edep_energy].
  assert (Hnz : (sum_int (map count_groups neutron_ids) =? 0) = false)
    by (apply Z.eqb_neq; lia).
  rewrite Hnz. cbn [fst snd this log]. rewrite Htpc, Hcryo.
  eexists. eexists. split; [reflexivity|].
  cbn [core event_ids num_events edep_neutron_ids edep_energy edep_positions
       cluster_predictions cluster_scores avg_cluster_scores num_captures
       num_complete_captures capture_ratio edep_num_electrons cluster_spectrum
       active_tpc_lines cryostat_lines set_capture_ratio set_num_complete_captures
       set_num_captures].
  repeat (split; [reflexivity|]).
  split; [exact (proj2 (positions_of_length x y z Hpar))|].
  repeat (split; [reflexivity|]).
  split; [eexists; reflexivity|].
  repeat (split; [reflexivity|]).
  intros level. unfold on_core. cbn [fst obj core olog].
  rewrite calc_scores_guard_run; [reflexivity|left; reflexivity].
Qed.
End NewObject.

(** ** The wire frames *)

(** X22.  The twelve segments that [__init__] lists for a box are the
    twelve edges of the box, each once: every segment joins two corners
    that differ on exactly one axis, and no two segments join the same pair
    of corners. *)
Theorem box_lines_are_the_edges_of_the_box (rx ry rz : Q * Q) :
  exists edges : list ((bool * bool * bool) * (bool * bool * bool)),
    box_lines rx ry rz
    = map (fun e => (corner rx ry rz (fst e), corner rx ry rz (snd e))) edges /\
    length edges = 12%nat /\
    Forall (fun e => axes_apart (fst e) (snd e) = 1%nat) edges /\
    (forall i j e f, edges !! i = Some e -> edges !! j = Some f ->
                     same_edge e f = true -> i = j).
Proof.
  exists [ ((false, false, false), (true, false, false));
           ((false, false, false), (false, true, false));
           ((false, false, false), (false, false, true));
           ((false, true, false), (true, true, false));
           ((false, true, false), (false, true, true));
           ((true, false, false), (true, false, true));
           ((true, false, false), (true, true, false));
           ((false, true, true), (true, true, true));
           ((false, true, true), (false, false, true));
           ((true, false, true), (true, true, true));
           ((true, false, true), (false, false, true));
           ((true, true, false), (true, true, true)) ].
  match goal with |- context [map _ ?l] => set (edges := l) end.
  split; [reflexivity|]. split; [reflexivity|]. split.
  - repeat constructor.
  - intros i j e f Hi Hj Hsame.
    set (d := ((false, false, false), (false, false, false))).
    assert (Hcheck : forallb (fun i => forallb (fun j =>
                       implb (same_edge (nth i edges d) (nth j edges d)) (Nat.eqb i j))
                       (seq 0 12)) (seq 0 12) = true) by (vm_compute; reflexivity).
    assert (Hlt : forall k g, edges !! k = Some g -> In k (seq 0 12)).
    { intros k g Hk. apply in_seq. apply lookup_lt_Some in Hk. cbn in Hk. lia. }
    rewrite forallb_forall in Hcheck. specialize (Hcheck i (Hlt i e Hi)).
    rewrite forallb_forall in Hcheck. specialize (Hcheck j (Hlt j f Hj)).
    rewrite (nth_lookup_Some _ _ d _ Hi), (nth_lookup_Some _ _ d _ Hj), Hsame in Hcheck.
    cbn [implb] in Hcheck. now apply Nat.eqb_eq.
Qed.

(** * [plot_event] *)

Lemma np_take_select {A} (truth : list Z) (values : list A) (c : Z) :
  (length truth <= length values)%nat ->
  np_take values (np_where_eq truth c) = Ok (select_group truth values c).
Proof.
  intros Hlen. unfold np_where_eq, enumerate, select_group.
  exact (np_take_where c truth [] values Hlen).
Qed.

Lemma list_sum_cons (n : nat) (l : list nat) : list_sum (n :: l) = (n + list_sum l)%nat.
Proof. reflexivity. Qed.

Lemma indicator_absent (a : Z) (U : list Z) :
  ~ In a U -> list_sum (map (fun c => if (a =? c)%Z then 1%nat else 0%nat) U) = 0%nat.
Proof.
  induction U as [|u U IH]; intros Hout; [reflexivity|].
  cbn [map]. rewrite list_sum_cons. destruct (Z.eqb_spec a u) as [->|_].
  - destruct Hout. now left.
  - rewrite IH; [reflexivity|]. intros Hin. apply Hout. now right.
Qed.

Lemma indicator_present (a : Z) (U : list Z) :
  List.NoDup U -> In a U ->
  list_sum (map (fun c => if (a =? c)%Z then 1%nat else 0%nat) U) = 1%nat.
Proof.
  induction 1 as [|u U Hu _ IH]; intros Hin; [destruct Hin|].
  cbn [map]. rewrite list_sum_cons. destruct (Z.eqb_spec a u) as [->|Hne].
  - now rewrite (indicator_absent u U Hu).
  - destruct Hin as [->|Hin]; [now destruct Hne|]. now rewrite IH.
Qed.

(** The groups of the distinct ids hold every position once. *)
Lemma select_group_partition {A} (truth : list Z) :
  forall (values : list A) (U : list Z),
    length values = length truth ->
    List.NoDup U -> (forall a, In a truth -> In a U) ->
    list_sum (map (fun c => length (select_group truth values c)) U) = length truth.
Proof.
  induction truth as [|a truth IH]; intros values U Hlen Hnd Hall.
  - clear. induction U as [|u U IHU]; [reflexivity|].
    cbn [map]. rewrite list_sum_cons, IHU. reflexivity.
  - destruct values as [|v values]; [discriminate|].
    assert (Hsplit : forall c, length (select_group (a :: truth) (v :: values) c)
                               = ((if (a =? c)%Z then 1 else 0)
                                  + length (select_group truth values c))%nat).
    { intros c. unfold select_group. cbn [combine List.filter fst].
      destruct (a =? c); reflexivity. }
    rewrite (map_ext _ _ Hsplit).
    assert (Hsum : forall (f g : Z -> nat) (l : list Z),
              list_sum (map (fun c => (f c + g c)%nat) l)
              = (list_sum (map f l) + list_sum (map g l))%nat).
    { intros f g l. induction l as [|c l IHl]; [reflexivity|].
      cbn [map]. rewrite !list_sum_cons, IHl. lia. }
    rewrite Hsum, indicator_present; [|exact Hnd|apply Hall; now left].
    rewrite IH; [reflexivity|cbn in Hlen; lia|exact Hnd|].
    intros b Hb. apply Hall. now right.
Qed.

Section PlotEventProps.
Context {fl : PyFloat} {E : Type} {np : NumpyFloat E} {npd : NumpyDraw E}.

Lemma check_label_run (label : string) (s : ostate E) :
  check_label label s
  = (Ok (if str_in label levels then label else "neutron"),
     mk_ostate (obj s)
       (olog s ++ if str_in label levels then []
                  else [(WARNING, "Requested labeling by '" +:+ label
                                    +:+ "' not allowed, using 'neutron'.")])).
Proof.
  unfold check_label. destruct (str_in label levels); cbn [negb].
  - unfold mret. rewrite app_nil_r. now destruct s.
  - reflexivity.
Qed.

Lemma where_loop_run (selected : result (list Z)) (ids : list Z) (labels : list Z) :
  selected = Ok ids ->
  forall (k : nat) (acc : list (list nat)) (s : ostate E),
    for_fold (enumerate_from k labels) acc (fun indices iv =>
      let* ids := lift_result selected in
      mret (indices ++ [np_where_eq ids (snd iv)])) s
    = (Ok (acc ++ map (np_where_eq ids) labels), s).
Proof.
  intros ->. induction labels as [|c labels IH]; intros k acc s.
  - cbn. unfold mret. now rewrite app_nil_r.
  - cbn [enumerate_from for_fold map]. unfold mbind at 1. unfold mbind at 1.
    unfold lift_result at 1. unfold mret at 1. cbn [snd].
    rewrite IH. now rewrite <- app_assoc.
Qed.

Lemma event_group_run (index : Z) (label : string) (ids : list Z) (xs ys zs : list Q)
    (es : list E) (indices : list (list nat)) (calls : list (scatter_call E))
    (ii : nat) (value : Z) (s : ostate E) :
  py_index (edep_x (core (obj s))) index = Ok xs ->
  py_index (edep_y (core (obj s))) index = Ok ys ->
  py_index (edep_z (core (obj s))) index = Ok zs ->
  py_index (edep_energy (core (obj s))) index = Ok es ->
  length xs = length ids -> length ys = length ids -> length zs = length ids ->
  length es = length ids ->
  indices !! ii = Some (np_where_eq ids value) ->
  event_group index label indices calls (ii, value) s
  = (Ok (calls ++ [group_call label ids xs ys zs es (ii, value)]), s).
Proof.
  intros Hx Hy Hz He Lx Ly Lz Le Hi.
  unfold event_group, mbind, oself, lift_result, list_get, mret. cbn [fst snd].
  rewrite Hx, Hy, Hz, He, Hi.
  rewrite !np_take_select by lia. reflexivity.
Qed.

Lemma group_loop_run (index : Z) (label : string) (ids : list Z) (xs ys zs : list Q)
    (es : list E) (indices : list (list nat)) (s : ostate E) :
  py_index (edep_x (core (obj s))) index = Ok xs ->
  py_index (edep_y (core (obj s))) index = Ok ys ->
  py_index (edep_z (core (obj s))) index = Ok zs ->
  py_index (edep_energy (core (obj s))) index = Ok es ->
  length xs = length ids -> length ys = length ids -> length zs = length ids ->
  length es = length ids ->
  forall (labels : list Z) (k : nat) (calls : list (scatter_call E)),
    (forall j c, labels !! j = Some c -> indices !! (k + j)%nat = Some (np_where_eq ids c)) ->
    for_fold (enumerate_from k labels) calls (event_group index label indices) s
    = (Ok (calls ++ map (group_call label ids xs ys zs es) (enumerate_from k labels)), s).
Proof.
  intros Hx Hy Hz He Lx Ly Lz Le.
  induction labels as [|c labels IH]; intros k calls Hind.
  - cbn. unfold mret. now rewrite app_nil_r.
  - cbn [enumerate_from for_fold map]. unfold mbind at 1.
    rewrite (event_group_run index label ids xs ys zs es indices calls k c s); try assumption.
    + rewrite IH.
      * now rewrite <- app_assoc.
      * intros j c' Hj. replace (S k + j)%nat with (k + S j)%nat by lia. now apply Hind.
    + rewrite <- (Hind 0%nat c eq_refl). f_equal. lia.
Qed.

Lemma enumerate_from_length {A} (l : list A) (k : nat) :
  length (enumerate_from k l) = length l.
Proof. revert k. induction l as [|a l IH]; intros k; [reflexivity|]. cbn. now rewrite IH. Qed.

Lemma enumerate_from_lookup {A} (l : list A) (k j : nat) (p : nat * A) :
  enumerate_from k l !! j = Some p -> fst p = (k + j)%nat /\ l !! j = Some (snd p).
Proof.
  revert k j. induction l as [|a l IH]; intros k j Hj; [discriminate|].
  destruct j as [|j]; cbn in Hj.
  - injection Hj as <-. cbn. split; [lia|reflexivity].
  - destruct (IH _ _ Hj) as [H1 H2]. split; [lia|exact H2].
Qed.

Lemma enumerate_from_map_snd {A} (l : list A) (k : nat) : map snd (enumerate_from k l) = l.
Proof. revert k. induction l as [|a l IH]; intros k; [reflexivity|]. cbn. now rewrite IH. Qed.

(** X23.  [plot_event] checks its index against the number of events from
    above only.  An index at or above [num_events] raises [IndexError]
    with the index and the size in the text, and changes nothing.  Below
    it, a negative index included, when the event that NumPy's indexing
    selects has parallel arrays, the method hands one call per distinct
    truth id to the drawing, in ascending order of the ids; the calls hold
    every deposit of the event exactly once; the second coordinate list
    holds the z values and the third the y values; the first
    [legend_cutoff] calls carry a legend label and the others none. *)
Theorem plot_event_draws_every_deposit_once
    (index legend_cutoff : Z) (label : string) (s : ostate E) :
  let r := plot_event index label legend_cutoff s in
  let resolved := if str_in label ["neutron"; "gamma"] then label else "neutron" in
  let truth := if String.eqb resolved "neutron"
               then edep_neutron_ids (core (obj s)) else edep_gamma_ids (core (obj s)) in
  (Z.of_nat (num_events (core (obj s))) <= index ->
   fst r = Raise (IndexError
             ("Tried accessing element " +:+ pretty index +:+ " of array with size "
                +:+ pretty (num_events (core (obj s))) +:+ "!")) /\
   obj (snd r) = obj s) /\
  (forall (ids : list Z) (xs ys zs : list Q) (es : list E),
     index < Z.of_nat (num_events (core (obj s))) ->
     py_index truth index = Ok ids ->
     py_index (edep_x (core (obj s))) index = Ok xs ->
     py_index (edep_y (core (obj s))) index = Ok ys ->
     py_index (edep_z (core (obj s))) index = Ok zs ->
     py_index (edep_energy (core (obj s))) index = Ok es ->
     length xs = length ids -> length ys = length ids -> length zs = length ids ->
     length es = length ids ->
     exists calls : list (scatter_call E),
       fst r = Ok calls /\
       obj (snd r) = obj s /\
       Forall2 (fun c call =>
                  scatter_x call = select_group ids xs c /\
                  scatter_y call = select_group ids zs c /\
                  scatter_z call = select_group ids ys c /\
                  scatter_s call = map (np_scale 1000) (select_group ids es c))
               (np_unique ids) calls /\
       list_sum (map (fun call => length (scatter_x call)) calls) = length ids /\
       (forall jj call, calls !! jj = Some call ->
          (scatter_label call <> None <-> Z.of_nat jj < legend_cutoff))).
Proof.
  intros r resolved truth. split.
  - intros Hge. subst r. unfold plot_event, mbind, oself. cbn [fst snd].
    destruct (Z.leb_spec (Z.of_nat (num_events (core (obj s)))) index) as [_|Hlt]; [|lia].
    split; reflexivity.
  - intros ids xs ys zs es Hlt Hids Hx Hy Hz He Lx Ly Lz Le.
    assert (Hr : r = (Ok (map (fun jc =>
                        if Z.of_nat (fst jc) <? legend_cutoff then snd jc
                        else mk_scatter_call (scatter_x (snd jc)) (scatter_y (snd jc))
                               (scatter_z (snd jc)) (scatter_s (snd jc)) None)
                      (enumerate (map (group_call resolved ids xs ys zs es)
                                      (enumerate (np_unique ids))))),
                      mk_ostate (obj s)
                        (olog s ++ if str_in label levels then []
                                   else [(WARNING, "Requested labeling by '" +:+ label
                                            +:+ "' not allowed, using 'neutron'.")]))).
    { subst r. unfold plot_event. unfold mbind at 1. unfold oself at 1. cbn [fst snd].
      destruct (Z.leb_spec (Z.of_nat (num_events (core (obj s)))) index) as [Hle|_]; [lia|].
      unfold mbind at 1. rewrite check_label_run.
      change (if str_in label levels then label else "neutron") with resolved.
      fold truth. unfold mbind at 1. unfold lift_result at 1. rewrite Hids.
      unfold mbind at 1. unfold enumerate.
      rewrite (where_loop_run (Ok ids) ids (np_unique ids) eq_refl). cbn [app].
      unfold mbind at 1.
      rewrite (group_loop_run index resolved ids xs ys zs es); try assumption.
      - reflexivity.
      - intros j c Hj. cbn [Nat.add]. rewrite list_lookup_fmap, Hj. reflexivity. }
    rewrite Hr. cbn [fst snd obj].
    set (groups := map (group_call resolved ids xs ys zs es) (enumerate (np_unique ids))).
    eexists. split; [reflexivity|]. split; [reflexivity|]. split; [|split].
    + unfold groups, enumerate. generalize (np_unique ids). intros l.
      generalize 0%nat at 1. generalize 0%nat.
      induction l as [|c l IH]; intros k k'; cbn [enumerate_from map]; constructor.
      * cbn [fst snd]. destruct (Z.of_nat k' <? legend_cutoff); cbn; repeat split.
      * apply IH.
    + rewrite map_map.
      assert (Hx' : forall jc : nat * scatter_call E,
                length (scatter_x (if Z.of_nat (fst jc) <? legend_cutoff then snd jc
                        else mk_scatter_call (scatter_x (snd jc)) (scatter_y (snd jc))
                               (scatter_z (snd jc)) (scatter_s (snd jc)) None))
                = length (scatter_x (snd jc))).
      { intros jc. destruct (Z.of_nat (fst jc) <? legend_cutoff); reflexivity. }
      rewrite (map_ext _ _ Hx').
      rewrite <- (map_map snd (fun c => length (scatter_x c))).
      unfold enumerate at 1. rewrite enumerate_from_map_snd.
      unfold groups. rewrite map_map. cbn [group_call scatter_x].
      rewrite <- (map_map snd (fun c => length (select_group ids xs c))).
      unfold enumerate. rewrite enumerate_from_map_snd.
      apply select_group_partition; [exact Lx|apply np_unique_NoDup|].
      intros a Ha. now apply np_unique_In.
    + intros jj call Hcall. rewrite list_lookup_fmap in Hcall.
      destruct (enumerate groups !! jj) as [[j c]|] eqn:Hj; [|discriminate].
      cbn in Hcall. injection Hcall as <-.
      apply enumerate_from_lookup in Hj as [Hfst Hsnd]. cbn [fst snd] in *. subst j.
      cbn [Nat.add].
      destruct (Z.ltb_spec (Z.of_nat jj) legend_cutoff) as [Hin|Hout].
      * split; [intros _; exact Hin|intros _].
        unfold groups in Hsnd. rewrite list_lookup_fmap in Hsnd.
        destruct (enumerate (np_unique ids) !! jj); [|discriminate].
        cbn in Hsnd. injection Hsnd as <-. discriminate.
      * cbn [scatter_label]. split; [intros Habs; now destruct Habs|lia].
Qed.
End PlotEventProps.

(** * The further statements at concrete inputs *)

Lemma binary64_math_laws : @PyMathLaws binary64 binary64_math.
Proof.
  constructor; cbn [float_max sqrt_float pow_float binary64_math].
  - vm_compute. discriminate.
  - intros a b Hab.
    assert (Hf : Qfloor (a * Qpow2 120) = Qfloor (b * Qpow2 120)).
    { apply Qfloor_comp. now rewrite Hab. }
    rewrite Hf. reflexivity.
  - intros a b Ha Hab. apply round_binary64_mono.
    apply Qmult_le_compat_r.
    + rewrite <- Zle_Qle. apply Z.sqrt_le_mono. apply Qfloor_resp_le.
      apply Qmult_le_compat_r; [exact Hab|]. apply Qlt_le_weak, Qpow2_pos.
    + apply Qinv_le_0_compat. apply Qlt_le_weak, Qpow2_pos.
  - vm_compute. reflexivity.
  - intros a b n Hab.
    rewrite (Qeq_bool_proper a b 0 0 Hab (Qeq_refl 0)).
    rewrite (round_binary64_proper (a ^ n) (b ^ n)) by now rewrite Hab.
    destruct ((n <? 0) && Qeq_bool b 0); [reflexivity|].
    destruct (Qle_bool (Qabs (round_binary64 (b ^ n))) binary64_max); cbn; reflexivity.
  - intros a. cbn [Z.ltb Z.compare andb].
    rewrite (round_binary64_proper ((- a) ^ 2) (a ^ 2)) by (simpl; ring).
    destruct (Qle_bool (Qabs (round_binary64 (a ^ 2))) binary64_max); cbn; reflexivity.
  - intros a x. cbn [Z.ltb Z.compare andb].
    destruct (Qle_bool (Qabs (round_binary64 (a ^ 2))) binary64_max); [|discriminate].
    intros H. injection H as <-. cbn. apply round_binary64_nonneg. simpl. nra.
  - vm_compute. reflexivity.
  - intros a e. cbn [Z.ltb Z.compare andb].
    destruct (Qle_bool (Qabs (round_binary64 (a ^ 2))) binary64_max); [discriminate|].
    intros H. now injection H as <-.
Qed.

Lemma calc_scores_needs_one_prediction_per_event_witness :
  cluster_predictions (this Toy.three_points) = [] /\
  fst (calc_scores (fl := exact_float) (skm := Toy.sklearn_metrics) "neutron"
         Toy.three_points)
  = Raise (ValueError "No predictions have been made, need to run clustering algorithm first!").
Proof.
  split; [reflexivity|].
  destruct (calc_scores_needs_one_prediction_per_event (fl := exact_float)
              (skm := Toy.sklearn_metrics) "neutron" Toy.three_points
              (or_introl eq_refl)) as (Hraise & _).
  exact Hraise.
Defined.

Lemma calc_scores_stores_one_score_per_event_witness :
  exists avg : scores Q,
    fst (calc_scores (fl := binary64) (skm := Toy.sklearn_metrics) "neutron" Sample.clustered)
    = Ok avg /\
    cluster_scores
      (this (snd (calc_scores (fl := binary64) (skm := Toy.sklearn_metrics) "neutron"
                    Sample.clustered)))
    = score_lists [mk_scores 1 1 1 1 1 (1 # 2)]%Q.
Proof.
  destruct (@calc_scores_stores_one_score_per_event binary64 binary64_laws Q
              Toy.sklearn_metrics "neutron" Sample.clustered
              [mk_scores 1 1 1 1 1 (1 # 2)]%Q) as (avg & Hok & _ & Hlists & _).
  - discriminate.
  - reflexivity.
  - constructor; [reflexivity|constructor].
  - exists avg. split; [exact Hok|exact Hlists].
Defined.

Lemma calc_scores_unknown_level_is_neutron_witness :
  str_in "Gamma" ["neutron"; "gamma"] = false /\
  calc_scores (fl := exact_float) (skm := Toy.sklearn_metrics) "Gamma" Sample.clustered
  = calc_scores (fl := exact_float) (skm := Toy.sklearn_metrics) "neutron"
      (mk_mstate (this Sample.clustered)
         (log Sample.clustered
            ++ [(WARNING, "Requested cluster level by '" +:+ "Gamma"
                            +:+ "' not allowed, using 'neutron'.")])).
Proof.
  split; [reflexivity|].
  exact (calc_scores_unknown_level_is_neutron (fl := exact_float)
           (skm := Toy.sklearn_metrics) "Gamma" Sample.clustered eq_refl).
Defined.

Lemma cluster_stops_at_first_failure_witness :
  fst (cluster (fl := exact_float) (skc := Toy.sklearn_cluster Toy.two_sides)
         "neutron" "dbscan" [("eps", PFloat 30)] Sample.second_event_empty)
  = Raise (ValueError "Found array with 0 sample(s)") /\
  cluster_predictions
    (this (snd (cluster (fl := exact_float) (skc := Toy.sklearn_cluster Toy.two_sides)
                  "neutron" "dbscan" [("eps", PFloat 30)] Sample.second_event_empty)))
  = [[0; 1]] /\
  fst (calc_scores (fl := exact_float) (skm := Toy.sklearn_metrics) "neutron"
         (snd (cluster (fl := exact_float) (skc := Toy.sklearn_cluster Toy.two_sides)
                 "neutron" "dbscan" [("eps", PFloat 30)] Sample.second_event_empty)))
  = Raise (ValueError "Only 1 predictions but 2 events!").
Proof.
  destruct (cluster_stops_at_first_failure (fl := exact_float)
              (skc := Toy.sklearn_cluster Toy.two_sides) (skm := Toy.sklearn_metrics)
              "neutron" "dbscan" [("eps", PFloat 30)]
              [("eps", PFloat 100); ("min_samples", PInt 6)]
              (fun _ => Ok Toy.two_sides) Toy.two_sides Sample.second_event_empty
              [[(- (1), 0, 0); (1, 0, 0)]%Q] [[0; 1]] [] []
              (ValueError "Found array with 0 sample(s)")
              eq_refl eq_refl eq_refl eq_refl eq_refl
              ltac:(repeat constructor) eq_refl eq_refl)
    as (Hraise & _ & Hpreds & _ & Hscores).
  split; [exact Hraise|]. split; [exact Hpreds|].
  exact (proj1 (Hscores "neutron")).
Defined.

Lemma cluster_then_calc_scores_witness :
  exists avg : scores Q,
    fst (calc_scores (fl := binary64) (skm := Toy.sklearn_metrics) "neutron"
           (snd (cluster (fl := binary64) (skc := Toy.sklearn_cluster Toy.two_sides)
                   "neutron" "dbscan" [("eps", PFloat 30)] Toy.three_points)))
    = Ok avg /\
    (silhouette avg == 1 # 2)%Q.
Proof.
  destruct (@cluster_then_calc_scores binary64 binary64_laws Q
              (Toy.sklearn_cluster Toy.two_sides) Toy.sklearn_metrics
              "neutron" "dbscan" "neutron" [("eps", PFloat 30)]
              [("eps", PFloat (@rnd binary64 100)); ("min_samples", PInt 6)]
              (fun _ => Ok Toy.two_sides) Toy.two_sides Toy.three_points
              [[0; 1; 1]] [mk_scores 1 1 1 1 1 (1 # 2)]%Q
              eq_refl eq_refl eq_refl eq_refl
              ltac:(repeat constructor) ltac:(discriminate) eq_refl
              ltac:(constructor; [reflexivity|constructor]))
    as (_ & _ & Hok & _).
  eexists. split; [exact Hok|]. vm_compute. reflexivity.
Defined.

Lemma scan_needs_the_module_level_name_witness :
  neutron_clustering Sample.unbound = None /\
  fst (scan_eps_values (fl := binary64) (skc := Toy.sklearn_cluster Toy.two_sides)
         (skm := Toy.sklearn_metrics) 0%nat [1; 5]%Q 1%Q "scan_scores" Sample.unbound)
  = Raise (NameError "neutron_clustering").
Proof.
  split; [reflexivity|].
  destruct (scan_needs_the_module_level_name (fl := binary64)
              (skc := Toy.sklearn_cluster Toy.two_sides) (skm := Toy.sklearn_metrics)
              0%nat 1%Q 5%Q 1%Q [] "scan_scores" Sample.unbound
              eq_refl eq_refl ltac:(vm_compute; reflexivity)) as (Hraise & _).
  exact Hraise.
Defined.

Lemma scan_rejects_unusable_arguments_witness :
  scan_eps_values (fl := binary64) (skc := Toy.sklearn_cluster Toy.two_sides)
    (skm := Toy.sklearn_metrics) 0%nat [1]%Q 1%Q "scan_scores" Toy.two_objects
  = (Raise (IndexError "list index out of range"), Toy.two_objects) /\
  scan_eps_values (fl := binary64) (skc := Toy.sklearn_cluster Toy.two_sides)
    (skm := Toy.sklearn_metrics) 0%nat [1; 5]%Q 0%Q "scan_scores" Toy.two_objects
  = (Raise (ZeroDivisionError "float division by zero"), Toy.two_objects).
Proof.
  destruct (scan_rejects_unusable_arguments (fl := binary64)
              (skc := Toy.sklearn_cluster Toy.two_sides) (skm := Toy.sklearn_metrics)
              0%nat 0%Q "scan_scores" Toy.two_objects) as [_ Hzero].
  destruct (scan_rejects_unusable_arguments (fl := binary64)
              (skc := Toy.sklearn_cluster Toy.two_sides) (skm := Toy.sklearn_metrics)
              0%nat 1%Q "scan_scores" Toy.two_objects) as [Hshort _].
  split; [apply Hshort; cbn; lia|apply Hzero; reflexivity].
Defined.

Lemma calculate_capture_ratio_twice_witness :
  parallel_arrays (this Toy.one_capture) /\
  num_captures
    (this (snd (calculate_capture_ratio (fl := binary64) (np := binary_float64)
                  (snd (calculate_capture_ratio (fl := binary64) (np := binary_float64)
                          Toy.one_capture)))))
  = num_captures
      (this (snd (calculate_capture_ratio (fl := binary64) (np := binary_float64)
                    Toy.one_capture))).
Proof.
  assert (Hpar : parallel_arrays (this Toy.one_capture)) by (repeat constructor).
  split; [exact Hpar|].
  destruct (calculate_capture_ratio_twice (fl := binary64) (np := binary_float64)
              Toy.one_capture Hpar) as (_ & Hsame & _).
  now rewrite Hsame.
Defined.

Lemma plot_prediction_spectrum_fills_fresh_lists_witness :
  fst (plot_prediction_spectrum (fl := binary64) (np := binary_float64)
         (npo := float64_order) "compare" 10%Q
         (mk_ostate (mk_object (this Toy.three_points) [] [] [] []) []))
  = Raise (ValueError "No predictions have been made, need to run clustering algorithm first!")
  /\
  prediction_spectrum (npo := float64_order) "compare" 10%Q
    (cluster_spectrum
       (obj (snd (plot_prediction_spectrum (fl := binary64) (np := binary_float64)
                    (npo := float64_order) "compare" 10%Q Sample.whole))))
  /\
  plot_prediction_spectrum (fl := binary64) (np := binary_float64) (npo := float64_order)
    "compare" 10%Q
    (mk_ostate (set_cluster_spectrum [Energy (TrueEnergy 5%Q)] (obj Sample.whole))
               (olog Sample.whole))
  = plot_prediction_spectrum (fl := binary64) (np := binary_float64) (npo := float64_order)
      "compare" 10%Q Sample.whole.
Proof.
  destruct (plot_prediction_spectrum_fills_fresh_lists (fl := binary64)
              (np := binary_float64) (npo := float64_order) "compare" 10%Q
              (mk_ostate (mk_object (this Toy.three_points) [] [] [] []) []))
    as [Hguard _].
  destruct (plot_prediction_spectrum_fills_fresh_lists (fl := binary64)
              (np := binary_float64) (npo := float64_order) "compare" 10%Q Sample.whole)
    as [_ Hfill].
  destruct (Hfill ltac:(discriminate) eq_refl) as (Hshape & _ & _ & Hforgets).
  split; [exact (proj1 (Hguard (or_introl eq_refl)))|].
  split; [exact Hshape|exact (Hforgets [Energy (TrueEnergy 5%Q)])].
Defined.

Lemma plot_true_spectrum_accumulates_witness :
  parallel_arrays (core (obj Sample.whole)) /\
  length (cluster_spectrum
            (obj (snd (plot_true_spectrum (np := binary_float64) (npo := float64_order)
                         10%Q Sample.whole)))) = 2%nat /\
  length (cluster_spectrum
            (obj (snd (plot_true_spectrum (np := binary_float64) (npo := float64_order) 10%Q
                         (snd (plot_true_spectrum (np := binary_float64)
                                 (npo := float64_order) 10%Q Sample.whole)))))) = 4%nat.
Proof.
  assert (Hpar : parallel_arrays (core (obj Sample.whole))) by (repeat constructor).
  split; [exact Hpar|].
  destruct (plot_true_spectrum_accumulates (np := binary_float64) (npo := float64_order)
              10%Q Sample.whole Hpar) as (_ & Hone & _ & Htwo & _).
  rewrite Hone, Htwo. split; vm_compute; reflexivity.
Defined.

Lemma init_hides_the_cause_of_a_failed_load_witness :
  fst (init (fl := binary64) (np := binary_float64) (up := Sample.disk) "missing.root" [])
  = Raise (LibraryError "Exception") /\
  fst (init (fl := binary64) (np := binary_float64) (up := Sample.disk) "no_tree.root" [])
  = Raise (LibraryError "Exception").
Proof.
  destruct (init_hides_the_cause_of_a_failed_load (fl := binary64) (np := binary_float64)
              (up := Sample.disk) "missing.root" []) as [Hopen _].
  destruct (init_hides_the_cause_of_a_failed_load (fl := binary64) (np := binary_float64)
              (up := Sample.disk) "no_tree.root" []) as [_ Hload].
  split.
  - rewrite (Hopen (LibraryError "FileNotFoundError") eq_refl). reflexivity.
  - exact (proj1 (Hload (Sample.file_with (Raise (KeyError "ana/neutron"))) "ana/neutron"
                    (KeyError "ana/neutron") eq_refl
                    (or_intror (or_intror (or_introl eq_refl))) eq_refl)).
Defined.

Lemma init_requires_every_array_witness :
  dict_mem "gamma_energy" Sample.without_gamma_energy = false /\
  fst (init (fl := binary64) (np := binary_float64) (up := Sample.disk)
         "no_gamma_energy.root" [])
  = Raise (ValueError "").
Proof.
  split; [reflexivity|].
  refine (proj1 (init_requires_every_array (fl := binary64) (np := binary_float64)
                   (up := Sample.disk) "no_gamma_energy.root"
                   (Sample.file_with (Ok Sample.without_gamma_energy))
                   [] Sample.geometry_tree Sample.without_gamma_energy "gamma_energy" []
                   eq_refl eq_refl eq_refl eq_refl _ eq_refl)).
  unfold required_arrays. cbn [In]. tauto.
Defined.

Lemma sample_loads :
  loads (up := Sample.disk) "neutrons.root" (Sample.file_with (Ok Sample.neutron_tree))
    Sample.geometry_tree Sample.neutron_tree [0] [[1; 2; 3]%Q] [[5; 5; 8]] [[1; 2; 3]]
    [[- (1); 1; 2]%Q] [[0; 0; 0]%Q] [[0; 0; 0]%Q] [[100000; 200000; 700000]].
Proof.
  constructor; try reflexivity; [now exists []|].
  unfold required_arrays. repeat constructor.
Defined.

Lemma sample_loads_no_events :
  loads (up := Sample.disk) "no_events.root" (Sample.file_with (Ok Sample.no_events))
    Sample.geometry_tree Sample.no_events [] [] [] [] [] [] [] [].
Proof.
  constructor; try reflexivity; [now exists []|].
  unfold required_arrays. repeat constructor.
Defined.

Lemma init_fails_without_deposits_witness :
  fst (init (fl := binary64) (np := binary_float64) (up := Sample.disk) "no_events.root" [])
  = Raise (ZeroDivisionError "division by zero").
Proof.
  exact (init_fails_without_deposits (fl := binary64) (np := binary_float64)
           (up := Sample.disk) "no_events.root" _ _ _ _ _ _ _ _ _ _ _ []
           sample_loads_no_events parallel_nil (List.Forall_nil _)).
Defined.

Lemma init_builds_the_object_witness :
  exists (o : object Q) (lg : list (loglevel * string)),
    init (fl := binary64) (np := binary_float64) (up := Sample.disk) "neutrons.root" []
    = (Ok o, lg) /\
    num_events (core o) = 1%nat /\
    cluster_predictions (core o) = [] /\
    edep_positions (core o) = [[(- (1), 0, 0); (1, 0, 0); (2, 0, 0)]%Q] /\
    num_captures (core o) = [2].
Proof.
  destruct (init_builds_the_object (fl := binary64) (np := binary_float64)
              (up := Sample.disk) (skm := Toy.sklearn_metrics) "neutrons.root"
              _ _ _ _ _ _ _ _ _ _ _
              ((0, 1), (0, 2), (0, 3))%Q ((- (1), 2), (- (1), 3), (- (1), 4))%Q []
              sample_loads
              ltac:(repeat constructor)
              ltac:(repeat constructor) eq_refl eq_refl eq_refl)
    as (o & lg & Hrun & _ & Hn & _ & _ & Hpos & _ & Hpreds & _ & _ & Hcap & _).
  exists o, lg. split; [exact Hrun|]. split; [exact Hn|]. split; [exact Hpreds|].
  split; [exact Hpos|exact Hcap].
Defined.

Lemma plot_event_draws_every_deposit_once_witness :
  fst (plot_event (np := binary_float64) (npd := @float64_draw binary64) 1 "neutron" 10
         Sample.whole)
  = Raise (IndexError "Tried accessing element 1 of array with size 1!") /\
  exists calls : list (scatter_call Q),
    fst (plot_event (np := binary_float64) (npd := @float64_draw binary64) (- (1))
           "neutron" 1 Sample.whole) = Ok calls /\
    list_sum (map (fun call => length (scatter_x call)) calls) = 3%nat.
Proof.
  destruct (plot_event_draws_every_deposit_once (np := binary_float64)
              (npd := @float64_draw binary64) 1 10 "neutron" Sample.whole) as [Hguard _].
  destruct (plot_event_draws_every_deposit_once (np := binary_float64)
              (npd := @float64_draw binary64) (- (1)) 1 "neutron" Sample.whole)
    as [_ Hdraw].
  split.
  - exact (proj1 (Hguard ltac:(cbn; lia))).
  - destruct (Hdraw [5; 5; 8] [- (1); 1; 2]%Q [0; 0; 0]%Q [0; 0; 0]%Q [1; 2; 3]%Q
                ltac:(cbn; lia) eq_refl eq_refl eq_refl eq_refl eq_refl
                eq_refl eq_refl eq_refl eq_refl) as (calls & Hok & _ & _ & Hsum & _).
    exists calls. split; [exact Hok|exact Hsum].
Defined.

Lemma euclidean_distance_checks_the_dimension_witness :
  (exists d : pyfloat,
     euclidean_distance (fl := binary64) (pm := binary64_math) [0; 0]%Q [3; 4]%Q []
     = (Ok d, []) /\ float_eq d (Finite 5)) /\
  euclidean_distance (fl := binary64) (pm := binary64_math) [Qpow2 700] [- Qpow2 700]%Q []
  = (Raise (LibraryError "OverflowError"), []) /\
  (exists d : pyfloat,
     euclidean_distance (fl := binary64) (pm := binary64_math)
       [binary64_max] [- binary64_max]%Q [] = (Ok d, []) /\ d = Infinity false) /\
  fst (euclidean_distance (fl := binary64) (pm := binary64_math) [0; 0]%Q [3; 4; 0]%Q [])
  = Raise (ValueError
      "Tried to compute Euclidean distance between two points with different dimension (2,3)!").
Proof.
  destruct (@euclidean_distance_checks_the_dimension binary64 binary64_laws binary64_math
              binary64_math_laws [0; 0]%Q [3; 4]%Q []) as [Hsame _].
  destruct (@euclidean_distance_checks_the_dimension binary64 binary64_laws binary64_math
              binary64_math_laws [Qpow2 700] [- Qpow2 700]%Q []) as [Hlarge _].
  destruct (@euclidean_distance_checks_the_dimension binary64 binary64_laws binary64_math
              binary64_math_laws [binary64_max] [- binary64_max]%Q []) as [Hmax _].
  destruct (@euclidean_distance_checks_the_dimension binary64 binary64_laws binary64_math
              binary64_math_laws [0; 0]%Q [3; 4; 0]%Q []) as [_ Hdiff].
  split; [|split; [|split]].
  - destruct (Hsame eq_refl) as [Hin _].
    destruct Hin as (dist & d & Hrun & _ & Hsq & Hd).
    { repeat constructor; vm_compute; reflexivity. }
    exists d. split; [exact Hrun|].
    vm_compute in Hsq. injection Hsq as <-. vm_compute in Hd. injection Hd as <-.
    vm_compute. reflexivity.
  - destruct (Hlarge eq_refl) as [_ Hout]. apply Hout.
    intros Hin. inversion Hin as [|? ? Hhead _]. vm_compute in Hhead. discriminate.
  - destruct (Hmax eq_refl) as [Hin _].
    destruct Hin as (dist & d & Hrun & _ & Hsq & Hd).
    { repeat constructor; vm_compute; reflexivity. }
    exists d. split; [exact Hrun|].
    vm_compute in Hsq. injection Hsq as <-. vm_compute in Hd. now injection Hd as <-.
  - rewrite (Hdiff ltac:(discriminate)). reflexivity.
Defined.

Lemma euclidean_distance_symmetric_witness :
  exists d d' : pyfloat,
    euclidean_distance (fl := binary64) (pm := binary64_math) [0; 0]%Q [3; 4]%Q []
    = (Ok d, []) /\
    euclidean_distance (fl := binary64) (pm := binary64_math) [3; 4]%Q [0; 0]%Q []
    = (Ok d', []) /\
    float_eq d d'.
Proof.
  destruct (@euclidean_distance_symmetric binary64 binary64_laws binary64_math
              binary64_math_laws [0; 0]%Q [3; 4]%Q [] round_binary64_opp eq_refl)
    as [[(d & d' & H1 & H2 & Heq)|[Hraise _]] _].
  - exists d, d'. repeat split; assumption.
  - vm_compute in Hraise. discriminate.
Defined.

Lemma find_largest_distance_errors_witness :
  (exists n m : nat,
     n <> m /\
     find_largest_distance (fl := binary64) (pm := binary64_math) [[0; 0]; [1]]%Q []
     = (Raise (ValueError (different_dimension n m)),
        [(ERROR, different_dimension n m)])) /\
  find_largest_distance (fl := binary64) (pm := binary64_math)
    [[Qpow2 700]; [- Qpow2 700]; [1; 2]]%Q []
  = (Raise (LibraryError "OverflowError"), []).
Proof.
  destruct (@find_largest_distance_errors binary64 binary64_laws binary64_math
              binary64_math_laws []) as [_ Hdiff].
  split.
  - destruct (Hdiff [[0; 0]; [1]]%Q [0; 0]%Q [1]%Q
                (or_introl eq_refl) (or_intror (or_introl eq_refl)) ltac:(discriminate))
      as [_ Hvalue].
    apply Hvalue. intros p' q' [<-|[<-|[]]] [<-|[<-|[]]];
      repeat constructor; vm_compute; reflexivity.
  - destruct (Hdiff [[Qpow2 700]; [- Qpow2 700]; [1; 2]]%Q [Qpow2 700] [1; 2]%Q
                (or_introl eq_refl) (or_intror (or_intror (or_introl eq_refl)))
                ltac:(discriminate))
      as [[(n & m & _ & Hvalue)|Hover] _]; [|exact Hover].
    vm_compute in Hvalue. discriminate.
Defined.

Lemma find_largest_distance_is_the_maximum_witness :
  (exists d : pyfloat,
     find_largest_distance (fl := binary64) (pm := binary64_math) [[0; 0]; [3; 4]]%Q []
     = (Ok d, []) /\
     not_negative d) /\
  find_largest_distance (fl := binary64) (pm := binary64_math)
    [[Qpow2 700]; [- Qpow2 700]]%Q []
  = (Raise (LibraryError "OverflowError"), []).
Proof.
  split.
  - destruct (@find_largest_distance_is_the_maximum binary64 binary64_laws binary64_math
                binary64_math_laws [[0; 0]; [3; 4]]%Q 2%nat []
                ltac:(discriminate) ltac:(repeat constructor)) as [Hreturns _].
    destruct Hreturns as (d & Hrun & Hnn & _).
    { intros p q [<-|[<-|[]]] [<-|[<-|[]]]; repeat constructor; vm_compute; reflexivity. }
    exists d. split; [exact Hrun|exact Hnn].
  - destruct (@find_largest_distance_is_the_maximum binary64 binary64_laws binary64_math
                binary64_math_laws [[Qpow2 700]; [- Qpow2 700]]%Q 1%nat []
                ltac:(discriminate) ltac:(repeat constructor)) as [_ Hraises].
    apply Hraises. exists [Qpow2 700], [- Qpow2 700]%Q.
    split; [now left|]. split; [right; now left|].
    intros Hin. inversion Hin as [|? ? Hhead _]. vm_compute in Hhead. discriminate.
Defined.


Lemma calc_scores_fails_when_silhouette_raises_witness :
  let s := snd (cluster (fl := exact_float) (skc := Toy.sklearn_cluster Toy.one_cluster)
                  "neutron" "dbscan" [("eps", PFloat 30)] Toy.three_points) in
  let r := calc_scores (fl := exact_float) (skm := Toy.sklearn_metrics) "gamma" s in
  cluster_predictions (this s) = [[0; 0; 0]] /\
  fst r = Raise (ValueError
            "Number of labels is invalid. Valid values are 2 to n_samples - 1 (inclusive)") /\
  avg_cluster_scores (this (snd r)) = avg_cluster_scores (this s) /\
  cluster_scores (this (snd r)) = mk_scores [1%Q] [1%Q] [1%Q] [1%Q] [1%Q] [].
Proof.
  intros s r.
  destruct (calc_scores_fails_when_silhouette_raises (fl := exact_float)
              (skm := Toy.sklearn_metrics) "gamma" s 0 [0; 0; 0]
              [(- (1), 0, 0); (1, 0, 0); (2, 0, 0)]%Q
              (ValueError
                 "Number of labels is invalid. Valid values are 2 to n_samples - 1 (inclusive)")
              eq_refl eq_refl eq_refl) as (_ & Havg & _ & Hexact).
  destruct (Hexact [5; 5; 8] [] 1%Q 1%Q 1%Q 1%Q 1%Q eq_refl eq_refl ltac:(constructor)
              eq_refl eq_refl eq_refl eq_refl eq_refl) as (Hraise & Hthis & _).
  split; [reflexivity|]. split; [exact Hraise|]. split; [exact Havg|].
  fold r in Hthis. rewrite Hthis. reflexivity.
Defined.

Lemma cluster_unknown_algorithm_runs_dbscan_defaults_witness :
  dict_mem "kmeans" (cluster_params (fl := exact_float)) = false /\
  cluster (fl := exact_float) (skc := Toy.sklearn_cluster Toy.two_sides)
    "neutron" "kmeans" [("n_clusters", PInt 3)] Toy.three_points
  = cluster (fl := exact_float) (skc := Toy.sklearn_cluster Toy.two_sides)
      "neutron" "kmeans" [] Toy.three_points /\
  fst (cluster (fl := exact_float) (skc := Toy.sklearn_cluster Toy.two_sides)
         "neutron" "kmeans" [("n_clusters", PInt 3)] Toy.three_points) = Ok tt /\
  cluster_predictions
    (this (snd (cluster (fl := exact_float) (skc := Toy.sklearn_cluster Toy.two_sides)
                  "neutron" "kmeans" [("n_clusters", PInt 3)] Toy.three_points)))
  = [[0; 1; 1]].
Proof.
  split; [reflexivity|].
  destruct (cluster_unknown_algorithm_runs_dbscan_defaults (fl := exact_float)
              (skc := Toy.sklearn_cluster Toy.two_sides)
              "neutron" "kmeans" [("n_clusters", PInt 3)] Toy.three_points eq_refl)
    as (_ & _ & Hsame & _ & Hrun).
  split; [symmetry; apply Hsame|].
  destruct (Hrun (fun _ => Ok Toy.two_sides) eq_refl) as (_ & Hest).
  destruct (Hest Toy.two_sides eq_refl) as (_ & _ & Hlabels & _).
  apply (Hlabels [[0; 1; 1]]). repeat constructor.
Defined.

Lemma scan_leaves_receiver_unchanged_witness :
  let r := scan_eps_values (fl := exact_float) (skc := Toy.sklearn_cluster Toy.two_sides)
             (skm := Toy.sklearn_metrics) 1%nat [1; 5]%Q 1%Q "scan_scores" Toy.two_objects in
  neutron_clustering Toy.two_objects <> Some 1%nat /\
  heap (snd r) !! 1%nat = heap Toy.two_objects !! 1%nat /\
  (cluster_predictions <$> heap Toy.two_objects !! 0%nat) = Some [] /\
  (cluster_predictions <$> heap (snd r) !! 0%nat) = Some [[0; 1; 1]] /\
  (cluster_scores <$> heap (snd r) !! 0%nat)
  = Some (mk_scores [1%Q] [1%Q] [1%Q] [1%Q] [1%Q] [(1 # 2)%Q]).
Proof.
  intros r.
  assert (Hne : neutron_clustering Toy.two_objects <> Some 1%nat) by discriminate.
  split; [exact Hne|].
  destruct (scan_leaves_receiver_unchanged (fl := exact_float)
              (skc := Toy.sklearn_cluster Toy.two_sides) (skm := Toy.sklearn_metrics)
              1%nat [1; 5]%Q 1%Q "scan_scores" Toy.two_objects Hne) as (Hsame & _ & _ & Hcalls).
  split; [exact Hsame|]. split; [reflexivity|].
  destruct (Hcalls 0%nat (this Toy.three_points) 1%Q 5%Q [] eq_refl eq_refl eq_refl eq_refl
              ltac:(vm_compute; reflexivity)) as (first_line & Hglobal & _).
  cbv zeta in Hglobal.
  match type of Hglobal with
  | _ = ?rhs => assert (Hobject : heap (snd r) !! 0%nat = rhs) by exact Hglobal
  end.
  rewrite Hobject. cbn [fmap option_fmap option_map].
  split; vm_compute; reflexivity.
Defined.
